(** * country-bot: battle resolution, casualty allocation, development sweep

    A shallow embedding of the service layer of the bot
    ([services/military_service.py], [services/development_service.py],
    [services/country_service.py]) over the tables of [database/models.py],
    and the properties of the specification proved about it.

    Python [int] is [Z]; Python [float] is Rocq's primitive binary64 [float],
    so every product, quotient and truncation below rounds exactly as the
    interpreter does.  The SQLAlchemy session is a pair of table snapshots
    (committed and working); [commit] copies the latter onto the former. *)

From Stdlib Require Import ZArith List String Bool Lia Lra Psatz Reals Floats.
Import ListNotations.

Set Warnings "-inexact-float".
Local Open Scope Z_scope.

(** ** Python runtime: exceptions and numeric conversions *)

Inductive exn : Type :=
| ValidationError
| ResourceError
| ZeroDivisionError
| OverflowError
| ValueError
| NameError.

Inductive res (A : Type) : Type :=
| Ok (a : A)
| Raise (e : exn).
Arguments Ok {A} a.
Arguments Raise {A} e.

Definition rbind {A B} (r : res A) (k : A -> res B) : res B :=
  match r with
  | Ok a => k a
  | Raise e => Raise e
  end.

Module Py.

(** [float(n)] as done implicitly by [n * x] and [n + x]: the nearest
    binary64, ties to even; "int too large to convert to float" when the
    rounding leaves the finite range. *)
Definition float_of_int (n : Z) : res float :=
  match binary_normalize prec emax n 0 false with
  | S754_infinity _ | S754_nan => Raise OverflowError
  | sf => Ok (SF2Prim sf)
  end.

(** [a / b] on two ints: the correctly rounded quotient of the exact
    integers (CPython's [long_true_divide]). *)
Definition int_truediv_sf (a b : Z) : spec_float :=
  let '(q, e, l) := SFdiv_core_binary prec emax (Z.abs a) 0 (Z.abs b) 0 in
  binary_round_aux prec emax (xorb (a <? 0) (b <? 0)) q e l.

Definition int_truediv (a b : Z) : res float :=
  if b =? 0 then Raise ZeroDivisionError
  else if a =? 0 then Ok (if b <? 0 then neg_zero else zero)
  else match int_truediv_sf a b with
       | S754_infinity _ | S754_nan => Raise OverflowError
       | sf => Ok (SF2Prim sf)
       end.

(** [x / y] on two floats raises on a zero divisor and is IEEE otherwise. *)
Definition float_truediv (x y : float) : res float :=
  if PrimFloat.eqb y zero then Raise ZeroDivisionError else Ok (x / y)%float.

(** The integer part of a finite binary64, towards zero. *)
Definition trunc_sf (sf : spec_float) : Z :=
  match sf with
  | S754_finite s m e =>
      let a := match e with
               | Zneg p => Z.shiftr (Zpos m) (Zpos p)
               | _ => Z.shiftl (Zpos m) e
               end in
      if s then - a else a
  | _ => 0
  end.

(** [int(x)]. *)
Definition int_of_float (x : float) : res Z :=
  match Prim2SF x with
  | S754_nan => Raise ValueError
  | S754_infinity _ => Raise OverflowError
  | sf => Ok (trunc_sf sf)
  end.

(** The integer part of a finite binary64, towards minus infinity. *)
Definition floor_sf (sf : spec_float) : Z :=
  match sf with
  | S754_finite s m e =>
      match e with
      | Zneg p => Z.shiftr (if s then Zneg m else Zpos m) (Zpos p)
      | _ => Z.shiftl (if s then Zneg m else Zpos m) e
      end
  | _ => 0
  end.

Definition floor (x : float) : Z := floor_sf (Prim2SF x).

Definition int_mul_float (n : Z) (x : float) : res float :=
  rbind (float_of_int n) (fun f => Ok (f * x)%float).

Definition float_mul_int (x : float) (n : Z) : res float :=
  rbind (float_of_int n) (fun f => Ok (x * f)%float).

Definition int_add_float (n : Z) (x : float) : res float :=
  rbind (float_of_int n) (fun f => Ok (f + x)%float).

(** [x > y] on floats. *)
Definition gt (x y : float) : bool := PrimFloat.ltb y x.
Definition lt (x y : float) : bool := PrimFloat.ltb x y.

(** Python numbers that a dict entry may hold: [max(0, x)] yields the int
    [0] or the float [x]. *)
Inductive num : Type :=
| Int (n : Z)
| Float (x : float).

(** [max(0, x)] for a float [x]: the first argument unless [x > 0]. *)
Definition max_0 (x : float) : num :=
  if gt x zero then Float x else Int 0.

(** [datetime] and [timedelta] count microseconds. *)
Definition datetime := Z.
Definition timedelta := Z.

Definition total_seconds (d : timedelta) : res float :=
  int_truediv d 1000000.

Definition timedelta_of_seconds (s : Z) : timedelta := s * 1000000.

End Py.

(** ** Tables of [database/models.py] *)

Inductive GovernmentType : Type :=
| DEMOCRACY | MONARCHY | DICTATORSHIP | REPUBLIC
| THEOCRACY | GOV_COMMUNIST | GOV_SOCIALIST | OLIGARCHY.

Inductive Ideology : Type :=
| CAPITALIST | COMMUNIST | SOCIALIST | FASCIST | LIBERAL
| CONSERVATIVE | NATIONALIST | RELIGIOUS | PROGRESSIVE.

Inductive UnitType : Type := INFANTRY | TANK | SHIP | AIRCRAFT.

Inductive DevelopmentCategory : Type := INFRASTRUCTURE | RESEARCH | TRADE.

Inductive DevelopmentStatus : Type := IN_PROGRESS | COMPLETED | CANCELLED.

Inductive BattleResult : Type := VICTORY | DEFEAT | DRAW.

Local Open Scope string_scope.

(** [Enum(value)]: the member with that value, [ValueError] otherwise. *)
Definition GovernmentType_of_value (s : string) : res GovernmentType :=
  if s =? "democracy" then Ok DEMOCRACY
  else if s =? "monarchy" then Ok MONARCHY
  else if s =? "dictatorship" then Ok DICTATORSHIP
  else if s =? "republic" then Ok REPUBLIC
  else if s =? "theocracy" then Ok THEOCRACY
  else if s =? "communist" then Ok GOV_COMMUNIST
  else if s =? "socialist" then Ok GOV_SOCIALIST
  else if s =? "oligarchy" then Ok OLIGARCHY
  else Raise ValueError.

Definition Ideology_of_value (s : string) : res Ideology :=
  if s =? "capitalist" then Ok CAPITALIST
  else if s =? "communist" then Ok COMMUNIST
  else if s =? "socialist" then Ok SOCIALIST
  else if s =? "fascist" then Ok FASCIST
  else if s =? "liberal" then Ok LIBERAL
  else if s =? "conservative" then Ok CONSERVATIVE
  else if s =? "nationalist" then Ok NATIONALIST
  else if s =? "religious" then Ok RELIGIOUS
  else if s =? "progressive" then Ok PROGRESSIVE
  else Raise ValueError.

Definition UnitType_of_value (s : string) : res UnitType :=
  if s =? "infantry" then Ok INFANTRY
  else if s =? "tank" then Ok TANK
  else if s =? "ship" then Ok SHIP
  else if s =? "aircraft" then Ok AIRCRAFT
  else Raise ValueError.

Definition UnitType_value (t : UnitType) : string :=
  match t with
  | INFANTRY => "infantry"
  | TANK => "tank"
  | SHIP => "ship"
  | AIRCRAFT => "aircraft"
  end.

Definition DevelopmentCategory_of_value (s : string) : res DevelopmentCategory :=
  if s =? "infrastructure" then Ok INFRASTRUCTURE
  else if s =? "research" then Ok RESEARCH
  else if s =? "trade" then Ok TRADE
  else Raise ValueError.

Local Close Scope string_scope.

Definition UnitType_eqb (a b : UnitType) : bool :=
  match a, b with
  | INFANTRY, INFANTRY | TANK, TANK | SHIP, SHIP | AIRCRAFT, AIRCRAFT => true
  | _, _ => false
  end.

Definition DevelopmentStatus_eqb (a b : DevelopmentStatus) : bool :=
  match a, b with
  | IN_PROGRESS, IN_PROGRESS | COMPLETED, COMPLETED | CANCELLED, CANCELLED => true
  | _, _ => false
  end.

Definition BattleResult_eqb (a b : BattleResult) : bool :=
  match a, b with
  | VICTORY, VICTORY | DEFEAT, DEFEAT | DRAW, DRAW => true
  | _, _ => false
  end.

Module Country.
Record t : Type := mk {
  id : Z;
  name : string;
  user_id : Z;
  government_type : GovernmentType;
  ideology : Ideology;
  population : Z;
  gdp : Z;
  military_power : Z;
  resources : Z;
  created_at : Py.datetime;
  last_updated : Py.datetime
}.

Definition set_gdp (v : Z) (c : t) : t :=
  mk (id c) (name c) (user_id c) (government_type c) (ideology c)
     (population c) v (military_power c) (resources c)
     (created_at c) (last_updated c).

Definition set_military_power (v : Z) (c : t) : t :=
  mk (id c) (name c) (user_id c) (government_type c) (ideology c)
     (population c) (gdp c) v (resources c)
     (created_at c) (last_updated c).

Definition set_resources (v : Z) (c : t) : t :=
  mk (id c) (name c) (user_id c) (government_type c) (ideology c)
     (population c) (gdp c) (military_power c) v
     (created_at c) (last_updated c).

Definition set_last_updated (v : Py.datetime) (c : t) : t :=
  mk (id c) (name c) (user_id c) (government_type c) (ideology c)
     (population c) (gdp c) (military_power c) (resources c)
     (created_at c) v.
End Country.

Module MilitaryUnit.
Record t : Type := mk {
  id : Z;
  country_id : Z;
  unit_type : UnitType;
  quantity : Z;
  technology_level : Z
}.

Definition set_quantity (v : Z) (u : t) : t :=
  mk (id u) (country_id u) (unit_type u) v (technology_level u).
End MilitaryUnit.

Module Development.
Record t : Type := mk {
  id : Z;
  country_id : Z;
  category : DevelopmentCategory;
  name : string;
  description : string;
  resource_cost : Z;
  start_time : Py.datetime;
  end_time : Py.datetime;
  status : DevelopmentStatus;
  infrastructure_bonus : float;
  research_bonus : float;
  trade_bonus : float
}.

Definition set_status (v : DevelopmentStatus) (d : t) : t :=
  mk (id d) (country_id d) (category d) (name d) (description d)
     (resource_cost d) (start_time d) (end_time d) v
     (infrastructure_bonus d) (research_bonus d) (trade_bonus d).
End Development.

(** What [_generate_battle_report] computes for its text: the two casualty
    percentages and whether the spoils paragraph is printed.  The prose
    around them (names, the two randomly chosen event lines) carries no
    state and is left out. *)
Module BattleReport.
Record t : Type := mk {
  casualties_attacker_pct : Z;
  casualties_defender_pct : Z;
  spoils_of_war : bool
}.
End BattleReport.

Module Battle.
Record t : Type := mk {
  id : Z;
  attacker_id : Z;
  defender_id : Z;
  attacker_strength : Z;
  defender_strength : Z;
  result : BattleResult;
  casualties_attacker : Z;
  casualties_defender : Z;
  territory_gained : Z;
  resources_captured : Z;
  battle_date : Py.datetime;
  battle_report : BattleReport.t
}.
End Battle.

Module TransactionLog.
Record t : Type := mk {
  id : Z;
  country_id : Z;
  transaction_type : string;
  amount : Z;
  description : string;
  timestamp : Py.datetime
}.
End TransactionLog.

(** ** The database and the session *)

Record Database : Type := mkDatabase {
  countries : list Country.t;
  military_units : list MilitaryUnit.t;
  developments : list Development.t;
  battles : list Battle.t;
  transaction_logs : list TransactionLog.t
}.

Definition empty_db : Database := mkDatabase [] [] [] [] [].

Definition set_countries (v : list Country.t) (db : Database) : Database :=
  mkDatabase v (military_units db) (developments db) (battles db) (transaction_logs db).

Definition set_military_units (v : list MilitaryUnit.t) (db : Database) : Database :=
  mkDatabase (countries db) v (developments db) (battles db) (transaction_logs db).

Definition set_developments (v : list Development.t) (db : Database) : Database :=
  mkDatabase (countries db) (military_units db) v (battles db) (transaction_logs db).

Definition set_battles (v : list Battle.t) (db : Database) : Database :=
  mkDatabase (countries db) (military_units db) (developments db) v (transaction_logs db).

Definition set_transaction_logs (v : list TransactionLog.t) (db : Database) : Database :=
  mkDatabase (countries db) (military_units db) (developments db) (battles db) v.

(** An integer primary key: one more than the largest key in the table. *)
Definition next_id (ids : list Z) : Z := 1 + fold_right Z.max 0 ids.
Arguments next_id : simpl never.

(** [committed] is what the store holds; [working] is what the session's
    objects show.  Queries read [working]; an exception leaves [committed]
    as the last [commit] made it. *)
Record Session : Type := mkSession {
  committed : Database;
  working : Database
}.

Definition M (A : Type) : Type := Session -> Session * res A.

Definition ret {A} (a : A) : M A := fun s => (s, Ok a).

Definition bind {A B} (m : M A) (k : A -> M B) : M B :=
  fun s =>
    match m s with
    | (s', Ok a) => k a s'
    | (s', Raise e) => (s', Raise e)
    end.

Definition raise {A} (e : exn) : M A := fun s => (s, Raise e).

Definition lift {A} (r : res A) : M A := fun s => (s, r).

Definition query {A} (f : Database -> A) : M A := fun s => (s, Ok (f (working s))).

Definition modify (f : Database -> Database) : M unit :=
  fun s => (mkSession (committed s) (f (working s)), Ok tt).

(** [db.commit()]: the store takes what the session shows.  The CHECK
    constraints of the [countries] table and the width of the integer
    columns, on which the database refuses a commit and stores nothing, are
    not modelled. *)
Definition commit : M unit :=
  fun s => (mkSession (working s) (working s), Ok tt).

Notation "x <- m ;; k" := (bind m (fun x => k))
  (at level 61, m at next level, right associativity).
Notation "m ;;; k" := (bind m (fun _ => k))
  (at level 61, right associativity).

(** One service call on a fresh session over [db]: the store afterwards and
    what the call returned or raised. *)
Definition run {A} (m : M A) (db : Database) : Database * res A :=
  let '(s, r) := m (mkSession db db) in (committed s, r).

(** A [for] loop over a list, in order. *)
Fixpoint for_each {A} (l : list A) (body : A -> M unit) : M unit :=
  match l with
  | [] => ret tt
  | x :: l' => body x ;;; for_each l' body
  end.

(** ** Session helpers shared by the services *)

Definition first_country (country_id : Z) : M (option Country.t) :=
  query (fun db => find (fun c => Country.id c =? country_id) (countries db)).

(** Assigning to attributes of a loaded [Country] object. *)
Definition modify_country (country_id : Z) (f : Country.t -> Country.t) : M unit :=
  modify (fun db =>
    set_countries
      (map (fun c => if Country.id c =? country_id then f c else c) (countries db)) db).

Definition modify_unit (unit_id : Z) (f : MilitaryUnit.t -> MilitaryUnit.t) : M unit :=
  modify (fun db =>
    set_military_units
      (map (fun u => if MilitaryUnit.id u =? unit_id then f u else u) (military_units db)) db).

Definition modify_development (dev_id : Z) (f : Development.t -> Development.t) : M unit :=
  modify (fun db =>
    set_developments
      (map (fun d => if Development.id d =? dev_id then f d else d) (developments db)) db).

(** [db.add(obj)] for a new row; the key it gets at flush time. *)
Definition add_country (new : Z -> Country.t) : M Country.t :=
  ids <- query (fun db => map Country.id (countries db)) ;;
  let c := new (next_id ids) in
  modify (fun db => set_countries (countries db ++ [c]) db) ;;;
  ret c.

Definition add_unit (new : Z -> MilitaryUnit.t) : M MilitaryUnit.t :=
  ids <- query (fun db => map MilitaryUnit.id (military_units db)) ;;
  let u := new (next_id ids) in
  modify (fun db => set_military_units (military_units db ++ [u]) db) ;;;
  ret u.

Definition add_development (new : Z -> Development.t) : M Development.t :=
  ids <- query (fun db => map Development.id (developments db)) ;;
  let d := new (next_id ids) in
  modify (fun db => set_developments (developments db ++ [d]) db) ;;;
  ret d.

Definition add_battle (new : Z -> Battle.t) : M Battle.t :=
  ids <- query (fun db => map Battle.id (battles db)) ;;
  let b := new (next_id ids) in
  modify (fun db => set_battles (battles db ++ [b]) db) ;;;
  ret b.

(** [db.add(transaction)]. *)
Definition add_transaction (new : Z -> TransactionLog.t) : M unit :=
  ids <- query (fun db => map TransactionLog.id (transaction_logs db)) ;;
  modify (fun db =>
    set_transaction_logs (transaction_logs db ++ [new (next_id ids)]) db).

(** [TransactionLog(...)] in a service module.  The class is declared in
    [database/models.py], but none of [country_service.py],
    [military_service.py] and [development_service.py] imports it: the call
    looks the name up first and raises [NameError]; its arguments, among them
    a further reading of the clock, are never evaluated. *)
Definition TransactionLog_call : M (Z -> TransactionLog.t) := raise NameError.

(** ** [config.py] *)

Module config.
Definition INITIAL_RESOURCES : Z := 1000.
End config.

(** ** [services/country_service.py]

    Every call takes the reading of [datetime.utcnow()] as [now]. *)

Module CountryStatus.
Record unit_info : Type := mk_unit_info {
  quantity : Z;
  technology_level : Z
}.

Record t : Type := mk {
  id : Z;
  name : string;
  government_type : GovernmentType;
  ideology : Ideology;
  population : Z;
  gdp : Z;
  military_power : Z;
  resources : Z;
  military_units : list (string * unit_info);
  total_strength : Z;
  created_at : Py.datetime;
  last_updated : Py.datetime
}.
End CountryStatus.

(** A Python dict with string keys, in insertion order. *)
Fixpoint dict_set {V} (k : string) (v : V) (d : list (string * V)) : list (string * V) :=
  match d with
  | [] => [(k, v)]
  | (k', v') :: d' =>
      if String.eqb k' k then (k', v) :: d' else (k', v') :: dict_set k v d'
  end.

Fixpoint dict_get {V} (k : string) (d : list (string * V)) : option V :=
  match d with
  | [] => None
  | (k', v') :: d' => if String.eqb k' k then Some v' else dict_get k d'
  end.

(** Python's [sum] over ints. *)
Definition sum (l : list Z) : Z := fold_left Z.add l 0.

Module CountryService.

Definition get_country_by_id (country_id : Z) : M (option Country.t) :=
  first_country country_id.

Definition get_country_by_name (name : string) : M (option Country.t) :=
  query (fun db => find (fun c => String.eqb (Country.name c) name) (countries db)).

Definition get_countries_by_user_id (user_id : Z) : M (list Country.t) :=
  query (fun db => filter (fun c => Country.user_id c =? user_id) (countries db)).

Definition initial_units : list (UnitType * Z) :=
  [(INFANTRY, 100); (TANK, 10); (SHIP, 5); (AIRCRAFT, 5)].

Definition _create_initial_military_units (country_id : Z) : M unit :=
  for_each initial_units (fun '(unit_type, quantity) =>
    add_unit (fun i => MilitaryUnit.mk i country_id unit_type quantity 1) ;;;
    ret tt) ;;;
  commit.

Definition create_country (now : Py.datetime) (user_id : Z) (name : string)
    (government_type ideology : string) : M Country.t :=
  existing_country <- get_country_by_name name ;;
  match existing_country with
  | Some _ => raise ValidationError
  | None =>
      user_countries <- get_countries_by_user_id user_id ;;
      match user_countries with
      | _ :: _ => raise ResourceError
      | [] =>
          match GovernmentType_of_value government_type with
          | Raise _ => raise ValidationError
          | Ok gov_type_enum =>
              match Ideology_of_value ideology with
              | Raise _ => raise ValidationError
              | Ok ideology_enum =>
                  let initial_population := 1000000 in
                  let initial_gdp := 1000000000 in
                  let initial_military_power := 10 in
                  country <- add_country (fun i =>
                    Country.mk i name user_id gov_type_enum ideology_enum
                      initial_population initial_gdp initial_military_power
                      config.INITIAL_RESOURCES now now) ;;
                  commit ;;;
                  _create_initial_military_units (Country.id country) ;;;
                  ret country
              end
          end
      end
  end.

Definition get_country_status (country_id : Z) : M CountryStatus.t :=
  country <- get_country_by_id country_id ;;
  match country with
  | None => raise ValidationError
  | Some country =>
      military_units <-
        query (fun db =>
          filter (fun u => MilitaryUnit.country_id u =? country_id) (military_units db)) ;;
      let military_info :=
        fold_left (fun info u =>
          dict_set (UnitType_value (MilitaryUnit.unit_type u))
            (CountryStatus.mk_unit_info (MilitaryUnit.quantity u)
               (MilitaryUnit.technology_level u)) info)
          military_units [] in
      let total_strength :=
        sum (map (fun u => MilitaryUnit.quantity u * MilitaryUnit.technology_level u)
               military_units) in
      ret (CountryStatus.mk (Country.id country) (Country.name country)
             (Country.government_type country) (Country.ideology country)
             (Country.population country) (Country.gdp country)
             (Country.military_power country) (Country.resources country)
             military_info total_strength
             (Country.created_at country) (Country.last_updated country))
  end.

Definition update_resources (now : Py.datetime) (country_id amount : Z)
    (description : string) : M (Z * Z) :=
  country <- get_country_by_id country_id ;;
  match country with
  | None => raise ValidationError
  | Some country =>
      let previous_resources := Country.resources country in
      if (amount <? 0) && (Country.resources country + amount <? 0)
      then raise ResourceError
      else
        modify_country country_id (fun c =>
          Country.set_last_updated now
            (Country.set_resources (Country.resources c + amount) c)) ;;;
        transaction <- TransactionLog_call ;;
        add_transaction transaction ;;;
        commit ;;;
        ret (previous_resources, previous_resources + amount)
  end.

End CountryService.

(** ** [services/military_service.py] *)

(** The draws of [random.uniform] one battle makes, in the order of the
    calls: [uniform(0.8, 1.2)], [uniform(0.1, 0.3)], and on a victory
    [uniform(0.05, 0.15)] and [uniform(0.1, 0.2)]. *)
Record Rolls : Type := mkRolls {
  random_factor : float;
  base_casualty_rate : float;
  territory_roll : float;
  resources_roll : float
}.

Module MilitaryService.

Definition unit_costs (t : UnitType) : Z :=
  match t with
  | INFANTRY => 10
  | TANK => 50
  | SHIP => 100
  | AIRCRAFT => 80
  end.

Definition unit_strength (t : UnitType) : Z :=
  match t with
  | INFANTRY => 1
  | TANK => 5
  | SHIP => 10
  | AIRCRAFT => 8
  end.

Definition get_military_units (country_id : Z) : M (list MilitaryUnit.t) :=
  query (fun db =>
    filter (fun u => MilitaryUnit.country_id u =? country_id) (military_units db)).

Definition get_military_unit (country_id : Z) (unit_type : UnitType)
    : M (option MilitaryUnit.t) :=
  query (fun db =>
    find (fun u => (MilitaryUnit.country_id u =? country_id)
                   && UnitType_eqb (MilitaryUnit.unit_type u) unit_type)
      (military_units db)).

Definition build_army (now : Py.datetime) (country_id : Z) (unit_type_str : string)
    (quantity : Z) : M (MilitaryUnit.t * Z) :=
  match UnitType_of_value unit_type_str with
  | Raise _ => raise ValidationError
  | Ok unit_type =>
      if quantity <=? 0 then raise ValidationError
      else
        let cost := unit_costs unit_type * quantity in
        country <- first_country country_id ;;
        match country with
        | None => raise ValidationError
        | Some country =>
            if Country.resources country <? cost then raise ResourceError
            else
              found <- get_military_unit country_id unit_type ;;
              unit <- match found with
                      | Some u => ret u
                      | None => add_unit (fun i =>
                                  MilitaryUnit.mk i country_id unit_type 0 1)
                      end ;;
              let unit := MilitaryUnit.set_quantity (MilitaryUnit.quantity unit + quantity) unit in
              modify_unit (MilitaryUnit.id unit) (fun _ => unit) ;;;
              modify_country country_id (fun c =>
                Country.set_last_updated now
                  (Country.set_resources (Country.resources c - cost) c)) ;;;
              transaction <- TransactionLog_call ;;
              add_transaction transaction ;;;
              commit ;;;
              ret (unit, cost)
        end
  end.

Definition strength_of_units (units : list MilitaryUnit.t) : Z :=
  fold_left (fun total_strength unit =>
    total_strength
    + MilitaryUnit.quantity unit * unit_strength (MilitaryUnit.unit_type unit)
      * MilitaryUnit.technology_level unit)
    units 0.

Definition calculate_military_strength (country_id : Z) : M Z :=
  units <- get_military_units country_id ;;
  ret (strength_of_units units).

Definition _calculate_battle_result (rolls : Rolls)
    (attacker_strength defender_strength : Z) (attacker defender : Country.t)
    : res (BattleResult * Z * Z * Z * Z) :=
  rbind (Py.int_truediv attacker_strength (Z.max defender_strength 1)) (fun strength_ratio =>
  let adjusted_ratio := (strength_ratio * random_factor rolls)%float in
  let result :=
    if Py.gt adjusted_ratio 1.2 then VICTORY
    else if Py.lt adjusted_ratio 0.8 then DEFEAT
    else DRAW in
  let base_casualty_rate := base_casualty_rate rolls in
  let '(attacker_casualty_rate, defender_casualty_rate) :=
    match result with
    | VICTORY => ((base_casualty_rate * 0.7)%float, (base_casualty_rate * 1.3)%float)
    | DEFEAT => ((base_casualty_rate * 1.3)%float, (base_casualty_rate * 0.7)%float)
    | DRAW => (base_casualty_rate, base_casualty_rate)
    end in
  rbind (rbind (Py.int_mul_float attacker_strength attacker_casualty_rate) Py.int_of_float)
    (fun casualties_attacker =>
  rbind (rbind (Py.int_mul_float defender_strength defender_casualty_rate) Py.int_of_float)
    (fun casualties_defender =>
  match result with
  | VICTORY =>
      rbind (rbind (Py.float_mul_int (territory_roll rolls) 100) Py.int_of_float)
        (fun territory_gained =>
      rbind (rbind (Py.float_mul_int (resources_roll rolls) (Country.resources defender))
               Py.int_of_float)
        (fun resources_captured =>
      Ok (result, casualties_attacker, casualties_defender,
          territory_gained, resources_captured)))
  | _ => Ok (result, casualties_attacker, casualties_defender, 0, 0)
  end))).

(** What one unit row loses: [min(int(total_casualties * proportion), quantity)]. *)
Definition unit_casualties (total_casualties total_strength : Z) (unit : MilitaryUnit.t)
    : res Z :=
  let unit_strength :=
    MilitaryUnit.quantity unit * unit_strength (MilitaryUnit.unit_type unit) in
  rbind (Py.int_truediv unit_strength total_strength) (fun unit_proportion =>
  rbind (Py.int_mul_float total_casualties unit_proportion) (fun x =>
  rbind (Py.int_of_float x) (fun unit_casualties =>
  Ok (Z.min unit_casualties (MilitaryUnit.quantity unit))))).

(** The running [remaining_casualties] of the source is never read and is
    left out. *)
Definition _apply_casualties (country_id total_casualties : Z) : M unit :=
  units <- get_military_units country_id ;;
  let total_strength :=
    sum (map (fun unit =>
                MilitaryUnit.quantity unit * unit_strength (MilitaryUnit.unit_type unit))
           units) in
  match units with
  | [] => ret tt
  | _ :: _ =>
      if total_strength =? 0 then ret tt
      else
        for_each units (fun unit =>
          c <- lift (unit_casualties total_casualties total_strength unit) ;;
          modify_unit (MilitaryUnit.id unit)
            (fun u => MilitaryUnit.set_quantity (MilitaryUnit.quantity unit - c) u)) ;;;
        commit
  end.

Definition casualty_percent (casualties strength : Z) : res Z :=
  rbind (Py.int_truediv casualties (Z.max strength 1)) (fun r =>
  rbind (Py.float_mul_int r 100) Py.int_of_float).

Definition _generate_battle_report (attacker_strength defender_strength : Z)
    (result : BattleResult) (casualties_attacker casualties_defender : Z)
    : res BattleReport.t :=
  rbind (casualty_percent casualties_attacker attacker_strength) (fun pa =>
  rbind (casualty_percent casualties_defender defender_strength) (fun pd =>
  Ok (BattleReport.mk pa pd (BattleResult_eqb result VICTORY)))).

Definition attack (rolls : Rolls) (now : Py.datetime) (attacker_id defender_id : Z)
    : M Battle.t :=
  attacker <- first_country attacker_id ;;
  match attacker with
  | None => raise ValidationError
  | Some attacker =>
      defender <- first_country defender_id ;;
      match defender with
      | None => raise ValidationError
      | Some defender =>
          if attacker_id =? defender_id then raise ValidationError
          else
            attacker_strength <- calculate_military_strength attacker_id ;;
            defender_strength <- calculate_military_strength defender_id ;;
            if attacker_strength <=? 0 then raise ResourceError
            else
              r <- lift (_calculate_battle_result rolls attacker_strength
                           defender_strength attacker defender) ;;
              let '(result, casualties_attacker, casualties_defender,
                    territory_gained, resources_captured) := r in
              _apply_casualties attacker_id casualties_attacker ;;;
              _apply_casualties defender_id casualties_defender ;;;
              (if BattleResult_eqb result VICTORY then
                 modify_country attacker_id (fun c =>
                   Country.set_resources (Country.resources c + resources_captured) c) ;;;
                 modify_country defender_id (fun c =>
                   Country.set_resources (Country.resources c - resources_captured) c)
               else ret tt) ;;;
              battle_report <- lift (_generate_battle_report attacker_strength
                                       defender_strength result casualties_attacker
                                       casualties_defender) ;;
              battle <- add_battle (fun i =>
                Battle.mk i attacker_id defender_id attacker_strength defender_strength
                  result casualties_attacker casualties_defender territory_gained
                  resources_captured now battle_report) ;;
              commit ;;;
              ret battle
      end
  end.

End MilitaryService.

(** ** [services/development_service.py] *)

Module DevelopmentOption.
Record t : Type := mk {
  name : string;
  description : string;
  cost : Z;
  time_days : Z;
  infrastructure_bonus : float;
  research_bonus : float;
  trade_bonus : float
}.
End DevelopmentOption.

Module DevelopmentProgress.
Record t : Type := mk {
  id : Z;
  status : DevelopmentStatus;
  progress : Z;
  time_left_seconds : Py.num
}.
End DevelopmentProgress.

Module DevelopmentService.

(** The catalogue; an integer [0] bonus is the [Float] column's [0.0]. *)
Definition development_options (category : DevelopmentCategory)
    : list DevelopmentOption.t :=
  match category with
  | INFRASTRUCTURE =>
      [ DevelopmentOption.mk "Road Network"
          "Improve road infrastructure to boost economy" 200 1 0.05 0 0.02;
        DevelopmentOption.mk "Power Grid"
          "Upgrade power generation and distribution" 300 2 0.08 0.01 0.01;
        DevelopmentOption.mk "Urban Development"
          "Expand and modernize cities" 500 3 0.1 0.02 0.03 ]
  | RESEARCH =>
      [ DevelopmentOption.mk "Basic Research"
          "Fund basic scientific research" 250 2 0 0.05 0;
        DevelopmentOption.mk "Military Technology"
          "Develop advanced military technology" 400 3 0 0.08 0.01;
        DevelopmentOption.mk "Advanced Research Center"
          "Build a cutting-edge research facility" 600 5 0.02 0.12 0.02 ]
  | TRADE =>
      [ DevelopmentOption.mk "Trade Agreements"
          "Negotiate favorable trade agreements" 150 1 0 0 0.05;
        DevelopmentOption.mk "Port Expansion"
          "Expand port facilities for international trade" 350 2 0.03 0 0.08;
        DevelopmentOption.mk "Global Trade Network"
          "Establish a global trade network" 550 4 0.02 0.01 0.15 ]
  end.

(** [now], [now'] and [now''] are the three readings of the clock the call
    makes, in this order: for [end_time], for [start_time] and for the
    nation's [last_updated]. *)
Definition start_development (now now' now'' : Py.datetime) (country_id : Z)
    (category_str option_name : string) : M Development.t :=
  match DevelopmentCategory_of_value category_str with
  | Raise _ => raise ValidationError
  | Ok category =>
      let options := development_options category in
      match find (fun o => String.eqb (DevelopmentOption.name o) option_name) options with
      | None => raise ValidationError
      | Some option =>
          country <- first_country country_id ;;
          match country with
          | None => raise ValidationError
          | Some country =>
              if Country.resources country <? DevelopmentOption.cost option
              then raise ResourceError
              else
                let time_seconds := DevelopmentOption.time_days option * 86400 in
                let end_time := now + Py.timedelta_of_seconds time_seconds in
                let development := fun i =>
                  Development.mk i country_id category
                    (DevelopmentOption.name option)
                    (DevelopmentOption.description option)
                    (DevelopmentOption.cost option)
                    now' end_time IN_PROGRESS
                    (DevelopmentOption.infrastructure_bonus option)
                    (DevelopmentOption.research_bonus option)
                    (DevelopmentOption.trade_bonus option) in
                modify_country country_id (fun c =>
                  Country.set_last_updated now''
                    (Country.set_resources
                       (Country.resources c - DevelopmentOption.cost option) c)) ;;;
                transaction <- TransactionLog_call ;;
                development <- add_development development ;;
                add_transaction transaction ;;;
                commit ;;;
                ret development
          end
      end
  end.

(** The three assignments on the owning country, in source order. *)
Definition apply_bonuses (now : Py.datetime) (development : Development.t)
    (country : Country.t) : res Country.t :=
  rbind (rbind (rbind (Py.int_add_float 1 (Development.infrastructure_bonus development))
                  (fun k => Py.int_mul_float (Country.gdp country) k))
           Py.int_of_float) (fun gdp =>
  rbind (rbind (rbind (Py.int_add_float 1 (Development.research_bonus development))
                  (fun k => Py.int_mul_float (Country.military_power country) k))
           Py.int_of_float) (fun military_power =>
  rbind (rbind (Py.int_mul_float (Country.resources country)
                  (Development.trade_bonus development))
           Py.int_of_float) (fun gain =>
  Ok (Country.set_last_updated now
        (Country.set_resources (Country.resources country + gain)
           (Country.set_military_power military_power
              (Country.set_gdp gdp country))))))).

(** The rows the sweep's query returns. *)
Definition matured (now : Py.datetime) (d : Development.t) : bool :=
  DevelopmentStatus_eqb (Development.status d) IN_PROGRESS
  && (Development.end_time d <=? now).

Definition complete_one (now : Py.datetime) (development : Development.t) : M unit :=
  modify_development (Development.id development)
    (Development.set_status COMPLETED) ;;;
  country <- first_country (Development.country_id development) ;;
  match country with
  | Some country =>
      c <- lift (apply_bonuses now development country) ;;
      modify_country (Country.id country) (fun _ => c)
  | None => ret tt
  end.

Definition check_completed_developments (now : Py.datetime) : M (list Development.t) :=
  completed <- query (fun db => filter (matured now) (developments db)) ;;
  for_each completed (complete_one now) ;;;
  commit ;;;
  ret (map (Development.set_status COMPLETED) completed).

Definition get_development_progress (now : Py.datetime) (development_id : Z)
    : M DevelopmentProgress.t :=
  development <-
    query (fun db => find (fun d => Development.id d =? development_id) (developments db)) ;;
  match development with
  | None => raise ValidationError
  | Some development =>
      match Development.status development with
      | COMPLETED =>
          ret (DevelopmentProgress.mk (Development.id development) COMPLETED 100 (Py.Int 0))
      | CANCELLED =>
          ret (DevelopmentProgress.mk (Development.id development) CANCELLED 0 (Py.Int 0))
      | IN_PROGRESS =>
          total_time <- lift (Py.total_seconds
            (Development.end_time development - Development.start_time development)) ;;
          elapsed_time <- lift (Py.total_seconds
            (now - Development.start_time development)) ;;
          p <- lift (rbind (rbind (Py.float_truediv elapsed_time total_time)
                              (fun r => Py.float_mul_int r 100))
                       Py.int_of_float) ;;
          let progress := Z.min 100 p in
          left <- lift (Py.total_seconds (Development.end_time development - now)) ;;
          let time_left := Py.max_0 left in
          ret (DevelopmentProgress.mk (Development.id development) IN_PROGRESS
                 progress time_left)
      end
  end.

End DevelopmentService.

(** ** Reading binary64 values as real numbers

    The definitions below are the specification side of the floating-point
    layer: the real number a finite float denotes, and what it means for a
    real to round to a float (nearest, ties to even, 53 bits, exponents
    from -1074). *)

Definition bpow (e : Z) : R := powerRZ 2 e.

Definition SF2R (f : spec_float) : R :=
  match f with
  | S754_finite s m e =>
      ((if s then -1 else 1) * IZR (Zpos m) * bpow e)%R
  | _ => 0%R
  end.

Definition F2R (x : float) : R := SF2R (Prim2SF x).

(** Zero of either sign, or a positive finite number. *)
Definition nonneg_finite_sf (f : spec_float) : bool :=
  match f with
  | S754_zero _ => true
  | S754_finite false _ _ => true
  | _ => false
  end.

Definition nonneg_finite (x : float) : bool := nonneg_finite_sf (Prim2SF x).

(** [m] is the integer nearest to [t], the even one of two. *)
Definition rne (t : R) (m : Z) : Prop :=
  (IZR m - /2 <= t <= IZR m + /2)%R /\
  ((t = IZR m - /2 \/ t = IZR m + /2)%R -> Z.even m = true).

(** [e] is the exponent of the binary64 grid around [x >= 0]. *)
Definition cexp (x : R) (e : Z) : Prop :=
  -1074 <= e /\ (x < bpow (e + 53))%R /\ (e = -1074 \/ (bpow (e + 52) <= x)%R).

(** [y] is [x >= 0] rounded to the grid (before the overflow test). *)
Definition rounds (x y : R) : Prop :=
  exists m e, cexp x e /\ rne (x / bpow e) m /\ y = (IZR m * bpow e)%R.

(** Where [x / 2^e] lies between [m] and [m + 1], as the round and sticky
    bits of a shift record say. *)
Definition bracket (mrs : shr_record) (e : Z) (x : R) : Prop :=
  let m := IZR (shr_m mrs) in
  let t := (x / bpow e)%R in
  match shr_r mrs, shr_s mrs with
  | false, false => t = m
  | false, true => (m < t < m + /2)%R
  | true, false => t = (m + /2)%R
  | true, true => (m + /2 < t < m + 1)%R
  end.

(** What [binary_round_aux] returns for the rounded mantissa [m] at the
    grid exponent [e]. *)
Definition packed (s : bool) (y : R) (r : spec_float) : Prop :=
  ((y < bpow 1024)%R ->
     valid_binary r = true /\
     ((r = S754_zero s /\ y = 0%R) \/
      exists m e, r = S754_finite s m e /\ y = (IZR (Zpos m) * bpow e)%R)) /\
  ((bpow 1024 <= y)%R -> r = S754_infinity s).

(** Zero, a positive finite number, or plus infinity. *)
Definition nonneg_sf (f : spec_float) : bool :=
  match f with
  | S754_zero _ => true
  | S754_finite false _ _ => true
  | S754_infinity false => true
  | _ => false
  end.

(** ** Vocabulary of the properties *)

(** The aggregate strength [attack] computes for a nation. *)
Definition military_strength (db : Database) (country_id : Z) : Z :=
  MilitaryService.strength_of_units
    (filter (fun u => MilitaryUnit.country_id u =? country_id) (military_units db)).

(** A nation created in an empty store: the initial balance and units. *)
Definition fresh_nation_db : Database :=
  fst (run (CountryService.create_country 0 1 "Alpha" "democracy" "liberal") empty_db).

(** Two nations, the second created after the first. *)
Definition two_nations_db : Database :=
  fst (run (CountryService.create_country 0 2 "Beta" "monarchy" "conservative")
         fresh_nation_db).

(** [lo <= x <= hi] on floats, the range [random.uniform(lo, hi)] draws from. *)
Definition in_range (lo hi x : float) : bool :=
  PrimFloat.leb lo x && PrimFloat.leb x hi.

Definition rolls_in_range (rolls : Rolls) : bool :=
  in_range 0.8 1.2 (random_factor rolls)
  && in_range 0.1 0.3 (base_casualty_rate rolls)
  && in_range 0.05 0.15 (territory_roll rolls)
  && in_range 0.1 0.2 (resources_roll rolls).

(** The casualty rates of the two sides for an outcome. *)
Definition attacker_rate (result : BattleResult) (base : float) : float :=
  match result with
  | VICTORY => (base * 0.7)%float
  | DEFEAT => (base * 1.3)%float
  | DRAW => base
  end.

Definition defender_rate (result : BattleResult) (base : float) : float :=
  match result with
  | VICTORY => (base * 1.3)%float
  | DEFEAT => (base * 0.7)%float
  | DRAW => base
  end.

(** What C2 says of one call of [_calculate_battle_result]: the call
    returns; the outcome follows the adjusted ratio; each side loses the
    floor of its strength times its rate; spoils are computed on a victory
    only. *)
Definition battle_rules_hold (rolls : Rolls) (attacker_strength defender_strength : Z)
    (attacker defender : Country.t) : Prop :=
  exists ratio result ca cd tg rc,
    Py.int_truediv attacker_strength (Z.max defender_strength 1) = Ok ratio /\
    MilitaryService._calculate_battle_result rolls attacker_strength defender_strength
      attacker defender = Ok (result, ca, cd, tg, rc) /\
    let adjusted := (ratio * random_factor rolls)%float in
    (result = VICTORY <-> Py.gt adjusted 1.2 = true) /\
    (result = DEFEAT <-> Py.lt adjusted 0.8 = true) /\
    (result = DRAW <-> Py.gt adjusted 1.2 = false /\ Py.lt adjusted 0.8 = false) /\
    (exists xa, Py.int_mul_float attacker_strength
                  (attacker_rate result (base_casualty_rate rolls)) = Ok xa /\
                ca = Py.floor xa) /\
    (exists xd, Py.int_mul_float defender_strength
                  (defender_rate result (base_casualty_rate rolls)) = Ok xd /\
                cd = Py.floor xd) /\
    (result = VICTORY ->
       (exists xt, Py.float_mul_int (territory_roll rolls) 100 = Ok xt /\ tg = Py.floor xt) /\
       (exists xr, Py.float_mul_int (resources_roll rolls) (Country.resources defender) = Ok xr
                   /\ rc = Py.floor xr) /\
       0 <= rc) /\
    (result <> VICTORY -> tg = 0 /\ rc = 0) /\
    0 <= ca /\ 0 <= cd.

(** The nations of the worked scenario. *)
Definition scenario_attacker : Country.t :=
  Country.mk 1 "Alpha" 1 DEMOCRACY LIBERAL 1000000 1000000000 10 1000 0 0.

Definition scenario_defender : Country.t :=
  Country.mk 2 "Beta" 2 MONARCHY CONSERVATIVE 1000000 1000000000 10 1000 0 0.

(** Multiplier pinned at 1.0, base casualty rate pinned at 0.2. *)
Definition scenario_rolls : Rolls := mkRolls 1 0.2 0.1 0.15.

(** Two stores that differ in the military-units table at most. *)
Definition same_but_units (a b : Database) : Prop :=
  countries a = countries b /\ developments a = developments b /\
  battles a = battles b /\ transaction_logs a = transaction_logs b.

(** The loop of [_apply_casualties] on the units table alone. *)
Fixpoint apply_losses (total_casualties total_strength : Z)
    (units table : list MilitaryUnit.t) : res (list MilitaryUnit.t) :=
  match units with
  | [] => Ok table
  | unit :: units' =>
      rbind (MilitaryService.unit_casualties total_casualties total_strength unit) (fun c =>
      apply_losses total_casualties total_strength units'
        (map (fun u => if MilitaryUnit.id u =? MilitaryUnit.id unit
                       then MilitaryUnit.set_quantity (MilitaryUnit.quantity unit - c) u
                       else u) table))
  end.

(** The weighted strength [_apply_casualties] divides by. *)
Definition weighted_strength (units : list MilitaryUnit.t) : Z :=
  sum (map (fun unit =>
              MilitaryUnit.quantity unit
              * MilitaryService.unit_strength (MilitaryUnit.unit_type unit)) units).

Definition units_of (db : Database) (country_id : Z) : list MilitaryUnit.t :=
  filter (fun u => MilitaryUnit.country_id u =? country_id) (military_units db).

(** The resource transfer of [attack] on the countries table. *)
Definition transfer (attacker_id defender_id resources_captured : Z)
    (cs : list Country.t) : list Country.t :=
  map (fun c => if Country.id c =? defender_id
                then Country.set_resources (Country.resources c - resources_captured) c
                else c)
    (map (fun c => if Country.id c =? attacker_id
                   then Country.set_resources (Country.resources c + resources_captured) c
                   else c) cs).

(** The two nations before a battle: the first holds 200 infantry and a
    balance of 0, and the log has the row of that purchase.  The store is
    given as such; no call of [build_army] leaves it. *)
Definition battle_db : Database :=
  mkDatabase
    (map (fun c => if Country.id c =? 1 then Country.set_resources 0 c else c)
       (countries two_nations_db))
    (map (fun u => if MilitaryUnit.id u =? 1 then MilitaryUnit.set_quantity 200 u else u)
       (military_units two_nations_db))
    [] []
    [TransactionLog.mk 1 1 "build_army" (-1000) "Built 100 infantry units" 0].

(** Every nation's balance is non-negative. *)
Definition balances_nonneg (db : Database) : Prop :=
  forall c, In c (countries db) -> 0 <= Country.resources c.

(** The countries table after the bonuses of the listed developments are
    applied, one development after the other as the sweep's loop does. *)
Fixpoint sweep_countries (now : Py.datetime) (completed : list Development.t)
    (cs : list Country.t) : res (list Country.t) :=
  match completed with
  | [] => Ok cs
  | development :: rest =>
      match find (fun c => Country.id c =? Development.country_id development) cs with
      | Some country =>
          rbind (DevelopmentService.apply_bonuses now development country) (fun c =>
          sweep_countries now rest
            (map (fun c0 => if Country.id c0 =? Country.id country then c else c0) cs))
      | None => sweep_countries now rest cs
      end
  end.

(** The developments table after the listed records are set to COMPLETED. *)
Definition mark_completed (completed table : list Development.t) : list Development.t :=
  fold_left (fun t d =>
    map (fun r => if Development.id r =? Development.id d
                  then Development.set_status COMPLETED r else r) t)
    completed table.

(** A finite bonus that is not negative. *)
Definition bonus_ok (b : float) : Prop := nonneg_finite b = true.

(** What the three assignments of the sweep compute for one record. *)
Definition bonuses_applied (development : Development.t) (before after : Country.t) : Prop :=
  exists kg xg km xm xr,
    Py.int_add_float 1 (Development.infrastructure_bonus development) = Ok kg /\
    Py.int_mul_float (Country.gdp before) kg = Ok xg /\
    Country.gdp after = Py.floor xg /\
    Py.int_add_float 1 (Development.research_bonus development) = Ok km /\
    Py.int_mul_float (Country.military_power before) km = Ok xm /\
    Country.military_power after = Py.floor xm /\
    Py.int_mul_float (Country.resources before) (Development.trade_bonus development) = Ok xr /\
    Country.resources after = Country.resources before + Py.floor xr /\
    0 <= Py.floor xr /\
    Country.id after = Country.id before.

(** A new nation with the first infrastructure option of the catalogue,
    "Road Network", in progress from time 0 for one day, its cost of 200
    paid and logged.  The store is given as such; no call of
    [start_development] leaves it. *)
Definition road_network_db : Database :=
  mkDatabase
    (map (Country.set_resources 800) (countries fresh_nation_db))
    (military_units fresh_nation_db)
    [Development.mk 1 1 INFRASTRUCTURE "Road Network"
       "Improve road infrastructure to boost economy" 200 0 86400000000 IN_PROGRESS
       0.05 0 0.02]
    []
    [TransactionLog.mk 1 1 "development" (-200) "Started development: Road Network" 0].

(** One day and one second, in microseconds. *)
Definition one_day_one_second : Py.datetime := 86401 * 1000000.

(** Foreign key of [military_units.country_id]. *)
Definition units_reference_countries (db : Database) : Prop :=
  forall u, In u (military_units db) ->
            In (MilitaryUnit.country_id u) (map Country.id (countries db)).

(** The infantry quantity a status reports. *)
Definition infantry_quantity (st : CountryStatus.t) : option Z :=
  option_map CountryStatus.quantity (dict_get "infantry" (CountryStatus.military_units st)).

(** The query time is not before the start, the development takes some
    time, and the intervals involved are at most [2^62] microseconds (every
    pair of [datetime] values is closer than that). *)
Definition times_in_range (d : Development.t) (now : Py.datetime) : Prop :=
  Development.start_time d <= now /\
  Development.start_time d < Development.end_time d /\
  Development.end_time d - Development.start_time d <= 2 ^ 62 /\
  now - Development.start_time d <= 2 ^ 62.

(** Twenty-nine hundredths of a day after time 0, in microseconds. *)
Definition day_29_percent : Py.datetime := 25056 * 1000000.

(** One day before time 0, in microseconds. *)
Definition one_day_before : Py.datetime := - (86400 * 1000000).

(** A store with unique nation keys, no negative balance, and trade bonuses
    that are finite and not negative. *)
Definition store_ok (db : Database) : Prop :=
  NoDup (map Country.id (countries db)) /\
  balances_nonneg db /\
  forall d, In d (developments db) -> bonus_ok (Development.trade_bonus d).

(** The calls that change a resource balance, and the call that opens one. *)
Inductive operation : Type :=
| UpdateResources (now : Py.datetime) (country_id amount : Z) (description : string)
| BuildArmy (now : Py.datetime) (country_id : Z) (unit_type : string) (quantity : Z)
| StartDevelopment (now now' now'' : Py.datetime) (country_id : Z)
    (category option_name : string)
| CheckCompletedDevelopments (now : Py.datetime)
| Attack (rolls : Rolls) (now : Py.datetime) (attacker_id defender_id : Z)
| CreateCountry (now : Py.datetime) (user_id : Z) (name government_type ideology : string).

(** The committed store after one call, whether it returned or raised. *)
Definition store_after (op : operation) (db : Database) : Database :=
  match op with
  | UpdateResources now country_id amount description =>
      fst (run (CountryService.update_resources now country_id amount description) db)
  | BuildArmy now country_id unit_type quantity =>
      fst (run (MilitaryService.build_army now country_id unit_type quantity) db)
  | StartDevelopment now now' now'' country_id category option_name =>
      fst (run (DevelopmentService.start_development now now' now'' country_id category
                  option_name) db)
  | CheckCompletedDevelopments now =>
      fst (run (DevelopmentService.check_completed_developments now) db)
  | Attack rolls now attacker_id defender_id =>
      fst (run (MilitaryService.attack rolls now attacker_id defender_id) db)
  | CreateCountry now user_id name government_type ideology =>
      fst (run (CountryService.create_country now user_id name government_type ideology) db)
  end.

(** The draws of a battle lie in the ranges [random.uniform] is called with. *)
Definition draws_in_range (op : operation) : Prop :=
  match op with
  | Attack rolls _ _ _ => rolls_in_range rolls = true
  | _ => True
  end.

(** The units one row loses when [total_casualties] are spread over units of
    weighted strength [total_strength]; [0] if the computation raises. *)
Definition units_lost (total_casualties total_strength : Z) (unit : MilitaryUnit.t) : Z :=
  match MilitaryService.unit_casualties total_casualties total_strength unit with
  | Ok c => c
  | Raise _ => 0
  end.

(** One nation whose only units are [2^53 + 4] infantry. *)
Definition large_army_db : Database :=
  mkDatabase [scenario_attacker] [MilitaryUnit.mk 1 1 INFANTRY 9007199254740996 1] [] [] [].

(** ** The other calls of the services

    The rest of [services/country_service.py] and
    [services/development_service.py], [services/ranking_service.py],
    [services/user_service.py], [utils/rate_limiter.py] and the enum
    validators of [utils/validators.py]. *)

(** The exceptions these calls add to those above: two more subclasses of
    [BotError] ([utils/error_handler.py]) and the database's refusal of a
    second row with a [unique=True] value. *)
Inductive error : Type :=
| Exn (e : exn)
| PermissionError
| RateLimitError
| IntegrityError.

Inductive outcome (A : Type) : Type :=
| Returns (a : A)
| Raises (e : error).
Arguments Returns {A} a.
Arguments Raises {A} e.

(** *** [config.py]: the game balance settings *)

Module Config.
Definition MIN_POPULATION : Z := 1000000.
Definition MAX_POPULATION : Z := 1000000000.
Definition MIN_GDP : Z := 1000000000.
Definition MAX_GDP : Z := 100000000000000.
Definition MIN_MILITARY_POWER : Z := 1.
Definition MAX_MILITARY_POWER : Z := 100.
End Config.

(** *** [CountryService.check_ownership] *)

Module CountryService2.

(** The call only reads; it returns [True] or raises. *)
Definition check_ownership (country_id user_id : Z) (db : Database) : outcome bool :=
  match find (fun c => Country.id c =? country_id) (countries db) with
  | None => Raises (Exn ValidationError)
  | Some country =>
      if negb (Country.user_id country =? user_id) then Raises PermissionError
      else Returns true
  end.

End CountryService2.

(** *** [DevelopmentService]: the catalogue and the two lists *)

Module DevelopmentService2.

Definition get_development_options (category_str : string)
    : res (list DevelopmentOption.t) :=
  match DevelopmentCategory_of_value category_str with
  | Raise _ => Raise ValidationError
  | Ok category => Ok (DevelopmentService.development_options category)
  end.

Definition get_active_developments (country_id : Z) : M (list Development.t) :=
  query (fun db =>
    filter (fun d => (Development.country_id d =? country_id)
                     && DevelopmentStatus_eqb (Development.status d) IN_PROGRESS)
      (developments db)).

Definition get_completed_developments (country_id : Z) : M (list Development.t) :=
  query (fun db =>
    filter (fun d => (Development.country_id d =? country_id)
                     && DevelopmentStatus_eqb (Development.status d) COMPLETED)
      (developments db)).

End DevelopmentService2.

(** *** [services/ranking_service.py] *)

Module CountryRank.
Record t : Type := mk {
  military_rank : option Z;
  economy_rank : option Z;
  population_rank : option Z;
  total_countries : Z
}.
End CountryRank.

Module RankingService.

(** [Query.count()]. *)
Definition count {A} (rows : list A) : Z := Z.of_nat (List.length rows).

Definition get_country_rank (country_id : Z) : M CountryRank.t :=
  country <- first_country country_id ;;
  match country with
  | None => ret (CountryRank.mk None None None 0)
  | Some country =>
      total_countries <- query (fun db => count (countries db)) ;;
      military_rank <- query (fun db =>
        count (filter (fun c => Country.military_power country <? Country.military_power c)
                 (countries db)) + 1) ;;
      economy_rank <- query (fun db =>
        count (filter (fun c => Country.gdp country <? Country.gdp c) (countries db)) + 1) ;;
      population_rank <- query (fun db =>
        count (filter (fun c => Country.population country <? Country.population c)
                 (countries db)) + 1) ;;
      ret (CountryRank.mk (Some military_rank) (Some economy_rank) (Some population_rank)
             total_countries)
  end.

End RankingService.

(** *** The tables of users and command logs

    [UserService] and [RateLimiter] work on two tables of their own; each of
    their calls commits what it changed before it returns, so a call is a
    function from the tables before to the tables after. *)

Module User.
Record t : Type := mk {
  id : Z;
  telegram_id : Z;
  username : option string;
  registered_at : Py.datetime;
  last_active : Py.datetime
}.

Definition set_username (v : option string) (u : t) : t :=
  mk (id u) (telegram_id u) v (registered_at u) (last_active u).

Definition set_last_active (v : Py.datetime) (u : t) : t :=
  mk (id u) (telegram_id u) (username u) (registered_at u) v.
End User.

Module CommandLog.
Record t : Type := mk {
  id : Z;
  user_id : Z;
  command : string;
  arguments : option string;
  timestamp : Py.datetime
}.
End CommandLog.

Record Accounts : Type := mkAccounts {
  users : list User.t;
  command_logs : list CommandLog.t
}.

Definition empty_accounts : Accounts := mkAccounts [] [].

(** *** [services/user_service.py] *)

Module UserService.

Definition get_user_by_telegram_id (telegram_id : Z) (acc : Accounts) : option User.t :=
  find (fun u => User.telegram_id u =? telegram_id) (users acc).

(** [telegram_id] is [unique=True]: the commit of a second row with the same
    value is refused and nothing is stored.  [now] and [now'] are the two
    readings of the clock, in the order the call makes them. *)
Definition create_user (now now' : Py.datetime) (telegram_id : Z)
    (username : option string) (acc : Accounts) : Accounts * outcome User.t :=
  if existsb (fun u => User.telegram_id u =? telegram_id) (users acc)
  then (acc, Raises IntegrityError)
  else
    let user := User.mk (next_id (map User.id (users acc))) telegram_id username now now' in
    (mkAccounts (users acc ++ [user]) (command_logs acc), Returns user).

(** A user that exists is updated with one reading of the clock, [now]. *)
Definition get_or_create_user (now now' : Py.datetime) (telegram_id : Z)
    (username : option string) (acc : Accounts) : Accounts * outcome User.t :=
  match get_user_by_telegram_id telegram_id acc with
  | None => create_user now now' telegram_id username acc
  | Some user =>
      let user' := User.set_last_active now (User.set_username username user) in
      (mkAccounts
         (map (fun u => if User.id u =? User.id user then user' else u) (users acc))
         (command_logs acc),
       Returns user')
  end.

Definition update_last_active (now : Py.datetime) (user_id : Z) (acc : Accounts)
    : Accounts :=
  match find (fun u => User.id u =? user_id) (users acc) with
  | Some user =>
      mkAccounts
        (map (fun u => if User.id u =? User.id user then User.set_last_active now u else u)
           (users acc))
        (command_logs acc)
  | None => acc
  end.

End UserService.

(** *** [utils/rate_limiter.py] *)

Module RateLimiter.

Local Open Scope string_scope.

(** Command: (max_calls, period_seconds). *)
Definition limits : list (string * (Z * Z)) :=
  [ ("create_country", (1, 86400));
    ("attack", (5, 3600));
    ("build_army", (10, 3600));
    ("development", (5, 3600));
    ("default", (30, 60)) ].

(** [self.limits.get(command, self.limits["default"])]. *)
Definition limit_of (command : string) : Z * Z :=
  match dict_get command limits with
  | Some l => l
  | None => match dict_get "default" limits with
            | Some l => l
            | None => (0, 0)
            end
  end.

Local Close Scope string_scope.

(** The rows the count of [check_rate_limit] ranges over. *)
Definition recent (user_id : Z) (command : string) (since : Py.datetime)
    (logs : list CommandLog.t) : list CommandLog.t :=
  filter (fun l => (CommandLog.user_id l =? user_id)
                   && String.eqb (CommandLog.command l) command
                   && (since <=? CommandLog.timestamp l)) logs.

(** [user_id] is the Telegram id; the log rows carry the key of the user's
    row.  [now] is the reading of the clock that fixes [since], [now'] the
    later one that stamps the log row. *)
Definition check_rate_limit (now now' : Py.datetime) (user_id : Z) (command : string)
    (acc : Accounts) : Accounts * outcome bool :=
  match find (fun u => User.telegram_id u =? user_id) (users acc) with
  | None => (acc, Returns true)
  | Some user =>
      let '(max_calls, period_seconds) := limit_of command in
      let period := Py.timedelta_of_seconds period_seconds in
      let since := now - period in
      let count :=
        RankingService.count (recent (User.id user) command since (command_logs acc)) in
      if max_calls <=? count then (acc, Raises RateLimitError)
      else
        let log_entry :=
          CommandLog.mk (next_id (map CommandLog.id (command_logs acc)))
            (User.id user) command None now' in
        (mkAccounts (users acc) (command_logs acc ++ [log_entry]), Returns true)
  end.

End RateLimiter.

(** *** [utils/validators.py]: the four enum validators

    [str.lower] is a parameter: nothing below depends on how it maps a
    string. *)

Module Validator.

Section Lower.

Variable lower : string -> string.

Local Open Scope string_scope.

Definition validate_government_type (gov_type : string) : res string :=
  let valid_types :=
    ["democracy"; "monarchy"; "dictatorship"; "republic";
     "theocracy"; "communist"; "socialist"; "oligarchy"] in
  if gov_type =? "" then Raise ValidationError
  else
    let gov_type := lower gov_type in
    if negb (existsb (String.eqb gov_type) valid_types) then Raise ValidationError
    else Ok gov_type.

Definition validate_ideology (ideology : string) : res string :=
  let valid_ideologies :=
    ["capitalist"; "communist"; "socialist"; "fascist";
     "liberal"; "conservative"; "nationalist"; "religious"; "progressive"] in
  if ideology =? "" then Raise ValidationError
  else
    let ideology := lower ideology in
    if negb (existsb (String.eqb ideology) valid_ideologies) then Raise ValidationError
    else Ok ideology.

Definition validate_unit_type (unit_type : string) : res string :=
  let valid_types := ["infantry"; "tank"; "ship"; "aircraft"] in
  if unit_type =? "" then Raise ValidationError
  else
    let unit_type := lower unit_type in
    if negb (existsb (String.eqb unit_type) valid_types) then Raise ValidationError
    else Ok unit_type.

Definition validate_development_category (category : string) : res string :=
  let valid_categories := ["infrastructure"; "research"; "trade"] in
  if category =? "" then Raise ValidationError
  else
    let category := lower category in
    if negb (existsb (String.eqb category) valid_categories) then Raise ValidationError
    else Ok category.

Local Close Scope string_scope.

End Lower.

End Validator.

(** ** Vocabulary of the further properties *)

(** Unique nation keys, unique names and one nation per user. *)
Definition registry_ok (db : Database) : Prop :=
  NoDup (map Country.id (countries db)) /\
  NoDup (map Country.name (countries db)) /\
  NoDup (map Country.user_id (countries db)).

(** The CHECK constraints of the [countries] table. *)
Definition within_limits (c : Country.t) : Prop :=
  Config.MIN_POPULATION <= Country.population c <= Config.MAX_POPULATION /\
  Config.MIN_GDP <= Country.gdp c <= Config.MAX_GDP /\
  Config.MIN_MILITARY_POWER <= Country.military_power c <= Config.MAX_MILITARY_POWER.

(** What one unit row adds to the aggregate strength. *)
Definition strength_of_unit (u : MilitaryUnit.t) : Z :=
  MilitaryUnit.quantity u * MilitaryService.unit_strength (MilitaryUnit.unit_type u)
  * MilitaryUnit.technology_level u.

(** The units table after [_apply_casualties] has run to its commit for one
    nation: untouched if the nation's weighted strength is zero, else every
    row of the nation has lost its share. *)
Definition casualties_applied (country_id total_casualties : Z)
    (table : list MilitaryUnit.t) : list MilitaryUnit.t :=
  let units := filter (fun u => MilitaryUnit.country_id u =? country_id) table in
  let total_strength := weighted_strength units in
  if total_strength =? 0 then table
  else map (fun u => if MilitaryUnit.country_id u =? country_id
                     then MilitaryUnit.set_quantity
                            (MilitaryUnit.quantity u
                             - units_lost total_casualties total_strength u) u
                     else u) table.

(** The sum of all balances. *)
Definition total_resources (db : Database) : Z :=
  sum (map Country.resources (countries db)).

(** No row has a negative quantity or technology level. *)
Definition units_nonneg (table : list MilitaryUnit.t) : Prop :=
  forall u, In u table ->
    0 <= MilitaryUnit.quantity u /\ 0 <= MilitaryUnit.technology_level u.

(** The option of a name among the options of a category, as
    [start_development] picks it. *)
Definition option_named (option_name : string) (options : list DevelopmentOption.t)
    : option DevelopmentOption.t :=
  find (fun o => String.eqb (DevelopmentOption.name o) option_name) options.

(** No figure of [after] is below the one of [before]; of a gdp or military
    power above 2^53, where [float] no longer holds every integer, it says
    that the figure stays at 2^53 or above. *)
Definition not_lowered (before after : Country.t) : Prop :=
  Country.id after = Country.id before /\
  Z.min (Country.gdp before) (2 ^ 53) <= Country.gdp after /\
  Z.min (Country.military_power before) (2 ^ 53) <= Country.military_power after /\
  Country.resources before <= Country.resources after.

(** No figure the bonuses act on is negative. *)
Definition figures_nonneg (c : Country.t) : Prop :=
  0 <= Country.gdp c /\ 0 <= Country.military_power c /\ 0 <= Country.resources c.

(** The three bonuses of a record are finite and not negative. *)
Definition bonuses_ok (d : Development.t) : Prop :=
  bonus_ok (Development.infrastructure_bonus d) /\
  bonus_ok (Development.research_bonus d) /\
  bonus_ok (Development.trade_bonus d).

(** The position [get_country_rank] computes for the figure [key]. *)
Definition rank_by (key : Country.t -> Z) (country : Country.t) (db : Database) : Z :=
  RankingService.count (filter (fun c => key country <? key c) (countries db)) + 1.

(** Unique user keys and Telegram ids, and every log row is of a user. *)
Definition accounts_ok (acc : Accounts) : Prop :=
  NoDup (map User.id (users acc)) /\
  NoDup (map User.telegram_id (users acc)) /\
  forall l, In l (command_logs acc) -> In (CommandLog.user_id l) (map User.id (users acc)).

(** The calls on the two tables, each with its readings of the clock. *)
Inductive account_call : Type :=
| GetOrCreateUser (now now' : Py.datetime) (telegram_id : Z) (username : option string)
| UpdateLastActive (now : Py.datetime) (user_id : Z)
| CheckRateLimit (now now' : Py.datetime) (user_id : Z) (command : string).

(** The tables after one call, whether it returned or raised. *)
Definition accounts_after (call : account_call) (acc : Accounts) : Accounts :=
  match call with
  | GetOrCreateUser now now' telegram_id username =>
      fst (UserService.get_or_create_user now now' telegram_id username acc)
  | UpdateLastActive now user_id => UserService.update_last_active now user_id acc
  | CheckRateLimit now now' user_id command =>
      fst (RateLimiter.check_rate_limit now now' user_id command acc)
  end.

(** The tables after a sequence of calls. *)
Definition accounts_after_all (calls : list account_call) (acc : Accounts) : Accounts :=
  fold_left (fun acc call => accounts_after call acc) calls acc.

(** Within a call the clock does not go back. *)
Definition clock_forward (call : account_call) : Prop :=
  match call with
  | GetOrCreateUser now now' _ _ => now <= now'
  | UpdateLastActive _ _ => True
  | CheckRateLimit now now' _ _ => now <= now'
  end.

(** The log rows of a user and a command stamped within the command's
    period ending at [t]. *)
Definition in_window (t : Py.datetime) (user_id : Z) (command : string)
    (logs : list CommandLog.t) : list CommandLog.t :=
  filter (fun l => CommandLog.timestamp l <=? t)
    (RateLimiter.recent user_id command
       (t - Py.timedelta_of_seconds (snd (RateLimiter.limit_of command))) logs).

(** No period of a command holds more rows of one user than the command's
    limit. *)
Definition windows_bounded (acc : Accounts) : Prop :=
  forall t user_id command,
    RankingService.count (in_window t user_id command (command_logs acc))
    <= fst (RateLimiter.limit_of command).

(** A user registers and asks three times within a minute to create a
    country. *)
Definition three_requests : list account_call :=
  [ GetOrCreateUser 0 0 42 None;
    CheckRateLimit 1000000 1000000 42 "create_country"%string;
    CheckRateLimit 2000000 2000001 42 "create_country"%string;
    CheckRateLimit 3000000 3000000 42 "create_country"%string ].

(** The nation and the type a unit row stands for. *)
Definition unit_key (u : MilitaryUnit.t) : Z * UnitType :=
  (MilitaryUnit.country_id u, MilitaryUnit.unit_type u).

(** Unique row keys, one row per nation and unit type, every row is of a
    nation in the table, and the nations' keys are unique. *)
Definition units_ok (db : Database) : Prop :=
  NoDup (map MilitaryUnit.id (military_units db)) /\
  NoDup (map unit_key (military_units db)) /\
  units_reference_countries db /\
  NoDup (map Country.id (countries db)).

(** * Floating-point layer: the primitive operations round as specified *)

(** ** Powers of two *)

Lemma bpow_gt_0 e : (0 < bpow e)%R.
Proof. apply powerRZ_lt; lra. Qed.

Lemma bpow_add a b : bpow (a + b) = (bpow a * bpow b)%R.
Proof. apply powerRZ_add; lra. Qed.

Lemma bpow_0 : bpow 0 = 1%R.
Proof. reflexivity. Qed.

Lemma bpow_1 : bpow 1 = 2%R.
Proof. unfold bpow; simpl; lra. Qed.

Lemma bpow_succ e : bpow (e + 1) = (2 * bpow e)%R.
Proof. rewrite bpow_add, bpow_1; lra. Qed.

Lemma bpow_pred e : bpow (e - 1) = (bpow e / 2)%R.
Proof.
  replace e with ((e - 1) + 1) at 2 by lia. rewrite bpow_succ. lra.
Qed.

Lemma bpow_IZR n : 0 <= n -> bpow n = IZR (2 ^ n).
Proof.
  intros Hn. pattern n. apply natlike_ind; [reflexivity | | assumption].
  intros k Hk IH. unfold Z.succ. rewrite bpow_succ, IH, Z.pow_add_r by lia.
  rewrite mult_IZR. change (2 ^ 1) with 2. lra.
Qed.

Lemma bpow_le a b : a <= b -> (bpow a <= bpow b)%R.
Proof.
  intros H. replace b with (a + (b - a)) by lia.
  rewrite bpow_add, (bpow_IZR (b - a)) by lia.
  assert (1 <= 2 ^ (b - a)) by (apply Z.lt_pred_le, Z.pow_pos_nonneg; lia).
  apply IZR_le in H0. pose proof (bpow_gt_0 a). nra.
Qed.

Lemma bpow_lt a b : a < b -> (bpow a < bpow b)%R.
Proof.
  intros H. apply Rlt_le_trans with (bpow (a + 1)).
  - rewrite bpow_succ. pose proof (bpow_gt_0 a). lra.
  - apply bpow_le. lia.
Qed.

Lemma bpow_lt_inv a b : (bpow a < bpow b)%R -> a < b.
Proof.
  intros H. destruct (Z_lt_le_dec a b) as [|Hle]; [assumption|].
  apply bpow_le in Hle. lra.
Qed.

Lemma bpow_le_inv a b : (bpow a <= bpow b)%R -> a <= b.
Proof.
  intros H. destruct (Z_lt_le_dec b a) as [Hlt|]; [|assumption].
  apply bpow_lt in Hlt. lra.
Qed.

(** ** Binary digits *)

Lemma digits2_pos_bounds p :
  2 ^ (Zpos (digits2_pos p) - 1) <= Zpos p < 2 ^ Zpos (digits2_pos p).
Proof.
  induction p as [p IH | p IH |]; simpl digits2_pos.
  - rewrite Pos2Z.inj_succ.
    replace (Z.succ (Zpos (digits2_pos p)) - 1) with (Z.succ (Zpos (digits2_pos p) - 1)) by lia.
    rewrite !Z.pow_succ_r by lia. lia.
  - rewrite Pos2Z.inj_succ.
    replace (Z.succ (Zpos (digits2_pos p)) - 1) with (Z.succ (Zpos (digits2_pos p) - 1)) by lia.
    rewrite !Z.pow_succ_r by lia. lia.
  - simpl. lia.
Qed.

Lemma Zdigits2_bounds m :
  0 < m -> 2 ^ (Zdigits2 m - 1) <= m < 2 ^ Zdigits2 m.
Proof.
  destruct m as [|p|p]; try lia. intros _. apply digits2_pos_bounds.
Qed.

Lemma Zdigits2_nonneg m : 0 <= Zdigits2 m.
Proof. destruct m; simpl; lia. Qed.

Lemma Zdigits2_unique m d :
  0 < m -> 2 ^ (d - 1) <= m < 2 ^ d -> Zdigits2 m = d.
Proof.
  intros Hm [H1 H2]. pose proof (Zdigits2_bounds m Hm) as [H3 H4].
  pose proof (Zdigits2_nonneg m).
  assert (0 <= d).
  { destruct (Z_lt_le_dec d 0); [|assumption].
    rewrite Z.pow_neg_r in H2 by assumption. lia. }
  assert (Zdigits2 m - 1 < d).
  { apply (Z.pow_lt_mono_r_iff 2); lia. }
  assert (d - 1 < Zdigits2 m).
  { destruct (Z.eq_dec d 0).
    - subst. destruct m; simpl in *; lia.
    - apply (Z.pow_lt_mono_r_iff 2); lia. }
  lia.
Qed.

Lemma Zdigits2_bpow m :
  0 < m -> (bpow (Zdigits2 m - 1) <= IZR m < bpow (Zdigits2 m))%R.
Proof.
  intros Hm. pose proof (Zdigits2_bounds m Hm) as [H1 H2].
  assert (1 <= Zdigits2 m) by (destruct m; simpl in *; lia).
  rewrite !bpow_IZR by lia. split; [apply IZR_le | apply IZR_lt]; assumption.
Qed.

Lemma div_bpow_succ x e : (x / bpow (e + 1) = x / bpow e / 2)%R.
Proof.
  rewrite bpow_succ. pose proof (bpow_gt_0 e). field. lra.
Qed.

Lemma shr_1_bracket mrs e x :
  0 <= shr_m mrs -> bracket mrs e x ->
  bracket (shr_1 mrs) (e + 1) x /\ 0 <= shr_m (shr_1 mrs).
Proof.
  destruct mrs as [m r s]. unfold bracket. cbn [shr_m shr_r shr_s].
  rewrite div_bpow_succ. generalize (x / bpow e)%R. clear x. intros t Hm H.
  destruct m as [|[p|p|]|p]; try lia.
  - destruct r, s; cbn [shr_1 orb shr_m shr_r shr_s]; (split; [ lra | lia ]).
  - rewrite (IZR_POS_xI p) in H.
    destruct r, s; cbn [shr_1 orb shr_m shr_r shr_s]; (split; [ lra | lia ]).
  - rewrite (IZR_POS_xO p) in H.
    destruct r, s; cbn [shr_1 orb shr_m shr_r shr_s]; (split; [ lra | lia ]).
  - destruct r, s; cbn [shr_1 orb shr_m shr_r shr_s]; (split; [ lra | lia ]).
Qed.

Lemma iter_shr_1_bracket n : forall mrs e x,
  0 <= shr_m mrs -> bracket mrs e x ->
  bracket (iter_pos shr_1 n mrs) (e + Zpos n) x /\ 0 <= shr_m (iter_pos shr_1 n mrs).
Proof.
  induction n as [n IH | n IH |]; intros mrs e x Hm H; simpl.
  - destruct (shr_1_bracket _ _ _ Hm H) as [H1 Hm1].
    destruct (IH _ _ _ Hm1 H1) as [H2 Hm2].
    destruct (IH _ _ _ Hm2 H2) as [H3 Hm3].
    split; [|assumption].
    replace (e + Zpos n~1) with (e + 1 + Zpos n + Zpos n) by lia. assumption.
  - destruct (IH _ _ _ Hm H) as [H2 Hm2].
    destruct (IH _ _ _ Hm2 H2) as [H3 Hm3].
    split; [|assumption].
    replace (e + Zpos n~0) with (e + Zpos n + Zpos n) by lia. assumption.
  - apply shr_1_bracket; assumption.
Qed.

Lemma shr_bracket mrs e n x :
  0 <= shr_m mrs -> 0 <= n -> bracket mrs e x ->
  bracket (fst (shr mrs e n)) (e + n) x /\ 0 <= shr_m (fst (shr mrs e n))
  /\ snd (shr mrs e n) = e + n.
Proof.
  intros Hm Hn H. destruct n as [|p|p]; simpl; try lia.
  - rewrite Z.add_0_r. auto.
  - destruct (iter_shr_1_bracket p _ _ _ Hm H). auto.
Qed.

Lemma fexp_eq e : fexp prec emax e = Z.max (e - 53) (-1074).
Proof. reflexivity. Qed.

Lemma bracket_bounds mrs e x :
  bracket mrs e x ->
  (IZR (shr_m mrs) <= x / bpow e < IZR (shr_m mrs) + 1)%R.
Proof.
  unfold bracket. destruct (shr_r mrs), (shr_s mrs); lra.
Qed.

Lemma shr_m_of_loc m l : shr_m (shr_record_of_loc m l) = m.
Proof. destruct l as [|[]]; reflexivity. Qed.

Lemma round_nearest_even_rne mrs e x :
  bracket mrs e x ->
  rne (x / bpow e) (round_nearest_even (shr_m mrs) (loc_of_shr_record mrs)).
Proof.
  destruct mrs as [m r s]. unfold bracket, rne. cbn [shr_m shr_r shr_s].
  generalize (x / bpow e)%R. intros t H.
  destruct r, s; cbn [loc_of_shr_record round_nearest_even].
  - rewrite plus_IZR. split; [lra | intros [?|?]; lra].
  - destruct (Z.even m) eqn:Hev.
    + split; [lra | auto].
    + rewrite plus_IZR. split; [lra | intros _].
      rewrite Z.even_add, Hev. reflexivity.
  - split; [lra | intros [?|?]; lra].
  - split; [lra | intros [?|?]; lra].
Qed.

Lemma rne_bounds t m k :
  rne t m -> (0 <= t < IZR k)%R -> 0 <= m <= k.
Proof.
  intros [[H1 H2] _] [H3 H4]. split.
  - apply le_IZR. apply Rnot_lt_le. intros Hlt.
    assert (m <= -1) by (apply lt_IZR in Hlt; lia).
    apply IZR_le in H. lra.
  - apply Z.lt_succ_r. apply lt_IZR. rewrite succ_IZR. lra.
Qed.

Lemma rne_lower t m k :
  rne t m -> (IZR k <= t)%R -> k <= m.
Proof.
  intros [[H1 H2] _] H3.
  apply Z.lt_succ_r. apply lt_IZR. rewrite succ_IZR. lra.
Qed.

Lemma iter_shr_1_zero n : forall mrs,
  shr_m mrs = 0 -> shr_m (iter_pos shr_1 n mrs) = 0.
Proof.
  assert (H1 : forall mrs, shr_m mrs = 0 -> shr_m (shr_1 mrs) = 0).
  { intros [m r s]. simpl. intros ->. reflexivity. }
  induction n as [n IH | n IH |]; intros mrs H; simpl; auto.
Qed.

Lemma div_bpow_pos x e : (0 <= x)%R -> (0 <= x / bpow e)%R.
Proof.
  intros H. pose proof (bpow_gt_0 e). apply Rmult_le_pos; [assumption|].
  apply Rlt_le, Rinv_0_lt_compat. assumption.
Qed.

Lemma mul_div_bpow x e : (x / bpow e * bpow e = x)%R.
Proof. pose proof (bpow_gt_0 e). field. lra. Qed.

Lemma div_bpow_lt x e k : (x < bpow (e + k))%R -> (x / bpow e < bpow k)%R.
Proof.
  intros H. rewrite bpow_add in H. pose proof (bpow_gt_0 e).
  apply Rmult_lt_reg_r with (bpow e); [assumption|]. rewrite mul_div_bpow. lra.
Qed.

Lemma div_bpow_le x e k : (bpow (e + k) <= x)%R -> (bpow k <= x / bpow e)%R.
Proof.
  intros H. rewrite bpow_add in H. pose proof (bpow_gt_0 e).
  apply Rmult_le_reg_r with (bpow e); [assumption|]. rewrite mul_div_bpow. lra.
Qed.

(** The exponent the first shift of [binary_round_aux] lands on is the
    grid exponent of the bracketed value. *)
Lemma bracket_cexp mx lx ex x :
  0 <= mx ->
  bracket (shr_record_of_loc mx lx) ex x ->
  ex <= fexp prec emax (Zdigits2 mx + ex) ->
  cexp x (fexp prec emax (Zdigits2 mx + ex)) /\ (0 <= x)%R.
Proof.
  intros Hm Hb He. apply bracket_bounds in Hb. rewrite shr_m_of_loc in Hb.
  rewrite fexp_eq in *. pose proof (bpow_gt_0 ex) as Hu.
  assert (Hx : (IZR mx * bpow ex <= x < (IZR mx + 1) * bpow ex)%R).
  { destruct Hb as [H1 H2]. split.
    - apply Rmult_le_compat_r with (r := bpow ex) in H1; [|lra].
      rewrite mul_div_bpow in H1. assumption.
    - apply Rmult_lt_compat_r with (r := bpow ex) in H2; [|lra].
      rewrite mul_div_bpow in H2. assumption. }
  assert (H0 : (0 <= x)%R).
  { apply IZR_le in Hm. nra. }
  split; [|assumption].
  destruct (Z.eq_dec mx 0) as [->|Hnz].
  - simpl Zdigits2 in *. rewrite Z.add_0_l in *.
    assert (ex <= -1074) by lia.
    replace (Z.max (ex - 53) (-1074)) with (-1074) by lia.
    split; [lia|]. split; [|left; reflexivity].
    apply Rlt_le_trans with (bpow ex); [lra|]. apply bpow_le. lia.
  - assert (Hpos : 0 < mx) by lia.
    pose proof (Zdigits2_bpow mx Hpos) as [Hd1 Hd2].
    pose proof (Zdigits2_bounds mx Hpos) as [Hz1 Hz2].
    assert (1 <= Zdigits2 mx) by (destruct mx; simpl in *; lia).
    assert (Hd3 : (IZR mx + 1 <= bpow (Zdigits2 mx))%R).
    { rewrite bpow_IZR by lia. rewrite <- succ_IZR. apply IZR_le. lia. }
    set (d := Zdigits2 mx) in *.
    assert (Hlo : (bpow (d - 1 + ex) <= x)%R).
    { rewrite bpow_add. nra. }
    assert (Hhi : (x < bpow (d + ex))%R).
    { rewrite bpow_add. nra. }
    split; [lia|]. split.
    + apply Rlt_le_trans with (bpow (d + ex)); [assumption|]. apply bpow_le. lia.
    + destruct (Z_lt_le_dec (d + ex - 53) (-1074)).
      * left. lia.
      * right. replace (Z.max (d + ex - 53) (-1074) + 52) with (d - 1 + ex) by lia.
        assumption.
Qed.

Lemma shr_no_shift mrs e n : n <= 0 -> shr mrs e n = (mrs, e).
Proof. destruct n; simpl; try reflexivity; lia. Qed.

Lemma renormalize s m1 E t :
  -1074 <= E ->
  rne t m1 -> (0 <= t < bpow 53)%R ->
  (E = -1074 \/ (bpow 52 <= t)%R) ->
  packed s (IZR m1 * bpow E)
    (let '(mrs, e) := shr_fexp prec emax m1 E loc_Exact in
     match shr_m mrs with
     | Z0 => S754_zero s
     | Zpos m => if e <=? emax - prec then S754_finite s m e else S754_infinity s
     | Zneg _ => S754_nan
     end).
Proof.
  intros HE Hr Ht Hn.
  assert (Hb : 0 <= m1 <= 2 ^ 53).
  { apply (rne_bounds t); [assumption|]. rewrite <- bpow_IZR by lia. assumption. }
  assert (Hlow : E <> -1074 -> 2 ^ 52 <= m1).
  { intros Hne. destruct Hn as [?|Hn]; [lia|].
    apply (rne_lower t); [assumption|]. rewrite <- bpow_IZR by lia. assumption. }
  pose proof (bpow_gt_0 E) as HuE.
  unfold shr_fexp. rewrite fexp_eq. change (emax - prec) with 971.
  destruct (Z.eq_dec m1 0) as [->|Hnz].
  { (* the value rounds to zero *)
    unfold shr. cbn [Zdigits2 shr_record_of_loc].
    destruct (Z.max (0 + E - 53) (-1074) - E) eqn:Hn2; cbn [shr_m];
      try (rewrite iter_shr_1_zero by reflexivity).
    all: split; [intros _; split; [reflexivity|left; split; [reflexivity|]] | ].
    all: try (rewrite Rmult_0_l; reflexivity).
    all: intros Hov; rewrite Rmult_0_l in Hov; pose proof (bpow_gt_0 1024); lra. }
  destruct (Z.eq_dec m1 (2 ^ 53)) as [->|Hne].
  { (* the mantissa reached 2^53: one more shift *)
    change (Zdigits2 (2 ^ 53)) with 54.
    replace (Z.max (54 + E - 53) (-1074) - E) with 1 by lia.
    cbn [shr_record_of_loc shr]. change (2 ^ 53) with (Zpos (4503599627370496~0)).
    cbn [iter_pos shr_1 orb shr_m].
    assert (Hy : (IZR (Zpos 4503599627370496~0) * bpow E
                  = IZR (Zpos 4503599627370496) * bpow (E + 1))%R).
    { rewrite bpow_succ, IZR_POS_xO. ring. }
    assert (Hy2 : (IZR (Zpos 4503599627370496) * bpow (E + 1) = bpow (E + 53))%R).
    { replace (E + 53) with (52 + (E + 1)) by lia. rewrite (bpow_add 52).
      rewrite (bpow_IZR 52) by lia. reflexivity. }
    rewrite Hy.
    destruct (Z.leb_spec (E + 1) 971) as [Hle|Hgt].
    - split.
      + intros _. split.
        * unfold valid_binary, bounded, canonical_mantissa. rewrite fexp_eq.
          change (Zpos (digits2_pos 4503599627370496)) with 53.
          change (emax - prec) with 971.
          apply andb_true_intro. split; [apply Z.eqb_eq | apply Z.leb_le]; lia.
        * right. eexists _, _. split; reflexivity.
      + intros Hov. rewrite Hy2 in Hov. apply bpow_le_inv in Hov. lia.
    - split.
      + intros Hlt. rewrite Hy2 in Hlt. apply bpow_lt_inv in Hlt. lia.
      + reflexivity. }
  (* the ordinary case *)
  assert (Hpos : 0 < m1 < 2 ^ 53) by lia.
  destruct m1 as [|p|p]; try lia.
  pose proof (digits2_pos_bounds p) as [Hd1 Hd2].
  assert (Hd : Zpos (digits2_pos p) <= 53).
  { destruct (Z_lt_le_dec 53 (Zpos (digits2_pos p))); [|assumption].
    assert (2 ^ 53 <= 2 ^ (Zpos (digits2_pos p) - 1)) by (apply Z.pow_le_mono_r; lia).
    lia. }
  assert (Hcanon : Z.max (Zpos (digits2_pos p) + E - 53) (-1074) = E).
  { destruct (Z.eq_dec E (-1074)) as [->|Hne2]; [lia|].
    specialize (Hlow Hne2).
    assert (53 <= Zpos (digits2_pos p)).
    { destruct (Z_lt_le_dec (Zpos (digits2_pos p)) 53); [|assumption].
      assert (2 ^ Zpos (digits2_pos p) <= 2 ^ 52) by (apply Z.pow_le_mono_r; lia).
      lia. }
    lia. }
  cbn [Zdigits2]. rewrite Hcanon, Z.sub_diag.
  cbn [shr shr_record_of_loc shr_m].
  destruct (Z.leb_spec E 971) as [Hle|Hgt].
  - split.
    + intros _. split.
      * unfold valid_binary, bounded, canonical_mantissa. rewrite fexp_eq, Hcanon.
        change (emax - prec) with 971.
        apply andb_true_intro. split; [apply Z.eqb_eq | apply Z.leb_le]; lia.
      * right. eexists _, _. split; reflexivity.
    + intros Hov.
      assert (IZR (Zpos p) < bpow 53)%R.
      { rewrite bpow_IZR by lia. apply IZR_lt. lia. }
      assert (bpow 53 * bpow E <= bpow 1024)%R.
      { rewrite <- bpow_add. apply bpow_le. lia. }
      nra.
  - split.
    + intros Hlt.
      assert (Hne2 : E <> -1074) by lia. specialize (Hlow Hne2).
      assert (bpow 52 <= IZR (Zpos p))%R.
      { rewrite bpow_IZR by lia. apply IZR_le. assumption. }
      assert (bpow 1024 <= bpow 52 * bpow E)%R.
      { rewrite <- bpow_add. apply bpow_le. lia. }
      nra.
    + reflexivity.
Qed.

Theorem binary_round_aux_correct s mx ex lx x :
  0 <= mx ->
  bracket (shr_record_of_loc mx lx) ex x ->
  ex <= fexp prec emax (Zdigits2 mx + ex) ->
  exists y, rounds x y /\ packed s y (binary_round_aux prec emax s mx ex lx).
Proof.
  intros Hm Hb He.
  destruct (bracket_cexp _ _ _ _ Hm Hb He) as [Hc Hx].
  unfold binary_round_aux. unfold shr_fexp at 1.
  set (E := fexp prec emax (Zdigits2 mx + ex)) in *.
  assert (Hm' : 0 <= shr_m (shr_record_of_loc mx lx)) by (rewrite shr_m_of_loc; assumption).
  assert (Hn : 0 <= E - ex) by lia.
  destruct (shr_bracket _ _ _ _ Hm' Hn Hb) as (Hb1 & Hm1 & He1).
  destruct (shr (shr_record_of_loc mx lx) ex (E - ex)) as [mrs' e'] eqn:Hshr.
  cbn [fst snd] in *. replace (ex + (E - ex)) with E in * by lia. subst e'.
  pose proof (round_nearest_even_rne _ _ _ Hb1) as Hr.
  set (m1 := round_nearest_even (shr_m mrs') (loc_of_shr_record mrs')) in *.
  exists (IZR m1 * bpow E)%R. split.
  - exists m1, E. auto.
  - destruct Hc as (HE & Hhi & Hlo).
    apply (renormalize s m1 E (x / bpow E)); try assumption.
    + split; [apply div_bpow_pos; assumption | apply div_bpow_lt; assumption].
    + destruct Hlo as [?|Hlo]; [left; assumption | right; apply div_bpow_le; assumption].
Qed.

(** ** Properties of rounding *)

Lemma rne_mono t1 t2 m1 m2 :
  rne t1 m1 -> rne t2 m2 -> (t1 <= t2)%R -> m1 <= m2.
Proof.
  intros [[A1 A2] A3] [[B1 B2] B3] Hle.
  destruct (Z_lt_le_dec m2 m1) as [Hlt|]; [|assumption].
  exfalso.
  assert (Hs : (IZR m2 + 1 <= IZR m1)%R).
  { rewrite <- succ_IZR. apply IZR_le. lia. }
  assert (E1 : (t1 = IZR m1 - /2)%R) by lra.
  assert (E2 : (t2 = IZR m2 + /2)%R) by lra.
  assert (m1 = m2 + 1).
  { apply eq_IZR. rewrite plus_IZR. lra. }
  specialize (A3 (or_introl E1)). specialize (B3 (or_intror E2)).
  subst m1. rewrite Z.even_add, B3 in A3. discriminate.
Qed.

Lemma rne_exact k : rne (IZR k) k.
Proof. split; [lra | intros [?|?]; lra]. Qed.

Lemma rne_unique t m1 m2 : rne t m1 -> rne t m2 -> m1 = m2.
Proof.
  intros H1 H2. apply Z.le_antisymm; eapply rne_mono; eauto; lra.
Qed.

Lemma cexp_mono x1 x2 e1 e2 :
  cexp x1 e1 -> cexp x2 e2 -> (x1 <= x2)%R -> e1 <= e2.
Proof.
  intros (A1 & A2 & A3) (B1 & B2 & B3) Hle.
  destruct (Z_lt_le_dec e2 e1) as [Hlt|]; [|assumption].
  exfalso. destruct A3 as [?|A3]; [lia|].
  assert (bpow (e1 + 52) < bpow (e2 + 53))%R by lra.
  apply bpow_lt_inv in H. lia.
Qed.

Lemma rounds_nonneg x y : rounds x y -> (0 <= x)%R -> (0 <= y)%R.
Proof.
  intros (m & e & Hc & Hr & ->) Hx.
  pose proof (bpow_gt_0 e).
  assert (0 <= m).
  { apply (rne_lower (x / bpow e)); [assumption|]. apply div_bpow_pos. assumption. }
  apply IZR_le in H0. nra.
Qed.

Lemma rounds_mono x1 x2 y1 y2 :
  rounds x1 y1 -> rounds x2 y2 -> (0 <= x1 <= x2)%R -> (y1 <= y2)%R.
Proof.
  intros (m1 & e1 & Hc1 & Hr1 & ->) (m2 & e2 & Hc2 & Hr2 & ->) [H0 Hle].
  pose proof (cexp_mono _ _ _ _ Hc1 Hc2 Hle) as He.
  pose proof (bpow_gt_0 e1) as Hu1. pose proof (bpow_gt_0 e2) as Hu2.
  destruct (Z.eq_dec e1 e2) as [->|Hne].
  - assert (m1 <= m2).
    { apply (rne_mono (x1 / bpow e2) (x2 / bpow e2)); try assumption.
      apply Rmult_le_compat_r; [|assumption].
      apply Rlt_le, Rinv_0_lt_compat. assumption. }
    apply IZR_le in H. nra.
  - assert (Hlt : e1 + 1 <= e2) by lia.
    destruct Hc1 as (A1 & A2 & A3). destruct Hc2 as (B1 & B2 & B3).
    destruct B3 as [?|B3]; [lia|].
    assert (m1 <= 2 ^ 53).
    { apply (rne_bounds (x1 / bpow e1)); [assumption|].
      rewrite <- bpow_IZR by lia.
      split; [apply div_bpow_pos; assumption | apply div_bpow_lt; assumption]. }
    assert (2 ^ 52 <= m2).
    { apply (rne_lower (x2 / bpow e2)); [assumption|].
      rewrite <- bpow_IZR by lia. apply div_bpow_le. assumption. }
    apply IZR_le in H, H1. rewrite <- bpow_IZR in H, H1 by lia.
    assert (bpow 53 * bpow e1 <= bpow 52 * bpow e2)%R.
    { rewrite <- !bpow_add. apply bpow_le. lia. }
    nra.
Qed.

Lemma rounds_unique x y1 y2 :
  rounds x y1 -> rounds x y2 -> (0 <= x)%R -> y1 = y2.
Proof.
  intros H1 H2 Hx. apply Rle_antisym; eapply rounds_mono; eauto; lra.
Qed.

(** In the normal range the relative error is at most [2^-53]. *)
Lemma rounds_error x y :
  rounds x y -> (bpow (-1022) <= x)%R ->
  (x * (1 - bpow (-53)) <= y <= x * (1 + bpow (-53)))%R.
Proof.
  intros (m & e & (A1 & A2 & A3) & [[R1 R2] _] & ->) Hx.
  pose proof (bpow_gt_0 e) as Hu.
  assert (Hn : (bpow (e + 52) <= x)%R).
  { destruct A3 as [->|]; [|assumption]. exact Hx. }
  assert (Hb : (bpow e = bpow (e + 52) * bpow (-52))%R).
  { rewrite <- bpow_add. f_equal. lia. }
  assert (Hh : (bpow (-53) = bpow (-52) / 2)%R).
  { change (-53) with (-52 - 1). apply bpow_pred. }
  pose proof (bpow_gt_0 (-52)) as H52. pose proof (bpow_gt_0 (e + 52)) as He52.
  assert (Ht := mul_div_bpow x e).
  set (t := (x / bpow e)%R) in *.
  assert (Hd : (bpow e <= x * bpow (-52))%R).
  { rewrite Hb. apply Rmult_le_compat_r; lra. }
  rewrite Hh. nra.
Qed.

(** A value with at most 53 significant bits on the grid rounds to itself. *)
Lemma rounds_exact n k :
  0 <= n < 2 ^ 53 -> -1074 <= k -> rounds (IZR n * bpow k) (IZR n * bpow k).
Proof.
  intros Hn Hk. pose proof (bpow_gt_0 k) as Huk.
  destruct (Z.eq_dec n 0) as [->|Hnz].
  - exists 0, (-1074). rewrite Rmult_0_l. split; [|split].
    + split; [lia|]. split; [apply bpow_gt_0 | left; reflexivity].
    + unfold Rdiv. rewrite Rmult_0_l. apply rne_exact.
    + ring.
  - assert (Hpos : 0 < n) by lia.
    pose proof (Zdigits2_bpow n Hpos) as [Hd1 Hd2].
    pose proof (Zdigits2_bounds n Hpos) as [Hz1 Hz2].
    assert (Hd : 1 <= Zdigits2 n <= 53).
    { split; [destruct n; simpl in *; lia|].
      destruct (Z_lt_le_dec 53 (Zdigits2 n)); [|assumption].
      assert (2 ^ 53 <= 2 ^ (Zdigits2 n - 1)) by (apply Z.pow_le_mono_r; lia). lia. }
    set (d := Zdigits2 n) in *.
    set (e := Z.max (d + k - 53) (-1074)).
    assert (He : 0 <= k - e) by lia.
    exists (n * 2 ^ (k - e)), e.
    assert (Hsplit : (bpow k = bpow (k - e) * bpow e)%R).
    { rewrite <- bpow_add. f_equal. lia. }
    pose proof (bpow_gt_0 e) as Hue.
    split; [|split].
    + split; [lia|]. split.
      * apply Rlt_le_trans with (bpow d * bpow k)%R; [nra|].
        rewrite <- bpow_add. apply bpow_le. lia.
      * destruct (Z_lt_le_dec (d + k - 53) (-1074)); [left; lia|right].
        replace (e + 52) with ((d - 1) + k) by lia. rewrite bpow_add. nra.
    + replace (IZR n * bpow k / bpow e)%R with (IZR (n * 2 ^ (k - e))).
      * apply rne_exact.
      * rewrite mult_IZR, <- bpow_IZR by lia. rewrite Hsplit. field. lra.
    + rewrite mult_IZR, <- bpow_IZR by lia. rewrite Hsplit. ring.
Qed.

Lemma rounds_int n y :
  0 <= n <= 2 ^ 53 -> rounds (IZR n) y -> y = IZR n.
Proof.
  intros Hn Hr.
  assert (0 <= IZR n)%R by (apply IZR_le; lia).
  apply (rounds_unique (IZR n)); [assumption| |assumption].
  destruct (Z.eq_dec n (2 ^ 53)) as [->|].
  - replace (IZR (2 ^ 53)) with (IZR (2 ^ 52) * bpow 1)%R.
    + apply rounds_exact; lia.
    + rewrite bpow_1, <- mult_IZR. reflexivity.
  - replace (IZR n) with (IZR n * bpow 0)%R by (rewrite bpow_0; ring).
    apply rounds_exact; lia.
Qed.

(** Rounding never crosses a power of two. *)
Lemma rounds_le_bpow x y k :
  rounds x y -> (0 <= x <= bpow k)%R -> -1074 <= k -> (y <= bpow k)%R.
Proof.
  intros Hr Hx Hk. apply (rounds_mono x (bpow k)); [assumption| |assumption].
  replace (bpow k) with (IZR 1 * bpow k)%R by ring. apply rounds_exact; lia.
Qed.

Lemma rounds_ge_bpow x y k :
  rounds x y -> (bpow k <= x)%R -> -1074 <= k -> (bpow k <= y)%R.
Proof.
  intros Hr Hx Hk. pose proof (bpow_gt_0 k).
  apply (rounds_mono (bpow k) x); [|assumption|lra].
  replace (bpow k) with (IZR 1 * bpow k)%R by ring. apply rounds_exact; lia.
Qed.

Lemma rounds_0 y : rounds 0 y -> y = 0%R.
Proof. intros H. apply (rounds_int 0); [lia | exact H]. Qed.

Lemma rounds_0_0 : rounds 0 0.
Proof.
  replace 0%R with (IZR 0 * bpow 0)%R at 1 by ring.
  replace 0%R with (IZR 0 * bpow 0)%R at 2 by ring.
  apply rounds_exact; lia.
Qed.

(** ** From rounded records back to primitive floats *)

Lemma packed_finite y sf :
  packed false y sf -> (y < bpow 1024)%R ->
  valid_binary sf = true /\ nonneg_finite_sf sf = true /\ SF2R sf = y.
Proof.
  intros [H _] Hy. destruct (H Hy) as [Hv [[-> ->] | (m & e & -> & ->)]].
  - auto.
  - split; [assumption|]. split; [reflexivity|]. simpl. ring.
Qed.

Lemma packed_overflow y sf :
  packed false y sf -> (bpow 1024 <= y)%R -> sf = S754_infinity false.
Proof. intros [_ H] Hy. auto. Qed.

Lemma nonneg_finite_SF2Prim sf :
  valid_binary sf = true -> nonneg_finite_sf sf = true ->
  nonneg_finite (SF2Prim sf) = true /\ F2R (SF2Prim sf) = SF2R sf.
Proof.
  intros Hv Hn. unfold nonneg_finite, F2R. rewrite Prim2SF_SF2Prim by assumption. auto.
Qed.

(** ** [float(n)] *)

Lemma digits2_pos_iter_xO d : forall p,
  Zpos (digits2_pos (Pos.iter xO p d)) = Zpos (digits2_pos p) + Zpos d.
Proof.
  induction d as [|d IH] using Pos.peano_ind; intros p.
  - simpl. lia.
  - rewrite Pos.iter_succ. simpl digits2_pos. rewrite Pos2Z.inj_succ, IH. lia.
Qed.

Lemma IZR_iter_xO d p :
  IZR (Zpos (Pos.iter xO p d)) = (IZR (Zpos p) * bpow (Zpos d))%R.
Proof.
  change (Pos.iter xO p d) with (shift_pos d p).
  rewrite shift_pos_correct, mult_IZR, bpow_IZR by lia.
  rewrite Z.pow_pos_fold. ring.
Qed.

Lemma shl_align_correct mx ex :
  let '(mz, ez) := shl_align mx ex (fexp prec emax (Zpos (digits2_pos mx) + ex)) in
  (IZR (Zpos mz) * bpow ez = IZR (Zpos mx) * bpow ex)%R /\
  ez <= fexp prec emax (Zpos (digits2_pos mz) + ez).
Proof.
  unfold shl_align.
  destruct (fexp prec emax (Zpos (digits2_pos mx) + ex) - ex) as [|d|d] eqn:Hd.
  - split; [reflexivity | lia].
  - split; [reflexivity | lia].
  - split.
    + rewrite IZR_iter_xO.
      replace ex with (Zpos d + fexp prec emax (Zpos (digits2_pos mx) + ex)) at 2 by lia.
      rewrite (bpow_add (Zpos d)). ring.
    + rewrite digits2_pos_iter_xO.
      replace (Zpos (digits2_pos mx) + Zpos d
               + fexp prec emax (Zpos (digits2_pos mx) + ex))
        with (Zpos (digits2_pos mx) + ex) by lia.
      lia.
Qed.

Lemma bracket_exact m e x :
  x = (IZR m * bpow e)%R -> bracket (shr_record_of_loc m loc_Exact) e x.
Proof.
  intros ->. unfold bracket. simpl. pose proof (bpow_gt_0 e). field. lra.
Qed.

Lemma binary_round_correct mx ex :
  exists y, rounds (IZR (Zpos mx) * bpow ex) y /\
            packed false y (binary_round prec emax false mx ex).
Proof.
  unfold binary_round. pose proof (shl_align_correct mx ex) as H.
  destruct (shl_align mx ex _) as [mz ez]. destruct H as [Hv He].
  rewrite <- Hv. apply binary_round_aux_correct; [lia | | exact He].
  apply bracket_exact. reflexivity.
Qed.

Theorem float_of_int_correct n :
  0 <= n ->
  exists y, rounds (IZR n) y /\
    ((y < bpow 1024)%R ->
       exists f, Py.float_of_int n = Ok f /\ nonneg_finite f = true /\ F2R f = y) /\
    ((bpow 1024 <= y)%R -> Py.float_of_int n = Raise OverflowError).
Proof.
  intros Hn. unfold Py.float_of_int. destruct n as [|p|p]; try lia.
  - exists 0%R. split; [apply rounds_0_0|]. split.
    + intros _. exists (SF2Prim (S754_zero false)). cbn. auto.
    + intros H. pose proof (bpow_gt_0 1024). lra.
  - cbn [binary_normalize].
    destruct (binary_round_correct p 0) as (y & Hr & Hp).
    rewrite bpow_0, Rmult_1_r in Hr. exists y. split; [assumption|]. split.
    + intros Hy. destruct (packed_finite _ _ Hp Hy) as (Hv & Hnn & Hval).
      exists (SF2Prim (binary_round prec emax false p 0)).
      destruct (nonneg_finite_SF2Prim _ Hv Hnn) as [H1 H2].
      split; [|split; [assumption | congruence]].
      destruct (binary_round prec emax false p 0); try discriminate; reflexivity.
    + intros Hy. rewrite (packed_overflow _ _ Hp Hy). reflexivity.
Qed.

Lemma float_of_int_small n :
  0 <= n <= 2 ^ 53 ->
  exists f, Py.float_of_int n = Ok f /\ nonneg_finite f = true /\ F2R f = IZR n.
Proof.
  intros Hn. destruct (float_of_int_correct n) as (y & Hr & H1 & _); [lia|].
  apply rounds_int in Hr; [|assumption]. subst y.
  apply H1. apply Rle_lt_trans with (bpow 53).
  - rewrite bpow_IZR by lia. apply IZR_le. lia.
  - apply bpow_lt. lia.
Qed.

(** ** Division *)

Lemma frac_cmp (r m f : R) :
  (0 < m)%R -> r = (f * m)%R ->
  ((2 * r < m -> f < /2) /\ (2 * r = m -> f = /2) /\ (m < 2 * r -> /2 < f) /\
   (0 < r -> 0 < f) /\ (r < m -> f < 1))%R.
Proof.
  intros Hm Hr. repeat split; intros H.
  - apply Rmult_lt_reg_r with m; lra.
  - apply Rmult_eq_reg_r with m; lra.
  - apply Rmult_lt_reg_r with m; lra.
  - apply Rmult_lt_reg_r with m; lra.
  - apply Rmult_lt_reg_r with m; lra.
Qed.

Lemma new_location_bracket q m2 r e x :
  0 < m2 -> 0 <= r < m2 ->
  (x / bpow e = IZR q + IZR r / IZR m2)%R ->
  bracket (shr_record_of_loc q (new_location m2 r)) e x.
Proof.
  intros Hm2 Hr Hx.
  assert (Hm2R : (0 < IZR m2)%R) by (apply IZR_lt; assumption).
  assert (HrR : (0 <= IZR r < IZR m2)%R) by (split; [apply IZR_le | apply IZR_lt]; lia).
  assert (Hfrac : forall c : R, (IZR r / IZR m2 = c -> IZR r = c * IZR m2)%R).
  { intros c Hc. rewrite <- Hc. field. lra. }
  set (f := (IZR r / IZR m2)%R) in *.
  assert (Hf : (IZR r = f * IZR m2)%R) by (apply Hfrac; reflexivity).
  clearbody f.
  destruct (frac_cmp _ _ _ Hm2R Hf) as (F1 & F2 & F3 & F4 & F5).
  assert (Hz : r = 0 -> f = 0%R).
  { intros ->. apply Rmult_eq_reg_r with (IZR m2); lra. }
  assert (Hnz : r <> 0 -> (0 < f < 1)%R).
  { intros Hne. assert (1 <= IZR r)%R by (apply IZR_le; lia).
    split; [apply F4 | apply F5]; lra. }
  unfold new_location.
  destruct (Z.even m2) eqn:Hev; unfold new_location_even, new_location_odd;
    destruct (Z.eqb_spec r 0) as [Hr0|Hr0];
    try (specialize (Hz Hr0); unfold bracket; simpl; lra);
    specialize (Hnz Hr0).
  - destruct (Z.compare_spec (2 * r) m2) as [Heq|Hlt|Hgt]; unfold bracket; simpl.
    + apply (f_equal IZR) in Heq. rewrite mult_IZR in Heq. specialize (F2 Heq). lra.
    + apply IZR_lt in Hlt. rewrite mult_IZR in Hlt. specialize (F1 Hlt). lra.
    + apply IZR_lt in Hgt. rewrite mult_IZR in Hgt. specialize (F3 Hgt). lra.
  - assert (Hodd : 2 * r <> m2).
    { intros <-. rewrite Z.even_mul in Hev. discriminate. }
    destruct (Z.compare_spec (2 * r + 1) m2) as [Heq|Hlt|Hgt]; unfold bracket; simpl.
    + assert (Hlt : 2 * r < m2) by lia.
      apply IZR_lt in Hlt. rewrite mult_IZR in Hlt. specialize (F1 Hlt). lra.
    + assert (Hlt' : 2 * r < m2) by lia.
      apply IZR_lt in Hlt'. rewrite mult_IZR in Hlt'. specialize (F1 Hlt'). lra.
    + assert (Hgt' : m2 < 2 * r) by lia.
      apply IZR_lt in Hgt'. rewrite mult_IZR in Hgt'. specialize (F3 Hgt'). lra.
Qed.

Lemma SFdiv_core_binary_correct m1 e1 m2 e2 :
  0 < m1 -> 0 < m2 ->
  let '(q, e', l) := SFdiv_core_binary prec emax m1 e1 m2 e2 in
  0 <= q /\
  bracket (shr_record_of_loc q l) e' (IZR m1 * bpow e1 / (IZR m2 * bpow e2)) /\
  e' <= fexp prec emax (Zdigits2 q + e').
Proof.
  intros H1 H2. unfold SFdiv_core_binary.
  set (D := Zdigits2 m1 + e1 - (Zdigits2 m2 + e2)).
  set (e' := Z.min (fexp prec emax D) (e1 - e2)).
  set (s := e1 - e2 - e').
  assert (Hs : 0 <= s) by (unfold s, e'; lia).
  set (m' := match s with Zpos _ => Z.shiftl m1 s | Z0 => m1 | Zneg _ => 0 end).
  assert (Hm' : m' = m1 * 2 ^ s).
  { unfold m'. destruct s as [|p|p] eqn:Es; try lia.
    rewrite Z.shiftl_mul_pow2 by lia. reflexivity. }
  pose proof (Z_div_mod m' m2 ltac:(lia)) as Hdiv.
  destruct (Z.div_eucl m' m2) as [q r]. destruct Hdiv as [Heq Hr].
  assert (Hm'pos : 0 < m').
  { rewrite Hm'. apply Z.mul_pos_pos; [assumption|]. apply Z.pow_pos_nonneg; lia. }
  assert (Hq : 0 <= q) by nia.
  pose proof (bpow_gt_0 e1) as Hu1. pose proof (bpow_gt_0 e2) as Hu2.
  pose proof (bpow_gt_0 e') as Hu'.
  assert (Hm1R : (0 < IZR m1)%R) by (apply IZR_lt; assumption).
  assert (Hm2R : (0 < IZR m2)%R) by (apply IZR_lt; assumption).
  set (x := (IZR m1 * bpow e1 / (IZR m2 * bpow e2))%R).
  assert (Hx : (x / bpow e' = IZR q + IZR r / IZR m2)%R).
  { assert (He1 : (bpow e1 = bpow s * bpow e2 * bpow e')%R).
    { rewrite <- !bpow_add. f_equal. unfold s. lia. }
    assert (Hmm : (IZR m1 * bpow s = IZR m2 * IZR q + IZR r)%R).
    { rewrite bpow_IZR by assumption. rewrite <- !mult_IZR, <- plus_IZR.
      f_equal. lia. }
    unfold x. rewrite He1.
    replace (IZR m1 * (bpow s * bpow e2 * bpow e') / (IZR m2 * bpow e2) / bpow e')%R
      with ((IZR m1 * bpow s) / IZR m2)%R by (field; lra).
    rewrite Hmm. field. lra. }
  split; [assumption|]. split.
  { apply new_location_bracket; assumption. }
  (* the quotient has enough digits *)
  assert (HrR : (0 <= IZR r < IZR m2)%R) by (split; [apply IZR_le | apply IZR_lt]; lia).
  assert (Ht : (IZR q <= x / bpow e' < IZR q + 1)%R).
  { rewrite Hx. split.
    - assert (0 <= IZR r / IZR m2)%R; [|lra].
      apply Rmult_le_pos; [lra|]. apply Rlt_le, Rinv_0_lt_compat. lra.
    - assert (IZR r / IZR m2 < 1)%R; [|lra].
      apply Rmult_lt_reg_r with (IZR m2); [lra|]. field_simplify; lra. }
  pose proof (Zdigits2_bpow m1 H1) as [Hd1 _].
  pose proof (Zdigits2_bpow m2 H2) as [_ Hd2].
  assert (Hxlo : (bpow (D - 1) < x)%R).
  { unfold x.
    assert (Hb : (bpow (D - 1) * (bpow (Zdigits2 m2) * bpow e2)
                  = bpow (Zdigits2 m1 - 1) * bpow e1)%R).
    { rewrite <- !bpow_add. f_equal. unfold D. lia. }
    pose proof (bpow_gt_0 (D - 1)). pose proof (bpow_gt_0 (Zdigits2 m2)).
    pose proof (bpow_gt_0 (Zdigits2 m1 - 1)).
    apply Rmult_lt_reg_r with (IZR m2 * bpow e2)%R; [nra|].
    replace (IZR m1 * bpow e1 / (IZR m2 * bpow e2) * (IZR m2 * bpow e2))%R
      with (IZR m1 * bpow e1)%R by (field; lra).
    apply Rlt_le_trans with (bpow (D - 1) * (bpow (Zdigits2 m2) * bpow e2))%R.
    - apply Rmult_lt_compat_l; [assumption|]. nra.
    - rewrite Hb. nra. }
  assert (Hxe : (x = x / bpow e' * bpow e')%R) by (rewrite mul_div_bpow; reflexivity).
  rewrite !fexp_eq. unfold e' at 1. rewrite fexp_eq.
  destruct (Z.eq_dec q 0) as [->|Hqnz].
  - simpl Zdigits2. simpl in Ht.
    assert (Hlt : (bpow (D - 1) < bpow e')%R) by nra.
    apply bpow_lt_inv in Hlt.
    assert (e' <= Z.max (D - 53) (-1074)) by (unfold e'; rewrite fexp_eq; lia).
    fold e'. lia.
  - assert (Hqpos : 0 < q) by lia.
    pose proof (Zdigits2_bounds q Hqpos) as [_ Hz2].
    assert (1 <= Zdigits2 q) by (destruct q; simpl in *; lia).
    assert (Hq1 : (IZR q + 1 <= bpow (Zdigits2 q))%R).
    { rewrite bpow_IZR by lia. rewrite <- succ_IZR. apply IZR_le. lia. }
    assert (Hlt : (bpow (D - 1) < bpow (Zdigits2 q + e'))%R).
    { rewrite (bpow_add (Zdigits2 q)). nra. }
    apply bpow_lt_inv in Hlt.
    assert (e' <= Z.max (D - 53) (-1074)) by (unfold e'; rewrite fexp_eq; lia).
    fold e'. lia.
Qed.

Theorem int_truediv_correct a b :
  0 <= a -> 0 < b ->
  exists y, rounds (IZR a / IZR b) y /\
    ((y < bpow 1024)%R ->
       exists f, Py.int_truediv a b = Ok f /\ nonneg_finite f = true /\ F2R f = y) /\
    ((bpow 1024 <= y)%R -> Py.int_truediv a b = Raise OverflowError).
Proof.
  intros Ha Hb. unfold Py.int_truediv.
  destruct (Z.eqb_spec b 0) as [|_]; [lia|].
  destruct (Z.eqb_spec a 0) as [->|Hnz].
  - exists 0%R. unfold Rdiv. rewrite Rmult_0_l. split; [apply rounds_0_0|]. split.
    + intros _. destruct (Z.ltb_spec b 0); [lia|]. exists zero. auto.
    + intros H. pose proof (bpow_gt_0 1024). lra.
  - assert (Hapos : 0 < a) by lia.
    unfold Py.int_truediv_sf.
    destruct (Z.ltb_spec a 0); [lia|]. destruct (Z.ltb_spec b 0); [lia|].
    rewrite !Z.abs_eq by lia. cbn [xorb].
    pose proof (SFdiv_core_binary_correct a 0 b 0 Hapos Hb) as Hc.
    destruct (SFdiv_core_binary prec emax a 0 b 0) as [[q e'] l].
    destruct Hc as (Hq & Hbr & He).
    rewrite bpow_0, !Rmult_1_r in Hbr.
    destruct (binary_round_aux_correct false q e' l _ Hq Hbr He) as (y & Hr & Hp).
    exists y. split; [assumption|]. split.
    + intros Hy. destruct (packed_finite _ _ Hp Hy) as (Hv & Hnn & Hval).
      exists (SF2Prim (binary_round_aux prec emax false q e' l)).
      destruct (nonneg_finite_SF2Prim _ Hv Hnn) as [G1 G2].
      split; [|split; [assumption | congruence]].
      destruct (binary_round_aux prec emax false q e' l); try discriminate; reflexivity.
    + intros Hy. rewrite (packed_overflow _ _ Hp Hy). reflexivity.
Qed.

Lemma packed_shape y sf : packed false y sf -> nonneg_sf sf = true.
Proof.
  intros [H1 H2]. destruct (Rlt_le_dec y (bpow 1024)) as [Hy|Hy].
  - destruct (H1 Hy) as [_ [[-> _] | (m & e & -> & _)]]; reflexivity.
  - rewrite (H2 Hy). reflexivity.
Qed.

Lemma valid_finite_canon s m e :
  valid_binary (S754_finite s m e) = true ->
  Z.max (Zpos (digits2_pos m) + e - 53) (-1074) = e /\ e <= 971.
Proof.
  unfold valid_binary, bounded, canonical_mantissa. rewrite fexp_eq.
  change (emax - prec) with 971.
  intros H. apply andb_prop in H. destruct H as [H1 H2].
  apply Z.eqb_eq in H1. apply Z.leb_le in H2. auto.
Qed.

Lemma digits2_pos_mul mx my :
  Zpos (digits2_pos mx) + Zpos (digits2_pos my) - 1 <= Zpos (digits2_pos (mx * my)).
Proof.
  pose proof (digits2_pos_bounds mx) as [A1 _].
  pose proof (digits2_pos_bounds my) as [B1 _].
  pose proof (digits2_pos_bounds (mx * my)) as [_ C2].
  assert (H : 2 ^ (Zpos (digits2_pos mx) - 1 + (Zpos (digits2_pos my) - 1))
              <= Zpos (mx * my)).
  { rewrite Z.pow_add_r by lia. rewrite Pos2Z.inj_mul. apply Z.mul_le_mono_nonneg; lia. }
  assert (Zpos (digits2_pos mx) - 1 + (Zpos (digits2_pos my) - 1)
          < Zpos (digits2_pos (mx * my))).
  { apply (Z.pow_lt_mono_r_iff 2); lia. }
  lia.
Qed.

Lemma SF2R_finite_pos m e : (0 < SF2R (S754_finite false m e))%R.
Proof.
  simpl. pose proof (bpow_gt_0 e).
  assert (0 < IZR (Zpos m))%R by (apply IZR_lt; lia). nra.
Qed.

Lemma nonneg_finite_F2R x : nonneg_finite x = true -> (0 <= F2R x)%R.
Proof.
  unfold nonneg_finite, F2R. destruct (Prim2SF x) as [s|s| |[|] m e]; try discriminate.
  - simpl. lra.
  - intros _. apply Rlt_le, SF2R_finite_pos.
Qed.

(** ** Products and quotients of primitive floats *)

Theorem mul_correct x y :
  nonneg_finite x = true -> nonneg_finite y = true ->
  exists r, rounds (F2R x * F2R y) r /\
    ((r < bpow 1024)%R ->
       nonneg_finite (x * y)%float = true /\ F2R (x * y)%float = r) /\
    ((bpow 1024 <= r)%R -> Prim2SF (x * y)%float = S754_infinity false).
Proof.
  unfold nonneg_finite, F2R. rewrite mul_spec.
  pose proof (Prim2SF_valid x) as Vx. pose proof (Prim2SF_valid y) as Vy.
  destruct (Prim2SF x) as [sx|sx| |[|] mx ex]; try discriminate;
    destruct (Prim2SF y) as [sy|sy| |[|] my ey]; try discriminate; intros _ _.
  1-3: exists 0%R; cbn [SF2R]; rewrite ?Rmult_0_l, ?Rmult_0_r;
       (split; [apply rounds_0_0|]); split;
       [ intros _; split; reflexivity
       | intros H; pose proof (bpow_gt_0 1024); lra ].
  apply valid_finite_canon in Vx, Vy. destruct Vx as [Cx _], Vy as [Cy _].
  pose proof (digits2_pos_mul mx my) as Hd.
  unfold SF64mul, SFmul. cbn [xorb].
  assert (Hb : bracket (shr_record_of_loc (Zpos (mx * my)) loc_Exact) (ex + ey)
                 (SF2R (S754_finite false mx ex) * SF2R (S754_finite false my ey))).
  { apply bracket_exact. cbn [SF2R]. rewrite Pos2Z.inj_mul, mult_IZR, bpow_add. ring. }
  assert (He : ex + ey <= fexp prec emax (Zdigits2 (Zpos (mx * my)) + (ex + ey))).
  { rewrite fexp_eq. cbn [Zdigits2].
    pose proof (Pos2Z.is_pos (digits2_pos mx)). pose proof (Pos2Z.is_pos (digits2_pos my)).
    lia. }
  destruct (binary_round_aux_correct false _ _ _ _ (Pos2Z.is_nonneg _) Hb He) as (r & Hr & Hp).
  exists r. split; [assumption|]. split.
  - intros Hy. destruct (packed_finite _ _ Hp Hy) as (_ & Hnn & Hval). auto.
  - intros Hy. apply (packed_overflow _ _ Hp Hy).
Qed.

Lemma Prim2SF_zero : Prim2SF zero = S754_zero false.
Proof. reflexivity. Qed.

Theorem div_correct x y :
  nonneg_finite x = true -> nonneg_finite y = true -> (0 < F2R y)%R ->
  Py.float_truediv x y = Ok (x / y)%float /\
  exists r, rounds (F2R x / F2R y) r /\
    ((r < bpow 1024)%R ->
       nonneg_finite (x / y)%float = true /\ F2R (x / y)%float = r) /\
    ((bpow 1024 <= r)%R -> Prim2SF (x / y)%float = S754_infinity false).
Proof.
  unfold Py.float_truediv, nonneg_finite, F2R. rewrite div_spec, eqb_spec, Prim2SF_zero.
  destruct (Prim2SF x) as [sx|sx| |[|] mx ex]; try discriminate;
    destruct (Prim2SF y) as [sy|sy| |[|] my ey]; try discriminate; intros _ _ Hy;
    try (cbn [SF2R] in Hy; lra).
  - split; [reflexivity|].
    exists 0%R. cbn [SF2R]. unfold Rdiv. rewrite Rmult_0_l.
    split; [apply rounds_0_0|]. split.
    + intros _. split; reflexivity.
    + intros H. pose proof (bpow_gt_0 1024). lra.
  - split; [reflexivity|].
    unfold SF64div, SFdiv. cbn [xorb].
    pose proof (SFdiv_core_binary_correct (Zpos mx) ex (Zpos my) ey
                  (Pos2Z.is_pos _) (Pos2Z.is_pos _)) as Hc.
    destruct (SFdiv_core_binary prec emax (Zpos mx) ex (Zpos my) ey) as [[q e'] l].
    destruct Hc as (Hq & Hbr & He).
    destruct (binary_round_aux_correct false q e' l _ Hq Hbr He) as (r & Hr & Hp).
    exists r. cbn [SF2R]. rewrite !Rmult_1_l. split; [assumption|]. split.
    + intros Hlt. destruct (packed_finite _ _ Hp Hlt) as (_ & Hnn & Hval). auto.
    + intros Hge. apply (packed_overflow _ _ Hp Hge).
Qed.

(** ** Comparisons *)

Lemma canon_lt m1 e1 m2 e2 :
  Z.max (Zpos (digits2_pos m1) + e1 - 53) (-1074) = e1 ->
  Z.max (Zpos (digits2_pos m2) + e2 - 53) (-1074) = e2 ->
  e1 < e2 ->
  (IZR (Zpos m1) * bpow e1 < IZR (Zpos m2) * bpow e2)%R.
Proof.
  intros C1 C2 Hlt.
  pose proof (digits2_pos_bounds m1) as [_ A2].
  pose proof (digits2_pos_bounds m2) as [B1 _].
  assert (D2 : Zpos (digits2_pos m2) = 53) by lia.
  assert (D1 : Zpos (digits2_pos m1) <= 53) by lia.
  rewrite D2 in B1.
  assert (Zpos m1 < 2 ^ 53).
  { apply Z.lt_le_trans with (2 ^ Zpos (digits2_pos m1)); [assumption|].
    apply Z.pow_le_mono_r; lia. }
  apply IZR_lt in H. apply IZR_le in B1. rewrite <- bpow_IZR in H, B1 by lia.
  pose proof (bpow_gt_0 e1). pose proof (bpow_gt_0 e2).
  assert (bpow 53 * bpow e1 <= bpow (53 - 1) * bpow e2)%R.
  { rewrite <- !bpow_add. apply bpow_le. lia. }
  nra.
Qed.

Lemma SFcompare_nonneg f1 f2 :
  valid_binary f1 = true -> valid_binary f2 = true ->
  nonneg_finite_sf f1 = true -> nonneg_finite_sf f2 = true ->
  match SFcompare f1 f2 with
  | Some Lt => (SF2R f1 < SF2R f2)%R
  | Some Eq => SF2R f1 = SF2R f2
  | Some Gt => (SF2R f2 < SF2R f1)%R
  | None => False
  end.
Proof.
  intros V1 V2 N1 N2.
  destruct f1 as [s1|s1| |[|] m1 e1]; try discriminate;
    destruct f2 as [s2|s2| |[|] m2 e2]; try discriminate.
  - reflexivity.
  - apply SF2R_finite_pos.
  - apply SF2R_finite_pos.
  - apply valid_finite_canon in V1, V2. destruct V1 as [C1 _], V2 as [C2 _].
    cbn [SFcompare SF2R]. rewrite !Rmult_1_l.
    destruct (Z.compare_spec e1 e2) as [->|Hlt|Hgt].
    + rewrite Pos.compare_cont_spec. cbn [Pos.switch_Eq].
      pose proof (bpow_gt_0 e2).
      destruct (Pos.compare_spec m1 m2) as [->|Hm|Hm].
      * reflexivity.
      * apply Rmult_lt_compat_r; [assumption|]. apply IZR_lt. lia.
      * apply Rmult_lt_compat_r; [assumption|]. apply IZR_lt. lia.
    + apply canon_lt; assumption.
    + apply canon_lt; assumption.
Qed.

Lemma ltb_nonneg x y :
  nonneg_finite x = true -> nonneg_finite y = true ->
  (PrimFloat.ltb x y = true <-> (F2R x < F2R y)%R).
Proof.
  intros Nx Ny. rewrite ltb_spec. unfold SFltb, F2R.
  pose proof (SFcompare_nonneg _ _ (Prim2SF_valid x) (Prim2SF_valid y) Nx Ny) as H.
  destruct (SFcompare (Prim2SF x) (Prim2SF y)) as [[| |]|]; try contradiction;
    split; intros G; try reflexivity; try discriminate; lra.
Qed.

Lemma leb_nonneg x y :
  nonneg_finite x = true -> nonneg_finite y = true ->
  (PrimFloat.leb x y = true <-> (F2R x <= F2R y)%R).
Proof.
  intros Nx Ny. rewrite leb_spec. unfold SFleb, F2R.
  pose proof (SFcompare_nonneg _ _ (Prim2SF_valid x) (Prim2SF_valid y) Nx Ny) as H.
  destruct (SFcompare (Prim2SF x) (Prim2SF y)) as [[| |]|]; try contradiction;
    split; intros G; try reflexivity; try discriminate; lra.
Qed.

(** [lo <= x <= hi] between two non-negative finite bounds makes [x] one. *)
Lemma between_nonneg_finite lo x hi :
  nonneg_finite lo = true -> nonneg_finite hi = true ->
  PrimFloat.leb lo x = true -> PrimFloat.leb x hi = true ->
  nonneg_finite x = true.
Proof.
  unfold nonneg_finite. rewrite !leb_spec. unfold SFleb.
  destruct (Prim2SF lo) as [sl|sl| |[|] ml el]; try discriminate;
    destruct (Prim2SF hi) as [sh|sh| |[|] mh eh]; try discriminate;
    destruct (Prim2SF x) as [sx|[|]| |[|] mx ex]; simpl; intros; try reflexivity;
      discriminate.
Qed.

(** ** Truncation *)

Lemma trunc_sf_spec sf :
  nonneg_finite_sf sf = true ->
  (IZR (Py.trunc_sf sf) <= SF2R sf < IZR (Py.trunc_sf sf) + 1)%R /\
  Py.floor_sf sf = Py.trunc_sf sf.
Proof.
  destruct sf as [s|s| |[|] m e]; try discriminate; intros _.
  - simpl. split; [lra | reflexivity].
  - split; [|destruct e; reflexivity].
    cbn [Py.trunc_sf SF2R]. rewrite Rmult_1_l.
    destruct e as [|p|p].
    + rewrite bpow_0. cbn [Z.shiftl]. lra.
    + rewrite (Z.shiftl_mul_pow2 (Zpos m) (Zpos p)) by lia.
      rewrite mult_IZR, <- bpow_IZR by lia. lra.
    + rewrite (Z.shiftr_div_pow2 (Zpos m) (Zpos p)) by lia.
      assert (Hp : 0 < 2 ^ Zpos p) by (apply Z.pow_pos_nonneg; lia).
      pose proof (Z_div_mod_eq_full (Zpos m) (2 ^ Zpos p)) as Hd.
      pose proof (Z.mod_pos_bound (Zpos m) (2 ^ Zpos p) Hp) as Hb.
      set (q := Zpos m / 2 ^ Zpos p) in *. set (r := Zpos m mod 2 ^ Zpos p) in *.
      assert (Hinv : (bpow (Zneg p) * bpow (Zpos p) = 1)%R).
      { rewrite <- bpow_add. change (Zneg p + Zpos p) with (- Zpos p + Zpos p).
        rewrite Z.add_opp_diag_l. reflexivity. }
      pose proof (bpow_gt_0 (Zneg p)) as Hu. pose proof (bpow_gt_0 (Zpos p)) as Hv.
      assert (Hm : (IZR (Zpos m) = bpow (Zpos p) * IZR q + IZR r)%R).
      { rewrite bpow_IZR by lia. rewrite <- mult_IZR, <- plus_IZR. f_equal. exact Hd. }
      assert (HrR : (0 <= IZR r < bpow (Zpos p))%R).
      { rewrite bpow_IZR by lia. split; [apply IZR_le | apply IZR_lt]; lia. }
      assert (Hru : (0 <= IZR r * bpow (Zneg p) < 1)%R).
      { split; [apply Rmult_le_pos; lra|].
        rewrite <- Hinv. rewrite (Rmult_comm (bpow (Zneg p))).
        apply Rmult_lt_compat_r; lra. }
      rewrite Hm.
      replace ((bpow (Zpos p) * IZR q + IZR r) * bpow (Zneg p))%R
        with (IZR q * (bpow (Zneg p) * bpow (Zpos p)) + IZR r * bpow (Zneg p))%R by ring.
      rewrite Hinv. lra.
Qed.

Theorem int_of_float_nonneg x :
  nonneg_finite x = true ->
  exists z, Py.int_of_float x = Ok z /\ Py.floor x = z /\ 0 <= z /\
            (IZR z <= F2R x < IZR z + 1)%R.
Proof.
  intros Hn. pose proof (nonneg_finite_F2R x Hn) as H0.
  unfold Py.int_of_float, Py.floor, nonneg_finite, F2R in *.
  destruct (trunc_sf_spec _ Hn) as [Hb Hf].
  exists (Py.trunc_sf (Prim2SF x)). split; [|split; [assumption|split; [|assumption]]].
  - destruct (Prim2SF x) as [s|s| |[|] m e]; try discriminate; reflexivity.
  - apply Z.lt_succ_r. apply lt_IZR. rewrite succ_IZR. lra.
Qed.

Lemma floor_unique (v : R) z1 z2 :
  (IZR z1 <= v < IZR z1 + 1)%R -> (IZR z2 <= v < IZR z2 + 1)%R -> z1 = z2.
Proof.
  intros H1 H2.
  assert (z1 < z2 + 1) by (apply lt_IZR; rewrite plus_IZR; lra).
  assert (z2 < z1 + 1) by (apply lt_IZR; rewrite plus_IZR; lra).
  lia.
Qed.

Lemma floor_mono (v1 v2 : R) z1 z2 :
  (IZR z1 <= v1 < IZR z1 + 1)%R -> (IZR z2 <= v2 < IZR z2 + 1)%R ->
  (v1 <= v2)%R -> z1 <= z2.
Proof.
  intros H1 H2 Hle.
  assert (z1 < z2 + 1) by (apply lt_IZR; rewrite plus_IZR; lra).
  lia.
Qed.

(** ** Signs of sums and products *)

Lemma binary_round_shape mx ex : nonneg_sf (binary_round prec emax false mx ex) = true.
Proof.
  destruct (binary_round_correct mx ex) as (y & _ & Hp). apply (packed_shape _ _ Hp).
Qed.

Lemma add_shape x y :
  nonneg_finite x = true -> nonneg_finite y = true ->
  nonneg_sf (Prim2SF (x + y)%float) = true.
Proof.
  unfold nonneg_finite. rewrite add_spec.
  destruct (Prim2SF x) as [sx|sx| |[|] mx ex]; try discriminate;
    destruct (Prim2SF y) as [sy|sy| |[|] my ey]; try discriminate; intros _ _.
  - destruct sx, sy; reflexivity.
  - reflexivity.
  - reflexivity.
  - unfold SF64add, SFadd. cbn [cond_Zopp Z.add binary_normalize].
    apply binary_round_shape.
Qed.

Lemma mul_shape x y :
  nonneg_sf (Prim2SF x) = true -> nonneg_sf (Prim2SF y) = true ->
  Prim2SF (x * y)%float = S754_nan \/ nonneg_sf (Prim2SF (x * y)%float) = true.
Proof.
  rewrite mul_spec.
  pose proof (Prim2SF_valid x) as Vx. pose proof (Prim2SF_valid y) as Vy.
  destruct (Prim2SF x) as [sx|[|]| |[|] mx ex]; try discriminate;
    destruct (Prim2SF y) as [sy|[|]| |[|] my ey]; try discriminate; intros _ _;
    try (left; reflexivity); try (right; reflexivity).
  right.
  apply valid_finite_canon in Vx, Vy. destruct Vx as [Cx _], Vy as [Cy _].
  pose proof (digits2_pos_mul mx my) as Hd.
  unfold SF64mul, SFmul. cbn [xorb].
  assert (Hb : bracket (shr_record_of_loc (Zpos (mx * my)) loc_Exact) (ex + ey)
                 (IZR (Zpos (mx * my)) * bpow (ex + ey))).
  { apply bracket_exact. reflexivity. }
  assert (He : ex + ey <= fexp prec emax (Zdigits2 (Zpos (mx * my)) + (ex + ey))).
  { rewrite fexp_eq. cbn [Zdigits2].
    pose proof (Pos2Z.is_pos (digits2_pos mx)). pose proof (Pos2Z.is_pos (digits2_pos my)).
    lia. }
  destruct (binary_round_aux_correct false _ _ _ _ (Pos2Z.is_nonneg _) Hb He) as (r & Hr & Hp).
  apply (packed_shape _ _ Hp).
Qed.

Lemma int_of_float_shape v z :
  nonneg_sf (Prim2SF v) = true -> Py.int_of_float v = Ok z -> nonneg_finite v = true.
Proof.
  unfold Py.int_of_float, nonneg_finite.
  destruct (Prim2SF v) as [s|[|]| |[|] m e]; simpl; intros; try reflexivity; discriminate.
Qed.


(** ** Bounded operations stay finite *)

Lemma bpow_1024_gt k : k <= 1023 -> (bpow k < bpow 1024)%R.
Proof. intros. apply bpow_lt. lia. Qed.

Lemma float_of_int_bounded n k :
  0 <= n <= 2 ^ k -> 0 <= k <= 1023 ->
  exists f, Py.float_of_int n = Ok f /\ nonneg_finite f = true /\
            rounds (IZR n) (F2R f) /\ (F2R f <= bpow k)%R.
Proof.
  intros Hn Hk. destruct (float_of_int_correct n) as (y & Hr & H1 & _); [lia|].
  assert (Hy : (y <= bpow k)%R).
  { apply (rounds_le_bpow (IZR n)); [assumption| |lia].
    rewrite bpow_IZR by lia. split; apply IZR_le; lia. }
  destruct H1 as (f & Hf & Hnn & Hv).
  { pose proof (bpow_1024_gt k ltac:(lia)). lra. }
  exists f. rewrite Hv. auto.
Qed.

Lemma int_truediv_bounded a b k :
  0 <= a -> 0 < b -> a <= b * 2 ^ k -> 0 <= k <= 1023 ->
  exists f, Py.int_truediv a b = Ok f /\ nonneg_finite f = true /\
            rounds (IZR a / IZR b) (F2R f) /\ (F2R f <= bpow k)%R.
Proof.
  intros Ha Hb Hab Hk. destruct (int_truediv_correct a b Ha Hb) as (y & Hr & H1 & _).
  assert (HbR : (0 < IZR b)%R) by (apply IZR_lt; assumption).
  assert (Hx : (0 <= IZR a / IZR b <= bpow k)%R).
  { split.
    - apply Rmult_le_pos; [apply IZR_le; assumption|].
      apply Rlt_le, Rinv_0_lt_compat. assumption.
    - apply Rmult_le_reg_r with (IZR b); [assumption|].
      replace (IZR a / IZR b * IZR b)%R with (IZR a) by (field; lra).
      rewrite bpow_IZR by lia. rewrite <- mult_IZR. apply IZR_le. lia. }
  assert (Hy : (y <= bpow k)%R) by (apply (rounds_le_bpow _ _ _ Hr Hx); lia).
  destruct H1 as (f & Hf & Hnn & Hv).
  { pose proof (bpow_1024_gt k ltac:(lia)). lra. }
  exists f. rewrite Hv. auto.
Qed.

Lemma mul_bounded x y a b :
  nonneg_finite x = true -> nonneg_finite y = true ->
  (F2R x <= bpow a)%R -> (F2R y <= bpow b)%R -> -1074 <= a + b <= 1023 ->
  nonneg_finite (x * y)%float = true /\
  rounds (F2R x * F2R y) (F2R (x * y)%float) /\
  (F2R (x * y)%float <= bpow (a + b))%R.
Proof.
  intros Nx Ny Hx Hy Hk.
  destruct (mul_correct x y Nx Ny) as (r & Hr & H1 & _).
  pose proof (nonneg_finite_F2R x Nx). pose proof (nonneg_finite_F2R y Ny).
  assert (Hp : (0 <= F2R x * F2R y <= bpow (a + b))%R).
  { rewrite bpow_add. split; [apply Rmult_le_pos; assumption|].
    apply Rmult_le_compat; assumption. }
  assert (Hle : (r <= bpow (a + b))%R) by (apply (rounds_le_bpow _ _ _ Hr Hp); lia).
  destruct H1 as [Hnn Hv].
  { pose proof (bpow_1024_gt (a + b) ltac:(lia)). lra. }
  rewrite Hv. auto.
Qed.

Lemma div_bounded x y a b :
  nonneg_finite x = true -> nonneg_finite y = true ->
  (F2R x <= bpow a)%R -> (bpow b <= F2R y)%R -> -1074 <= a - b <= 1023 ->
  Py.float_truediv x y = Ok (x / y)%float /\
  nonneg_finite (x / y)%float = true /\
  rounds (F2R x / F2R y) (F2R (x / y)%float) /\
  (F2R (x / y)%float <= bpow (a - b))%R.
Proof.
  intros Nx Ny Hx Hy Hk.
  pose proof (bpow_gt_0 b) as Hb.
  destruct (div_correct x y Nx Ny ltac:(lra)) as (Hd & r & Hr & H1 & _).
  pose proof (nonneg_finite_F2R x Nx).
  assert (Hp : (0 <= F2R x / F2R y <= bpow (a - b))%R).
  { split.
    - apply Rmult_le_pos; [assumption|]. apply Rlt_le, Rinv_0_lt_compat. lra.
    - apply Rmult_le_reg_r with (F2R y); [lra|].
      replace (F2R x / F2R y * F2R y)%R with (F2R x) by (field; lra).
      apply Rle_trans with (bpow (a - b) * bpow b)%R.
      + rewrite <- bpow_add. replace (a - b + b) with a by lia. assumption.
      + apply Rmult_le_compat_l; [apply Rlt_le, bpow_gt_0 | assumption]. }
  assert (Hle : (r <= bpow (a - b))%R) by (apply (rounds_le_bpow _ _ _ Hr Hp); lia).
  destruct H1 as [Hnn Hv].
  { pose proof (bpow_1024_gt (a - b) ltac:(lia)). lra. }
  rewrite Hv. auto.
Qed.

(** A positive finite float is below the power of two after its digits. *)
Lemma F2R_lt_bpow x m e :
  Prim2SF x = S754_finite false m e -> (F2R x < bpow (e + 53))%R.
Proof.
  intros Hx. pose proof (Prim2SF_valid x) as Hv. unfold F2R. rewrite Hx in *.
  apply valid_finite_canon in Hv. destruct Hv as [Hc _].
  pose proof (digits2_pos_bounds m) as [_ Hd].
  assert (Zpos m < 2 ^ 53).
  { apply Z.lt_le_trans with (2 ^ Zpos (digits2_pos m)); [assumption|].
    apply Z.pow_le_mono_r; lia. }
  apply IZR_lt in H. rewrite <- bpow_IZR in H by lia.
  cbn [SF2R]. rewrite Rmult_1_l, (Z.add_comm e), bpow_add.
  apply Rmult_lt_compat_r; [apply bpow_gt_0 | assumption].
Qed.

(** [lo <= x <= hi] as Python evaluates it on floats. *)
Lemma in_range_spec lo hi x m e :
  nonneg_finite lo = true ->
  Prim2SF hi = S754_finite false m e ->
  PrimFloat.leb lo x = true -> PrimFloat.leb x hi = true ->
  nonneg_finite x = true /\ (F2R lo <= F2R x /\ F2R x < bpow (e + 53))%R.
Proof.
  intros Nlo Hhi H1 H2.
  assert (Nhi : nonneg_finite hi = true) by (unfold nonneg_finite; rewrite Hhi; reflexivity).
  pose proof (between_nonneg_finite lo x hi Nlo Nhi H1 H2) as Nx.
  split; [assumption|].
  apply leb_nonneg in H1, H2; try assumption.
  pose proof (F2R_lt_bpow hi m e Hhi). lra.
Qed.

(** [int(x * y)] of non-negative operands is the floor of the product. *)
Lemma int_of_mul_floor x y z :
  nonneg_sf (Prim2SF x) = true -> nonneg_sf (Prim2SF y) = true ->
  Py.int_of_float (x * y)%float = Ok z ->
  z = Py.floor (x * y)%float /\ 0 <= z /\ nonneg_finite (x * y)%float = true.
Proof.
  intros Nx Ny Hz.
  destruct (mul_shape x y Nx Ny) as [Hnan|Hs].
  - unfold Py.int_of_float in Hz. rewrite Hnan in Hz. discriminate.
  - pose proof (int_of_float_shape _ _ Hs Hz) as Hn.
    destruct (int_of_float_nonneg _ Hn) as (z' & Hz' & Hf & H0 & _).
    rewrite Hz in Hz'. injection Hz' as <-. auto.
Qed.

Lemma nonneg_finite_sf_shape x : nonneg_finite x = true -> nonneg_sf (Prim2SF x) = true.
Proof.
  unfold nonneg_finite. destruct (Prim2SF x) as [s|s| |[|] m e]; try discriminate; reflexivity.
Qed.

Lemma float_of_int_shape n f :
  0 <= n -> Py.float_of_int n = Ok f -> nonneg_finite f = true.
Proof.
  intros Hn Hf. destruct (float_of_int_correct n Hn) as (y & _ & H1 & H2).
  destruct (Rlt_le_dec y (bpow 1024)) as [Hy|Hy].
  - destruct (H1 Hy) as (f' & Hf' & Hnn & _). congruence.
  - rewrite (H2 Hy) in Hf. discriminate.
Qed.

Lemma int_truediv_shape a b f :
  0 <= a -> 0 < b -> Py.int_truediv a b = Ok f -> nonneg_finite f = true.
Proof.
  intros Ha Hb Hf. destruct (int_truediv_correct a b Ha Hb) as (y & _ & H1 & H2).
  destruct (Rlt_le_dec y (bpow 1024)) as [Hy|Hy].
  - destruct (H1 Hy) as (f' & Hf' & Hnn & _). congruence.
  - rewrite (H2 Hy) in Hf. discriminate.
Qed.


(** ** Running the session monad *)

Lemma run_bind {A B} (m : M A) (k : A -> M B) s :
  bind m k s = match m s with
               | (s', Ok a) => k a s'
               | (s', Raise e) => (s', Raise e)
               end.
Proof. reflexivity. Qed.

Lemma first_country_run country_id s :
  first_country country_id s =
  (s, Ok (find (fun c => Country.id c =? country_id) (countries (working s)))).
Proof. reflexivity. Qed.

Lemma calculate_military_strength_run country_id s :
  MilitaryService.calculate_military_strength country_id s =
  (s, Ok (military_strength (working s) country_id)).
Proof. reflexivity. Qed.


(** * Properties of the services *)

(** ** C7: guards of [attack] *)

(** C7. If the attacker and the defender are the same nation, or the
    attacker's aggregate strength is zero (or less), [attack] raises
    (ValidationError or ResourceError) whatever the random draws are, and
    the store it leaves is the store it found: no Battle row, no change to
    any nation's units or resources. *)
Theorem attack_rejected_before_resolution :
  forall (rolls : Rolls) (now : Py.datetime) (db : Database) (attacker_id defender_id : Z),
    attacker_id = defender_id \/ military_strength db attacker_id <= 0 ->
    exists e, (e = ValidationError \/ e = ResourceError) /\
              run (MilitaryService.attack rolls now attacker_id defender_id) db
              = (db, Raise e).
Proof.
  intros rolls now db a d H.
  unfold run, MilitaryService.attack.
  rewrite run_bind, first_country_run. cbn [working].
  destruct (find (fun c => Country.id c =? a) (countries db)) as [ca|];
    [|exists ValidationError; split; [left|]; reflexivity].
  rewrite run_bind, first_country_run. cbn [working].
  destruct (find (fun c => Country.id c =? d) (countries db)) as [cd|];
    [|exists ValidationError; split; [left|]; reflexivity].
  destruct (Z.eqb_spec a d) as [Heq|Hne];
    [exists ValidationError; split; [left|]; reflexivity|].
  destruct H as [H|H]; [contradiction|].
  rewrite run_bind, calculate_military_strength_run.
  rewrite run_bind, calculate_military_strength_run. cbn [working].
  destruct (Z.leb_spec (military_strength db a) 0) as [_|Hgt]; [|lia].
  exists ResourceError. split; [right|]; reflexivity.
Qed.

Lemma attack_rejected_witness :
  exists e, (e = ValidationError \/ e = ResourceError) /\
            run (MilitaryService.attack (mkRolls 1 0.2 0.1 0.15) 0 1 1) two_nations_db
            = (two_nations_db, Raise e).
Proof.
  apply (attack_rejected_before_resolution (mkRolls 1 0.2 0.1 0.15) 0 two_nations_db 1 1).
  left. reflexivity.
Defined.

(** ** C10: the two strength computations *)

(** C10. The two computations disagree. For a freshly created nation (100
    infantry, 10 tanks, 5 ships, 5 aircraft, all at technology level 1) the
    status query reports [total_strength = 120], the sum of quantity times
    technology level, while [calculate_military_strength] returns [240],
    the sum of quantity times category multiplier times technology level. *)
Theorem status_strength_differs_from_battle_strength :
  exists st,
    run (CountryService.get_country_status 1) fresh_nation_db = (fresh_nation_db, Ok st) /\
    CountryStatus.total_strength st = 120 /\
    run (MilitaryService.calculate_military_strength 1) fresh_nation_db
    = (fresh_nation_db, Ok 240) /\
    CountryStatus.total_strength st <> 240.
Proof.
  eexists. split; [vm_compute; reflexivity|].
  split; [reflexivity|]. split; [vm_compute; reflexivity|].
  cbn. discriminate.
Qed.


(** ** C2: battle resolution *)

Lemma lt_08_not_gt_12 x : Py.lt x 0.8 = true -> Py.gt x 1.2 = false.
Proof.
  unfold Py.lt, Py.gt. rewrite !ltb_spec. unfold SFltb.
  change (Prim2SF 0.8) with (S754_finite false 7205759403792794 (-53)).
  change (Prim2SF 1.2) with (S754_finite false 5404319552844595 (-52)).
  destruct (Prim2SF x) as [s|[|]| |[|] m e]; try reflexivity; try discriminate.
  cbn [SFcompare].
  destruct (Z.compare_spec e (-53)) as [->|Hlt|Hgt].
  - reflexivity.
  - intros _. destruct (Z.compare_spec (-52) e); try reflexivity; lia.
  - discriminate.
Qed.

Lemma in_range_true lo hi x :
  in_range lo hi x = true -> PrimFloat.leb lo x = true /\ PrimFloat.leb x hi = true.
Proof. unfold in_range. intros H. apply andb_prop in H. exact H. Qed.

Lemma rolls_in_range_spec rolls :
  rolls_in_range rolls = true ->
  (nonneg_finite (random_factor rolls) = true /\ (F2R (random_factor rolls) < bpow 1)%R) /\
  (nonneg_finite (base_casualty_rate rolls) = true /\
   (F2R (base_casualty_rate rolls) < bpow (-1))%R) /\
  (nonneg_finite (territory_roll rolls) = true /\ (F2R (territory_roll rolls) < bpow (-2))%R) /\
  (nonneg_finite (resources_roll rolls) = true /\ (F2R (resources_roll rolls) < bpow (-2))%R).
Proof.
  unfold rolls_in_range. intros H.
  apply andb_prop in H. destruct H as [H H4].
  apply andb_prop in H. destruct H as [H H3].
  apply andb_prop in H. destruct H as [H1 H2].
  apply in_range_true in H1, H2, H3, H4.
  destruct H1 as [A1 B1], H2 as [A2 B2], H3 as [A3 B3], H4 as [A4 B4].
  repeat split.
  - apply (between_nonneg_finite 0.8 _ 1.2); auto.
  - apply (in_range_spec 0.8 1.2 _ 5404319552844595 (-52)); auto.
  - apply (between_nonneg_finite 0.1 _ 0.3); auto.
  - apply (in_range_spec 0.1 0.3 _ 5404319552844595 (-54)); auto.
  - apply (between_nonneg_finite 0.05 _ 0.15); auto.
  - apply (in_range_spec 0.05 0.15 _ 5404319552844595 (-55)); auto.
  - apply (between_nonneg_finite 0.1 _ 0.2); auto.
  - apply (in_range_spec 0.1 0.2 _ 7205759403792794 (-55)); auto.
Qed.

(** [int(n * x)] for a bounded int and a rate of at most [2^k]. *)
Lemma int_of_int_mul_float n x k :
  0 <= n < 2 ^ 63 -> nonneg_finite x = true -> (F2R x <= bpow k)%R -> -1074 <= 63 + k <= 1023 ->
  exists y z, Py.int_mul_float n x = Ok y /\ Py.int_of_float y = Ok z /\
              z = Py.floor y /\ 0 <= z /\ nonneg_finite y = true /\
              exists f, Py.float_of_int n = Ok f /\ y = (f * x)%float
                        /\ nonneg_finite f = true /\ rounds (IZR n) (F2R f)
                        /\ rounds (F2R f * F2R x) (F2R y).
Proof.
  intros Hn Nx Hx Hk.
  destruct (float_of_int_bounded n 63) as (f & Hf & Nf & Hr & Hb); [lia|lia|].
  destruct (mul_bounded f x 63 k Nf Nx Hb Hx Hk) as (Ny & Hry & Hby).
  destruct (int_of_float_nonneg _ Ny) as (z & Hz & Hfl & H0 & _).
  exists (f * x)%float, z. unfold Py.int_mul_float. rewrite Hf. cbn [rbind].
  repeat split; auto. exists f. auto.
Qed.

Lemma int_of_float_mul_int x n k :
  0 <= n < 2 ^ 63 -> nonneg_finite x = true -> (F2R x <= bpow k)%R -> -1074 <= k + 63 <= 1023 ->
  exists y z, Py.float_mul_int x n = Ok y /\ Py.int_of_float y = Ok z /\
              z = Py.floor y /\ 0 <= z /\ nonneg_finite y = true /\
              exists f, Py.float_of_int n = Ok f /\ y = (x * f)%float
                        /\ nonneg_finite f = true /\ rounds (IZR n) (F2R f)
                        /\ rounds (F2R x * F2R f) (F2R y).
Proof.
  intros Hn Nx Hx Hk.
  destruct (float_of_int_bounded n 63) as (f & Hf & Nf & Hr & Hb); [lia|lia|].
  destruct (mul_bounded x f k 63 Nx Nf Hx Hb Hk) as (Ny & Hry & Hby).
  destruct (int_of_float_nonneg _ Ny) as (z & Hz & Hfl & H0 & _).
  exists (x * f)%float, z. unfold Py.float_mul_int. rewrite Hf. cbn [rbind].
  repeat split; auto. exists f. auto.
Qed.

Lemma rate_bounded result base :
  nonneg_finite base = true -> (F2R base < bpow (-1))%R ->
  (nonneg_finite (attacker_rate result base) = true /\
   (F2R (attacker_rate result base) <= bpow 0)%R) /\
  (nonneg_finite (defender_rate result base) = true /\
   (F2R (defender_rate result base) <= bpow 0)%R).
Proof.
  intros Nb Hb.
  assert (N7 : nonneg_finite 0.7 = true) by reflexivity.
  assert (N13 : nonneg_finite 1.3 = true) by reflexivity.
  pose proof (F2R_lt_bpow 0.7 6305039478318694 (-53) eq_refl) as H7.
  pose proof (F2R_lt_bpow 1.3 5854679515581645 (-52) eq_refl) as H13.
  change (-53 + 53) with 0 in H7. change (-52 + 53) with 1 in H13.
  destruct (mul_bounded base 0.7 (-1) 0 Nb N7 ltac:(lra) ltac:(lra) ltac:(lia)) as (A1 & _ & A2).
  destruct (mul_bounded base 1.3 (-1) 1 Nb N13 ltac:(lra) ltac:(lra) ltac:(lia)) as (B1 & _ & B2).
  change (-1 + 0) with (-1) in A2. change (-1 + 1) with 0 in B2.
  assert (bpow (-1) <= bpow 0)%R by (apply bpow_le; lia).
  destruct result; cbn [attacker_rate defender_rate]; repeat split; auto; lra.
Qed.


Lemma bpow_lt_le a b : a <= b -> forall x, (x < bpow a)%R -> (x <= bpow b)%R.
Proof. intros H x Hx. pose proof (bpow_le a b H). lra. Qed.

(** The outcome and the casualty counts, for strengths and a defender
    balance that fit a 63-bit column. *)
Lemma battle_rules rolls attacker_strength defender_strength attacker defender :
  rolls_in_range rolls = true ->
  0 <= attacker_strength < 2 ^ 63 -> 0 <= defender_strength < 2 ^ 63 ->
  0 <= Country.resources defender < 2 ^ 63 ->
  battle_rules_hold rolls attacker_strength defender_strength attacker defender.
Proof.
  intros Hrolls Ha Hd Hres. unfold battle_rules_hold.
  destruct (rolls_in_range_spec rolls Hrolls)
    as (_ & (Nb & Hb) & (Nt & Ht) & (Nr & Hr)).
  destruct (int_truediv_bounded attacker_strength (Z.max defender_strength 1) 63)
    as (ratio & Hratio & _); try lia.
  unfold MilitaryService._calculate_battle_result. rewrite Hratio. cbn [rbind].
  set (adjusted := (ratio * random_factor rolls)%float).
  set (result := if Py.gt adjusted 1.2 then VICTORY
                 else if Py.lt adjusted 0.8 then DEFEAT else DRAW).
  assert (Hrates :
    (let '(attacker_casualty_rate, defender_casualty_rate) :=
       match result with
       | VICTORY => ((base_casualty_rate rolls * 0.7)%float,
                     (base_casualty_rate rolls * 1.3)%float)
       | DEFEAT => ((base_casualty_rate rolls * 1.3)%float,
                    (base_casualty_rate rolls * 0.7)%float)
       | DRAW => (base_casualty_rate rolls, base_casualty_rate rolls)
       end in (attacker_casualty_rate, defender_casualty_rate))
    = (attacker_rate result (base_casualty_rate rolls),
       defender_rate result (base_casualty_rate rolls))).
  { destruct result; reflexivity. }
  destruct (rate_bounded result _ Nb Hb) as ((Na & Hra) & (Nd & Hrd)).
  destruct (int_of_int_mul_float attacker_strength _ 0 Ha Na Hra ltac:(lia))
    as (xa & ca & Hxa & Hca & Hfa & Hca0 & _).
  destruct (int_of_int_mul_float defender_strength _ 0 Hd Nd Hrd ltac:(lia))
    as (xd & cd & Hxd & Hcd & Hfd & Hcd0 & _).
  destruct (int_of_float_mul_int (territory_roll rolls) 100 (-2) ltac:(lia) Nt
              ltac:(lra) ltac:(lia))
    as (xt & tg & Hxt & Htg & Hft & _).
  destruct (int_of_float_mul_int (resources_roll rolls) (Country.resources defender) (-2)
              Hres Nr ltac:(lra) ltac:(lia))
    as (xr & rc & Hxr & Hrc & Hfr & Hrc0 & _).
  assert (Hiff :
    (result = VICTORY <-> Py.gt adjusted 1.2 = true) /\
    (result = DEFEAT <-> Py.lt adjusted 0.8 = true) /\
    (result = DRAW <-> Py.gt adjusted 1.2 = false /\ Py.lt adjusted 0.8 = false)).
  { unfold result. pose proof (lt_08_not_gt_12 adjusted) as Hx.
    destruct (Py.gt adjusted 1.2) eqn:E1; destruct (Py.lt adjusted 0.8) eqn:E2;
      try (specialize (Hx eq_refl); discriminate);
      repeat split; intros; try reflexivity; try discriminate;
        try (destruct H; discriminate). }
  exists ratio, result, ca, cd,
    (match result with VICTORY => tg | _ => 0 end),
    (match result with VICTORY => rc | _ => 0 end).
  split; [reflexivity|]. split.
  - destruct result eqn:Eres; cbn [attacker_rate defender_rate] in *;
      rewrite Hxa; cbn [rbind]; rewrite Hca; cbn [rbind];
      rewrite Hxd; cbn [rbind]; rewrite Hcd; cbn [rbind];
      try reflexivity.
    rewrite Hxt. cbn [rbind]. rewrite Htg. cbn [rbind].
    rewrite Hxr. cbn [rbind]. rewrite Hrc. reflexivity.
  - destruct Hiff as (I1 & I2 & I3).
    split; [exact I1|]. split; [exact I2|]. split; [exact I3|].
    split; [exists xa; auto|]. split; [exists xd; auto|].
    split; [|split].
    + intros ->. split; [exists xt; auto|]. split; [exists xr; auto | assumption].
    + intros Hne. destruct result; [contradiction| |]; auto.
    + auto.
Qed.

(** C2 (amended). For draws in the ranges of the four [random.uniform] calls
    and strengths and a defender balance that fit a 63-bit column,
    [_calculate_battle_result] returns; with adjusted = (attacker_strength /
    max(defender_strength, 1)) * multiplier in binary64, the outcome is
    VICTORY iff adjusted > 1.2, DEFEAT iff adjusted < 0.8, DRAW otherwise; the
    winner's rate is base * 0.7, the loser's base * 1.3, both base on a draw;
    each side loses floor(strength * rate).  For strengths 1000 and 500,
    multiplier 1.0 and base rate 0.2 the result is VICTORY with attacker
    casualties 139 (1000 * (0.2 * 0.7) is 139.99999999999997 in binary64) and
    defender casualties 130. *)
Theorem battle_resolution_rules :
  forall rolls attacker_strength defender_strength attacker defender,
    rolls_in_range rolls = true ->
    0 <= attacker_strength < 2 ^ 63 -> 0 <= defender_strength < 2 ^ 63 ->
    0 <= Country.resources defender < 2 ^ 63 ->
    battle_rules_hold rolls attacker_strength defender_strength attacker defender /\
    exists tg rc,
      MilitaryService._calculate_battle_result
        (mkRolls 1 0.2 (territory_roll rolls) (resources_roll rolls))
        1000 500 attacker defender
      = Ok (VICTORY, 139, 130, tg, rc).
Proof.
  intros rolls a d att def Hrolls Ha Hd Hres.
  split; [apply battle_rules; assumption|].
  assert (Hrolls' : rolls_in_range
            (mkRolls 1 0.2 (territory_roll rolls) (resources_roll rolls)) = true).
  { unfold rolls_in_range in *. cbn [random_factor base_casualty_rate territory_roll
      resources_roll].
    apply andb_prop in Hrolls. destruct Hrolls as [H H4].
    apply andb_prop in H. destruct H as [H H3].
    rewrite H3, H4. reflexivity. }
  destruct (battle_rules _ 1000 500 att def Hrolls' ltac:(lia) ltac:(lia) Hres)
    as (ratio & result & ca & cd & tg & rc & Hratio & Hcall & Hv & _ & _ & Ha' & Hd' & _).
  cbn [random_factor base_casualty_rate] in *.
  vm_compute in Hratio. injection Hratio as <-.
  assert (Hres' : result = VICTORY) by (apply Hv; reflexivity).
  subst result.
  destruct Ha' as (xa & Hxa & ->). destruct Hd' as (xd & Hxd & ->).
  vm_compute in Hxa. injection Hxa as <-.
  vm_compute in Hxd. injection Hxd as <-.
  exists tg, rc. exact Hcall.
Qed.

Lemma battle_resolution_rules_witness :
  battle_rules_hold scenario_rolls 1000 500 scenario_attacker scenario_defender /\
  exists tg rc,
    MilitaryService._calculate_battle_result
      (mkRolls 1 0.2 (territory_roll scenario_rolls) (resources_roll scenario_rolls))
      1000 500 scenario_attacker scenario_defender
    = Ok (VICTORY, 139, 130, tg, rc).
Proof.
  apply (battle_resolution_rules scenario_rolls 1000 500 scenario_attacker scenario_defender).
  - reflexivity.
  - lia.
  - lia.
  - simpl. lia.
Defined.

(** C2 as stated fails on its own scenario: with strengths 1000 and 500,
    multiplier 1.0 and base rate 0.2 the attacker loses 139, not 140. *)
Lemma battle_scenario_attacker_loses_139 :
  exists ca,
    MilitaryService._calculate_battle_result scenario_rolls 1000 500
      scenario_attacker scenario_defender
    = Ok (VICTORY, ca, 130, 10, 150) /\ ca = 139 /\ ca <> 140.
Proof.
  exists 139. split; [vm_compute; reflexivity|]. split; [reflexivity | discriminate].
Qed.


(** ** The casualty loop on the session *)

Lemma same_but_units_refl db : same_but_units db db.
Proof. repeat split. Qed.

Lemma same_but_units_trans a b c :
  same_but_units a b -> same_but_units b c -> same_but_units a c.
Proof.
  intros (A1 & A2 & A3 & A4) (B1 & B2 & B3 & B4). repeat split; congruence.
Qed.

Lemma same_but_units_set tbl db : same_but_units db (set_military_units tbl db).
Proof. repeat split. Qed.

Lemma for_each_losses T S units : forall s,
  exists w,
    for_each units (fun unit =>
      c <- lift (MilitaryService.unit_casualties T S unit) ;;
      modify_unit (MilitaryUnit.id unit)
        (fun u => MilitaryUnit.set_quantity (MilitaryUnit.quantity unit - c) u)) s
    = (mkSession (committed s) w,
       match apply_losses T S units (military_units (working s)) with
       | Ok _ => Ok tt
       | Raise e => Raise e
       end) /\
    same_but_units (working s) w /\
    (forall tbl, apply_losses T S units (military_units (working s)) = Ok tbl ->
                 w = set_military_units tbl (working s)).
Proof.
  induction units as [|unit units IH]; intros [cm wk].
  - exists wk. cbn. split; [reflexivity|]. split; [apply same_but_units_refl|].
    intros tbl [= <-]. destruct wk; reflexivity.
  - cbn [for_each apply_losses]. rewrite !run_bind.
    unfold lift at 1. cbn [working committed].
    destruct (MilitaryService.unit_casualties T S unit) as [c|e] eqn:Hc; cbn [rbind].
    + unfold modify_unit at 1, modify at 1. cbn [working committed].
      destruct (IH (mkSession cm
        (set_military_units
           (map (fun u => if MilitaryUnit.id u =? MilitaryUnit.id unit
                          then MilitaryUnit.set_quantity (MilitaryUnit.quantity unit - c) u
                          else u) (military_units wk)) wk))) as (w & I1 & I2 & I3).
      cbn [working committed military_units set_military_units] in I1, I2, I3.
      exists w. split; [exact I1|]. split.
      * eapply same_but_units_trans; [apply same_but_units_set | exact I2].
      * intros tbl Htbl. rewrite (I3 tbl Htbl). reflexivity.
    + exists wk. split; [reflexivity|]. split; [apply same_but_units_refl|].
      intros tbl Htbl. discriminate.
Qed.

Lemma apply_casualties_run country_id total_casualties s :
  let units := units_of (working s) country_id in
  let S := weighted_strength units in
  exists s' r,
    MilitaryService._apply_casualties country_id total_casualties s = (s', r) /\
    r = (match units with
           | [] => Ok tt
           | _ :: _ =>
               if S =? 0 then Ok tt
               else match apply_losses total_casualties S units (military_units (working s)) with
                    | Ok _ => Ok tt
                    | Raise e => Raise e
                         end
           end) /\
    same_but_units (working s) (working s') /\
    (committed s' = committed s \/ committed s' = working s') /\
    (units = [] \/ S = 0 -> s' = s) /\
    (forall tbl, units <> [] -> S <> 0 ->
       apply_losses total_casualties S units (military_units (working s)) = Ok tbl ->
       working s' = set_military_units tbl (working s) /\ committed s' = working s').
Proof.
  intros units S. unfold MilitaryService._apply_casualties.
  rewrite run_bind. unfold MilitaryService.get_military_units, query. cbn [working].
  fold (units_of (working s) country_id). fold units.
  fold (weighted_strength units). fold S.
  destruct units as [|u0 us] eqn:Hu.
  - exists s, (Ok tt). cbn. split; [reflexivity|]. split; [reflexivity|]. split; [apply same_but_units_refl|].
    split; [left; reflexivity|]. split; [reflexivity|]. intros tbl H. contradiction.
  - destruct (Z.eqb_spec S 0) as [HS|HS].
    + exists s, (Ok tt). cbn. split; [reflexivity|]. split; [reflexivity|]. split; [apply same_but_units_refl|].
      split; [left; reflexivity|]. split; [reflexivity|]. intros tbl _ H. contradiction.
    + rewrite run_bind.
      destruct (for_each_losses total_casualties S (u0 :: us) s) as (w & I1 & I2 & I3).
      rewrite I1.
      destruct (apply_losses total_casualties S (u0 :: us) (military_units (working s)))
        as [tbl|e] eqn:Hl.
      * exists (mkSession w w), (Ok tt). cbn. split; [reflexivity|]. split; [reflexivity|]. split; [assumption|].
        split; [right; reflexivity|]. split; [intros [?|?]; [discriminate|contradiction]|].
        intros tbl' _ _ [= <-]. rewrite (I3 tbl eq_refl). split; reflexivity.
      * exists (mkSession (committed s) w), (Raise e). cbn. split; [reflexivity|]. split; [reflexivity|].
        split; [assumption|]. split; [left; reflexivity|].
        split; [intros [?|?]; [discriminate|contradiction]|].
        intros tbl' _ _ ?. discriminate.
Qed.


(** ** What one [attack] does to the store *)

Lemma attack_run rolls now a d db :
  match run (MilitaryService.attack rolls now a d) db with
  | (db', Ok battle) =>
      exists attacker defender,
        find (fun c => Country.id c =? a) (countries db) = Some attacker /\
        find (fun c => Country.id c =? d) (countries db) = Some defender /\
        a <> d /\ 0 < military_strength db a /\
        MilitaryService._calculate_battle_result rolls
          (military_strength db a) (military_strength db d) attacker defender
        = Ok (Battle.result battle, Battle.casualties_attacker battle,
              Battle.casualties_defender battle, Battle.territory_gained battle,
              Battle.resources_captured battle) /\
        countries db' =
          (if BattleResult_eqb (Battle.result battle) VICTORY
           then transfer a d (Battle.resources_captured battle) (countries db)
           else countries db) /\
        developments db' = developments db /\
        transaction_logs db' = transaction_logs db /\
        battles db' = battles db ++ [battle] /\
        Battle.attacker_id battle = a /\ Battle.defender_id battle = d
  | (db', Raise e) => same_but_units db db'
  end.
Proof.
  unfold run, MilitaryService.attack.
  rewrite run_bind, first_country_run. cbn [working].
  destruct (find (fun c => Country.id c =? a) (countries db)) as [attacker|] eqn:Fa;
    [|apply same_but_units_refl].
  rewrite run_bind, first_country_run. cbn [working].
  destruct (find (fun c => Country.id c =? d) (countries db)) as [defender|] eqn:Fd;
    [|apply same_but_units_refl].
  destruct (Z.eqb_spec a d) as [Heq|Hne]; [apply same_but_units_refl|].
  rewrite run_bind, calculate_military_strength_run.
  rewrite run_bind, calculate_military_strength_run. cbn [working].
  destruct (Z.leb_spec (military_strength db a) 0) as [Hle|Hgt]; [apply same_but_units_refl|].
  rewrite run_bind. unfold lift at 1.
  destruct (MilitaryService._calculate_battle_result rolls (military_strength db a)
              (military_strength db d) attacker defender)
    as [[[[[result ca] cd] tg] rc]|e] eqn:Hcalc; [|apply same_but_units_refl].
  rewrite run_bind.
  destruct (apply_casualties_run a ca (mkSession db db)) as (s1 & r1 & R1 & _ & F1 & C1 & _).
  rewrite R1. cbn [working committed] in F1, C1.
  destruct r1 as [[]|e1].
  2:{ cbn. destruct C1 as [->| ->]; [apply same_but_units_refl | assumption]. }
  rewrite run_bind.
  destruct (apply_casualties_run d cd s1) as (s2 & r2 & R2 & _ & F2 & C2 & _).
  rewrite R2.
  assert (F12 : same_but_units db (working s2)) by (eapply same_but_units_trans; eauto).
  assert (C12 : same_but_units db (committed s2)).
  { destruct C2 as [-> | ->]; [|assumption].
    destruct C1 as [-> | ->]; [apply same_but_units_refl | assumption]. }
  destruct r2 as [[]|e2].
  2:{ cbn. assumption. }
  rewrite run_bind.
  set (s3 := (if BattleResult_eqb result VICTORY
              then mkSession (committed s2)
                     (set_countries (transfer a d rc (countries (working s2))) (working s2))
              else s2)).
  assert (R3 : (if BattleResult_eqb result VICTORY
                then modify_country a (fun c =>
                       Country.set_resources (Country.resources c + rc) c) ;;;
                     modify_country d (fun c =>
                       Country.set_resources (Country.resources c - rc) c)
                else ret tt) s2 = (s3, Ok tt)).
  { unfold s3. destruct (BattleResult_eqb result VICTORY); reflexivity. }
  rewrite R3. rewrite run_bind. unfold lift at 1.
  assert (C3 : committed s3 = committed s2).
  { unfold s3. destruct (BattleResult_eqb result VICTORY); reflexivity. }
  destruct (MilitaryService._generate_battle_report (military_strength db a)
              (military_strength db d) result ca cd) as [report|e3].
  2:{ cbn. rewrite C3. assumption. }
  cbn. destruct F12 as (G1 & G2 & G3 & G4).
  exists attacker, defender. cbn.
  repeat (split; [first [assumption | reflexivity | lia] |]); unfold s3;
    destruct (BattleResult_eqb result VICTORY); cbn;
    repeat split; congruence.
Qed.


(** ** C8: spoils *)

Lemma rbind_ok {A B} (r : res A) (k : A -> res B) b :
  rbind r k = Ok b -> exists a, r = Ok a /\ k a = Ok b.
Proof. destruct r as [a|e]; [|discriminate]. intros H. exists a. auto. Qed.

Lemma battle_result_inv rolls attacker_strength defender_strength attacker defender
    result ca cd tg rc :
  MilitaryService._calculate_battle_result rolls attacker_strength defender_strength
    attacker defender = Ok (result, ca, cd, tg, rc) ->
  (result <> VICTORY -> tg = 0 /\ rc = 0) /\
  (result = VICTORY ->
     exists xt xr,
       Py.float_mul_int (territory_roll rolls) 100 = Ok xt /\ Py.int_of_float xt = Ok tg /\
       Py.float_mul_int (resources_roll rolls) (Country.resources defender) = Ok xr /\
       Py.int_of_float xr = Ok rc).
Proof.
  unfold MilitaryService._calculate_battle_result. intros H.
  apply rbind_ok in H. destruct H as (ratio & _ & H).
  set (res0 := if Py.gt (ratio * random_factor rolls) 1.2 then VICTORY
               else if Py.lt (ratio * random_factor rolls) 0.8 then DEFEAT else DRAW) in *.
  destruct (match res0 with
            | VICTORY => ((base_casualty_rate rolls * 0.7)%float,
                          (base_casualty_rate rolls * 1.3)%float)
            | DEFEAT => ((base_casualty_rate rolls * 1.3)%float,
                         (base_casualty_rate rolls * 0.7)%float)
            | DRAW => (base_casualty_rate rolls, base_casualty_rate rolls)
            end) as [ra rd].
  apply rbind_ok in H. destruct H as (ca' & _ & H).
  apply rbind_ok in H. destruct H as (cd' & _ & H).
  destruct res0.
  - apply rbind_ok in H. destruct H as (tg' & Ht & H).
    apply rbind_ok in H. destruct H as (rc' & Hr & H).
    apply rbind_ok in Ht. destruct Ht as (xt & Hxt & Htg).
    apply rbind_ok in Hr. destruct Hr as (xr & Hxr & Hrc).
    injection H as <- <- <- <- <-.
    split; [intros Hne; contradiction|]. intros _. exists xt, xr. auto.
  - injection H as <- <- <- <- <-. split; [auto | discriminate].
  - injection H as <- <- <- <- <-. split; [auto | discriminate].
Qed.

Lemma float_mul_int_floor x n y z :
  nonneg_finite x = true -> 0 <= n ->
  Py.float_mul_int x n = Ok y -> Py.int_of_float y = Ok z ->
  z = Py.floor y /\ 0 <= z /\ nonneg_finite y = true /\
  exists f, Py.float_of_int n = Ok f /\ nonneg_finite f = true /\ y = (x * f)%float.
Proof.
  intros Nx Hn Hy Hz. unfold Py.float_mul_int in Hy.
  apply rbind_ok in Hy. destruct Hy as (f & Hf & [= <-]).
  pose proof (float_of_int_shape _ _ Hn Hf) as Nf.
  destruct (int_of_mul_floor x f z) as (H1 & H2 & H3); auto using nonneg_finite_sf_shape.
  repeat split; auto. exists f. auto.
Qed.

Lemma int_mul_float_floor n x y z :
  nonneg_sf (Prim2SF x) = true -> 0 <= n ->
  Py.int_mul_float n x = Ok y -> Py.int_of_float y = Ok z ->
  z = Py.floor y /\ 0 <= z /\ nonneg_finite y = true /\
  exists f, Py.float_of_int n = Ok f /\ nonneg_finite f = true /\ y = (f * x)%float.
Proof.
  intros Nx Hn Hy Hz. unfold Py.int_mul_float in Hy.
  apply rbind_ok in Hy. destruct Hy as (f & Hf & [= <-]).
  pose proof (float_of_int_shape _ _ Hn Hf) as Nf.
  destruct (int_of_mul_floor f x z) as (H1 & H2 & H3); auto using nonneg_finite_sf_shape.
  repeat split; auto. exists f. auto.
Qed.

Lemma BattleResult_eqb_eq a b : BattleResult_eqb a b = true <-> a = b.
Proof. destruct a, b; simpl; split; intros; try reflexivity; discriminate. Qed.

Lemma transfer_spec a d rc cs :
  a <> d ->
  transfer a d rc cs =
  map (fun c => if Country.id c =? a
                then Country.set_resources (Country.resources c + rc) c
                else if Country.id c =? d
                     then Country.set_resources (Country.resources c - rc) c
                     else c) cs.
Proof.
  intros Hne. unfold transfer. rewrite map_map. apply map_ext. intros c.
  destruct (Z.eqb_spec (Country.id c) a) as [Ha|Ha].
  - cbn [Country.set_resources Country.id].
    destruct (Z.eqb_spec (Country.id c) d); [lia | reflexivity].
  - reflexivity.
Qed.

Lemma find_some_in {A} (f : A -> bool) l x : find f l = Some x -> In x l /\ f x = true.
Proof. apply find_some. Qed.

(** C8. For draws in the ranges of [random.uniform] and a store whose
    balances are non-negative, every battle [attack] resolves as DEFEAT or
    DRAW records zero territory and zero captured resources and leaves the
    countries table as it was; on a VICTORY the territory is
    floor(roll * 100), the captured amount is floor(roll * defender's current
    resources), and the countries table changes by exactly that amount added
    to the attacker and taken from the defender. *)
Theorem spoils_are_victory_only :
  forall rolls now attacker_id defender_id db db' battle,
    rolls_in_range rolls = true ->
    balances_nonneg db ->
    run (MilitaryService.attack rolls now attacker_id defender_id) db = (db', Ok battle) ->
    (Battle.result battle <> VICTORY ->
       Battle.territory_gained battle = 0 /\ Battle.resources_captured battle = 0 /\
       countries db' = countries db) /\
    (Battle.result battle = VICTORY ->
       exists defender xt xr,
         find (fun c => Country.id c =? defender_id) (countries db) = Some defender /\
         Py.float_mul_int (territory_roll rolls) 100 = Ok xt /\
         Battle.territory_gained battle = Py.floor xt /\
         Py.float_mul_int (resources_roll rolls) (Country.resources defender) = Ok xr /\
         Battle.resources_captured battle = Py.floor xr /\
         countries db' =
           map (fun c =>
                  if Country.id c =? attacker_id
                  then Country.set_resources
                         (Country.resources c + Battle.resources_captured battle) c
                  else if Country.id c =? defender_id
                       then Country.set_resources
                              (Country.resources c - Battle.resources_captured battle) c
                       else c) (countries db)).
Proof.
  intros rolls now a d db db' battle Hrolls Hbal Hrun.
  pose proof (attack_run rolls now a d db) as H. rewrite Hrun in H.
  destruct H as (attacker & defender & Fa & Fd & Hne & Hpos & Hcalc & Hcs & _).
  destruct (battle_result_inv _ _ _ _ _ _ _ _ _ _ Hcalc) as [Hloss Hwin].
  destruct (rolls_in_range_spec rolls Hrolls) as (_ & _ & (Nt & _) & (Nr & _)).
  split.
  - intros Hres. destruct (Hloss Hres) as [-> ->]. repeat split.
    destruct (BattleResult_eqb (Battle.result battle) VICTORY) eqn:E; [|assumption].
    apply BattleResult_eqb_eq in E. contradiction.
  - intros Hres. destruct (Hwin Hres) as (xt & xr & Hxt & Htg & Hxr & Hrc).
    exists defender, xt, xr.
    assert (H100 : 0 <= 100) by lia.
    destruct (float_mul_int_floor _ _ _ _ Nt H100 Hxt Htg) as (Ft & _).
    assert (Hd0 : 0 <= Country.resources defender).
    { apply Hbal. apply find_some_in in Fd. tauto. }
    destruct (float_mul_int_floor _ _ _ _ Nr Hd0 Hxr Hrc) as (Fr & _).
    repeat (split; [assumption|]).
    rewrite Hcs. rewrite (proj2 (BattleResult_eqb_eq _ _) Hres).
    apply transfer_spec. assumption.
Qed.

Lemma spoils_are_victory_only_witness :
  exists db' battle,
    run (MilitaryService.attack scenario_rolls 0 1 2) battle_db = (db', Ok battle) /\
    Battle.result battle = VICTORY /\ Battle.resources_captured battle = 150 /\
    (Battle.result battle = VICTORY ->
       exists defender xt xr,
         find (fun c => Country.id c =? 2) (countries battle_db) = Some defender /\
         Py.float_mul_int (territory_roll scenario_rolls) 100 = Ok xt /\
         Battle.territory_gained battle = Py.floor xt /\
         Py.float_mul_int (resources_roll scenario_rolls) (Country.resources defender) = Ok xr /\
         Battle.resources_captured battle = Py.floor xr /\
         countries db' =
           map (fun c =>
                  if Country.id c =? 1
                  then Country.set_resources
                         (Country.resources c + Battle.resources_captured battle) c
                  else if Country.id c =? 2
                       then Country.set_resources
                              (Country.resources c - Battle.resources_captured battle) c
                       else c) (countries battle_db)).
Proof.
  destruct (run (MilitaryService.attack scenario_rolls 0 1 2) battle_db)
    as [db' [battle|e]] eqn:Hr; [|vm_compute in Hr; discriminate].
  exists db', battle. split; [reflexivity|].
  assert (Hb : balances_nonneg battle_db).
  { intros c Hc. vm_compute in Hc. destruct Hc as [<-|[<-|[]]]; vm_compute; discriminate. }
  destruct (spoils_are_victory_only scenario_rolls 0 1 2 battle_db db' battle
              eq_refl Hb Hr) as [_ Hwin].
  vm_compute in Hr. injection Hr as <- <-.
  split; [reflexivity|]. split; [reflexivity|]. exact Hwin.
Defined.


(** ** The sweep on the session *)

Lemma for_each_complete now l : forall s,
  exists w,
    for_each l (DevelopmentService.complete_one now) s
    = (mkSession (committed s) w,
       match sweep_countries now l (countries (working s)) with
       | Ok _ => Ok tt
       | Raise e => Raise e
       end) /\
    (forall cs, sweep_countries now l (countries (working s)) = Ok cs ->
       w = mkDatabase cs (military_units (working s))
             (mark_completed l (developments (working s)))
             (battles (working s)) (transaction_logs (working s))).
Proof.
  induction l as [|d l IH]; intros [cm wk].
  - exists wk. cbn. split; [reflexivity|]. intros cs [= <-]. destruct wk; reflexivity.
  - cbn [for_each sweep_countries]. rewrite run_bind.
    unfold DevelopmentService.complete_one at 1. rewrite run_bind.
    unfold modify_development at 1, modify at 1. cbn [working committed].
    rewrite run_bind, first_country_run.
    cbn [working committed countries set_developments developments].
    destruct (find (fun c => Country.id c =? Development.country_id d) (countries wk))
      as [country|] eqn:Fc.
    + rewrite run_bind. unfold lift at 1.
      destruct (DevelopmentService.apply_bonuses now d country) as [c|e] eqn:Hb; cbn [rbind].
      * unfold modify_country at 1, modify at 1.
        cbn [working committed countries set_developments set_countries developments].
        match goal with |- context [for_each l _ ?s0] => destruct (IH s0) as (w & I1 & I2) end.
        cbn [working committed countries developments military_units battles
             transaction_logs set_countries set_developments] in I1, I2.
        exists w. split; [exact I1|]. intros cs Hcs. rewrite (I2 cs Hcs). reflexivity.
      * eexists. split; [reflexivity|]. intros cs Hcs. discriminate.
    + unfold ret at 1. cbn beta iota.
      match goal with |- context [for_each l _ ?s0] => destruct (IH s0) as (w & I1 & I2) end.
      cbn [working committed countries developments military_units battles
           transaction_logs set_countries set_developments] in I1, I2.
      exists w. split; [exact I1|]. intros cs Hcs. rewrite (I2 cs Hcs). reflexivity.
Qed.

Lemma sweep_run now db :
  run (DevelopmentService.check_completed_developments now) db =
  let completed := filter (DevelopmentService.matured now) (developments db) in
  match sweep_countries now completed (countries db) with
  | Ok cs =>
      (mkDatabase cs (military_units db) (mark_completed completed (developments db))
         (battles db) (transaction_logs db),
       Ok (map (Development.set_status COMPLETED) completed))
  | Raise e => (db, Raise e)
  end.
Proof.
  unfold run, DevelopmentService.check_completed_developments.
  rewrite run_bind. unfold query at 1. cbn [working].
  rewrite run_bind.
  destruct (for_each_complete now (filter (DevelopmentService.matured now) (developments db))
              (mkSession db db)) as (w & I1 & I2).
  rewrite I1. cbn [working committed] in *. cbv zeta.
  destruct (sweep_countries now _ (countries db)) as [cs|e].
  - rewrite (I2 cs eq_refl). reflexivity.
  - reflexivity.
Qed.

Lemma set_status_idem s d :
  Development.set_status s (Development.set_status s d) = Development.set_status s d.
Proof. reflexivity. Qed.

Lemma mark_completed_map l : forall t,
  mark_completed l t =
  map (fun r => if existsb (fun d => Development.id r =? Development.id d) l
                then Development.set_status COMPLETED r else r) t.
Proof.
  unfold mark_completed.
  induction l as [|d l IH]; intros t.
  - cbn. symmetry. apply map_id.
  - cbn [fold_left existsb]. rewrite IH, map_map. apply map_ext. intros r.
    destruct (Z.eqb_spec (Development.id r) (Development.id d)) as [E|E]; cbn [orb].
    + cbn [Development.id Development.set_status]. rewrite E.
      destruct (existsb _ l); reflexivity.
    + reflexivity.
Qed.

Lemma existsb_filter_id now t r :
  NoDup (map Development.id t) -> In r t ->
  existsb (fun d => Development.id r =? Development.id d)
    (filter (DevelopmentService.matured now) t)
  = DevelopmentService.matured now r.
Proof.
  intros Hnd Hin.
  destruct (DevelopmentService.matured now r) eqn:Hm.
  - apply existsb_exists. exists r. split; [apply filter_In; auto | apply Z.eqb_refl].
  - apply Bool.not_true_is_false. intros H. apply existsb_exists in H.
    destruct H as (d & Hd & He). apply filter_In in Hd. destruct Hd as [Hd Hmd].
    apply Z.eqb_eq in He.
    assert (d = r); [|congruence].
    clear - Hnd Hin Hd He. induction t as [|a t IH]; [contradiction|].
    cbn in Hnd. inversion Hnd as [|? ? Hn Hnd']; subst.
    destruct Hin as [->|Hin], Hd as [->|Hd]; auto.
    + exfalso. apply Hn. rewrite He. apply in_map. assumption.
    + exfalso. apply Hn. rewrite <- He. apply in_map. assumption.
Qed.

Lemma mark_completed_matured now t :
  NoDup (map Development.id t) ->
  mark_completed (filter (DevelopmentService.matured now) t) t =
  map (fun r => if DevelopmentService.matured now r
                then Development.set_status COMPLETED r else r) t.
Proof.
  intros Hnd. rewrite mark_completed_map. apply map_ext_in. intros r Hr.
  rewrite (existsb_filter_id now t r Hnd Hr). reflexivity.
Qed.


(** ** C9: what the sweep selects and applies *)

Lemma int_add_float_shape n b k :
  0 <= n -> nonneg_finite b = true -> Py.int_add_float n b = Ok k ->
  nonneg_sf (Prim2SF k) = true.
Proof.
  intros Hn Nb Hk. unfold Py.int_add_float in Hk.
  apply rbind_ok in Hk. destruct Hk as (f & Hf & [= <-]).
  apply add_shape; [|assumption]. apply (float_of_int_shape n); assumption.
Qed.

Lemma apply_bonuses_spec now d c c' :
  DevelopmentService.apply_bonuses now d c = Ok c' ->
  0 <= Country.gdp c -> 0 <= Country.military_power c -> 0 <= Country.resources c ->
  bonus_ok (Development.infrastructure_bonus d) ->
  bonus_ok (Development.research_bonus d) ->
  bonus_ok (Development.trade_bonus d) ->
  bonuses_applied d c c'.
Proof.
  unfold DevelopmentService.apply_bonuses, bonus_ok. intros H Hg Hm Hr Bi Br Bt.
  apply rbind_ok in H. destruct H as (g & Hg1 & H).
  apply rbind_ok in Hg1. destruct Hg1 as (xg & Hg2 & Hgi).
  apply rbind_ok in Hg2. destruct Hg2 as (kg & Hkg & Hxg).
  apply rbind_ok in H. destruct H as (m & Hm1 & H).
  apply rbind_ok in Hm1. destruct Hm1 as (xm & Hm2 & Hmi).
  apply rbind_ok in Hm2. destruct Hm2 as (km & Hkm & Hxm).
  apply rbind_ok in H. destruct H as (gain & Hr1 & H).
  apply rbind_ok in Hr1. destruct Hr1 as (xr & Hxr & Hri).
  injection H as <-.
  assert (H1 : 0 <= 1) by lia.
  pose proof (int_add_float_shape 1 _ kg H1 Bi Hkg) as Sg.
  pose proof (int_add_float_shape 1 _ km H1 Br Hkm) as Sm.
  destruct (int_mul_float_floor _ _ _ _ Sg Hg Hxg Hgi) as (Fg & _).
  destruct (int_mul_float_floor _ _ _ _ Sm Hm Hxm Hmi) as (Fm & _).
  destruct (int_mul_float_floor _ _ _ _ (nonneg_finite_sf_shape _ Bt) Hr Hxr Hri)
    as (Fr & Hr0 & _).
  exists kg, xg, km, xm, xr. cbn. subst g m gain. repeat split; auto.
Qed.

Lemma DevelopmentStatus_eqb_eq a b : DevelopmentStatus_eqb a b = true <-> a = b.
Proof. destruct a, b; simpl; split; intros; try reflexivity; discriminate. Qed.

Lemma matured_spec now d :
  DevelopmentService.matured now d = true <->
  Development.status d = IN_PROGRESS /\ Development.end_time d <= now.
Proof.
  unfold DevelopmentService.matured. rewrite andb_true_iff, DevelopmentStatus_eqb_eq, Z.leb_le.
  reflexivity.
Qed.

(** C9. The sweep selects exactly the records that are IN_PROGRESS with
    [end_time <= now]; it returns them with status COMPLETED, sets exactly
    them to COMPLETED in the developments table, and the countries table is
    the one obtained by applying the bonuses record after record; for one
    record and an owning nation with non-negative figures and finite,
    non-negative bonuses, gdp becomes floor(gdp * (1 + infrastructure_bonus)),
    military_power floor(military_power * (1 + research_bonus)) and resources
    grow by floor(resources * trade_bonus).  For a new nation that started
    "Road Network" at time 0, the sweep one day and one second later completes
    the record and takes gdp from 1000000000 to 1050000000; the next sweep
    returns nothing. *)
Theorem sweep_completes_matured_developments :
  forall db now db' completed,
    NoDup (map Development.id (developments db)) ->
    run (DevelopmentService.check_completed_developments now) db = (db', Ok completed) ->
    let selected := filter (DevelopmentService.matured now) (developments db) in
    (forall d, In d selected <->
               In d (developments db) /\ Development.status d = IN_PROGRESS
               /\ Development.end_time d <= now) /\
    completed = map (Development.set_status COMPLETED) selected /\
    developments db' =
      map (fun d => if DevelopmentService.matured now d
                    then Development.set_status COMPLETED d else d) (developments db) /\
    sweep_countries now selected (countries db) = Ok (countries db') /\
    (forall d c c',
       DevelopmentService.apply_bonuses now d c = Ok c' ->
       0 <= Country.gdp c -> 0 <= Country.military_power c -> 0 <= Country.resources c ->
       bonus_ok (Development.infrastructure_bonus d) ->
       bonus_ok (Development.research_bonus d) ->
       bonus_ok (Development.trade_bonus d) ->
       bonuses_applied d c c') /\
    (exists db1 d1,
       run (DevelopmentService.check_completed_developments one_day_one_second)
         road_network_db = (db1, Ok [d1]) /\
       Development.status d1 = COMPLETED /\
       map Country.gdp (countries road_network_db) = [1000000000] /\
       map Country.gdp (countries db1) = [1050000000] /\
       run (DevelopmentService.check_completed_developments one_day_one_second) db1
       = (db1, Ok [])).
Proof.
  intros db now db' completed Hnd Hrun selected.
  rewrite sweep_run in Hrun. cbv zeta in Hrun. fold selected in Hrun.
  destruct (sweep_countries now selected (countries db)) as [cs|e] eqn:Hcs; [|discriminate].
  injection Hrun as <- <-. cbn [developments countries].
  split; [|split; [|split; [|split; [|split]]]].
  - intros d. unfold selected. rewrite filter_In, matured_spec. reflexivity.
  - reflexivity.
  - apply mark_completed_matured. assumption.
  - reflexivity.
  - intros d c c'. apply apply_bonuses_spec.
  - eexists _, _. split; [vm_compute; reflexivity|].
    repeat split; vm_compute; reflexivity.
Qed.

Lemma sweep_completes_matured_developments_witness :
  exists db' completed,
    run (DevelopmentService.check_completed_developments one_day_one_second) road_network_db
    = (db', Ok completed) /\
    completed = map (Development.set_status COMPLETED)
                  (filter (DevelopmentService.matured one_day_one_second)
                     (developments road_network_db)) /\
    sweep_countries one_day_one_second
      (filter (DevelopmentService.matured one_day_one_second) (developments road_network_db))
      (countries road_network_db) = Ok (countries db').
Proof.
  destruct (run (DevelopmentService.check_completed_developments one_day_one_second)
              road_network_db) as [db' [completed|e]] eqn:Hr;
    [|vm_compute in Hr; discriminate].
  exists db', completed. split; [reflexivity|].
  assert (Hnd : NoDup (map Development.id (developments road_network_db))).
  { vm_compute. repeat constructor. intros []. }
  destruct (sweep_completes_matured_developments road_network_db one_day_one_second
              db' completed Hnd Hr) as (_ & H2 & _ & H4 & _).
  split; assumption.
Defined.


(** ** Rows a sweep has marked *)

Lemma matured_set_status now d :
  DevelopmentService.matured now (Development.set_status COMPLETED d) = false.
Proof. reflexivity. Qed.

Lemma filter_matured_after now now' t :
  filter (DevelopmentService.matured now')
    (map (fun d => if DevelopmentService.matured now d
                   then Development.set_status COMPLETED d else d) t)
  = filter (fun d => DevelopmentService.matured now' d
                     && negb (DevelopmentService.matured now d)) t.
Proof.
  induction t as [|d t IH]; [reflexivity|].
  cbn [map filter]. rewrite IH.
  destruct (DevelopmentService.matured now d) eqn:E.
  - rewrite matured_set_status. rewrite andb_false_r. reflexivity.
  - rewrite andb_true_r. reflexivity.
Qed.

Lemma filter_matured_same now t :
  filter (DevelopmentService.matured now)
    (map (fun d => if DevelopmentService.matured now d
                   then Development.set_status COMPLETED d else d) t) = [].
Proof.
  rewrite filter_matured_after. induction t as [|d t IH]; [reflexivity|].
  cbn [filter]. rewrite andb_negb_r. assumption.
Qed.

Lemma map_mark_id now t :
  map Development.id
    (map (fun d => if DevelopmentService.matured now d
                   then Development.set_status COMPLETED d else d) t)
  = map Development.id t.
Proof.
  rewrite map_map. apply map_ext. intros d.
  destruct (DevelopmentService.matured now d); reflexivity.
Qed.

Lemma NoDup_id_inj t (a b : Development.t) :
  NoDup (map Development.id t) -> In a t -> In b t ->
  Development.id a = Development.id b -> a = b.
Proof.
  induction t as [|x t IH]; [contradiction|].
  cbn. intros Hnd Ha Hb He. inversion Hnd as [|? ? Hn Hnd']; subst.
  destruct Ha as [->|Ha], Hb as [->|Hb]; auto.
  - exfalso. apply Hn. rewrite He. apply in_map. assumption.
  - exfalso. apply Hn. rewrite <- He. apply in_map. assumption.
Qed.


(** ** C5: create, build, query *)

Lemma next_id_gt ids x : In x ids -> x < next_id ids.
Proof.
  unfold next_id. induction ids as [|a ids IH]; [contradiction|].
  cbn [fold_right In]. intros [->|H]; [lia|]. specialize (IH H). lia.
Qed.

Lemma next_id_app ids x : next_id ids <= x -> next_id (ids ++ [x]) = x + 1.
Proof.
  unfold next_id. induction ids as [|a ids IH]; cbn [fold_right app]; [lia|].
  intros H. assert (H0 : 1 + fold_right Z.max 0 ids <= x) by lia. specialize (IH H0). lia.
Qed.

Lemma create_country_run now user_id name gov ideo db db1 country :
  run (CountryService.create_country now user_id name gov ideo) db = (db1, Ok country) ->
  exists g i,
    let cid := next_id (map Country.id (countries db)) in
    let k := next_id (map MilitaryUnit.id (military_units db)) in
    country = Country.mk cid name user_id g i 1000000 1000000000 10
                config.INITIAL_RESOURCES now now /\
    db1 = mkDatabase (countries db ++ [country])
            (military_units db ++
               [MilitaryUnit.mk k cid INFANTRY 100 1;
                MilitaryUnit.mk (k + 1) cid TANK 10 1;
                MilitaryUnit.mk (k + 2) cid SHIP 5 1;
                MilitaryUnit.mk (k + 3) cid AIRCRAFT 5 1])
            (developments db) (battles db) (transaction_logs db).
Proof.
  unfold run, CountryService.create_country.
  rewrite run_bind. unfold CountryService.get_country_by_name, query at 1. cbn [working].
  destruct (find _ (countries db)); [discriminate|].
  rewrite run_bind. unfold CountryService.get_countries_by_user_id, query at 1. cbn [working].
  destruct (filter _ (countries db)); [|discriminate].
  destruct (GovernmentType_of_value gov) as [g|]; [|discriminate].
  destruct (Ideology_of_value ideo) as [i|]; [|discriminate].
  cbn. intros [= <- <-]. exists g, i. cbv zeta. split; [reflexivity|].
  f_equal. rewrite <- !app_assoc. cbn [app].
  set (k := next_id (map MilitaryUnit.id (military_units db))).
  set (cid := next_id (map Country.id (countries db))).
  assert (K1 : next_id (map MilitaryUnit.id (military_units db ++
                 [MilitaryUnit.mk k cid INFANTRY 100 1])) = k + 1).
  { rewrite map_app. cbn [map MilitaryUnit.id]. apply next_id_app. unfold k. lia. }
  rewrite K1.
  assert (K2 : next_id (map MilitaryUnit.id (military_units db ++
                 [MilitaryUnit.mk k cid INFANTRY 100 1;
                  MilitaryUnit.mk (k + 1) cid TANK 10 1])) = k + 2).
  { change [MilitaryUnit.mk k cid INFANTRY 100 1; MilitaryUnit.mk (k + 1) cid TANK 10 1]
      with ([MilitaryUnit.mk k cid INFANTRY 100 1] ++ [MilitaryUnit.mk (k + 1) cid TANK 10 1]).
    rewrite app_assoc, map_app. cbn [map MilitaryUnit.id].
    rewrite next_id_app by lia. lia. }
  rewrite K2.
  assert (K3 : next_id (map MilitaryUnit.id (military_units db ++
                 [MilitaryUnit.mk k cid INFANTRY 100 1;
                  MilitaryUnit.mk (k + 1) cid TANK 10 1;
                  MilitaryUnit.mk (k + 2) cid SHIP 5 1])) = k + 3).
  { change [MilitaryUnit.mk k cid INFANTRY 100 1; MilitaryUnit.mk (k + 1) cid TANK 10 1;
            MilitaryUnit.mk (k + 2) cid SHIP 5 1]
      with ([MilitaryUnit.mk k cid INFANTRY 100 1; MilitaryUnit.mk (k + 1) cid TANK 10 1]
            ++ [MilitaryUnit.mk (k + 2) cid SHIP 5 1]).
    rewrite app_assoc, map_app. cbn [map MilitaryUnit.id].
    rewrite next_id_app by lia. lia. }
  rewrite K3. reflexivity.
Qed.

Lemma find_app_none {A} (f : A -> bool) l l' :
  (forall x, In x l -> f x = false) -> find f (l ++ l') = find f l'.
Proof.
  induction l as [|a l IH]; intros H; [reflexivity|].
  cbn. rewrite (H a (or_introl eq_refl)). apply IH. intros x Hx. apply H. right. assumption.
Qed.

Lemma filter_app_none {A} (f : A -> bool) l l' :
  (forall x, In x l -> f x = false) -> filter f (l ++ l') = filter f l'.
Proof.
  induction l as [|a l IH]; intros H; [reflexivity|].
  cbn. rewrite (H a (or_introl eq_refl)). apply IH. intros x Hx. apply H. right. assumption.
Qed.

(** [build_army] as one expression: the four checks in the order of the
    source, and then the lookup of [TransactionLog]. *)
Lemma build_army_eq now country_id unit_type_str quantity db :
  run (MilitaryService.build_army now country_id unit_type_str quantity) db =
  (db,
   Raise
     match UnitType_of_value unit_type_str with
     | Raise _ => ValidationError
     | Ok unit_type =>
         if quantity <=? 0 then ValidationError
         else
           match find (fun c => Country.id c =? country_id) (countries db) with
           | None => ValidationError
           | Some country =>
               if Country.resources country <? MilitaryService.unit_costs unit_type * quantity
               then ResourceError
               else NameError
           end
     end).
Proof.
  unfold run, MilitaryService.build_army.
  destruct (UnitType_of_value unit_type_str) as [ut|]; [|reflexivity].
  destruct (quantity <=? 0); [reflexivity|].
  rewrite run_bind, first_country_run. cbn [working countries].
  destruct (find _ (countries db)) as [country|]; [|reflexivity].
  destruct (Country.resources country <? MilitaryService.unit_costs ut * quantity);
    [reflexivity|].
  rewrite run_bind. unfold MilitaryService.get_military_unit, query at 1. cbn [working].
  destruct (find _ (military_units db)) as [u|]; reflexivity.
Qed.

(** C5. [build_army] never commits.  With the type, the quantity, the nation
    and the balance checked and the row and the balance changed in the
    session, the call reaches [TransactionLog(...)], a name its module does
    not import, and raises NameError before [db.commit()]: whatever the
    store and the arguments, the call raises and the store is the one it
    found.  For a nation that [create_country] has just created, building
    100 infantry raises NameError, and the status queried afterwards still
    reports the initial balance and 100 infantry. *)
Theorem build_army_never_commits :
  (forall now country_id unit_type quantity db,
     exists e,
       run (MilitaryService.build_army now country_id unit_type quantity) db
       = (db, Raise e)) /\
  (forall db now user_id name government_type ideology db1 country now',
     units_reference_countries db ->
     run (CountryService.create_country now user_id name government_type ideology) db
     = (db1, Ok country) ->
     run (MilitaryService.build_army now' (Country.id country) "infantry" 100) db1
     = (db1, Raise NameError) /\
     exists st,
       run (CountryService.get_country_status (Country.id country)) db1 = (db1, Ok st) /\
       CountryStatus.resources st = config.INITIAL_RESOURCES /\
       infantry_quantity st = Some 100) /\
  run (MilitaryService.build_army 5 1 "infantry" 100) fresh_nation_db
  = (fresh_nation_db, Raise NameError).
Proof.
  split; [|split].
  - intros now country_id unit_type quantity db. rewrite build_army_eq. eexists. reflexivity.
  - intros db now user_id name gov ideo db1 country now' Hfk Hrun.
    apply create_country_run in Hrun. destruct Hrun as (g & i & Hc & Hdb). cbv zeta in *.
    set (cid := next_id (map Country.id (countries db))) in *.
    set (k := next_id (map MilitaryUnit.id (military_units db))) in *.
    assert (Fc : forall c, In c (countries db) -> (Country.id c =? cid) = false).
    { intros c Hin. apply Z.eqb_neq.
      pose proof (next_id_gt _ _ (in_map Country.id _ _ Hin)). fold cid in H. lia. }
    assert (Fu : forall u, In u (military_units db) ->
                   (MilitaryUnit.country_id u =? cid) = false).
    { intros u Hin. apply Z.eqb_neq. specialize (Hfk u Hin).
      pose proof (next_id_gt _ _ Hfk). fold cid in H. lia. }
    subst country. cbn [Country.id].
    set (country := Country.mk cid name user_id g i 1000000 1000000000 10
                      config.INITIAL_RESOURCES now now) in *.
    set (us := [MilitaryUnit.mk k cid INFANTRY 100 1; MilitaryUnit.mk (k + 1) cid TANK 10 1;
                MilitaryUnit.mk (k + 2) cid SHIP 5 1; MilitaryUnit.mk (k + 3) cid AIRCRAFT 5 1])
      in *.
    assert (Hfind : find (fun c => Country.id c =? cid) (countries db ++ [country])
                    = Some country).
    { rewrite find_app_none by assumption. cbn. rewrite Z.eqb_refl. reflexivity. }
    split.
    + rewrite build_army_eq. subst db1. cbn [countries]. rewrite Hfind. reflexivity.
    + eexists. split; [|split].
      * subst db1.
        unfold run, CountryService.get_country_status, CountryService.get_country_by_id.
        rewrite run_bind, first_country_run. cbn [working countries]. rewrite Hfind.
        rewrite run_bind. unfold query at 1. cbn [working military_units].
        rewrite filter_app_none by assumption.
        unfold us. cbn [filter MilitaryUnit.country_id]. rewrite !Z.eqb_refl.
        cbn. reflexivity.
      * reflexivity.
      * reflexivity.
  - reflexivity.
Qed.


(** ** C6: progress of a development *)

(** A negative interval has a non-positive number of seconds, so
    [max(0, .)] keeps its first argument. *)
Lemma int_truediv_negative a b k :
  a < 0 -> 0 < b -> - a <= b * 2 ^ k -> 0 <= k <= 1023 ->
  exists f, Py.int_truediv a b = Ok f /\ Py.max_0 f = Py.Int 0.
Proof.
  intros Ha Hb Hab Hk. unfold Py.int_truediv.
  destruct (Z.eqb_spec b 0) as [|_]; [lia|].
  destruct (Z.eqb_spec a 0) as [|_]; [lia|].
  unfold Py.int_truediv_sf.
  destruct (Z.ltb_spec a 0); [|lia]. destruct (Z.ltb_spec b 0); [lia|].
  rewrite (Z.abs_neq a) by lia. rewrite (Z.abs_eq b) by lia. cbn [xorb].
  assert (Hapos : 0 < - a) by lia.
  pose proof (SFdiv_core_binary_correct (- a) 0 b 0 Hapos Hb) as Hc.
  destruct (SFdiv_core_binary prec emax (- a) 0 b 0) as [[q e'] l].
  destruct Hc as (Hq & Hbr & He).
  rewrite bpow_0, !Rmult_1_r in Hbr.
  destruct (binary_round_aux_correct true q e' l _ Hq Hbr He) as (y & Hr & Hp).
  assert (HbR : (0 < IZR b)%R) by (apply IZR_lt; assumption).
  assert (Hx : (0 <= IZR (- a) / IZR b <= bpow k)%R).
  { split.
    - apply Rmult_le_pos; [apply IZR_le; lia|].
      apply Rlt_le, Rinv_0_lt_compat. assumption.
    - apply Rmult_le_reg_r with (IZR b); [assumption|].
      replace (IZR (- a) / IZR b * IZR b)%R with (IZR (- a)) by (field; lra).
      rewrite bpow_IZR by lia. rewrite <- mult_IZR. apply IZR_le. lia. }
  assert (Hy : (y < bpow 1024)%R).
  { pose proof (rounds_le_bpow _ _ _ Hr Hx ltac:(lia)).
    pose proof (bpow_1024_gt k ltac:(lia)). lra. }
  destruct Hp as [Hp _]. destruct (Hp Hy) as [Hv Hs].
  exists (SF2Prim (binary_round_aux prec emax true q e' l)). split.
  - destruct Hs as [[-> _] | (m & e & -> & _)]; reflexivity.
  - unfold Py.max_0, Py.gt. rewrite ltb_spec, Prim2SF_SF2Prim by assumption.
    destruct Hs as [[-> _] | (m & e & -> & _)]; reflexivity.
Qed.

Lemma bpow_m20 : (bpow (-20) <= / 1000000)%R.
Proof.
  unfold bpow. simpl.
  apply Rinv_le_contravar; lra.
Qed.

(** The seconds of a non-negative interval of at most [2^62] microseconds. *)
Lemma total_seconds_nonneg d :
  0 <= d <= 2 ^ 62 ->
  exists f, Py.total_seconds d = Ok f /\ nonneg_finite f = true /\
            rounds (IZR d / 1000000) (F2R f) /\ (F2R f <= bpow 62)%R /\
            (0 < d -> (bpow (-20) <= F2R f)%R).
Proof.
  intros Hd. unfold Py.total_seconds.
  destruct (int_truediv_bounded d 1000000 62) as (f & Hf & Hn & Hr & Hb); try lia.
  exists f. repeat split; try assumption.
  intros Hpos. apply (rounds_ge_bpow _ _ _ Hr); [|lia].
  pose proof bpow_m20. assert (1 <= IZR d)%R by (apply IZR_le; lia).
  pose proof (bpow_gt_0 (-20)). unfold Rdiv.
  assert (0 < / 1000000)%R by (apply Rinv_0_lt_compat; lra). nra.
Qed.

Lemma total_seconds_negative d :
  - 2 ^ 62 <= d < 0 ->
  exists f, Py.total_seconds d = Ok f /\ Py.max_0 f = Py.Int 0.
Proof.
  intros Hd. apply (int_truediv_negative d 1000000 62); lia.
Qed.

Lemma max_0_positive f :
  nonneg_finite f = true -> (0 < F2R f)%R -> Py.max_0 f = Py.Float f.
Proof.
  intros Hn Hp. unfold Py.max_0, Py.gt.
  assert (H : PrimFloat.ltb zero f = true).
  { apply ltb_nonneg; [reflexivity | assumption |].
    replace (F2R zero) with 0%R; [assumption|]. unfold F2R. rewrite Prim2SF_zero. reflexivity. }
  rewrite H. reflexivity.
Qed.

Lemma max_0_zero : Py.max_0 zero = Py.Int 0.
Proof. reflexivity. Qed.


Lemma float_100 :
  Py.float_of_int 100 = Ok 100%float /\ nonneg_finite 100%float = true /\
  F2R 100%float = 100%R.
Proof.
  destruct (float_of_int_bounded 100 7) as (f & Hf & Hn & Hr & _); try lia.
  assert (E : Py.float_of_int 100 = Ok 100%float) by (vm_compute; reflexivity).
  rewrite E in Hf. injection Hf as <-.
  split; [reflexivity|]. split; [assumption|].
  apply (rounds_int 100); [lia | assumption].
Qed.

(** The percentage computed for an interval of [T] microseconds of which
    [E] have elapsed: every step returns, and the integer is the floor of
    the binary64 value [elapsed / total * 100]. *)
Lemma percent_value T E :
  0 < T <= 2 ^ 62 -> 0 <= E <= 2 ^ 62 ->
  exists total elapsed z,
    Py.total_seconds T = Ok total /\ Py.total_seconds E = Ok elapsed /\
    rbind (rbind (Py.float_truediv elapsed total) (fun r => Py.float_mul_int r 100))
      Py.int_of_float = Ok z /\
    z = Py.floor (elapsed / total * 100)%float /\ 0 <= z /\
    nonneg_finite total = true /\ nonneg_finite elapsed = true /\
    (bpow (-20) <= F2R total)%R /\
    rounds (IZR T / 1000000) (F2R total) /\
    rounds (IZR E / 1000000) (F2R elapsed) /\
    nonneg_finite (elapsed / total)%float = true /\
    rounds (F2R elapsed / F2R total) (F2R (elapsed / total)%float) /\
    rounds (F2R (elapsed / total)%float * 100) (F2R (elapsed / total * 100)%float) /\
    (IZR z <= F2R (elapsed / total * 100)%float < IZR z + 1)%R.
Proof.
  intros HT HE.
  destruct (total_seconds_nonneg T) as (total & Ht & Nt & Rt & Bt & Lt); [lia|].
  destruct (total_seconds_nonneg E) as (elapsed & He & Ne & Re & Be & _); [lia|].
  specialize (Lt ltac:(lia)).
  destruct (div_bounded elapsed total 62 (-20) Ne Nt Be Lt) as (Hd & Nd & Rd & Bd); [lia|].
  destruct float_100 as (H100 & N100 & V100).
  assert (B100 : (F2R 100%float <= bpow 7)%R).
  { rewrite V100. unfold bpow. simpl. lra. }
  destruct (mul_bounded (elapsed / total)%float 100%float (62 - -20) 7 Nd N100 Bd B100)
    as (Nm & Rm & Bm); [lia|].
  rewrite V100 in Rm.
  destruct (int_of_float_nonneg _ Nm) as (z & Hz & Hfl & Hz0 & Hzb).
  exists total, elapsed, z.
  split; [assumption|]. split; [assumption|]. split.
  { rewrite Hd. cbn [rbind]. unfold Py.float_mul_int. rewrite H100. cbn [rbind].
    assumption. }
  repeat split; try assumption; try (symmetry; assumption); apply Hzb.
Qed.

(** The percentage does not decrease with the elapsed time. *)
Lemma percent_mono T E1 E2 total elapsed1 elapsed2 z1 z2 :
  0 < T <= 2 ^ 62 -> 0 <= E1 -> E1 <= E2 -> E2 <= 2 ^ 62 ->
  Py.total_seconds T = Ok total ->
  Py.total_seconds E1 = Ok elapsed1 -> Py.total_seconds E2 = Ok elapsed2 ->
  rbind (rbind (Py.float_truediv elapsed1 total) (fun r => Py.float_mul_int r 100))
    Py.int_of_float = Ok z1 ->
  rbind (rbind (Py.float_truediv elapsed2 total) (fun r => Py.float_mul_int r 100))
    Py.int_of_float = Ok z2 ->
  z1 <= z2.
Proof.
  intros HT H1 H12 H2 Ht He1 He2 Hz1 Hz2.
  destruct (percent_value T E1) as (t1 & e1 & y1 & A1 & A2 & A3 & _ & _ & Nt & Ne1 & Lt &
    _ & Re1 & Nd1 & Rd1 & Rm1 & Fl1); [lia | lia |].
  destruct (percent_value T E2) as (t2 & e2 & y2 & B1 & B2 & B3 & _ & _ & _ & Ne2 & _ &
    _ & Re2 & Nd2 & Rd2 & Rm2 & Fl2); [lia | lia |].
  rewrite Ht in A1, B1. injection A1 as <-. injection B1 as <-.
  rewrite He1 in A2. injection A2 as <-. rewrite He2 in B2. injection B2 as <-.
  rewrite Hz1 in A3. injection A3 as <-. rewrite Hz2 in B3. injection B3 as <-.
  pose proof (bpow_gt_0 (-20)) as Hp.
  assert (Ht0 : (0 < F2R total)%R) by lra.
  assert (Hi : (0 < / F2R total)%R) by (apply Rinv_0_lt_compat; assumption).
  assert (L1 : (F2R elapsed1 <= F2R elapsed2)%R).
  { apply (rounds_mono _ _ _ _ Re1 Re2).
    assert (0 <= IZR E1)%R by (apply IZR_le; lia).
    assert (IZR E1 <= IZR E2)%R by (apply IZR_le; lia).
    unfold Rdiv. split; lra. }
  pose proof (nonneg_finite_F2R _ Ne1) as P1.
  assert (L2 : (F2R (elapsed1 / total)%float <= F2R (elapsed2 / total)%float)%R).
  { apply (rounds_mono _ _ _ _ Rd1 Rd2). unfold Rdiv. split; nra. }
  pose proof (nonneg_finite_F2R _ Nd1) as P2.
  assert (L3 : (F2R (elapsed1 / total * 100)%float <= F2R (elapsed2 / total * 100)%float)%R).
  { apply (rounds_mono _ _ _ _ Rm1 Rm2). split; lra. }
  apply (floor_mono _ _ _ _ Fl1 Fl2 L3).
Qed.


(** Four roundings of relative error [u] move [100 * w] by at most
    [700 * w * u]. *)
Lemma four_roundings (u w q r m : R) :
  (0 <= u <= / 1000000)%R -> (0 <= w)%R ->
  (q * (1 - u) <= w * (1 + u))%R -> (w * (1 - u) <= q * (1 + u))%R ->
  (q * (1 - u) <= r <= q * (1 + u))%R ->
  (r * 100 * (1 - u) <= m <= r * 100 * (1 + u))%R ->
  (100 * w * (1 - 7 * u) <= m <= 100 * w * (1 + 7 * u))%R.
Proof.
  intros Hu Hw Hq1 Hq2 Hr Hm.
  assert (Hu' : (u <= / 1000000)%R) by lra.
  assert (Hv : (/ 1000000 <= 1 / 10)%R) by lra.
  assert (Hu1 : (0 < 1 - u)%R) by lra.
  assert (Hq0 : (0 <= q)%R).
  { assert (0 <= q * (1 + u))%R by nra. nra. }
  assert (Hqu : (q <= w * (1 + 3 * u))%R).
  { apply Rmult_le_reg_r with (1 - u)%R; [assumption|].
    eapply Rle_trans; [exact Hq1|]. nra. }
  assert (Hql : (w * (1 - 3 * u) <= q)%R).
  { apply Rmult_le_reg_r with (1 + u)%R; [lra|].
    eapply Rle_trans; [|exact Hq2]. nra. }
  assert (Hr0 : (0 <= r)%R) by nra.
  assert (Hru : (r <= w * (1 + 5 * u))%R).
  { eapply Rle_trans; [apply Hr|].
    eapply Rle_trans; [apply Rmult_le_compat_r; [lra | exact Hqu]|]. nra. }
  assert (Hrl : (w * (1 - 5 * u) <= r)%R).
  { eapply Rle_trans; [|apply Hr].
    eapply Rle_trans; [|apply Rmult_le_compat_r; [lra | exact Hql]]. nra. }
  split.
  - eapply Rle_trans; [|apply Hm].
    eapply Rle_trans;
      [|apply Rmult_le_compat_r; [lra | apply Rmult_le_compat_r; [lra | exact Hrl]]].
    nra.
  - eapply Rle_trans; [apply Hm|].
    eapply Rle_trans;
      [apply Rmult_le_compat_r; [lra | apply Rmult_le_compat_r; [lra | exact Hru]]|].
    nra.
Qed.

Lemma bpow_m53_small : (0 <= bpow (-53) <= / 1000000)%R.
Proof.
  split; [apply Rlt_le, bpow_gt_0|].
  eapply Rle_trans; [|apply bpow_m20].
  apply bpow_le. lia.
Qed.

Lemma Zdiv_floor a b :
  0 < b -> (IZR (a / b) <= IZR a / IZR b < IZR (a / b) + 1)%R.
Proof.
  intros Hb.
  assert (HbR : (0 < IZR b)%R) by (apply IZR_lt; assumption).
  pose proof (Z.mul_div_le a b Hb) as H1.
  pose proof (Z.mul_succ_div_gt a b Hb) as H2.
  apply IZR_le in H1. apply IZR_lt in H2.
  rewrite mult_IZR in H1. rewrite mult_IZR, succ_IZR in H2.
  split.
  - apply Rmult_le_reg_r with (IZR b); [assumption|].
    replace (IZR a / IZR b * IZR b)%R with (IZR a) by (field; lra). lra.
  - apply Rmult_lt_reg_r with (IZR b); [assumption|].
    replace (IZR a / IZR b * IZR b)%R with (IZR a) by (field; lra). lra.
Qed.

(** The computed percentage is within one of the exact
    [min(100, floor(100 * E / T))]. *)
Lemma percent_close T E total elapsed z :
  0 < T <= 2 ^ 62 -> 0 <= E <= 2 ^ 62 ->
  Py.total_seconds T = Ok total -> Py.total_seconds E = Ok elapsed ->
  rbind (rbind (Py.float_truediv elapsed total) (fun r => Py.float_mul_int r 100))
    Py.int_of_float = Ok z ->
  Z.abs (Z.min 100 z - Z.min 100 (100 * E / T)) <= 1.
Proof.
  intros HT HE Ht He Hz.
  destruct (percent_value T E HT HE) as (t1 & e1 & y1 & A1 & A2 & A3 & _ & Hz0 & Nt & Ne &
    Lt & Rt & Re & Nd & Rd & Rm & Fl).
  rewrite Ht in A1. injection A1 as <-. rewrite He in A2. injection A2 as <-.
  rewrite Hz in A3. injection A3 as <-.
  set (m := F2R (elapsed / total * 100)%float) in *.
  set (r := F2R (elapsed / total)%float) in *.
  set (e := F2R elapsed) in *. set (t := F2R total) in *.
  pose proof (bpow_gt_0 (-20)) as Hp20.
  assert (Ht0 : (0 < t)%R) by lra.
  assert (HTR : (0 < IZR T)%R) by (apply IZR_lt; lia).
  destruct (Z.eq_dec E 0) as [->|Hnz].
  - assert (e = 0%R).
    { apply rounds_0. replace 0%R with (0 / 1000000)%R by (unfold Rdiv; ring). exact Re. }
    assert (r = 0%R).
    { apply rounds_0. replace 0%R with (e / t)%R by (rewrite H; unfold Rdiv; ring).
      exact Rd. }
    assert (m = 0%R).
    { apply rounds_0. replace 0%R with (r * 100)%R by (rewrite H0; ring). exact Rm. }
    rewrite H1 in Fl.
    assert (z = 0) by (apply (floor_unique 0%R); [exact Fl | simpl; lra]).
    subst z. rewrite Z.mul_0_r, Z.div_0_l by lia. simpl. lia.
  - assert (HER : (1 <= IZR E)%R) by (apply IZR_le; lia).
    pose proof bpow_m20 as H20.
    assert (Ha : (bpow (-20) <= IZR E / 1000000)%R).
    { unfold Rdiv. assert (0 < / 1000000)%R by (apply Rinv_0_lt_compat; lra). nra. }
    assert (Hb : (bpow (-20) <= IZR T / 1000000)%R).
    { assert (1 <= IZR T)%R by (apply IZR_le; lia).
      unfold Rdiv. assert (0 < / 1000000)%R by (apply Rinv_0_lt_compat; lra). nra. }
    pose proof (bpow_le (-1022) (-20) ltac:(lia)) as Hn20.
    pose proof (rounds_error _ _ Re ltac:(lra)) as Ee.
    pose proof (rounds_error _ _ Rt ltac:(lra)) as Et.
    assert (He20 : (bpow (-20) <= e)%R) by (apply (rounds_ge_bpow _ _ _ Re Ha); lia).
    assert (Ht62 : (t <= bpow 62)%R).
    { apply (rounds_le_bpow _ _ _ Rt); [|lia]. split; [lra|].
      apply Rmult_le_reg_r with 1000000%R; [lra|].
      replace (IZR T / 1000000 * 1000000)%R with (IZR T) by (field; lra).
      rewrite bpow_IZR by lia.
      assert (IZR T <= IZR (2 ^ 62))%R by (apply IZR_le; lia).
      assert (0 < IZR (2 ^ 62))%R by (apply IZR_lt; lia). nra. }
    assert (Hq82 : (bpow (-82) <= e / t)%R).
    { pose proof (bpow_gt_0 62). pose proof (bpow_gt_0 (-82)).
      apply Rmult_le_reg_r with t; [assumption|].
      replace (e / t * t)%R with e by (field; lra).
      replace (-20) with (-82 + 62) in He20 by lia. rewrite bpow_add in He20. nra. }
    pose proof (bpow_le (-1022) (-82) ltac:(lia)) as Hn82.
    pose proof (rounds_error _ _ Rd ltac:(lra)) as Er.
    assert (Hr82 : (bpow (-82) <= r)%R) by (apply (rounds_ge_bpow _ _ _ Rd Hq82); lia).
    pose proof (rounds_error _ _ Rm ltac:(pose proof (bpow_gt_0 (-82)); nra)) as Em.
    pose proof bpow_m53_small as Hu.
    set (u := bpow (-53)) in *.
    set (w := (IZR E / IZR T)%R).
    assert (Hw0 : (0 <= w)%R).
    { unfold w, Rdiv. apply Rmult_le_pos; [lra|]. apply Rlt_le, Rinv_0_lt_compat. lra. }
    assert (Habw : (IZR E / 1000000 = w * (IZR T / 1000000))%R).
    { unfold w. field. lra. }
    set (a := (IZR E / 1000000)%R) in *. set (b := (IZR T / 1000000)%R) in *.
    assert (Hb0 : (0 < b)%R) by lra.
    assert (Hqt : (e / t * t = e)%R) by (field; lra).
    set (q := (e / t)%R) in *.
    assert (Hq0 : (0 <= q)%R) by (pose proof (bpow_gt_0 (-82)); lra).
    assert (Hq1 : (q * (1 - u) <= w * (1 + u))%R).
    { apply Rmult_le_reg_r with b; [assumption|].
      assert (q * (b * (1 - u)) <= q * t)%R by (apply Rmult_le_compat_l; lra).
      nra. }
    assert (Hq2 : (w * (1 - u) <= q * (1 + u))%R).
    { apply Rmult_le_reg_r with b; [assumption|].
      assert (q * t <= q * (b * (1 + u)))%R by (apply Rmult_le_compat_l; lra).
      nra. }
    pose proof (four_roundings u w q r m Hu Hw0 Hq1 Hq2 Er Em) as [Hml Hmu].
    pose proof (Zdiv_floor (100 * E) T ltac:(lia)) as Hf.
    rewrite mult_IZR in Hf.
    replace (100 * IZR E / IZR T)%R with (100 * w)%R in Hf by (unfold w; field; lra).
    set (f := 100 * E / T) in *.
    destruct (Z_le_gt_dec E (2 * T)) as [Hsmall|Hbig].
    + assert (Hw2 : (w <= 2)%R).
      { unfold w. apply Rmult_le_reg_r with (IZR T); [assumption|].
        replace (IZR E / IZR T * IZR T)%R with (IZR E) by (field; lra).
        rewrite <- mult_IZR. apply IZR_le. lia. }
      assert (Hd1 : (m < 100 * w + 1)%R) by nra.
      assert (Hd2 : (100 * w - 1 < m)%R) by nra.
      assert (z < f + 2).
      { apply lt_IZR. rewrite plus_IZR. lra. }
      assert (f < z + 2).
      { apply lt_IZR. rewrite plus_IZR. lra. }
      lia.
    + assert (Hw2 : (2 <= w)%R).
      { unfold w. apply Rmult_le_reg_r with (IZR T); [assumption|].
        replace (IZR E / IZR T * IZR T)%R with (IZR E) by (field; lra).
        rewrite <- mult_IZR. apply IZR_le. lia. }
      assert (100 < m)%R by nra.
      assert (100 < z + 1).
      { apply lt_IZR. rewrite plus_IZR. lra. }
      assert (100 < f + 1).
      { apply lt_IZR. rewrite plus_IZR. lra. }
      lia.
Qed.


(** The report of a development that the query finds, as one expression. *)
Lemma get_development_progress_run now development_id s d :
  find (fun d => Development.id d =? development_id) (developments (working s)) = Some d ->
  DevelopmentService.get_development_progress now development_id s =
  (s, match Development.status d with
      | COMPLETED => Ok (DevelopmentProgress.mk (Development.id d) COMPLETED 100 (Py.Int 0))
      | CANCELLED => Ok (DevelopmentProgress.mk (Development.id d) CANCELLED 0 (Py.Int 0))
      | IN_PROGRESS =>
          rbind (Py.total_seconds (Development.end_time d - Development.start_time d))
            (fun total_time =>
          rbind (Py.total_seconds (now - Development.start_time d))
            (fun elapsed_time =>
          rbind (rbind (rbind (Py.float_truediv elapsed_time total_time)
                          (fun r => Py.float_mul_int r 100)) Py.int_of_float)
            (fun p =>
          rbind (Py.total_seconds (Development.end_time d - now))
            (fun left =>
          Ok (DevelopmentProgress.mk (Development.id d) IN_PROGRESS (Z.min 100 p)
                (Py.max_0 left))))))
      end).
Proof.
  intros Hfind. unfold DevelopmentService.get_development_progress.
  rewrite run_bind. unfold query at 1. rewrite Hfind.
  destruct (Development.status d); try reflexivity.
  rewrite run_bind. unfold lift at 1.
  destruct (Py.total_seconds (Development.end_time d - Development.start_time d))
    as [total|]; [|reflexivity]. cbn [rbind].
  rewrite run_bind. unfold lift at 1.
  destruct (Py.total_seconds (now - Development.start_time d)) as [elapsed|]; [|reflexivity].
  cbn [rbind].
  rewrite run_bind. unfold lift at 1.
  destruct (rbind (rbind (Py.float_truediv elapsed total) (fun r => Py.float_mul_int r 100))
              Py.int_of_float) as [p|]; [|reflexivity].
  cbn [rbind].
  rewrite run_bind. unfold lift at 1.
  destruct (Py.total_seconds (Development.end_time d - now)) as [left|]; reflexivity.
Qed.

(** What remains of an interval of [d] microseconds: [max(0, seconds)]. *)
Lemma time_left_value d :
  - 2 ^ 62 <= d <= 2 ^ 62 ->
  exists left, Py.total_seconds d = Ok left /\
    (d <= 0 -> Py.max_0 left = Py.Int 0) /\
    (0 < d -> Py.max_0 left = Py.Float left /\ nonneg_finite left = true /\
              rounds (IZR d / 1000000) (F2R left)).
Proof.
  intros Hd. destruct (Z_lt_le_dec d 0) as [Hneg|Hnn].
  - destruct (total_seconds_negative d) as (f & Hf & Hm); [lia|].
    exists f. split; [assumption|]. split; [auto | lia].
  - destruct (total_seconds_nonneg d) as (f & Hf & Hn & Hr & _ & Hl); [lia|].
    exists f. split; [assumption|]. split.
    + intros H0. assert (d = 0) by lia. subst d.
      assert (E : Py.total_seconds 0 = Ok zero) by reflexivity.
      rewrite E in Hf. injection Hf as <-. reflexivity.
    + intros Hpos. split; [|auto].
      apply max_0_positive; [assumption|].
      pose proof (bpow_gt_0 (-20)). specialize (Hl Hpos). lra.
Qed.

(** C6, as the code computes it. A development that the query finds is
    reported with its own status and a percentage in [0, 100], provided
    that, while it is IN_PROGRESS, the query time is not before its start
    and its end is after its start. COMPLETED gives 100 and the integer 0
    remaining, CANCELLED gives 0 and 0. IN_PROGRESS gives
    min(100, floor(elapsed / total * 100)) in binary64 arithmetic, which is
    within one of min(100, floor(100 * (now - start) / (end - start))) and
    does not decrease when the query time grows; the time remaining is
    max(0, seconds from now to the end). *)
Theorem progress_report :
  forall db now development_id d,
    find (fun d => Development.id d =? development_id) (developments db) = Some d ->
    (Development.status d = IN_PROGRESS -> times_in_range d now) ->
    exists report,
      run (DevelopmentService.get_development_progress now development_id) db
      = (db, Ok report) /\
      DevelopmentProgress.id report = development_id /\
      DevelopmentProgress.status report = Development.status d /\
      0 <= DevelopmentProgress.progress report <= 100 /\
      match Development.status d with
      | COMPLETED =>
          DevelopmentProgress.progress report = 100 /\
          DevelopmentProgress.time_left_seconds report = Py.Int 0
      | CANCELLED =>
          DevelopmentProgress.progress report = 0 /\
          DevelopmentProgress.time_left_seconds report = Py.Int 0
      | IN_PROGRESS =>
          let start_time := Development.start_time d in
          let end_time := Development.end_time d in
          (exists total elapsed,
             Py.total_seconds (end_time - start_time) = Ok total /\
             Py.total_seconds (now - start_time) = Ok elapsed /\
             DevelopmentProgress.progress report
             = Z.min 100 (Py.floor (elapsed / total * 100)%float)) /\
          Z.abs (DevelopmentProgress.progress report
                 - Z.min 100 (100 * (now - start_time) / (end_time - start_time))) <= 1 /\
          (end_time <= now -> DevelopmentProgress.time_left_seconds report = Py.Int 0) /\
          (now < end_time ->
             exists left,
               Py.total_seconds (end_time - now) = Ok left /\
               DevelopmentProgress.time_left_seconds report = Py.Float left /\
               rounds (IZR (end_time - now) / 1000000) (F2R left)) /\
          (forall now', now <= now' -> times_in_range d now' ->
             exists report',
               run (DevelopmentService.get_development_progress now' development_id) db
               = (db, Ok report') /\
               DevelopmentProgress.progress report
               <= DevelopmentProgress.progress report')
      end.
Proof.
  intros db now development_id d Hfind Hrange.
  assert (Hid : Development.id d = development_id).
  { apply find_some in Hfind. destruct Hfind as [_ H]. apply Z.eqb_eq. assumption. }
  unfold run.
  rewrite (get_development_progress_run now development_id (mkSession db db) d Hfind).
  cbn [committed].
  destruct (Development.status d) eqn:Hst.
  - (* IN_PROGRESS *)
    destruct (Hrange eq_refl) as (H1 & H2 & H3 & H4).
    set (start_time := Development.start_time d) in *.
    set (end_time := Development.end_time d) in *.
    destruct (percent_value (end_time - start_time) (now - start_time))
      as (total & elapsed & z & Ht & He & Hz & Hfl & Hz0 & _); [lia | lia |].
    destruct (time_left_value (end_time - now)) as (left & Hl & Hl0 & Hl1); [lia|].
    rewrite Ht, He. cbn [rbind]. rewrite Hz. cbn [rbind]. rewrite Hl. cbn [rbind].
    eexists. split; [reflexivity|].
    cbn [DevelopmentProgress.id DevelopmentProgress.status DevelopmentProgress.progress
         DevelopmentProgress.time_left_seconds].
    split; [assumption|]. split; [reflexivity|]. split; [lia|].
    split; [|split; [|split; [|split]]].
    + exists total, elapsed. rewrite Hfl. auto.
    + apply (percent_close _ _ total elapsed z); try assumption; lia.
    + intros Hle. apply Hl0. lia.
    + intros Hlt. exists left. destruct (Hl1 ltac:(lia)) as (G1 & _ & G2). auto.
    + intros now' Hle (K1 & K2 & K3 & K4). unfold run.
      rewrite (get_development_progress_run now' development_id (mkSession db db) d Hfind).
      rewrite Hst. cbn [committed]. fold start_time end_time. fold start_time end_time in K1, K2, K3, K4.
      destruct (percent_value (end_time - start_time) (now' - start_time))
        as (total' & elapsed' & z' & Ht' & He' & Hz' & _); [lia | lia |].
      destruct (time_left_value (end_time - now')) as (left' & Hl' & _); [lia|].
      rewrite Ht in Ht'. injection Ht' as <-.
      rewrite Ht, He'. cbn [rbind]. rewrite Hz'. cbn [rbind]. rewrite Hl'. cbn [rbind].
      eexists. split; [reflexivity|].
    cbn [DevelopmentProgress.id DevelopmentProgress.status DevelopmentProgress.progress
         DevelopmentProgress.time_left_seconds].
      assert (z <= z').
      { apply (percent_mono (end_time - start_time) (now - start_time) (now' - start_time)
                 total elapsed elapsed'); try assumption; lia. }
      lia.
  - eexists. split; [reflexivity|].
    cbn [DevelopmentProgress.id DevelopmentProgress.status DevelopmentProgress.progress
         DevelopmentProgress.time_left_seconds]. repeat split; try assumption; lia.
  - eexists. split; [reflexivity|].
    cbn [DevelopmentProgress.id DevelopmentProgress.status DevelopmentProgress.progress
         DevelopmentProgress.time_left_seconds]. repeat split; try assumption; lia.
Qed.

Lemma progress_report_witness :
  exists report,
    run (DevelopmentService.get_development_progress (43200 * 1000000) 1) road_network_db
    = (road_network_db, Ok report) /\
    DevelopmentProgress.status report = IN_PROGRESS /\
    0 <= DevelopmentProgress.progress report <= 100.
Proof.
  assert (Hfind : find (fun d => Development.id d =? 1) (developments road_network_db)
                  = Some (Development.mk 1 1 INFRASTRUCTURE "Road Network"
                            "Improve road infrastructure to boost economy" 200 0
                            86400000000 IN_PROGRESS 0.05 0 0.02)) by reflexivity.
  destruct (progress_report road_network_db (43200 * 1000000) 1 _ Hfind)
    as (report & H1 & _ & H3 & H4 & _).
  - intros _. unfold times_in_range. cbn. lia.
  - exists report. auto.
Defined.

(** C6 as stated fails before the start: queried one day before its start,
    an IN_PROGRESS development of one day reports -100 percent. The code
    takes min(100, .) and has no lower clamp. *)
Lemma progress_negative_before_start :
  exists report,
    run (DevelopmentService.get_development_progress one_day_before 1) road_network_db
    = (road_network_db, Ok report) /\
    DevelopmentProgress.status report = IN_PROGRESS /\
    DevelopmentProgress.progress report = -100 /\
    DevelopmentProgress.progress report < 0.
Proof.
  eexists. vm_compute. repeat split.
Qed.

(** The binary64 percentage can be one below the exact one: at 25056 of
    86400 seconds the quotient is 0.29 and the product 28.999999999999996,
    so the report says 28 where floor(25056 * 100 / 86400) = 29. *)
Lemma progress_28_at_29_hundredths :
  exists report,
    run (DevelopmentService.get_development_progress day_29_percent 1) road_network_db
    = (road_network_db, Ok report) /\
    DevelopmentProgress.progress report = 28 /\
    Z.min 100 (100 * (day_29_percent - 0) / (86400000000 - 0)) = 29.
Proof.
  eexists. vm_compute. repeat split.
Qed.

(** A development whose end is its start has a total time of 0.0 seconds,
    and the query raises on the division. *)
Lemma progress_zero_duration_raises db now development_id d :
  find (fun d => Development.id d =? development_id) (developments db) = Some d ->
  Development.status d = IN_PROGRESS ->
  Development.end_time d = Development.start_time d ->
  - 2 ^ 62 <= now - Development.start_time d <= 2 ^ 62 ->
  run (DevelopmentService.get_development_progress now development_id) db
  = (db, Raise ZeroDivisionError).
Proof.
  intros Hfind Hst Hend Hnow. unfold run.
  rewrite (get_development_progress_run now development_id (mkSession db db) d Hfind).
  rewrite Hst, Hend, Z.sub_diag. cbn [committed].
  change (Py.total_seconds 0) with (Ok zero : res float). cbn [rbind].
  destruct (time_left_value _ Hnow) as (elapsed & He & _). rewrite He. cbn [rbind].
  reflexivity.
Qed.


(** ** C4: resource balances *)

(** The float of a non-negative integer, when the conversion returns. *)
Lemma float_of_int_rounds n f :
  0 <= n -> Py.float_of_int n = Ok f ->
  nonneg_finite f = true /\ rounds (IZR n) (F2R f).
Proof.
  intros Hn Hf. destruct (float_of_int_correct n Hn) as (y & Hr & H1 & H2).
  destruct (Rlt_or_le y (bpow 1024)) as [Hy|Hy].
  - destruct (H1 Hy) as (f' & Hf' & Nf & Hv). rewrite Hf in Hf'. injection Hf' as <-.
    rewrite Hv. auto.
  - rewrite (H2 Hy) in Hf. discriminate.
Qed.

(** The product of two floats, when it is finite. *)
Lemma mul_rounds x y :
  nonneg_finite x = true -> nonneg_finite y = true ->
  nonneg_finite (x * y)%float = true ->
  rounds (F2R x * F2R y) (F2R (x * y)%float).
Proof.
  intros Nx Ny Nm. destruct (mul_correct x y Nx Ny) as (r & Hr & H1 & H2).
  destruct (Rlt_or_le r (bpow 1024)) as [Hy|Hy].
  - destruct (H1 Hy) as [_ ->]. assumption.
  - specialize (H2 Hy). unfold nonneg_finite in Nm. rewrite H2 in Nm. discriminate.
Qed.

(** A rounded value is below every integer [n >= 1] that bounds the exact
    value with one relative error to spare. *)
Lemma rounds_le_int p y n :
  rounds p y -> (0 <= p)%R -> 1 <= n -> (p * (1 + bpow (-53)) <= IZR n)%R ->
  (y <= IZR n)%R.
Proof.
  intros Hr Hp Hn Hb.
  assert (H1 : (1 <= IZR n)%R) by (apply IZR_le; assumption).
  destruct (Rlt_or_le p (bpow (-1022))) as [Hs|Hs].
  - assert (y <= bpow (-1022))%R.
    { apply (rounds_le_bpow _ _ _ Hr); [lra | lia]. }
    pose proof (bpow_le (-1022) 0 ltac:(lia)) as H0. rewrite bpow_0 in H0. lra.
  - pose proof (rounds_error _ _ Hr Hs). lra.
Qed.

(** What [int(roll * resources)] captures is at most the defender's balance. *)
Lemma captured_le roll resources xr rc :
  nonneg_finite roll = true -> (F2R roll < bpow (-2))%R -> 0 <= resources ->
  Py.float_mul_int roll resources = Ok xr -> Py.int_of_float xr = Ok rc ->
  0 <= rc <= resources.
Proof.
  intros Nr Hr H0 Hx Hz.
  destruct (float_mul_int_floor _ _ _ _ Nr H0 Hx Hz) as (_ & Hz0 & Ny & f & Hf & Nf & ->).
  split; [assumption|].
  destruct (float_of_int_rounds _ _ H0 Hf) as [_ Rf].
  pose proof (mul_rounds _ _ Nr Nf Ny) as Rm.
  destruct (int_of_float_nonneg _ Ny) as (z & Hz' & _ & _ & Hfl).
  rewrite Hz in Hz'. injection Hz' as <-.
  pose proof (nonneg_finite_F2R _ Nr) as Pr. pose proof (nonneg_finite_F2R _ Nf) as Pf.
  destruct (Z.eq_dec resources 0) as [->|Hnz].
  - apply rounds_0 in Rf. rewrite Rf, Rmult_0_r in Rm. apply rounds_0 in Rm.
    rewrite Rm in Hfl. apply le_IZR. lra.
  - assert (Hres : (1 <= IZR resources)%R) by (apply IZR_le; lia).
    pose proof (bpow_le (-1022) 0 ltac:(lia)) as Hn. rewrite bpow_0 in Hn.
    pose proof (rounds_error _ _ Rf ltac:(lra)) as Ef.
    pose proof bpow_m53_small as Hu.
    assert (H4 : bpow (-2) = (/ 4)%R).
    { unfold bpow. simpl. lra. }
    rewrite H4 in Hr.
    assert ((F2R (roll * f)%float <= IZR resources)%R).
    { apply (rounds_le_int _ _ _ Rm); [nra | lia |].
      set (u := bpow (-53)) in *.
      assert (F2R roll * F2R f <= / 4 * (IZR resources * (1 + u)))%R.
      { apply Rmult_le_compat; lra. }
      nra. }
    apply le_IZR. lra.
Qed.

(** Updating the one row of a key keeps the balances non-negative when the
    new row's balance is. *)
Lemma NoDup_country_inj cs (a b : Country.t) :
  NoDup (map Country.id cs) -> In a cs -> In b cs -> Country.id a = Country.id b -> a = b.
Proof.
  induction cs as [|x cs IH]; intros Hnd Ha Hb Hid; [destruct Ha|].
  cbn in Hnd. inversion Hnd as [|? ? Hnot Hnd']; subst.
  destruct Ha as [<-|Ha], Hb as [<-|Hb].
  - reflexivity.
  - exfalso. apply Hnot. rewrite Hid. apply in_map. assumption.
  - exfalso. apply Hnot. rewrite <- Hid. apply in_map. assumption.
  - apply IH; assumption.
Qed.

Lemma update_row_nonneg cs country_id (f : Country.t -> Country.t) country :
  NoDup (map Country.id cs) ->
  (forall c, In c cs -> 0 <= Country.resources c) ->
  find (fun c => Country.id c =? country_id) cs = Some country ->
  0 <= Country.resources (f country) ->
  forall c', In c' (map (fun c => if Country.id c =? country_id then f c else c) cs) ->
             0 <= Country.resources c'.
Proof.
  intros Hnd Hall Hfind Hf c' Hin.
  apply in_map_iff in Hin. destruct Hin as (c & <- & Hc).
  apply find_some_in in Hfind. destruct Hfind as [Hcin Hcid].
  apply Z.eqb_eq in Hcid.
  destruct (Z.eqb_spec (Country.id c) country_id) as [E|_]; [|auto].
  assert (c = country) by (apply (NoDup_country_inj cs); auto; congruence).
  subst c. assumption.
Qed.

(** [update_resources] as one expression: the two checks, and then the
    lookup of [TransactionLog]. *)
Lemma update_resources_run now country_id amount description db :
  run (CountryService.update_resources now country_id amount description) db =
  (db,
   Raise
     match find (fun c => Country.id c =? country_id) (countries db) with
     | None => ValidationError
     | Some country =>
         if (amount <? 0) && (Country.resources country + amount <? 0)
         then ResourceError
         else NameError
     end).
Proof.
  unfold run, CountryService.update_resources, CountryService.get_country_by_id.
  rewrite run_bind, first_country_run. cbn [working countries].
  destruct (find _ (countries db)) as [country|]; [|reflexivity].
  destruct ((amount <? 0) && (Country.resources country + amount <? 0)); reflexivity.
Qed.

(** [start_development] as one expression: the four checks in the order of
    the source, and then the lookup of [TransactionLog]. *)
Lemma start_development_run now now' now'' country_id category_str option_name db :
  run (DevelopmentService.start_development now now' now'' country_id category_str
         option_name) db =
  (db,
   Raise
     match DevelopmentCategory_of_value category_str with
     | Raise _ => ValidationError
     | Ok category =>
         match find (fun o => String.eqb (DevelopmentOption.name o) option_name)
                 (DevelopmentService.development_options category) with
         | None => ValidationError
         | Some option =>
             match find (fun c => Country.id c =? country_id) (countries db) with
             | None => ValidationError
             | Some country =>
                 if Country.resources country <? DevelopmentOption.cost option
                 then ResourceError
                 else NameError
             end
         end
     end).
Proof.
  unfold run, DevelopmentService.start_development.
  destruct (DevelopmentCategory_of_value category_str) as [cat|]; [|reflexivity].
  destruct (find _ (DevelopmentService.development_options cat)) as [option|];
    [|reflexivity].
  rewrite run_bind, first_country_run. cbn [working countries].
  destruct (find _ (countries db)) as [country|]; [|reflexivity].
  destruct (Country.resources country <? DevelopmentOption.cost option); reflexivity.
Qed.

Lemma update_resources_ok now country_id amount description db :
  store_ok db ->
  store_ok (fst (run (CountryService.update_resources now country_id amount description) db)).
Proof. intros Hok. rewrite update_resources_run. exact Hok. Qed.

Lemma build_army_ok now country_id unit_type quantity db :
  store_ok db ->
  store_ok (fst (run (MilitaryService.build_army now country_id unit_type quantity) db)).
Proof. intros Hok. rewrite build_army_eq. exact Hok. Qed.

Lemma start_development_ok now now' now'' country_id category option_name db :
  store_ok db ->
  store_ok (fst (run (DevelopmentService.start_development now now' now'' country_id
                        category option_name) db)).
Proof. intros Hok. rewrite start_development_run. exact Hok. Qed.

(** What the sweep's assignments do to the balance of one nation. *)
Lemma apply_bonuses_resources now d c c' :
  DevelopmentService.apply_bonuses now d c = Ok c' ->
  0 <= Country.resources c -> bonus_ok (Development.trade_bonus d) ->
  Country.id c' = Country.id c /\ Country.resources c <= Country.resources c'.
Proof.
  unfold DevelopmentService.apply_bonuses. intros H H0 Hb.
  apply rbind_ok in H. destruct H as (gdp & _ & H).
  apply rbind_ok in H. destruct H as (mp & _ & H).
  apply rbind_ok in H. destruct H as (gain & Hg & [= <-]).
  apply rbind_ok in Hg. destruct Hg as (x & Hx & Hz).
  destruct (int_mul_float_floor _ _ _ _ (nonneg_finite_sf_shape _ Hb) H0 Hx Hz)
    as (_ & Hz0 & _).
  cbn. split; [reflexivity | lia].
Qed.

Lemma sweep_countries_ok now l : forall cs cs',
  NoDup (map Country.id cs) ->
  (forall c, In c cs -> 0 <= Country.resources c) ->
  (forall d, In d l -> bonus_ok (Development.trade_bonus d)) ->
  sweep_countries now l cs = Ok cs' ->
  map Country.id cs' = map Country.id cs /\
  (forall c, In c cs' -> 0 <= Country.resources c).
Proof.
  induction l as [|d l IH]; intros cs cs' Hnd Hbal Hl Hrun.
  - cbn in Hrun. injection Hrun as <-. auto.
  - cbn [sweep_countries] in Hrun.
    assert (Hl' : forall d0, In d0 l -> bonus_ok (Development.trade_bonus d0)).
    { intros d0 H. apply Hl. right. assumption. }
    destruct (find _ cs) as [country|] eqn:Hfind; [|apply IH; assumption].
    apply rbind_ok in Hrun. destruct Hrun as (c & Hc & Hrun).
    pose proof Hfind as Hf. apply find_some_in in Hf. destruct Hf as [Hin Hid].
    apply Z.eqb_eq in Hid.
    destruct (apply_bonuses_resources now d country c Hc (Hbal _ Hin)
                (Hl d (or_introl eq_refl))) as [Hcid Hres].
    assert (Hids : map Country.id
                     (map (fun c0 => if Country.id c0 =? Country.id country then c else c0) cs)
                   = map Country.id cs).
    { rewrite map_map. apply map_ext. intros c0.
      destruct (Z.eqb_spec (Country.id c0) (Country.id country)); congruence. }
    destruct (IH _ cs' ltac:(rewrite Hids; exact Hnd)) with (3 := Hrun) as [G1 G2];
      try assumption.
    + apply (update_row_nonneg cs (Country.id country) (fun _ => c) country); try assumption.
      * rewrite Hid. assumption.
      * specialize (Hbal _ Hin). lia.
    + split; [congruence | assumption].
Qed.

Lemma mark_completed_trade_bonus l t d :
  In d (mark_completed l t) ->
  exists r, In r t /\ Development.trade_bonus d = Development.trade_bonus r.
Proof.
  rewrite mark_completed_map. intros H. apply in_map_iff in H.
  destruct H as (r & <- & Hr). exists r. split; [assumption|].
  destruct (existsb _ l); reflexivity.
Qed.

Lemma check_completed_developments_ok now db :
  store_ok db ->
  store_ok (fst (run (DevelopmentService.check_completed_developments now) db)).
Proof.
  intros Hok. rewrite sweep_run. cbv zeta.
  destruct (sweep_countries now _ (countries db)) as [cs|e] eqn:Hs; [|assumption].
  cbn [fst]. destruct Hok as (Hnd & Hbal & Hdev).
  assert (Hsel : forall d, In d (filter (DevelopmentService.matured now) (developments db)) ->
                  bonus_ok (Development.trade_bonus d)).
  { intros d Hd. apply filter_In in Hd. apply Hdev. tauto. }
  destruct (sweep_countries_ok _ _ _ _ Hnd Hbal Hsel Hs) as [G1 G2].
  unfold store_ok, balances_nonneg. cbn [countries developments].
  split; [rewrite G1; assumption|]. split; [assumption|].
  intros d Hd. apply mark_completed_trade_bonus in Hd. destruct Hd as (r & Hr & ->).
  apply Hdev. assumption.
Qed.

Lemma attack_ok rolls now attacker_id defender_id db :
  store_ok db -> rolls_in_range rolls = true ->
  store_ok (fst (run (MilitaryService.attack rolls now attacker_id defender_id) db)).
Proof.
  intros (Hnd & Hbal & Hdev) Hrolls.
  pose proof (attack_run rolls now attacker_id defender_id db) as H.
  destruct (run (MilitaryService.attack rolls now attacker_id defender_id) db)
    as [db' [battle|e]]; cbn [fst].
  - destruct H as (attacker & defender & Fa & Fd & Hne & _ & Hres & Hcs & Hd' & _).
    unfold store_ok, balances_nonneg. rewrite Hd'.
    destruct (BattleResult_eqb (Battle.result battle) VICTORY) eqn:E;
      [|rewrite Hcs; auto].
    apply BattleResult_eqb_eq in E.
    destruct (battle_result_inv _ _ _ _ _ _ _ _ _ _ Hres) as [_ Hwin].
    destruct (Hwin E) as (xt & xr & _ & _ & Hxr & Hrc).
    destruct (rolls_in_range_spec rolls Hrolls) as (_ & _ & _ & (Nr & Br)).
    pose proof Fd as Fd'. apply find_some_in in Fd'. destruct Fd' as [Din Did].
    apply Z.eqb_eq in Did.
    destruct (captured_le _ _ _ _ Nr Br (Hbal _ Din) Hxr Hrc) as [Hrc0 Hrc1].
    rewrite Hcs, (transfer_spec _ _ _ _ Hne).
    split; [|split; [|assumption]].
    + rewrite map_map.
      replace (map _ (countries db)) with (map Country.id (countries db)); [assumption|].
      apply map_ext. intros c.
      destruct (Country.id c =? attacker_id); [reflexivity|].
      destruct (Country.id c =? defender_id); reflexivity.
    + intros c' Hc'. apply in_map_iff in Hc'. destruct Hc' as (c & <- & Hc).
      pose proof (Hbal c Hc) as Hc0.
      destruct (Z.eqb_spec (Country.id c) attacker_id); [cbn; lia|].
      destruct (Z.eqb_spec (Country.id c) defender_id) as [Ed|]; [|assumption].
      assert (c = defender) by (apply (NoDup_country_inj (countries db)); auto; congruence).
      subst c. cbn. lia.
  - destruct H as (Hc & Hd & _). unfold store_ok, balances_nonneg.
    rewrite <- Hc, <- Hd. auto.
Qed.

Lemma create_country_raise now user_id name gov ideo db db' e :
  run (CountryService.create_country now user_id name gov ideo) db = (db', Raise e) ->
  db' = db.
Proof.
  unfold run, CountryService.create_country.
  rewrite run_bind. unfold CountryService.get_country_by_name, query at 1. cbn [working].
  destruct (find _ (countries db)); [cbn; intros [= <- _]; reflexivity|].
  rewrite run_bind. unfold CountryService.get_countries_by_user_id, query at 1. cbn [working].
  destruct (filter _ (countries db)); [|cbn; intros [= <- _]; reflexivity].
  destruct (GovernmentType_of_value gov) as [g|]; [|cbn; intros [= <- _]; reflexivity].
  destruct (Ideology_of_value ideo) as [i|]; [|cbn; intros [= <- _]; reflexivity].
  cbn. discriminate.
Qed.

Lemma create_country_ok now user_id name gov ideo db :
  store_ok db ->
  store_ok (fst (run (CountryService.create_country now user_id name gov ideo) db)).
Proof.
  intros Hok.
  destruct (run (CountryService.create_country now user_id name gov ideo) db)
    as [db' [country|e]] eqn:Hrun; cbn [fst].
  - apply create_country_run in Hrun. destruct Hrun as (g & i & Hc & ->).
    cbv zeta in Hc. destruct Hok as (Hnd & Hbal & Hdev).
    unfold store_ok, balances_nonneg. cbn [countries developments].
    split; [|split; [|assumption]].
    + rewrite map_app. cbn [map]. apply NoDup_app; [assumption | repeat constructor; auto |].
      intros x Hx [<-|[]]. rewrite Hc in Hx. cbn [Country.id] in Hx.
      pose proof (next_id_gt _ _ Hx). lia.
    + intros c Hin. apply in_app_or in Hin. destruct Hin as [Hin|[<-|[]]]; [auto|].
      rewrite Hc. cbn. unfold config.INITIAL_RESOURCES. lia.
  - apply create_country_raise in Hrun. subst db'. assumption.
Qed.

(** Every operation keeps the store in order, whatever it returns. *)
Lemma store_ok_step op db :
  store_ok db -> draws_in_range op -> store_ok (store_after op db).
Proof.
  intros Hok Hdraws. destruct op; cbn [store_after].
  - apply update_resources_ok. assumption.
  - apply build_army_ok. assumption.
  - apply start_development_ok. assumption.
  - apply check_completed_developments_ok. assumption.
  - apply attack_ok; assumption.
  - apply create_country_ok. assumption.
Qed.

Lemma store_ok_steps ops : forall db,
  store_ok db -> Forall draws_in_range ops ->
  store_ok (fold_left (fun db op => store_after op db) ops db).
Proof.
  induction ops as [|op ops IH]; intros db Hok Hall; [assumption|].
  inversion Hall; subst. cbn [fold_left]. apply IH; [|assumption].
  apply store_ok_step; assumption.
Qed.

Lemma store_ok_empty : store_ok empty_db.
Proof.
  split; [constructor|]. split; intros x [].
Qed.


(** C4. In a store with unique nation keys where no balance is negative
    (and the trade bonuses are those of the catalogue: finite, not
    negative), every operation that changes a balance - resource
    adjustment, army build, development start, completion sweep, battle
    with draws in their ranges - and the creation of a nation leave every
    balance non-negative in the committed store, whether the call returns
    or raises, and so does every sequence of them. An adjustment that would
    make the balance negative raises ResourceError and leaves the store as
    it was. *)
Theorem resource_balance_never_negative :
  forall op db,
    store_ok db -> draws_in_range op ->
    store_ok (store_after op db) /\
    (forall c, In c (countries (store_after op db)) -> 0 <= Country.resources c) /\
    (forall now country_id amount description country,
       find (fun c => Country.id c =? country_id) (countries db) = Some country ->
       Country.resources country + amount < 0 ->
       run (CountryService.update_resources now country_id amount description) db
       = (db, Raise ResourceError)) /\
    (forall ops, Forall draws_in_range ops ->
       balances_nonneg (fold_left (fun db op => store_after op db) (op :: ops) db)).
Proof.
  intros op db Hok Hdraws.
  pose proof (store_ok_step op db Hok Hdraws) as Hstep.
  split; [assumption|]. split; [apply Hstep|]. split.
  - intros now country_id amount description country Hfind Hsum.
    rewrite update_resources_run, Hfind.
    assert (H0 : 0 <= Country.resources country).
    { destruct Hok as (_ & Hbal & _). apply find_some_in in Hfind. apply Hbal. tauto. }
    destruct (Z.ltb_spec amount 0); [|lia].
    destruct (Z.ltb_spec (Country.resources country + amount) 0); [|lia].
    reflexivity.
  - intros ops Hall. cbn [fold_left]. apply (store_ok_steps ops); assumption.
Qed.

Lemma resource_balance_never_negative_witness :
  store_ok (store_after (Attack scenario_rolls 0 1 2) battle_db) /\
  (forall c, In c (countries (store_after (Attack scenario_rolls 0 1 2) battle_db)) ->
             0 <= Country.resources c).
Proof.
  assert (Hok : store_ok battle_db).
  { split; [|split].
    - vm_compute. constructor; [intros [H|[]]; discriminate|].
      constructor; [intros []|]. constructor.
    - intros c Hc. vm_compute in Hc. destruct Hc as [<-|[<-|[]]]; vm_compute; discriminate.
    - intros d Hd. vm_compute in Hd. destruct Hd. }
  assert (Hdraws : draws_in_range (Attack scenario_rolls 0 1 2)) by reflexivity.
  destruct (resource_balance_never_negative (Attack scenario_rolls 0 1 2) battle_db
              Hok Hdraws) as (H1 & H2 & _).
  split; assumption.
Defined.


(** ** C3: casualty allocation *)

(** A rounding either keeps the relative error or stays below the
    smallest normal number. *)
Lemma rounds_error_or_tiny x y :
  rounds x y -> (0 <= x)%R ->
  (y <= x * (1 + bpow (-53)))%R \/ (y <= bpow (-1022))%R.
Proof.
  intros Hr Hx. destruct (Rlt_or_le x (bpow (-1022))) as [Hs|Hs].
  - right. apply (rounds_le_bpow _ _ _ Hr); [lra | lia].
  - left. apply (rounds_error _ _ Hr Hs).
Qed.

Lemma bpow_tiny : (bpow 52 * bpow (-1022) * (1 + bpow (-53)) < 1)%R.
Proof.
  rewrite <- bpow_add. replace (52 + -1022) with (-970) by lia.
  pose proof (bpow_le (-970) (-20) ltac:(lia)).
  pose proof bpow_m20. pose proof bpow_m53_small. pose proof (bpow_gt_0 (-970)).
  nra.
Qed.

(** What a share [s / S] of [T] casualties comes to: the three steps
    return, and the integer is at most the exact share with two relative
    errors. *)
Lemma share_bound T s S :
  0 <= T < 2 ^ 52 -> 0 <= s <= S -> 0 < S ->
  exists prop x c,
    Py.int_truediv s S = Ok prop /\ Py.int_mul_float T prop = Ok x /\
    Py.int_of_float x = Ok c /\ c = Py.floor x /\ 0 <= c /\
    (IZR c <= IZR T * (IZR s / IZR S) * ((1 + bpow (-53)) * (1 + bpow (-53))))%R.
Proof.
  intros HT Hs HS.
  destruct (int_truediv_bounded s S 0) as (prop & Hp & Np & Rp & Bp); try lia.
  destruct (int_of_int_mul_float T prop 0) as (y & z & Hy & Hz & Hfl & Hz0 & Ny & f & Hf & _ &
    Nf & Rf & Ry); try assumption; try lia.
  exists prop, y, z. repeat (split; [assumption|]).
  destruct (int_of_float_nonneg _ Ny) as (z' & Hz' & _ & _ & Hb).
  rewrite Hz in Hz'. injection Hz' as <-.
  apply rounds_int in Rf; [|lia]. rewrite Rf in Ry.
  set (u := bpow (-53)) in *. pose proof bpow_m53_small as Hu. fold u in Hu.
  set (w := (IZR s / IZR S)%R) in *.
  assert (HSR : (0 < IZR S)%R) by (apply IZR_lt; assumption).
  assert (HsR : (0 <= IZR s)%R) by (apply IZR_le; lia).
  assert (HTR : (0 <= IZR T)%R) by (apply IZR_le; lia).
  assert (HT52 : (IZR T <= bpow 52)%R).
  { rewrite bpow_IZR by lia. apply IZR_le. lia. }
  assert (Hw : (0 <= w)%R).
  { unfold w, Rdiv. apply Rmult_le_pos; [assumption|].
    apply Rlt_le, Rinv_0_lt_compat. assumption. }
  pose proof (nonneg_finite_F2R _ Np) as Pp.
  assert (Hgoal0 : (0 <= IZR T * w * ((1 + u) * (1 + u)))%R).
  { apply Rmult_le_pos; [apply Rmult_le_pos; assumption|]. nra. }
  destruct (Rlt_or_le (F2R y) 1) as [Hsmall|Hbig].
  { assert (z = 0).
    { assert (z < 1) by (apply lt_IZR; lra). lia. }
    rewrite H. exact Hgoal0. }
  pose proof bpow_tiny as Htiny. fold u in Htiny.
  pose proof (bpow_gt_0 (-1022)) as Hm.
  assert (Hm1 : (bpow (-1022) < 1)%R).
  { pose proof (bpow_lt (-1022) 0 ltac:(lia)) as H. rewrite bpow_0 in H. exact H. }
  assert (Hpp : (0 <= IZR T * F2R prop)%R) by (apply Rmult_le_pos; assumption).
  destruct (rounds_error_or_tiny _ _ Ry Hpp) as [Ey|Ey]; [|lra]. fold u in Ey.
  destruct (rounds_error_or_tiny _ _ Rp Hw) as [Ep|Ep]; try fold u in Ep.
  - apply Rle_trans with (F2R y); [apply Hb|].
    eapply Rle_trans; [exact Ey|].
    replace (IZR T * w * ((1 + u) * (1 + u)))%R with (IZR T * (w * (1 + u)) * (1 + u))%R
      by ring.
    apply Rmult_le_compat_r; [lra|]. apply Rmult_le_compat_l; assumption.
  - exfalso.
    assert (IZR T * F2R prop <= bpow 52 * bpow (-1022))%R.
    { apply Rmult_le_compat; lra. }
    assert (IZR T * F2R prop * (1 + u) <= bpow 52 * bpow (-1022) * (1 + u))%R.
    { apply Rmult_le_compat_r; lra. }
    lra.
Qed.

(** Below [2^52] two relative errors stay under one unit. *)
Lemma two_errors_below_one T :
  0 <= T < 2 ^ 52 ->
  (IZR T * ((1 + bpow (-53)) * (1 + bpow (-53))) < IZR T + 1)%R.
Proof.
  intros HT.
  assert (H1 : (IZR T <= bpow 52 - 1)%R).
  { rewrite bpow_IZR by lia. rewrite <- minus_IZR. apply IZR_le. lia. }
  assert (H0 : (0 <= IZR T)%R) by (apply IZR_le; lia).
  assert (Hb : (bpow 52 * bpow (-53) = / 2)%R).
  { rewrite <- bpow_add. replace (52 + -53) with (-1) by lia.
    unfold bpow. simpl. lra. }
  pose proof bpow_m53_small as Hu. pose proof (bpow_gt_0 (-53)) as Hu0.
  set (u := bpow (-53)) in *. set (B := bpow 52) in *.
  assert (IZR T * (2 * u + u * u) <= (B - 1) * (2 * u + u * u))%R.
  { apply Rmult_le_compat_r; nra. }
  nra.
Qed.

Lemma sum_cons a l : sum (a :: l) = a + sum l.
Proof.
  unfold sum. cbn [fold_left].
  assert (H : forall l x y, fold_left Z.add l (x + y) = x + fold_left Z.add l y).
  { clear. induction l as [|b l IH]; intros x y; cbn [fold_left]; [reflexivity|].
    rewrite <- Z.add_assoc. apply IH. }
  replace (0 + a) with (a + 0) by lia. apply H.
Qed.

Lemma sum_nonneg l : (forall x, In x l -> 0 <= x) -> 0 <= sum l.
Proof.
  induction l as [|a l IH]; intros H; [reflexivity|].
  rewrite sum_cons. specialize (H a (or_introl eq_refl)) as Ha.
  assert (0 <= sum l) by (apply IH; intros x Hx; apply H; right; assumption). lia.
Qed.

Lemma sum_ge_each l x : (forall y, In y l -> 0 <= y) -> In x l -> x <= sum l.
Proof.
  induction l as [|a l IH]; intros H Hin; [destruct Hin|].
  rewrite sum_cons.
  assert (Hl : forall y, In y l -> 0 <= y) by (intros y Hy; apply H; right; assumption).
  pose proof (sum_nonneg l Hl). pose proof (H a (or_introl eq_refl)).
  destruct Hin as [<-|Hin]; [lia|]. specialize (IH Hl Hin). lia.
Qed.

(** Shares bounded term by term are bounded in total. *)
Lemma sum_shares {A} (c s : A -> Z) (K : R) l :
  (forall a, In a l -> (IZR (c a) <= K * IZR (s a))%R) ->
  (IZR (sum (map c l)) <= K * IZR (sum (map s l)))%R.
Proof.
  induction l as [|a l IH]; intros H.
  - cbn. lra.
  - cbn [map]. rewrite !sum_cons, !plus_IZR.
    pose proof (H a (or_introl eq_refl)).
    assert (IZR (sum (map c l)) <= K * IZR (sum (map s l)))%R.
    { apply IH. intros b Hb. apply H. right. assumption. }
    lra.
Qed.


(** The loop on the table, when no step raises. *)
Lemma apply_losses_fold T S units : forall table,
  (forall u, In u units -> exists c, MilitaryService.unit_casualties T S u = Ok c) ->
  apply_losses T S units table =
  Ok (fold_left (fun t unit =>
        map (fun u => if MilitaryUnit.id u =? MilitaryUnit.id unit
                      then MilitaryUnit.set_quantity
                             (MilitaryUnit.quantity unit - units_lost T S unit) u
                      else u) t) units table).
Proof.
  induction units as [|unit units IH]; intros table Hok; [reflexivity|].
  cbn [apply_losses fold_left].
  destruct (Hok unit (or_introl eq_refl)) as (c & Hc).
  assert (Hl : units_lost T S unit = c) by (unfold units_lost; rewrite Hc; reflexivity).
  rewrite Hl, Hc. cbn [rbind].
  apply IH. intros u Hu. apply Hok. right. assumption.
Qed.

(** With unique keys the loop is one pass over the table. *)
Lemma fold_update_map (loss : MilitaryUnit.t -> Z) units : forall table,
  NoDup (map MilitaryUnit.id units) ->
  fold_left (fun t unit =>
    map (fun u => if MilitaryUnit.id u =? MilitaryUnit.id unit
                  then MilitaryUnit.set_quantity (MilitaryUnit.quantity unit - loss unit) u
                  else u) t) units table
  = map (fun u =>
           match find (fun v => MilitaryUnit.id u =? MilitaryUnit.id v) units with
           | Some v => MilitaryUnit.set_quantity (MilitaryUnit.quantity v - loss v) u
           | None => u
           end) table.
Proof.
  induction units as [|a units IH]; intros table Hnd.
  - cbn. symmetry. apply map_id.
  - cbn [fold_left]. cbn [map] in Hnd. inversion Hnd as [|? ? Hnot Hnd']; subst.
    rewrite IH by assumption. rewrite map_map. apply map_ext. intros u.
    cbn [find]. destruct (Z.eqb_spec (MilitaryUnit.id u) (MilitaryUnit.id a)) as [E|E].
    + cbn [MilitaryUnit.set_quantity MilitaryUnit.id].
      destruct (find _ units) as [v|] eqn:Hv; [|reflexivity].
      exfalso. apply find_some_in in Hv. destruct Hv as [Hin Hid].
      apply Z.eqb_eq in Hid. apply Hnot. rewrite <- E, Hid. apply in_map. assumption.
    + reflexivity.
Qed.

Lemma NoDup_unit_inj t (a b : MilitaryUnit.t) :
  NoDup (map MilitaryUnit.id t) -> In a t -> In b t ->
  MilitaryUnit.id a = MilitaryUnit.id b -> a = b.
Proof.
  induction t as [|x t IH]; intros Hnd Ha Hb Hid; [destruct Ha|].
  cbn in Hnd. inversion Hnd as [|? ? Hnot Hnd']; subst.
  destruct Ha as [<-|Ha], Hb as [<-|Hb].
  - reflexivity.
  - exfalso. apply Hnot. rewrite Hid. apply in_map. assumption.
  - exfalso. apply Hnot. rewrite <- Hid. apply in_map. assumption.
  - apply IH; assumption.
Qed.

Lemma NoDup_filter_ids (f : MilitaryUnit.t -> bool) t :
  NoDup (map MilitaryUnit.id t) -> NoDup (map MilitaryUnit.id (filter f t)).
Proof.
  induction t as [|x t IH]; intros Hnd; [constructor|].
  cbn in Hnd. inversion Hnd as [|? ? Hnot Hnd']; subst.
  cbn [filter]. destruct (f x); [|auto].
  cbn [map]. constructor; [|auto].
  intros Hin. apply Hnot. apply in_map_iff in Hin. destruct Hin as (y & Hy & Hin).
  apply filter_In in Hin. rewrite <- Hy. apply in_map. tauto.
Qed.

(** The rows of one nation are each updated from their own values. *)
Lemma update_of_nation (loss : MilitaryUnit.t -> Z) country_id table :
  NoDup (map MilitaryUnit.id table) ->
  map (fun u =>
         match find (fun v => MilitaryUnit.id u =? MilitaryUnit.id v)
                 (filter (fun u => MilitaryUnit.country_id u =? country_id) table) with
         | Some v => MilitaryUnit.set_quantity (MilitaryUnit.quantity v - loss v) u
         | None => u
         end) table
  = map (fun u => if MilitaryUnit.country_id u =? country_id
                  then MilitaryUnit.set_quantity (MilitaryUnit.quantity u - loss u) u
                  else u) table.
Proof.
  intros Hnd. apply map_ext_in. intros u Hu.
  destruct (find _ (filter _ table)) as [v|] eqn:Hv.
  - apply find_some_in in Hv. destruct Hv as [Hin Hid]. apply Z.eqb_eq in Hid.
    apply filter_In in Hin. destruct Hin as [Hin Hc].
    assert (u = v) by (apply (NoDup_unit_inj table); assumption).
    subst v. rewrite Hc. reflexivity.
  - destruct (MilitaryUnit.country_id u =? country_id) eqn:Hc; [|reflexivity].
    exfalso.
    assert (Hin : In u (filter (fun u => MilitaryUnit.country_id u =? country_id) table)).
    { apply filter_In. auto. }
    apply (find_none _ _ Hv) in Hin. rewrite Z.eqb_refl in Hin. discriminate.
Qed.

Lemma unit_strength_pos t : 0 < MilitaryService.unit_strength t.
Proof. destruct t; reflexivity. Qed.

(** One row's loss for casualties below [2^52] and quantities that are not
    negative. *)
Lemma unit_casualties_bound T S unit :
  0 <= T < 2 ^ 52 -> 0 < S -> 0 <= MilitaryUnit.quantity unit ->
  MilitaryUnit.quantity unit * MilitaryService.unit_strength (MilitaryUnit.unit_type unit) <= S ->
  exists prop x,
    Py.int_truediv
      (MilitaryUnit.quantity unit * MilitaryService.unit_strength (MilitaryUnit.unit_type unit))
      S = Ok prop /\
    Py.int_mul_float T prop = Ok x /\
    MilitaryService.unit_casualties T S unit
    = Ok (Z.min (Py.floor x) (MilitaryUnit.quantity unit)) /\
    0 <= Py.floor x /\
    (IZR (Py.floor x) <=
     IZR T / IZR S * ((1 + bpow (-53)) * (1 + bpow (-53)))
     * IZR (MilitaryUnit.quantity unit
            * MilitaryService.unit_strength (MilitaryUnit.unit_type unit)))%R.
Proof.
  intros HT HS Hq Hs.
  pose proof (unit_strength_pos (MilitaryUnit.unit_type unit)) as Hst.
  set (s := MilitaryUnit.quantity unit
            * MilitaryService.unit_strength (MilitaryUnit.unit_type unit)) in *.
  assert (Hs0 : 0 <= s) by (unfold s; nia).
  destruct (share_bound T s S HT (conj Hs0 Hs) HS) as (prop & x & c & Hp & Hx & Hc & Hfl & Hc0 & Hb).
  exists prop, x. split; [assumption|]. split; [assumption|].
  subst c. split; [|split; [assumption|]].
  - unfold MilitaryService.unit_casualties. fold s. rewrite Hp. cbn [rbind].
    rewrite Hx. cbn [rbind]. rewrite Hc. reflexivity.
  - eapply Rle_trans; [exact Hb|]. apply Req_le.
    assert (IZR S <> 0)%R by (apply not_0_IZR; lia). field. assumption.
Qed.


(** C3, as the code computes it. For a units table with unique keys, a
    nation whose quantities are not negative and 0 <= total_casualties <
    2^52, [_apply_casualties] returns. With no units or zero weighted
    strength the store is unchanged. Otherwise every row of the nation
    loses min(floor(total_casualties * proportion), quantity), the product
    and the proportion being binary64 values; every loss is between 0 and
    the row's quantity, so no quantity goes below zero, and the losses add
    up to at most total_casualties. *)
Theorem casualty_allocation_bounded :
  forall db country_id total_casualties,
    NoDup (map MilitaryUnit.id (military_units db)) ->
    (forall u, In u (units_of db country_id) -> 0 <= MilitaryUnit.quantity u) ->
    0 <= total_casualties < 2 ^ 52 ->
    let units := units_of db country_id in
    let total_strength := weighted_strength units in
    exists db',
      run (MilitaryService._apply_casualties country_id total_casualties) db = (db', Ok tt) /\
      same_but_units db db' /\
      (units = [] \/ total_strength = 0 -> db' = db) /\
      (total_strength <> 0 ->
         military_units db' =
           map (fun u => if MilitaryUnit.country_id u =? country_id
                         then MilitaryUnit.set_quantity
                                (MilitaryUnit.quantity u
                                 - units_lost total_casualties total_strength u) u
                         else u) (military_units db) /\
         (forall u, In u units ->
            exists proportion x,
              Py.int_truediv
                (MilitaryUnit.quantity u
                 * MilitaryService.unit_strength (MilitaryUnit.unit_type u))
                total_strength = Ok proportion /\
              Py.int_mul_float total_casualties proportion = Ok x /\
              units_lost total_casualties total_strength u
              = Z.min (Py.floor x) (MilitaryUnit.quantity u) /\
              0 <= units_lost total_casualties total_strength u <= MilitaryUnit.quantity u) /\
         sum (map (units_lost total_casualties total_strength) units) <= total_casualties) /\
      (forall u', In u' (units_of db' country_id) -> 0 <= MilitaryUnit.quantity u').
Proof.
  intros db country_id T Hnd Hq HT units S.
  destruct (apply_casualties_run country_id T (mkSession db db))
    as (s' & r & Hcall & Hr & Hsame & _ & Hnoop & Hupd).
  cbv zeta in Hr, Hnoop, Hupd. cbn [working committed] in Hr, Hsame, Hnoop, Hupd.
  fold units in Hr, Hnoop, Hupd. fold S in Hr, Hnoop, Hupd.
  unfold run. rewrite Hcall.
  assert (Hstr : forall y, In y (map (fun unit =>
                   MilitaryUnit.quantity unit
                   * MilitaryService.unit_strength (MilitaryUnit.unit_type unit)) units) ->
                 0 <= y).
  { intros y Hy. apply in_map_iff in Hy. destruct Hy as (u & <- & Hu).
    pose proof (Hq u Hu). pose proof (unit_strength_pos (MilitaryUnit.unit_type u)). nia. }
  assert (HS0 : 0 <= S) by (apply sum_nonneg; assumption).
  destruct (Z.eq_dec S 0) as [HSz|HSnz].
  { (* nothing to allocate *)
    assert (Hs' : s' = mkSession db db) by (apply Hnoop; auto).
    assert (Hr' : r = Ok tt).
    { rewrite Hr. destruct units; [reflexivity|]. rewrite HSz. reflexivity. }
    rewrite Hs', Hr'. cbn [committed]. exists db.
    split; [reflexivity|]. split; [apply same_but_units_refl|].
    split; [reflexivity|]. split; [contradiction | assumption]. }
  assert (HSpos : 0 < S) by lia.
  assert (Hne : units <> []).
  { intros E. apply HSnz. unfold S. rewrite E. reflexivity. }
  assert (Hunit : forall u, In u units ->
            exists prop x,
              Py.int_truediv
                (MilitaryUnit.quantity u
                 * MilitaryService.unit_strength (MilitaryUnit.unit_type u)) S = Ok prop /\
              Py.int_mul_float T prop = Ok x /\
              MilitaryService.unit_casualties T S u
              = Ok (Z.min (Py.floor x) (MilitaryUnit.quantity u)) /\
              0 <= Py.floor x /\
              (IZR (Py.floor x) <=
               IZR T / IZR S * ((1 + bpow (-53)) * (1 + bpow (-53)))
               * IZR (MilitaryUnit.quantity u
                      * MilitaryService.unit_strength (MilitaryUnit.unit_type u)))%R).
  { intros u Hu. apply unit_casualties_bound; try assumption; [auto|].
    apply sum_ge_each; [assumption|].
    apply (in_map (fun unit => MilitaryUnit.quantity unit
                     * MilitaryService.unit_strength (MilitaryUnit.unit_type unit))).
    assumption. }
  assert (Hlost : forall u, In u units ->
            exists prop x,
              Py.int_truediv
                (MilitaryUnit.quantity u
                 * MilitaryService.unit_strength (MilitaryUnit.unit_type u)) S = Ok prop /\
              Py.int_mul_float T prop = Ok x /\
              units_lost T S u = Z.min (Py.floor x) (MilitaryUnit.quantity u) /\
              0 <= Py.floor x /\
              (IZR (Py.floor x) <=
               IZR T / IZR S * ((1 + bpow (-53)) * (1 + bpow (-53)))
               * IZR (MilitaryUnit.quantity u
                      * MilitaryService.unit_strength (MilitaryUnit.unit_type u)))%R).
  { intros u Hu. destruct (Hunit u Hu) as (prop & x & H1 & H2 & H3 & H4 & H5).
    exists prop, x. unfold units_lost. rewrite H3. auto. }
  assert (Hrange : forall u, In u units -> 0 <= units_lost T S u <= MilitaryUnit.quantity u).
  { intros u Hu. destruct (Hlost u Hu) as (prop & x & _ & _ & -> & H4 & _).
    pose proof (Hq u Hu). lia. }
  assert (Hok : forall u, In u units -> exists c, MilitaryService.unit_casualties T S u = Ok c).
  { intros u Hu. destruct (Hunit u Hu) as (prop & x & _ & _ & H3 & _). eauto. }
  pose proof (apply_losses_fold T S units (military_units db) Hok) as Hfold.
  rewrite (fold_update_map (units_lost T S)) in Hfold
    by (apply NoDup_filter_ids; assumption).
  pose proof (update_of_nation (units_lost T S) country_id _ Hnd) as Htbl.
  fold (units_of db country_id) in Htbl. fold units in Htbl. rewrite Htbl in Hfold.
  destruct (Hupd _ Hne HSnz Hfold) as [Hw Hc].
  assert (Hr' : r = Ok tt).
  { rewrite Hr. destruct units; [contradiction|].
    destruct (Z.eqb_spec S 0); [contradiction|]. rewrite Hfold. reflexivity. }
  rewrite Hr'. exists (committed s'). rewrite Hc, Hw.
  split; [reflexivity|]. split; [apply same_but_units_set|].
  split; [intros [?|?]; contradiction|].
  split.
  - intros _. split; [reflexivity|]. split.
    + intros u Hu. destruct (Hlost u Hu) as (prop & x & H1 & H2 & H3 & _).
      exists prop, x. auto.
    + (* the losses add up to at most T *)
      set (K := (IZR T / IZR S * ((1 + bpow (-53)) * (1 + bpow (-53))))%R).
      assert (Hsum : (IZR (sum (map (units_lost T S) units)) <=
                      K * IZR (sum (map (fun unit =>
                                   (MilitaryUnit.quantity unit
                                    * MilitaryService.unit_strength
                                        (MilitaryUnit.unit_type unit))%Z) units)))%R).
      { apply sum_shares. intros u Hu.
        destruct (Hlost u Hu) as (prop & x & _ & _ & H3 & _ & H5).
        eapply Rle_trans; [|exact H5]. apply IZR_le. lia. }
      change (sum (map _ units)) with S in Hsum at 2.
      assert (HSR : (0 < IZR S)%R) by (apply IZR_lt; assumption).
      assert (HK : (K * IZR S = IZR T * ((1 + bpow (-53)) * (1 + bpow (-53))))%R).
      { unfold K. field. lra. }
      rewrite HK in Hsum. pose proof (two_errors_below_one T HT) as Hlt.
      assert (sum (map (units_lost T S) units) < T + 1).
      { apply lt_IZR. rewrite plus_IZR. lra. }
      lia.
  - intros u' Hu'. unfold units_of in Hu'. cbn [military_units set_military_units] in Hu'.
    apply filter_In in Hu'. destruct Hu' as [Hin Hcid].
    apply in_map_iff in Hin. destruct Hin as (u & <- & Hu).
    destruct (MilitaryUnit.country_id u =? country_id) eqn:E.
    + assert (Hin : In u units) by (apply filter_In; auto).
      pose proof (Hrange u Hin). cbn. lia.
    + cbn in Hcid. congruence.
Qed.

Lemma casualty_allocation_bounded_witness :
  exists db',
    run (MilitaryService._apply_casualties 1 139) battle_db = (db', Ok tt) /\
    sum (map (units_lost 139 (weighted_strength (units_of battle_db 1)))
           (units_of battle_db 1)) <= 139 /\
    (forall u', In u' (units_of db' 1) -> 0 <= MilitaryUnit.quantity u').
Proof.
  destruct (casualty_allocation_bounded battle_db 1 139) as (db' & H1 & _ & _ & H4 & H5).
  - assert (E : map MilitaryUnit.id (military_units battle_db) = [1; 2; 3; 4; 5; 6; 7; 8])
      by reflexivity.
    rewrite E. repeat (constructor; [cbn; intuition discriminate|]). constructor.
  - intros u Hu. vm_compute in Hu.
    repeat (destruct Hu as [<-|Hu]; [vm_compute; discriminate|]). destruct Hu.
  - lia.
  - exists db'. split; [exact H1|]. split; [|exact H5].
    apply H4. vm_compute. discriminate.
Defined.

(** C3 as stated fails for large totals: with [2^53 + 4] infantry and
    [2^53 + 3] casualties the proportion is 1.0 and the product rounds up
    to [2^53 + 4], so the one row loses all its units, one more than the
    total. *)
Lemma casualties_exceed_total :
  exists db',
    run (MilitaryService._apply_casualties 1 9007199254740995) large_army_db = (db', Ok tt) /\
    map MilitaryUnit.quantity (military_units large_army_db) = [9007199254740996] /\
    map MilitaryUnit.quantity (military_units db') = [0] /\
    units_lost 9007199254740995 (weighted_strength (units_of large_army_db 1))
      (MilitaryUnit.mk 1 1 INFANTRY 9007199254740996 1) = 9007199254740995 + 1.
Proof.
  eexists. vm_compute. repeat split.
Qed.


(** ** C1: sweeping again, after any operations *)

(** No operation changes a record that is COMPLETED or CANCELLED, and the
    development keys stay unique. *)
Lemma developments_step op db :
  NoDup (map Development.id (developments db)) ->
  NoDup (map Development.id (developments (store_after op db))) /\
  (forall d, In d (developments db) -> Development.status d <> IN_PROGRESS ->
             In d (developments (store_after op db))).
Proof.
  intros Hnd. destruct op; cbn [store_after].
  - rewrite update_resources_run. auto.
  - rewrite build_army_eq. auto.
  - rewrite start_development_run. auto.
  - rewrite sweep_run. cbv zeta.
    destruct (sweep_countries now _ (countries db)); cbn [fst developments]; [|auto].
    rewrite (mark_completed_matured now _ Hnd). split.
    + rewrite map_mark_id. assumption.
    + intros d Hin Hst. apply in_map_iff. exists d. split; [|assumption].
      destruct (DevelopmentService.matured now d) eqn:Hm; [|reflexivity].
      apply matured_spec in Hm. tauto.
  - pose proof (attack_run rolls now attacker_id defender_id db) as H.
    destruct (run (MilitaryService.attack rolls now attacker_id defender_id) db)
      as [db' [battle|e]]; cbn [fst].
    + destruct H as (_ & _ & _ & _ & _ & _ & _ & _ & -> & _). auto.
    + destruct H as (_ & <- & _). auto.
  - destruct (run (CountryService.create_country now user_id name government_type ideology)
                db) as [db' [country|e]] eqn:Hrun; cbn [fst].
    + apply create_country_run in Hrun. destruct Hrun as (g & i & _ & ->).
      cbn [developments]. auto.
    + apply create_country_raise in Hrun. subst db'. auto.
Qed.

Lemma developments_steps ops : forall db,
  NoDup (map Development.id (developments db)) ->
  NoDup (map Development.id
           (developments (fold_left (fun db op => store_after op db) ops db))) /\
  (forall d, In d (developments db) -> Development.status d <> IN_PROGRESS ->
     In d (developments (fold_left (fun db op => store_after op db) ops db))).
Proof.
  induction ops as [|op ops IH]; intros db Hnd; [cbn; auto|].
  cbn [fold_left]. destruct (developments_step op db Hnd) as [H1 H2].
  destruct (IH _ H1) as [G1 G2]. split; [assumption|].
  intros d Hin Hst. apply G2; [apply H2|]; assumption.
Qed.

(** C1. After a sweep that returned, every record it returned is COMPLETED
    in the store; records that were already COMPLETED or CANCELLED are in
    the store unchanged. Whatever operations follow, these records stay in
    the store as they are, no later sweep selects them or any record with
    their key, and a later sweep applies the bonuses of the records it
    selects alone, all of which are IN_PROGRESS. Sweeping again at the same
    time returns no record and leaves the store as it is. *)
Theorem sweep_is_idempotent :
  forall db now db' completed,
    NoDup (map Development.id (developments db)) ->
    run (DevelopmentService.check_completed_developments now) db = (db', Ok completed) ->
    (forall d, In d completed ->
       Development.status d = COMPLETED /\ In d (developments db')) /\
    (forall d, In d (developments db) -> Development.status d <> IN_PROGRESS ->
       In d (developments db')) /\
    (forall ops d now',
       In d (developments db') -> Development.status d <> IN_PROGRESS ->
       let later := fold_left (fun db op => store_after op db) ops db' in
       let selected := filter (DevelopmentService.matured now') (developments later) in
       In d (developments later) /\
       ~ In (Development.id d) (map Development.id selected) /\
       (forall d', In d' selected -> Development.status d' = IN_PROGRESS) /\
       (forall db'' completed',
          run (DevelopmentService.check_completed_developments now') later
          = (db'', Ok completed') ->
          completed' = map (Development.set_status COMPLETED) selected /\
          sweep_countries now' selected (countries later) = Ok (countries db'') /\
          In d (developments db''))) /\
    run (DevelopmentService.check_completed_developments now) db' = (db', Ok []).
Proof.
  intros db now db' completed Hnd Hrun.
  rewrite sweep_run in Hrun. cbv zeta in Hrun.
  destruct (sweep_countries now _ (countries db)) as [cs|e] eqn:Hcs; [|discriminate].
  injection Hrun as <- <-. cbn [developments countries].
  rewrite (mark_completed_matured now _ Hnd).
  set (devs' := map (fun d => if DevelopmentService.matured now d
                              then Development.set_status COMPLETED d else d)
                  (developments db)).
  assert (Hnd' : NoDup (map Development.id devs')).
  { unfold devs'. rewrite map_mark_id. assumption. }
  split; [|split; [|split]].
  - intros d Hd. apply in_map_iff in Hd. destruct Hd as (d0 & <- & Hd0).
    split; [reflexivity|]. apply filter_In in Hd0. destruct Hd0 as [Hin Hm].
    unfold devs'. apply in_map_iff. exists d0. rewrite Hm. auto.
  - intros d Hin Hst. unfold devs'. apply in_map_iff. exists d. split; [|assumption].
    destruct (DevelopmentService.matured now d) eqn:Hm; [|reflexivity].
    apply matured_spec in Hm. tauto.
  - intros ops d now' Hin Hst. cbv zeta.
    set (db1 := mkDatabase cs (military_units db) devs' (battles db) (transaction_logs db)).
    set (later := fold_left (fun db op => store_after op db) ops db1).
    destruct (developments_steps ops db1 Hnd') as [Hndl Hkeep]. fold later in Hndl, Hkeep.
    assert (Hlater : In d (developments later)) by (apply Hkeep; assumption).
    split; [assumption|]. split; [|split].
    + intros Hid. apply in_map_iff in Hid. destruct Hid as (d' & Hid & Hd').
      apply filter_In in Hd'. destruct Hd' as [Hin' Hm]. apply matured_spec in Hm.
      assert (d' = d) by (apply (NoDup_id_inj (developments later)); assumption).
      subst d'. tauto.
    + intros d' Hd'. apply filter_In in Hd'. destruct Hd' as [_ Hm].
      apply matured_spec in Hm. tauto.
    + intros db'' completed' Hrun'. rewrite sweep_run in Hrun'. cbv zeta in Hrun'.
      destruct (sweep_countries now' _ (countries later)) as [cs'|e'] eqn:Hcs';
        [|discriminate].
      injection Hrun' as <- <-. cbn [countries developments].
      split; [reflexivity|]. split; [reflexivity|].
      rewrite (mark_completed_matured now' _ Hndl).
      apply in_map_iff. exists d. split; [|assumption].
      destruct (DevelopmentService.matured now' d) eqn:Hm; [|reflexivity].
      apply matured_spec in Hm. tauto.
  - rewrite sweep_run. cbv zeta. cbn [developments countries]. fold devs'.
    unfold devs'. rewrite filter_matured_same. cbn. reflexivity.
Qed.

Lemma sweep_is_idempotent_witness :
  exists db' d,
    run (DevelopmentService.check_completed_developments one_day_one_second) road_network_db
    = (db', Ok [d]) /\
    Development.status d = COMPLETED /\ In d (developments db') /\
    run (DevelopmentService.check_completed_developments one_day_one_second) db'
    = (db', Ok []).
Proof.
  destruct (run (DevelopmentService.check_completed_developments one_day_one_second)
              road_network_db) as [db' [[|d [|]]|e]] eqn:Hr;
    try (vm_compute in Hr; discriminate).
  exists db', d. split; [reflexivity|].
  assert (Hnd : NoDup (map Development.id (developments road_network_db))).
  { vm_compute. repeat constructor. intros []. }
  destruct (sweep_is_idempotent road_network_db one_day_one_second db' [d] Hnd Hr)
    as (H1 & _ & _ & H5).
  destruct (H1 d (or_introl eq_refl)) as [Hs Hin]. auto.
Defined.


(** * Further properties of the services *)

(** ** Creating a nation *)

(** [create_country] as one expression. *)
Lemma create_country_eq now user_id name gov ideo db :
  run (CountryService.create_country now user_id name gov ideo) db =
  match find (fun c => String.eqb (Country.name c) name) (countries db) with
  | Some _ => (db, Raise ValidationError)
  | None =>
      match filter (fun c => Country.user_id c =? user_id) (countries db) with
      | _ :: _ => (db, Raise ResourceError)
      | [] =>
          match GovernmentType_of_value gov with
          | Raise _ => (db, Raise ValidationError)
          | Ok g =>
              match Ideology_of_value ideo with
              | Raise _ => (db, Raise ValidationError)
              | Ok i =>
                  let cid := next_id (map Country.id (countries db)) in
                  let k := next_id (map MilitaryUnit.id (military_units db)) in
                  let country :=
                    Country.mk cid name user_id g i 1000000 1000000000 10
                      config.INITIAL_RESOURCES now now in
                  (mkDatabase (countries db ++ [country])
                     (military_units db ++
                        [MilitaryUnit.mk k cid INFANTRY 100 1;
                         MilitaryUnit.mk (k + 1) cid TANK 10 1;
                         MilitaryUnit.mk (k + 2) cid SHIP 5 1;
                         MilitaryUnit.mk (k + 3) cid AIRCRAFT 5 1])
                     (developments db) (battles db) (transaction_logs db),
                   Ok country)
              end
          end
      end
  end.
Proof.
  destruct (run (CountryService.create_country now user_id name gov ideo) db)
    as [db1 [country|e]] eqn:Hrun.
  - pose proof Hrun as Hshape. apply create_country_run in Hshape.
    destruct Hshape as (g & i & Hc & Hdb). cbv zeta in Hc, Hdb.
    revert Hrun. unfold run, CountryService.create_country.
    rewrite run_bind. unfold CountryService.get_country_by_name, query at 1. cbn [working].
    destruct (find _ (countries db)); [discriminate|].
    rewrite run_bind. unfold CountryService.get_countries_by_user_id, query at 1.
    cbn [working].
    destruct (filter _ (countries db)); [|discriminate].
    destruct (GovernmentType_of_value gov) as [g'|]; [|discriminate].
    destruct (Ideology_of_value ideo) as [i'|]; [|discriminate].
    cbn. intros [= _ Hc']. cbv zeta.
    assert (g' = g /\ i' = i) as [-> ->].
    { rewrite Hc in Hc'. injection Hc' as -> ->. auto. }
    rewrite Hdb, Hc. reflexivity.
  - pose proof (create_country_raise _ _ _ _ _ _ _ _ Hrun) as ->.
    revert Hrun. unfold run, CountryService.create_country.
    rewrite run_bind. unfold CountryService.get_country_by_name, query at 1. cbn [working].
    destruct (find _ (countries db)); [cbn; intros [= <-]; reflexivity|].
    rewrite run_bind. unfold CountryService.get_countries_by_user_id, query at 1.
    cbn [working].
    destruct (filter _ (countries db)); [|cbn; intros [= <-]; reflexivity].
    destruct (GovernmentType_of_value gov) as [g'|]; [|cbn; intros [= <-]; reflexivity].
    destruct (Ideology_of_value ideo) as [i'|]; [|cbn; intros [= <-]; reflexivity].
    cbn. discriminate.
Qed.

(** X1. [create_country] checks the name first, then the user, then the two
    enum strings: a taken name raises ValidationError, a user who has a
    nation raises ResourceError, an unknown government type or ideology
    raises ValidationError, and in each case the store is left as it was.
    Otherwise the call returns the new row, which has a fresh key, the
    initial balance and values inside the limits of [config.py], and is
    appended to the table. *)
Theorem create_country_outcome :
  forall now user_id name government_type ideology db,
    let call :=
      run (CountryService.create_country now user_id name government_type ideology) db in
    let taken := find (fun c => String.eqb (Country.name c) name) (countries db) in
    let owned := filter (fun c => Country.user_id c =? user_id) (countries db) in
    (taken <> None -> call = (db, Raise ValidationError)) /\
    (taken = None -> owned <> [] -> call = (db, Raise ResourceError)) /\
    (taken = None -> owned = [] ->
     (forall g, GovernmentType_of_value government_type <> Ok g) \/
     (forall i, Ideology_of_value ideology <> Ok i) ->
     call = (db, Raise ValidationError)) /\
    (taken = None -> owned = [] ->
     forall g i,
       GovernmentType_of_value government_type = Ok g ->
       Ideology_of_value ideology = Ok i ->
       exists db',
         let country :=
           Country.mk (next_id (map Country.id (countries db))) name user_id g i
             1000000 1000000000 10 config.INITIAL_RESOURCES now now in
         call = (db', Ok country) /\
         countries db' = countries db ++ [country] /\
         ~ In (Country.id country) (map Country.id (countries db)) /\
         within_limits country) /\
    (forall db' e, call = (db', Raise e) -> db' = db).
Proof.
  intros now user_id name gov ideo db call taken owned.
  unfold call. rewrite create_country_eq. fold taken owned.
  split; [|split; [|split; [|split]]].
  - intros H. destruct taken; [reflexivity | contradiction].
  - intros -> H. destruct owned; [contradiction | reflexivity].
  - intros -> -> [H|H].
    + destruct (GovernmentType_of_value gov) as [g|]; [|reflexivity].
      exfalso. apply (H g). reflexivity.
    + destruct (GovernmentType_of_value gov) as [g|]; [|reflexivity].
      destruct (Ideology_of_value ideo) as [i|]; [|reflexivity].
      exfalso. apply (H i). reflexivity.
  - intros -> -> g i -> ->. cbv zeta. eexists. split; [reflexivity|].
    split; [reflexivity|]. split.
    + cbn [Country.id]. intros Hin. pose proof (next_id_gt _ _ Hin). lia.
    + unfold within_limits. cbn. unfold Config.MIN_POPULATION, Config.MAX_POPULATION,
        Config.MIN_GDP, Config.MAX_GDP, Config.MIN_MILITARY_POWER,
        Config.MAX_MILITARY_POWER. lia.
  - intros db' e. destruct taken; [intros [= <-]; reflexivity|].
    destruct owned; [|intros [= <-]; reflexivity].
    destruct (GovernmentType_of_value gov); [|intros [= <-]; reflexivity].
    destruct (Ideology_of_value ideo); [|intros [= <-]; reflexivity].
    cbv zeta. discriminate.
Qed.

(** X2. A nation that [create_country] returned is found by its name and
    by its key, is the one nation of its user, is owned by that user and by
    no one else, and has the four initial unit rows; [check_ownership] of a
    key that is not in the table raises ValidationError. *)
Theorem created_country_is_found :
  forall now user_id name government_type ideology db db' country,
    units_reference_countries db ->
    run (CountryService.create_country now user_id name government_type ideology) db
    = (db', Ok country) ->
    run (CountryService.get_country_by_name name) db' = (db', Ok (Some country)) /\
    run (CountryService.get_country_by_id (Country.id country)) db'
    = (db', Ok (Some country)) /\
    run (CountryService.get_countries_by_user_id user_id) db' = (db', Ok [country]) /\
    CountryService2.check_ownership (Country.id country) user_id db' = Returns true /\
    (forall other, other <> user_id ->
       CountryService2.check_ownership (Country.id country) other db'
       = Raises PermissionError) /\
    (forall country_id user, ~ In country_id (map Country.id (countries db')) ->
       CountryService2.check_ownership country_id user db' = Raises (Exn ValidationError)) /\
    map (fun u => (MilitaryUnit.unit_type u, MilitaryUnit.quantity u,
                   MilitaryUnit.technology_level u))
      (units_of db' (Country.id country))
    = [(INFANTRY, 100, 1); (TANK, 10, 1); (SHIP, 5, 1); (AIRCRAFT, 5, 1)].
Proof.
  intros now user_id name gov ideo db db' country Hfk Hrun.
  rewrite create_country_eq in Hrun.
  destruct (find _ (countries db)) eqn:Hname; [discriminate|].
  destruct (filter _ (countries db)) eqn:Howned; [|discriminate].
  destruct (GovernmentType_of_value gov) as [g|]; [|discriminate].
  destruct (Ideology_of_value ideo) as [i|]; [|discriminate].
  cbv zeta in Hrun. injection Hrun as <- <-.
  set (cid := next_id (map Country.id (countries db))).
  set (country := Country.mk cid name user_id g i 1000000 1000000000 10
                    config.INITIAL_RESOURCES now now).
  assert (Fc : forall c, In c (countries db) -> (Country.id c =? cid) = false).
  { intros c Hin. apply Z.eqb_neq.
    pose proof (next_id_gt _ _ (in_map Country.id _ _ Hin)). fold cid in H. lia. }
  assert (Hfind : find (fun c => Country.id c =? cid) (countries db ++ [country])
                  = Some country).
  { rewrite find_app_none by assumption. cbn. rewrite Z.eqb_refl. reflexivity. }
  change (Country.id country) with cid.
  split; [|split; [|split; [|split; [|split; [|split]]]]].
  - unfold run, CountryService.get_country_by_name, query. cbn.
    rewrite find_app_none.
    + cbn. rewrite String.eqb_refl. reflexivity.
    + intros c Hin. apply (find_none _ _ Hname). assumption.
  - unfold run, CountryService.get_country_by_id. rewrite first_country_run.
    cbn [working countries committed Country.id]. rewrite Hfind. reflexivity.
  - unfold run, CountryService.get_countries_by_user_id, query. cbn.
    rewrite filter_app, Howned. cbn. rewrite Z.eqb_refl. reflexivity.
  - unfold CountryService2.check_ownership. cbn [countries Country.id].
    rewrite Hfind. cbn. rewrite Z.eqb_refl. reflexivity.
  - intros other Hne. unfold CountryService2.check_ownership. cbn [countries Country.id].
    rewrite Hfind. cbn.
    destruct (Z.eqb_spec user_id other); [congruence | reflexivity].
  - intros country_id user Hnot. unfold CountryService2.check_ownership.
    destruct (find (fun c => Country.id c =? country_id) _) as [c|] eqn:Hf; [|reflexivity].
    exfalso. apply Hnot. apply find_some_in in Hf. destruct Hf as [Hin Hid].
    apply Z.eqb_eq in Hid. rewrite <- Hid. apply in_map. assumption.
  - unfold units_of. cbn [military_units Country.id].
    rewrite filter_app_none.
    + cbn. rewrite !Z.eqb_refl. reflexivity.
    + intros u Hu. apply Z.eqb_neq. specialize (Hfk u Hu).
      pose proof (next_id_gt _ _ Hfk). fold cid in H. lia.
Qed.

Lemma created_country_is_found_witness :
  exists country,
    run (CountryService.create_country 0 1 "Alpha" "democracy" "liberal") empty_db
    = (fresh_nation_db, Ok country) /\
    run (CountryService.get_country_by_name "Alpha") fresh_nation_db
    = (fresh_nation_db, Ok (Some country)) /\
    CountryService2.check_ownership (Country.id country) 1 fresh_nation_db = Returns true.
Proof.
  exists (Country.mk 1 "Alpha" 1 DEMOCRACY LIBERAL 1000000 1000000000 10 1000 0 0).
  assert (Hrun : run (CountryService.create_country 0 1 "Alpha" "democracy" "liberal")
                   empty_db
                 = (fresh_nation_db,
                    Ok (Country.mk 1 "Alpha" 1 DEMOCRACY LIBERAL 1000000 1000000000 10
                          1000 0 0))) by reflexivity.
  assert (Hfk : units_reference_countries empty_db) by (intros u []).
  destruct (created_country_is_found 0 1 "Alpha" "democracy" "liberal" empty_db
              fresh_nation_db _ Hfk Hrun) as (H1 & _ & _ & H4 & _).
  split; [exact Hrun|]. split; [exact H1 | exact H4].
Defined.


(** ** Keys, names and owners of the nations *)

(** A table whose rows kept their key, name and owner. *)
Lemma same_identities_map (f : Country.t -> Country.t) cs :
  (forall c, In c cs -> Country.id (f c) = Country.id c /\
                        Country.name (f c) = Country.name c /\
                        Country.user_id (f c) = Country.user_id c) ->
  map Country.id (map f cs) = map Country.id cs /\
  map Country.name (map f cs) = map Country.name cs /\
  map Country.user_id (map f cs) = map Country.user_id cs.
Proof.
  intros H. rewrite !map_map.
  repeat split; apply map_ext_in; intros c Hc; apply (H c Hc).
Qed.

Lemma apply_bonuses_identity now d c c' :
  DevelopmentService.apply_bonuses now d c = Ok c' ->
  Country.id c' = Country.id c /\ Country.name c' = Country.name c /\
  Country.user_id c' = Country.user_id c.
Proof.
  unfold DevelopmentService.apply_bonuses. intros H.
  apply rbind_ok in H. destruct H as (gdp & _ & H).
  apply rbind_ok in H. destruct H as (mp & _ & H).
  apply rbind_ok in H. destruct H as (gain & _ & [= <-]). auto.
Qed.

Lemma sweep_countries_identities now l : forall cs cs',
  NoDup (map Country.id cs) ->
  sweep_countries now l cs = Ok cs' ->
  map Country.id cs' = map Country.id cs /\
  map Country.name cs' = map Country.name cs /\
  map Country.user_id cs' = map Country.user_id cs.
Proof.
  induction l as [|d l IH]; intros cs cs' Hnd Hrun.
  - cbn in Hrun. injection Hrun as <-. auto.
  - cbn [sweep_countries] in Hrun.
    destruct (find _ cs) as [country|] eqn:Hfind; [|apply IH; assumption].
    apply rbind_ok in Hrun. destruct Hrun as (c & Hc & Hrun).
    apply find_some_in in Hfind. destruct Hfind as [Hin _].
    destruct (apply_bonuses_identity _ _ _ _ Hc) as (I1 & I2 & I3).
    destruct (same_identities_map
                (fun c0 => if Country.id c0 =? Country.id country then c else c0) cs)
      as (M1 & M2 & M3).
    { intros c0 Hc0. destruct (Z.eqb_spec (Country.id c0) (Country.id country)) as [E|];
        [|auto].
      assert (c0 = country) by (apply (NoDup_country_inj cs); assumption).
      subst c0. auto. }
    destruct (IH _ cs' ltac:(rewrite M1; exact Hnd) Hrun) as (G1 & G2 & G3).
    repeat split; congruence.
Qed.

Lemma transfer_identities a d rc cs :
  map Country.id (transfer a d rc cs) = map Country.id cs /\
  map Country.name (transfer a d rc cs) = map Country.name cs /\
  map Country.user_id (transfer a d rc cs) = map Country.user_id cs.
Proof.
  unfold transfer.
  destruct (same_identities_map
              (fun c => if Country.id c =? a
                        then Country.set_resources (Country.resources c + rc) c else c) cs)
    as (A1 & A2 & A3).
  { intros c _. destruct (Country.id c =? a); auto. }
  destruct (same_identities_map
              (fun c => if Country.id c =? d
                        then Country.set_resources (Country.resources c - rc) c else c)
              (map (fun c => if Country.id c =? a
                             then Country.set_resources (Country.resources c + rc) c
                             else c) cs))
    as (B1 & B2 & B3).
  { intros c _. destruct (Country.id c =? d); auto. }
  repeat split; congruence.
Qed.

(** Every operation but a successful [create_country] keeps the keys, names
    and owners of the table as they are. *)
Lemma identities_step op db :
  NoDup (map Country.id (countries db)) ->
  (map Country.id (countries (store_after op db)) = map Country.id (countries db) /\
   map Country.name (countries (store_after op db)) = map Country.name (countries db) /\
   map Country.user_id (countries (store_after op db)) = map Country.user_id (countries db))
  \/ exists c, countries (store_after op db) = countries db ++ [c] /\
               ~ In (Country.id c) (map Country.id (countries db)) /\
               ~ In (Country.name c) (map Country.name (countries db)) /\
               ~ In (Country.user_id c) (map Country.user_id (countries db)).
Proof.
  intros Hnd. destruct op; cbn [store_after].
  - left. rewrite update_resources_run. auto.
  - left. rewrite build_army_eq. auto.
  - left. rewrite start_development_run. auto.
  - left. rewrite sweep_run. cbv zeta.
    destruct (sweep_countries now _ (countries db)) as [cs|] eqn:Hs; cbn [fst countries];
      [|auto].
    apply (sweep_countries_identities _ _ _ _ Hnd Hs).
  - left. pose proof (attack_run rolls now attacker_id defender_id db) as H.
    destruct (run (MilitaryService.attack rolls now attacker_id defender_id) db)
      as [db' [battle|e]]; cbn [fst].
    + destruct H as (_ & _ & _ & _ & _ & _ & _ & -> & _).
      destruct (BattleResult_eqb _ _); [apply transfer_identities | auto].
    + destruct H as (<- & _). auto.
  - rewrite create_country_eq.
    destruct (find _ (countries db)) eqn:Hname; [left; auto|].
    destruct (filter _ (countries db)) eqn:Howned; [|left; auto].
    destruct (GovernmentType_of_value government_type) as [g|]; [|left; auto].
    destruct (Ideology_of_value ideology) as [i|]; [|left; auto].
    right. cbv zeta. cbn [fst countries]. eexists. split; [reflexivity|].
    cbn [Country.id Country.name Country.user_id]. split; [|split].
    + intros Hin. pose proof (next_id_gt _ _ Hin). lia.
    + intros Hin. apply in_map_iff in Hin. destruct Hin as (c & Hc & Hin).
      pose proof (find_none _ _ Hname c Hin) as Hf. cbn in Hf.
      rewrite Hc, String.eqb_refl in Hf. discriminate.
    + intros Hin. apply in_map_iff in Hin. destruct Hin as (c & Hc & Hin).
      assert (Hf : In c (filter (fun c => Country.user_id c =? user_id) (countries db))).
      { apply filter_In. split; [assumption|]. apply Z.eqb_eq. assumption. }
      rewrite Howned in Hf. destruct Hf.
Qed.

Lemma NoDup_snoc {A} (l : list A) x : NoDup l -> ~ In x l -> NoDup (l ++ [x]).
Proof.
  intros Hnd Hx. apply NoDup_app; [assumption | repeat constructor; auto |].
  intros y Hy [<-|[]]. contradiction.
Qed.

Lemma registry_step op db : registry_ok db -> registry_ok (store_after op db).
Proof.
  intros (H1 & H2 & H3). unfold registry_ok.
  destruct (identities_step op db H1) as [(E1 & E2 & E3)|(c & -> & N1 & N2 & N3)].
  - rewrite E1, E2, E3. auto.
  - rewrite !map_app. cbn [map]. repeat split; apply NoDup_snoc; assumption.
Qed.

(** X3. Unique nation keys, unique names and one nation per user are kept
    by every operation - resource adjustment, army build, development
    start, sweep, battle, creation - whatever it returns, hence by every
    sequence of operations; they hold of every store reached from the
    empty one. *)
Theorem registry_preserved :
  forall ops db,
    registry_ok db ->
    registry_ok (fold_left (fun db op => store_after op db) ops db) /\
    registry_ok (fold_left (fun db op => store_after op db) ops empty_db).
Proof.
  assert (H : forall ops db, registry_ok db ->
                registry_ok (fold_left (fun db op => store_after op db) ops db)).
  { induction ops as [|op ops IH]; intros db Hok; [assumption|].
    cbn [fold_left]. apply IH. apply registry_step. assumption. }
  intros ops db Hok. split; [apply H; assumption|].
  apply H. repeat split; constructor.
Qed.

Lemma registry_preserved_witness :
  registry_ok
    (fold_left (fun db op => store_after op db)
       [CreateCountry 0 2 "Beta" "monarchy" "conservative";
        BuildArmy 0 1 "infantry" 100;
        Attack scenario_rolls 0 1 2]
       fresh_nation_db).
Proof.
  apply (registry_preserved
           [CreateCountry 0 2 "Beta" "monarchy" "conservative";
            BuildArmy 0 1 "infantry" 100;
            Attack scenario_rolls 0 1 2] fresh_nation_db).
  repeat split; vm_compute; (constructor; [intros []|constructor]).
Defined.


(** ** Building units *)

(** X4. [build_army] checks in this order: an unknown unit type, a quantity
    that is not positive and an unknown nation raise ValidationError; a
    balance below unit cost times quantity raises ResourceError.  A call
    that passes the four checks raises NameError at [TransactionLog(...)],
    before the commit.  So the call never returns a row, and whatever it
    raises the store is left as it was: nothing is built, paid or logged. *)
Theorem build_army_outcome :
  forall now country_id unit_type_str quantity db,
    let call := run (MilitaryService.build_army now country_id unit_type_str quantity) db in
    ((forall t, UnitType_of_value unit_type_str <> Ok t) ->
     call = (db, Raise ValidationError)) /\
    (forall unit_type, UnitType_of_value unit_type_str = Ok unit_type ->
       let cost := MilitaryService.unit_costs unit_type * quantity in
       (quantity <= 0 -> call = (db, Raise ValidationError)) /\
       (0 < quantity ->
        find (fun c => Country.id c =? country_id) (countries db) = None ->
        call = (db, Raise ValidationError)) /\
       (forall country,
          0 < quantity ->
          find (fun c => Country.id c =? country_id) (countries db) = Some country ->
          (Country.resources country < cost -> call = (db, Raise ResourceError)) /\
          (cost <= Country.resources country -> call = (db, Raise NameError)))) /\
    (forall db' r, call = (db', r) -> db' = db /\ forall built, r <> Ok built).
Proof.
  intros now country_id ut quantity db call. unfold call. rewrite build_army_eq.
  split; [|split].
  - intros H. destruct (UnitType_of_value ut) as [t|]; [|reflexivity].
    exfalso. apply (H t). reflexivity.
  - intros t ->. cbv zeta. split; [|split].
    + intros Hq. destruct (Z.leb_spec quantity 0); [reflexivity | lia].
    + intros Hq ->. destruct (Z.leb_spec quantity 0); [lia | reflexivity].
    + intros country Hq ->. destruct (Z.leb_spec quantity 0); [lia|]. split.
      * intros Hc. destruct (Z.ltb_spec (Country.resources country)
                               (MilitaryService.unit_costs t * quantity)); [reflexivity | lia].
      * intros Hc. destruct (Z.ltb_spec (Country.resources country)
                               (MilitaryService.unit_costs t * quantity)); [lia | reflexivity].
  - intros db' r [= <- <-]. split; [reflexivity | discriminate].
Qed.

(** ** Aggregate strength, row by row *)

Lemma strength_of_units_from units : forall a,
  fold_left (fun total_strength unit =>
    total_strength
    + MilitaryUnit.quantity unit * MilitaryService.unit_strength (MilitaryUnit.unit_type unit)
      * MilitaryUnit.technology_level unit) units a
  = a + MilitaryService.strength_of_units units.
Proof.
  unfold MilitaryService.strength_of_units.
  induction units as [|u units IH]; intros a; cbn [fold_left]; [lia|].
  rewrite IH. rewrite (IH (0 + _)). lia.
Qed.

Lemma strength_of_units_cons u units :
  MilitaryService.strength_of_units (u :: units)
  = strength_of_unit u + MilitaryService.strength_of_units units.
Proof.
  unfold MilitaryService.strength_of_units at 1. cbn [fold_left].
  rewrite strength_of_units_from. unfold strength_of_unit. lia.
Qed.

(** ** One battle, table by table *)

Lemma apply_losses_ok T S units : forall table tbl,
  apply_losses T S units table = Ok tbl ->
  forall u, In u units -> exists c, MilitaryService.unit_casualties T S u = Ok c.
Proof.
  induction units as [|unit units IH]; intros table tbl H u Hu; [destruct Hu|].
  cbn [apply_losses] in H. apply rbind_ok in H. destruct H as (c & Hc & H).
  destruct Hu as [<-|Hu]; [eauto|]. apply (IH _ _ H u Hu).
Qed.

(** The loop of [_apply_casualties], when it runs through, leaves
    [casualties_applied]. *)
Lemma apply_losses_applied country_id T table tbl :
  NoDup (map MilitaryUnit.id table) ->
  let units := filter (fun u => MilitaryUnit.country_id u =? country_id) table in
  weighted_strength units <> 0 ->
  apply_losses T (weighted_strength units) units table = Ok tbl ->
  tbl = casualties_applied country_id T table.
Proof.
  intros Hnd units HS Hl.
  pose proof (apply_losses_ok _ _ _ _ _ Hl) as Hok.
  rewrite (apply_losses_fold _ _ _ _ Hok) in Hl. injection Hl as <-.
  rewrite (fold_update_map (units_lost T (weighted_strength units)))
    by (apply NoDup_filter_ids; assumption).
  unfold units at 2. rewrite (update_of_nation _ country_id _ Hnd).
  unfold casualties_applied. fold units.
  destruct (Z.eqb_spec (weighted_strength units) 0); [contradiction | reflexivity].
Qed.

(** One call of [_apply_casualties] on a session. *)
Lemma apply_casualties_units country_id T s :
  NoDup (map MilitaryUnit.id (military_units (working s))) ->
  exists s' r,
    MilitaryService._apply_casualties country_id T s = (s', r) /\
    same_but_units (working s) (working s') /\
    ((r = Ok tt /\
      military_units (working s')
      = casualties_applied country_id T (military_units (working s)) /\
      (s' = s \/ committed s' = working s'))
     \/ (exists e, r = Raise e /\ committed s' = committed s)).
Proof.
  intros Hnd.
  destruct (apply_casualties_run country_id T s) as (s' & r & Hcall & Hr & Hsame & _ & Hnoop
    & Hupd).
  cbv zeta in Hr, Hnoop, Hupd. unfold units_of in Hr, Hnoop, Hupd.
  set (units := filter (fun u => MilitaryUnit.country_id u =? country_id)
                  (military_units (working s))) in *.
  exists s', r. split; [assumption|]. split; [assumption|].
  destruct (Z.eq_dec (weighted_strength units) 0) as [HS|HS].
  - left. rewrite (Hnoop (or_intror HS)). split; [|split; [|left; reflexivity]].
    + rewrite Hr. destruct units; [reflexivity|]. rewrite HS. reflexivity.
    + unfold casualties_applied. fold units. rewrite HS. reflexivity.
  - assert (Hne : units <> []).
    { intros E. apply HS. rewrite E. reflexivity. }
    destruct (apply_losses T (weighted_strength units) units (military_units (working s)))
      as [tbl|e] eqn:Hl.
    + left. destruct (Hupd tbl Hne HS eq_refl) as [Hw Hc].
      split; [|split; [|right; assumption]].
      * rewrite Hr. destruct units; [contradiction|].
        destruct (Z.eqb_spec (weighted_strength (t :: units)) 0); [contradiction|].
        reflexivity.
      * rewrite Hw. cbn [military_units set_military_units].
        apply (apply_losses_applied country_id T _ _ Hnd HS Hl).
    + right. exists e. split.
      * rewrite Hr. destruct units; [contradiction|].
        destruct (Z.eqb_spec (weighted_strength (t :: units)) 0); [contradiction|].
        reflexivity.
      * revert Hcall. unfold MilitaryService._apply_casualties.
        rewrite run_bind. unfold MilitaryService.get_military_units, query.
        cbn [working]. fold units.
        change (sum (map _ units)) with (weighted_strength units).
        destruct units as [|u0 us]; [contradiction|].
        destruct (Z.eqb_spec (weighted_strength (u0 :: us)) 0); [contradiction|].
        rewrite run_bind.
        destruct (for_each_losses T (weighted_strength (u0 :: us)) (u0 :: us) s)
          as (w & I1 & _).
        rewrite I1, Hl. intros [= <- _]. reflexivity.
Qed.


Lemma casualties_applied_ids country_id T table :
  map MilitaryUnit.id (casualties_applied country_id T table) = map MilitaryUnit.id table.
Proof.
  unfold casualties_applied. destruct (_ =? 0); [reflexivity|].
  rewrite map_map. apply map_ext. intros u.
  destruct (MilitaryUnit.country_id u =? country_id); reflexivity.
Qed.

(** What [attack] leaves in the units table and in the Battle row. *)
Lemma attack_full rolls now a d db :
  NoDup (map MilitaryUnit.id (military_units db)) ->
  let sa := military_strength db a in
  let sd := military_strength db d in
  match run (MilitaryService.attack rolls now a d) db with
  | (db', Ok battle) =>
      exists attacker defender result ca cd tg rc report,
        find (fun c => Country.id c =? a) (countries db) = Some attacker /\
        find (fun c => Country.id c =? d) (countries db) = Some defender /\
        MilitaryService._calculate_battle_result rolls sa sd attacker defender
        = Ok (result, ca, cd, tg, rc) /\
        MilitaryService._generate_battle_report sa sd result ca cd = Ok report /\
        battle = Battle.mk (next_id (map Battle.id (battles db))) a d sa sd result
                   ca cd tg rc now report /\
        military_units db'
        = casualties_applied d cd (casualties_applied a ca (military_units db))
  | (db', Raise e) =>
      military_units db' = military_units db \/
      exists attacker defender result ca cd tg rc,
        find (fun c => Country.id c =? a) (countries db) = Some attacker /\
        find (fun c => Country.id c =? d) (countries db) = Some defender /\
        a <> d /\ 0 < sa /\
        MilitaryService._calculate_battle_result rolls sa sd attacker defender
        = Ok (result, ca, cd, tg, rc) /\
        (military_units db' = casualties_applied a ca (military_units db) \/
         military_units db'
         = casualties_applied d cd (casualties_applied a ca (military_units db)))
  end.
Proof.
  intros Hnd sa sd. unfold run, MilitaryService.attack.
  rewrite run_bind, first_country_run. cbn [working].
  destruct (find (fun c => Country.id c =? a) (countries db)) as [attacker|] eqn:Fa;
    [|left; reflexivity].
  rewrite run_bind, first_country_run. cbn [working].
  destruct (find (fun c => Country.id c =? d) (countries db)) as [defender|] eqn:Fd;
    [|left; reflexivity].
  destruct (Z.eqb_spec a d) as [Heq|Hne]; [left; reflexivity|].
  rewrite run_bind, calculate_military_strength_run.
  rewrite run_bind, calculate_military_strength_run. cbn [working].
  fold sa sd.
  destruct (Z.leb_spec sa 0) as [Hle|Hgt]; [left; reflexivity|].
  rewrite run_bind. unfold lift at 1.
  destruct (MilitaryService._calculate_battle_result rolls sa sd attacker defender)
    as [[[[[result ca] cd] tg] rc]|e] eqn:Hcalc; [|left; reflexivity].
  rewrite run_bind.
  destruct (apply_casualties_units a ca (mkSession db db) Hnd) as (s1 & r1 & R1 & F1 & O1).
  rewrite R1. cbn [working committed] in F1, O1.
  destruct O1 as [(-> & U1 & C1)|(e1 & -> & C1)].
  2:{ cbn. left. rewrite C1. reflexivity. }
  assert (K1 : committed s1 = db \/ committed s1 = working s1).
  { destruct C1 as [->|C1]; [left; reflexivity | right; assumption]. }
  assert (Hnd1 : NoDup (map MilitaryUnit.id (military_units (working s1)))).
  { rewrite U1, casualties_applied_ids. assumption. }
  rewrite run_bind.
  destruct (apply_casualties_units d cd s1 Hnd1) as (s2 & r2 & R2 & F2 & O2).
  rewrite R2. rewrite U1 in O2.
  destruct O2 as [(-> & U2 & C2)|(e2 & -> & C2)].
  2:{ cbn. rewrite C2. destruct K1 as [K|K]; rewrite K; [left; reflexivity|].
      right. exists attacker, defender, result, ca, cd, tg, rc.
      repeat (split; [first [assumption | reflexivity]|]). left. assumption. }
  assert (K2 : committed s2 = db \/ committed s2 = working s1 \/ committed s2 = working s2).
  { destruct C2 as [->|C2]; [|auto]. destruct K1; auto. }
  rewrite run_bind.
  set (s3 := (if BattleResult_eqb result VICTORY
              then mkSession (committed s2)
                     (set_countries (transfer a d rc (countries (working s2))) (working s2))
              else s2)).
  assert (R3 : (if BattleResult_eqb result VICTORY
                then modify_country a (fun c =>
                       Country.set_resources (Country.resources c + rc) c) ;;;
                     modify_country d (fun c =>
                       Country.set_resources (Country.resources c - rc) c)
                else ret tt) s2 = (s3, Ok tt)).
  { unfold s3. destruct (BattleResult_eqb result VICTORY); reflexivity. }
  rewrite R3. rewrite run_bind. unfold lift at 1.
  assert (C3 : committed s3 = committed s2).
  { unfold s3. destruct (BattleResult_eqb result VICTORY); reflexivity. }
  assert (U3 : military_units (working s3) = military_units (working s2)).
  { unfold s3. destruct (BattleResult_eqb result VICTORY); reflexivity. }
  assert (B3 : battles (working s3) = battles db).
  { destruct F1 as (_ & _ & G1 & _). destruct F2 as (_ & _ & G2 & _).
    unfold s3. destruct (BattleResult_eqb result VICTORY); cbn; congruence. }
  destruct (MilitaryService._generate_battle_report sa sd result ca cd) as [report|e3]
    eqn:Hrep.
  2:{ cbn. rewrite C3. destruct K2 as [K|[K|K]]; rewrite K; [left; reflexivity| |].
      - right. exists attacker, defender, result, ca, cd, tg, rc.
        repeat (split; [first [assumption | reflexivity]|]). left. assumption.
      - right. exists attacker, defender, result, ca, cd, tg, rc.
        repeat (split; [first [assumption | reflexivity]|]). right. assumption. }
  cbn. exists attacker, defender, result, ca, cd, tg, rc, report.
  split; [reflexivity|]. split; [reflexivity|]. split; [exact Hcalc|].
  split; [exact Hrep|]. rewrite B3, U3, U2. split; reflexivity.
Qed.


(** ** Battles: what is conserved, recorded and lost *)

Lemma count_one cs x c :
  NoDup (map Country.id cs) ->
  find (fun c => Country.id c =? x) cs = Some c ->
  RankingService.count (filter (fun c => Country.id c =? x) cs) = 1.
Proof.
  unfold RankingService.count.
  induction cs as [|a cs IH]; intros Hnd Hfind; [discriminate|].
  cbn [map] in Hnd. inversion Hnd as [|? ? Hnot Hnd']; subst.
  cbn [find filter] in *. destruct (Z.eqb_spec (Country.id a) x) as [E|E].
  - assert (Hn : filter (fun c => Country.id c =? x) cs = []).
    { destruct (filter _ cs) as [|b l] eqn:Hf; [reflexivity|].
      exfalso. assert (Hb : In b (filter (fun c => Country.id c =? x) cs))
        by (rewrite Hf; left; reflexivity).
      apply filter_In in Hb. destruct Hb as [Hin Hb]. apply Z.eqb_eq in Hb.
      apply Hnot. rewrite E, <- Hb. apply in_map. assumption. }
    rewrite Hn. reflexivity.
  - apply IH; assumption.
Qed.

Lemma sum_transfer a d rc cs :
  a <> d ->
  sum (map Country.resources (transfer a d rc cs))
  = sum (map Country.resources cs)
    + rc * RankingService.count (filter (fun c => Country.id c =? a) cs)
    - rc * RankingService.count (filter (fun c => Country.id c =? d) cs).
Proof.
  intros Hne. rewrite (transfer_spec _ _ _ _ Hne). unfold RankingService.count.
  induction cs as [|c cs IH]; [cbn; lia|].
  cbn [map filter]. rewrite !sum_cons, IH.
  destruct (Z.eqb_spec (Country.id c) a) as [Ea|Ea];
    destruct (Z.eqb_spec (Country.id c) d) as [Ed|Ed]; try congruence;
    cbn [List.length Country.resources Country.set_resources]; lia.
Qed.

(** X6. A battle moves resources, it creates and destroys none: with unique
    nation keys, the sum of all balances after [attack] is the sum before,
    whatever the draws are and whether the call returns or raises. *)
Theorem attack_conserves_resources :
  forall rolls now attacker_id defender_id db,
    NoDup (map Country.id (countries db)) ->
    total_resources (fst (run (MilitaryService.attack rolls now attacker_id defender_id) db))
    = total_resources db.
Proof.
  intros rolls now a d db Hnd. unfold total_resources.
  pose proof (attack_run rolls now a d db) as H.
  destruct (run (MilitaryService.attack rolls now a d) db) as [db' [battle|e]]; cbn [fst].
  - destruct H as (attacker & defender & Fa & Fd & Hne & _ & _ & -> & _).
    destruct (BattleResult_eqb _ _); [|reflexivity].
    rewrite (sum_transfer _ _ _ _ Hne).
    rewrite (count_one _ _ _ Hnd Fa), (count_one _ _ _ Hnd Fd). lia.
  - destruct H as (<- & _). reflexivity.
Qed.

Lemma attack_conserves_resources_witness :
  total_resources (fst (run (MilitaryService.attack scenario_rolls 0 1 2) battle_db))
  = total_resources battle_db.
Proof.
  apply (attack_conserves_resources scenario_rolls 0 1 2 battle_db).
  vm_compute. constructor; [intros [H|[]]; discriminate|].
  constructor; [intros []|]. constructor.
Defined.

(** X7. A battle that [attack] returns is the one row appended to the
    battles table: it has a fresh key, the two nation keys, the outcome and
    the casualties that the resolution computed, and the two strengths as
    they were before the casualties were applied. A call that raises
    leaves the battles table as it was. *)
Theorem attack_records_battle :
  forall rolls now attacker_id defender_id db,
    NoDup (map MilitaryUnit.id (military_units db)) ->
    match run (MilitaryService.attack rolls now attacker_id defender_id) db with
    | (db', Ok battle) =>
        battles db' = battles db ++ [battle] /\
        ~ In (Battle.id battle) (map Battle.id (battles db)) /\
        Battle.attacker_id battle = attacker_id /\
        Battle.defender_id battle = defender_id /\
        Battle.attacker_strength battle = military_strength db attacker_id /\
        Battle.defender_strength battle = military_strength db defender_id /\
        Battle.battle_date battle = now /\
        exists attacker defender,
          find (fun c => Country.id c =? attacker_id) (countries db) = Some attacker /\
          find (fun c => Country.id c =? defender_id) (countries db) = Some defender /\
          MilitaryService._calculate_battle_result rolls
            (military_strength db attacker_id) (military_strength db defender_id)
            attacker defender
          = Ok (Battle.result battle, Battle.casualties_attacker battle,
                Battle.casualties_defender battle, Battle.territory_gained battle,
                Battle.resources_captured battle)
    | (db', Raise e) => battles db' = battles db
    end.
Proof.
  intros rolls now a d db Hnd.
  pose proof (attack_run rolls now a d db) as H.
  pose proof (attack_full rolls now a d db Hnd) as F. cbv zeta in F.
  destruct (run (MilitaryService.attack rolls now a d) db) as [db' [battle|e]].
  - destruct H as (attacker & defender & Fa & Fd & _ & _ & Hcalc & _ & _ & _ & Hb & Ha & Hd).
    destruct F as (_ & _ & result & ca & cd & tg & rc & report & _ & _ & _ & _ & Hbattle & _).
    split; [assumption|]. rewrite Hbattle. cbn.
    split; [|repeat (split; [reflexivity|])].
    + intros Hin. pose proof (next_id_gt _ _ Hin). lia.
    + exists attacker, defender. rewrite Hbattle in Hcalc. cbn in Hcalc. auto.
  - destruct H as (_ & _ & <- & _). reflexivity.
Qed.

Lemma attack_records_battle_witness :
  exists db' battle,
    run (MilitaryService.attack scenario_rolls 0 1 2) battle_db = (db', Ok battle) /\
    battles db' = battles battle_db ++ [battle] /\
    Battle.attacker_strength battle = military_strength battle_db 1.
Proof.
  assert (Hnd : NoDup (map MilitaryUnit.id (military_units battle_db))).
  { assert (E : map MilitaryUnit.id (military_units battle_db) = [1; 2; 3; 4; 5; 6; 7; 8])
      by reflexivity.
    rewrite E. repeat (constructor; [cbn; intuition discriminate|]). constructor. }
  pose proof (attack_records_battle scenario_rolls 0 1 2 battle_db Hnd) as H.
  destruct (run (MilitaryService.attack scenario_rolls 0 1 2) battle_db)
    as [db' [battle|e]] eqn:Hr; [|vm_compute in Hr; discriminate].
  exists db', battle. destruct H as (H1 & _ & _ & _ & H5 & _). auto.
Defined.


(** The casualty counts of a resolved battle are not negative. *)
Lemma casualties_nonneg rolls attacker_strength defender_strength attacker defender
    result ca cd tg rc :
  rolls_in_range rolls = true ->
  0 <= attacker_strength -> 0 <= defender_strength ->
  MilitaryService._calculate_battle_result rolls attacker_strength defender_strength
    attacker defender = Ok (result, ca, cd, tg, rc) ->
  0 <= ca /\ 0 <= cd.
Proof.
  intros Hrolls Ha Hd.
  destruct (rolls_in_range_spec rolls Hrolls) as (_ & (Nb & Bb) & _).
  unfold MilitaryService._calculate_battle_result. intros H.
  apply rbind_ok in H. destruct H as (ratio & _ & H).
  set (res0 := if Py.gt (ratio * random_factor rolls) 1.2 then VICTORY
               else if Py.lt (ratio * random_factor rolls) 0.8 then DEFEAT else DRAW) in *.
  destruct (rate_bounded res0 _ Nb Bb) as ((Na & _) & (Nd & _)).
  assert (E : match res0 with
              | VICTORY => ((base_casualty_rate rolls * 0.7)%float,
                            (base_casualty_rate rolls * 1.3)%float)
              | DEFEAT => ((base_casualty_rate rolls * 1.3)%float,
                           (base_casualty_rate rolls * 0.7)%float)
              | DRAW => (base_casualty_rate rolls, base_casualty_rate rolls)
              end
              = (attacker_rate res0 (base_casualty_rate rolls),
                 defender_rate res0 (base_casualty_rate rolls)))
    by (destruct res0; reflexivity).
  rewrite E in H.
  apply rbind_ok in H. destruct H as (ca' & Hca & H).
  apply rbind_ok in H. destruct H as (cd' & Hcd & H).
  apply rbind_ok in Hca. destruct Hca as (xa & Hxa & Hza).
  apply rbind_ok in Hcd. destruct Hcd as (xd & Hxd & Hzd).
  destruct (int_mul_float_floor _ _ _ _ (nonneg_finite_sf_shape _ Na) Ha Hxa Hza)
    as (_ & Ha0 & _).
  destruct (int_mul_float_floor _ _ _ _ (nonneg_finite_sf_shape _ Nd) Hd Hxd Hzd)
    as (_ & Hd0 & _).
  destruct res0.
  - apply rbind_ok in H. destruct H as (tg' & _ & H).
    apply rbind_ok in H. destruct H as (rc' & _ & H).
    injection H as <- <- <- <- <-. auto.
  - injection H as <- <- <- <- <-. auto.
  - injection H as <- <- <- <- <-. auto.
Qed.

(** What one row loses is between nothing and all it has. *)
Lemma units_lost_range T S u :
  0 <= T -> 0 < S -> 0 <= MilitaryUnit.quantity u ->
  0 <= units_lost T S u <= MilitaryUnit.quantity u.
Proof.
  intros HT HS Hq. unfold units_lost.
  destruct (MilitaryService.unit_casualties T S u) as [c|] eqn:Hc; [|lia].
  unfold MilitaryService.unit_casualties in Hc.
  apply rbind_ok in Hc. destruct Hc as (prop & Hp & Hc).
  apply rbind_ok in Hc. destruct Hc as (x & Hx & Hc).
  apply rbind_ok in Hc. destruct Hc as (z & Hz & [= <-]).
  pose proof (unit_strength_pos (MilitaryUnit.unit_type u)) as Hst.
  assert (Hs0 : 0 <= MilitaryUnit.quantity u
                     * MilitaryService.unit_strength (MilitaryUnit.unit_type u)) by nia.
  pose proof (int_truediv_shape _ _ _ Hs0 HS Hp) as Np.
  destruct (int_mul_float_floor _ _ _ _ (nonneg_finite_sf_shape _ Np) HT Hx Hz)
    as (_ & Hz0 & _).
  lia.
Qed.

Lemma casualties_applied_rel country_id T table :
  0 <= T -> (forall u, In u table -> 0 <= MilitaryUnit.quantity u) ->
  exists after : MilitaryUnit.t -> MilitaryUnit.t,
    casualties_applied country_id T table = map after table /\
    forall u, In u table ->
      MilitaryUnit.id (after u) = MilitaryUnit.id u /\
      MilitaryUnit.country_id (after u) = MilitaryUnit.country_id u /\
      MilitaryUnit.unit_type (after u) = MilitaryUnit.unit_type u /\
      MilitaryUnit.technology_level (after u) = MilitaryUnit.technology_level u /\
      0 <= MilitaryUnit.quantity (after u) <= MilitaryUnit.quantity u /\
      (MilitaryUnit.country_id u <> country_id -> after u = u).
Proof.
  intros HT Hq. unfold casualties_applied.
  set (units := filter (fun u => MilitaryUnit.country_id u =? country_id) table).
  destruct (Z.eqb_spec (weighted_strength units) 0) as [HS|HS].
  - exists (fun u => u). split; [symmetry; apply map_id|].
    intros u Hu. specialize (Hq u Hu). repeat split; auto; lia.
  - assert (HS0 : 0 <= weighted_strength units).
    { apply sum_nonneg. intros y Hy. apply in_map_iff in Hy. destruct Hy as (u & <- & Hu).
      apply filter_In in Hu. pose proof (Hq u (proj1 Hu)).
      pose proof (unit_strength_pos (MilitaryUnit.unit_type u)). nia. }
    eexists. split; [reflexivity|]. intros u Hu. cbv beta.
    destruct (Z.eqb_spec (MilitaryUnit.country_id u) country_id) as [E|E].
    + pose proof (units_lost_range T (weighted_strength units) u HT ltac:(lia) (Hq u Hu)).
      cbn. repeat split; lia.
    + specialize (Hq u Hu). repeat split; auto; lia.
Qed.

Lemma strength_of_units_nonneg units :
  units_nonneg units -> 0 <= MilitaryService.strength_of_units units.
Proof.
  induction units as [|u units IH]; intros H; [reflexivity|].
  rewrite strength_of_units_cons.
  destruct (H u (or_introl eq_refl)) as [Hq Ht].
  pose proof (unit_strength_pos (MilitaryUnit.unit_type u)).
  assert (0 <= MilitaryService.strength_of_units units).
  { apply IH. intros r Hr. apply H. right. assumption. }
  unfold strength_of_unit. nia.
Qed.

Lemma military_strength_nonneg db country_id :
  units_nonneg (military_units db) -> 0 <= military_strength db country_id.
Proof.
  intros H. apply strength_of_units_nonneg. intros u Hu. apply filter_In in Hu.
  apply H. tauto.
Qed.

(** X8. A battle only takes units away, and only from the two nations that
    fight: with unique unit keys, no negative quantity or technology level
    and draws in their ranges, whatever [attack] returns or raises, every
    row of the units table is still there with its key, nation, type and
    technology level, its quantity is between 0 and what it was, and the
    rows of all other nations are as they were. *)
Theorem attack_only_reduces_units :
  forall rolls now attacker_id defender_id db,
    NoDup (map MilitaryUnit.id (military_units db)) ->
    units_nonneg (military_units db) ->
    rolls_in_range rolls = true ->
    exists after : MilitaryUnit.t -> MilitaryUnit.t,
      military_units
        (fst (run (MilitaryService.attack rolls now attacker_id defender_id) db))
      = map after (military_units db) /\
      forall u, In u (military_units db) ->
        MilitaryUnit.id (after u) = MilitaryUnit.id u /\
        MilitaryUnit.country_id (after u) = MilitaryUnit.country_id u /\
        MilitaryUnit.unit_type (after u) = MilitaryUnit.unit_type u /\
        MilitaryUnit.technology_level (after u) = MilitaryUnit.technology_level u /\
        0 <= MilitaryUnit.quantity (after u) <= MilitaryUnit.quantity u /\
        (MilitaryUnit.country_id u <> attacker_id ->
         MilitaryUnit.country_id u <> defender_id -> after u = u).
Proof.
  intros rolls now a d db Hnd Hnn Hrolls.
  assert (Hq : forall u, In u (military_units db) -> 0 <= MilitaryUnit.quantity u).
  { intros u Hu. apply Hnn. assumption. }
  assert (Hsame : exists after : MilitaryUnit.t -> MilitaryUnit.t,
            military_units db = map after (military_units db) /\
            forall u, In u (military_units db) ->
              MilitaryUnit.id (after u) = MilitaryUnit.id u /\
              MilitaryUnit.country_id (after u) = MilitaryUnit.country_id u /\
              MilitaryUnit.unit_type (after u) = MilitaryUnit.unit_type u /\
              MilitaryUnit.technology_level (after u) = MilitaryUnit.technology_level u /\
              0 <= MilitaryUnit.quantity (after u) <= MilitaryUnit.quantity u /\
              (MilitaryUnit.country_id u <> a -> MilitaryUnit.country_id u <> d ->
               after u = u)).
  { exists (fun u => u). split; [symmetry; apply map_id|].
    intros u Hu. specialize (Hq u Hu). repeat split; auto; lia. }
  assert (Hone : forall ca, 0 <= ca ->
            exists after : MilitaryUnit.t -> MilitaryUnit.t,
              casualties_applied a ca (military_units db) = map after (military_units db) /\
              forall u, In u (military_units db) ->
                MilitaryUnit.id (after u) = MilitaryUnit.id u /\
                MilitaryUnit.country_id (after u) = MilitaryUnit.country_id u /\
                MilitaryUnit.unit_type (after u) = MilitaryUnit.unit_type u /\
                MilitaryUnit.technology_level (after u) = MilitaryUnit.technology_level u /\
                0 <= MilitaryUnit.quantity (after u) <= MilitaryUnit.quantity u /\
                (MilitaryUnit.country_id u <> a -> MilitaryUnit.country_id u <> d ->
                 after u = u)).
  { intros ca Hca. destruct (casualties_applied_rel a ca _ Hca Hq) as (h & Hh & Hp).
    exists h. split; [assumption|]. intros u Hu.
    destruct (Hp u Hu) as (P1 & P2 & P3 & P4 & P5 & P6). repeat split; auto; lia. }
  assert (Htwo : forall ca cd, 0 <= ca -> 0 <= cd ->
            exists after : MilitaryUnit.t -> MilitaryUnit.t,
              casualties_applied d cd (casualties_applied a ca (military_units db))
              = map after (military_units db) /\
              forall u, In u (military_units db) ->
                MilitaryUnit.id (after u) = MilitaryUnit.id u /\
                MilitaryUnit.country_id (after u) = MilitaryUnit.country_id u /\
                MilitaryUnit.unit_type (after u) = MilitaryUnit.unit_type u /\
                MilitaryUnit.technology_level (after u) = MilitaryUnit.technology_level u /\
                0 <= MilitaryUnit.quantity (after u) <= MilitaryUnit.quantity u /\
                (MilitaryUnit.country_id u <> a -> MilitaryUnit.country_id u <> d ->
                 after u = u)).
  { intros ca cd Hca Hcd.
    destruct (casualties_applied_rel a ca _ Hca Hq) as (h1 & Hh1 & Hp1).
    assert (Hq1 : forall u, In u (casualties_applied a ca (military_units db)) ->
                    0 <= MilitaryUnit.quantity u).
    { rewrite Hh1. intros u Hu. apply in_map_iff in Hu. destruct Hu as (u0 & <- & Hu0).
      apply (Hp1 u0 Hu0). }
    destruct (casualties_applied_rel d cd _ Hcd Hq1) as (h2 & Hh2 & Hp2).
    exists (fun u => h2 (h1 u)). split.
    - rewrite Hh2, Hh1, map_map. reflexivity.
    - intros u Hu. destruct (Hp1 u Hu) as (P1 & P2 & P3 & P4 & P5 & P6).
      assert (Hu1 : In (h1 u) (casualties_applied a ca (military_units db))).
      { rewrite Hh1. apply in_map. assumption. }
      destruct (Hp2 _ Hu1) as (Q1 & Q2 & Q3 & Q4 & Q5 & Q6).
      repeat split; try congruence; try lia.
      intros Ha Hd. rewrite (P6 Ha) in *. apply Q6. assumption. }
  pose proof (attack_full rolls now a d db Hnd) as F. cbv zeta in F.
  pose proof (attack_run rolls now a d db) as R.
  pose proof (military_strength_nonneg db d Hnn) as Hsd.
  destruct (run (MilitaryService.attack rolls now a d) db) as [db' [battle|e]]; cbn [fst].
  - destruct R as (_ & _ & _ & _ & _ & Hsa & _).
    destruct F as (attacker & defender & result & ca & cd & tg & rc & report & _ & _ & Hcalc
      & _ & _ & ->).
    destruct (casualties_nonneg _ _ _ _ _ _ _ _ _ _ Hrolls (Z.lt_le_incl _ _ Hsa) Hsd Hcalc) as [Hca Hcd].
    apply Htwo; assumption.
  - destruct F as [->|(attacker & defender & result & ca & cd & tg & rc & _ & _ & _ & Hsa
      & Hcalc & [->| ->])]; [exact Hsame| |].
    + destruct (casualties_nonneg _ _ _ _ _ _ _ _ _ _ Hrolls (Z.lt_le_incl _ _ Hsa) Hsd Hcalc)
        as [Hca Hcd].
      apply Hone; assumption.
    + destruct (casualties_nonneg _ _ _ _ _ _ _ _ _ _ Hrolls (Z.lt_le_incl _ _ Hsa) Hsd Hcalc)
        as [Hca Hcd].
      apply Htwo; assumption.
Qed.

Lemma attack_only_reduces_units_witness :
  exists after : MilitaryUnit.t -> MilitaryUnit.t,
    military_units (fst (run (MilitaryService.attack scenario_rolls 0 1 2) battle_db))
    = map after (military_units battle_db) /\
    forall u, In u (military_units battle_db) ->
      0 <= MilitaryUnit.quantity (after u) <= MilitaryUnit.quantity u.
Proof.
  assert (Hnd : NoDup (map MilitaryUnit.id (military_units battle_db))).
  { assert (E : map MilitaryUnit.id (military_units battle_db) = [1; 2; 3; 4; 5; 6; 7; 8])
      by reflexivity.
    rewrite E. repeat (constructor; [cbn; intuition discriminate|]). constructor. }
  assert (Hnn : units_nonneg (military_units battle_db)).
  { intros u Hu. vm_compute in Hu.
    repeat (destruct Hu as [<-|Hu]; [split; vm_compute; discriminate|]). destruct Hu. }
  destruct (attack_only_reduces_units scenario_rolls 0 1 2 battle_db Hnd Hnn eq_refl)
    as (after & H1 & H2).
  exists after. split; [exact H1|]. intros u Hu. apply (H2 u Hu).
Defined.


(** ** Starting a development *)

(** X9. [start_development] checks in this order: an unknown category, a
    name that no option of the category has and an unknown nation raise
    ValidationError; a balance below the option's cost raises
    ResourceError.  A call that passes the four checks raises NameError at
    [TransactionLog(...)], before the record is added and before the
    commit.  So the call never returns a record, and whatever it raises the
    store is left as it was: nothing is started, paid or logged. *)
Theorem start_development_outcome :
  forall now now' now'' country_id category_str option_name db,
    let call :=
      run (DevelopmentService.start_development now now' now'' country_id category_str
             option_name) db in
    ((forall options, DevelopmentService2.get_development_options category_str <> Ok options) ->
     call = (db, Raise ValidationError)) /\
    (forall options,
       DevelopmentService2.get_development_options category_str = Ok options ->
       (option_named option_name options = None -> call = (db, Raise ValidationError)) /\
       (forall option,
          option_named option_name options = Some option ->
          (find (fun c => Country.id c =? country_id) (countries db) = None ->
           call = (db, Raise ValidationError)) /\
          (forall country,
             find (fun c => Country.id c =? country_id) (countries db) = Some country ->
             (Country.resources country < DevelopmentOption.cost option ->
              call = (db, Raise ResourceError)) /\
             (DevelopmentOption.cost option <= Country.resources country ->
              call = (db, Raise NameError))))) /\
    (forall db' r, call = (db', r) -> db' = db /\ forall started, r <> Ok started).
Proof.
  intros now now' now'' country_id category_str option_name db call. unfold call.
  rewrite start_development_run.
  unfold DevelopmentService2.get_development_options, option_named.
  split; [|split].
  - intros H. destruct (DevelopmentCategory_of_value category_str) as [cat|]; [|reflexivity].
    exfalso. apply (H _ eq_refl).
  - intros options Hopts.
    destruct (DevelopmentCategory_of_value category_str) as [cat|]; [|discriminate].
    injection Hopts as <-. split.
    + intros ->. reflexivity.
    + intros option ->. split.
      * intros ->. reflexivity.
      * intros country ->. split; intros Hc.
        -- destruct (Z.ltb_spec (Country.resources country) (DevelopmentOption.cost option));
             [reflexivity | lia].
        -- destruct (Z.ltb_spec (Country.resources country) (DevelopmentOption.cost option));
             [lia | reflexivity].
  - intros db' r [= <- <-]. split; [reflexivity | discriminate].
Qed.

(** ** The lists of active and completed developments *)

Lemma filter_after_mark now (keep : Development.t -> bool) status t :
  (forall d, keep (Development.set_status COMPLETED d) = keep d) ->
  filter (fun d => keep d && DevelopmentStatus_eqb (Development.status d) status)
    (map (fun d => if DevelopmentService.matured now d
                   then Development.set_status COMPLETED d else d) t)
  = match status with
    | IN_PROGRESS =>
        filter (fun d => negb (Development.end_time d <=? now))
          (filter (fun d => keep d && DevelopmentStatus_eqb (Development.status d) IN_PROGRESS)
             t)
    | COMPLETED =>
        map (fun d => if DevelopmentService.matured now d
                      then Development.set_status COMPLETED d else d)
          (filter (fun d => keep d
                            && (DevelopmentStatus_eqb (Development.status d) COMPLETED
                                || DevelopmentService.matured now d)) t)
    | CANCELLED =>
        filter (fun d => keep d && DevelopmentStatus_eqb (Development.status d) CANCELLED) t
    end.
Proof.
  intros Hkeep. induction t as [|d t IH]; [destruct status; reflexivity|].
  cbn [map filter]. rewrite IH. unfold DevelopmentService.matured.
  destruct (Development.status d) eqn:Hst; cbn [DevelopmentStatus_eqb andb orb];
    destruct (Z.leb_spec (Development.end_time d) now); cbn [andb orb negb];
    try rewrite Hkeep; cbn [Development.status Development.set_status DevelopmentStatus_eqb];
    destruct status; rewrite ?Hst; cbn [DevelopmentStatus_eqb andb orb];
    rewrite ?andb_true_r, ?andb_false_r;
    destruct (keep d) eqn:Hk; cbn [filter map negb andb]; rewrite ?Hst;
    cbn [DevelopmentStatus_eqb andb orb negb];
    try (destruct (Z.leb_spec (Development.end_time d) now); try lia);
    cbn [negb andb]; try reflexivity.
Qed.

(** X11. A successful sweep at [now] removes from each nation's active list
    exactly the entries with [end_time <= now], keeping the others in order;
    the nation's completed list afterwards holds what it held before together
    with the nation's records among those the sweep returned. *)
Theorem sweep_moves_matured_to_completed :
  forall db now db' completed country_id,
    NoDup (map Development.id (developments db)) ->
    run (DevelopmentService.check_completed_developments now) db = (db', Ok completed) ->
    exists active done active' done',
      run (DevelopmentService2.get_active_developments country_id) db = (db, Ok active) /\
      run (DevelopmentService2.get_completed_developments country_id) db = (db, Ok done) /\
      run (DevelopmentService2.get_active_developments country_id) db' = (db', Ok active') /\
      run (DevelopmentService2.get_completed_developments country_id) db' = (db', Ok done') /\
      active' = filter (fun d => negb (Development.end_time d <=? now)) active /\
      (forall d, In d active' -> now < Development.end_time d) /\
      (forall d, In d done' <->
                 In d done \/ (In d completed /\ Development.country_id d = country_id)).
Proof.
  intros db now db' completed country_id Hnd Hrun.
  rewrite sweep_run in Hrun. cbv zeta in Hrun.
  destruct (sweep_countries now _ (countries db)) as [cs|e]; [|discriminate].
  injection Hrun as <- <-.
  unfold run, DevelopmentService2.get_active_developments,
    DevelopmentService2.get_completed_developments, query.
  cbn [working committed developments].
  rewrite (mark_completed_matured now _ Hnd).
  rewrite !(filter_after_mark now (fun d => Development.country_id d =? country_id))
    by reflexivity.
  eexists _, _, _, _. repeat (split; [reflexivity|]). split.
  - intros d Hd. apply filter_In in Hd. destruct Hd as (_ & Hd).
    destruct (Z.leb_spec (Development.end_time d) now); [discriminate|lia].
  - intros d. rewrite in_map_iff. split.
    + intros (r & Hd & Hr). apply filter_In in Hr. destruct Hr as (Hr & Hk).
      apply andb_true_iff in Hk. destruct Hk as (Hk & Hs).
      destruct (DevelopmentService.matured now r) eqn:Hm.
      * right. subst d. split; [|apply Z.eqb_eq; exact Hk].
        apply in_map. apply filter_In. split; assumption.
      * left. subst d. rewrite orb_false_r in Hs. apply filter_In. split; [assumption|].
        rewrite Hk, Hs. reflexivity.
    + intros [Hd|(Hd & Hc)].
      * apply filter_In in Hd. destruct Hd as (Hd & Hk).
        apply andb_true_iff in Hk. destruct Hk as (Hk & Hs).
        exists d. assert (Hm : DevelopmentService.matured now d = false).
        { unfold DevelopmentService.matured.
          apply DevelopmentStatus_eqb_eq in Hs. rewrite Hs. reflexivity. }
        rewrite Hm. split; [reflexivity|]. apply filter_In. split; [assumption|].
        rewrite Hk, Hs. reflexivity.
      * apply in_map_iff in Hd. destruct Hd as (r & Hd & Hr).
        apply filter_In in Hr. destruct Hr as (Hr & Hm).
        exists r. rewrite Hm. split; [assumption|]. apply filter_In. split; [assumption|].
        subst d. cbn in Hc. apply Z.eqb_eq in Hc. rewrite Hc, Hm, orb_true_r. reflexivity.
Qed.

Lemma sweep_moves_matured_to_completed_witness :
  NoDup (map Development.id (developments road_network_db)) /\
  exists db' completed active done active' done',
    run (DevelopmentService.check_completed_developments one_day_one_second) road_network_db
    = (db', Ok completed) /\
    run (DevelopmentService2.get_active_developments 1) road_network_db
    = (road_network_db, Ok active) /\
    run (DevelopmentService2.get_completed_developments 1) road_network_db
    = (road_network_db, Ok done) /\
    run (DevelopmentService2.get_active_developments 1) db' = (db', Ok active') /\
    run (DevelopmentService2.get_completed_developments 1) db' = (db', Ok done') /\
    active' = filter (fun d => negb (Development.end_time d <=? one_day_one_second)) active /\
    (forall d, In d done' <->
               In d done \/ (In d completed /\ Development.country_id d = 1)).
Proof.
  assert (Hnd : NoDup (map Development.id (developments road_network_db))).
  { vm_compute. repeat constructor. intros []. }
  split; [exact Hnd|].
  destruct (run (DevelopmentService.check_completed_developments one_day_one_second)
              road_network_db) as [db' [completed|e]] eqn:Hr;
    [|vm_compute in Hr; discriminate].
  destruct (sweep_moves_matured_to_completed road_network_db one_day_one_second db'
              completed 1 Hnd Hr)
    as (active & done & active' & done' & H1 & H2 & H3 & H4 & H5 & _ & H7).
  exists db', completed, active, done, active', done'.
  repeat (split; [first [reflexivity | assumption]|]). exact H7.
Defined.


(** ** The ends of the progress scale *)

(** The binary64 value [elapsed / total * 100] is within a relative
    [7 * 2^-53] of [100 * E / T]. *)
Lemma percent_relative T E total elapsed :
  0 < T <= 2 ^ 62 -> 0 < E <= 2 ^ 62 ->
  Py.total_seconds T = Ok total -> Py.total_seconds E = Ok elapsed ->
  (100 * (IZR E / IZR T) * (1 - 7 * bpow (-53))
   <= F2R (elapsed / total * 100)%float
   <= 100 * (IZR E / IZR T) * (1 + 7 * bpow (-53)))%R.
Proof.
  intros HT HE Ht He.
  destruct (percent_value T E HT ltac:(lia)) as (t1 & e1 & y1 & A1 & A2 & A3 & _ & Hz0 & Nt &
    Ne & Lt & Rt & Re & Nd & Rd & Rm & Fl).
  rewrite Ht in A1. injection A1 as <-. rewrite He in A2. injection A2 as <-.
  set (m := F2R (elapsed / total * 100)%float) in *.
  set (r := F2R (elapsed / total)%float) in *.
  set (e := F2R elapsed) in *. set (t := F2R total) in *.
  pose proof (bpow_gt_0 (-20)) as Hp20.
  assert (Ht0 : (0 < t)%R) by lra.
  assert (HTR : (0 < IZR T)%R) by (apply IZR_lt; lia).
  assert (HER : (1 <= IZR E)%R) by (apply IZR_le; lia).
  pose proof bpow_m20 as H20.
  assert (Ha : (bpow (-20) <= IZR E / 1000000)%R).
  { unfold Rdiv. assert (0 < / 1000000)%R by (apply Rinv_0_lt_compat; lra). nra. }
  assert (Hb : (bpow (-20) <= IZR T / 1000000)%R).
  { assert (1 <= IZR T)%R by (apply IZR_le; lia).
    unfold Rdiv. assert (0 < / 1000000)%R by (apply Rinv_0_lt_compat; lra). nra. }
  pose proof (bpow_le (-1022) (-20) ltac:(lia)) as Hn20.
  pose proof (rounds_error _ _ Re ltac:(lra)) as Ee.
  pose proof (rounds_error _ _ Rt ltac:(lra)) as Et.
  assert (He20 : (bpow (-20) <= e)%R) by (apply (rounds_ge_bpow _ _ _ Re Ha); lia).
  assert (Ht62 : (t <= bpow 62)%R).
  { apply (rounds_le_bpow _ _ _ Rt); [|lia]. split; [lra|].
    apply Rmult_le_reg_r with 1000000%R; [lra|].
    replace (IZR T / 1000000 * 1000000)%R with (IZR T) by (field; lra).
    rewrite bpow_IZR by lia.
    assert (IZR T <= IZR (2 ^ 62))%R by (apply IZR_le; lia).
    assert (0 < IZR (2 ^ 62))%R by (apply IZR_lt; lia). nra. }
  assert (Hq82 : (bpow (-82) <= e / t)%R).
  { pose proof (bpow_gt_0 62). pose proof (bpow_gt_0 (-82)).
    apply Rmult_le_reg_r with t; [assumption|].
    replace (e / t * t)%R with e by (field; lra).
    replace (-20) with (-82 + 62) in He20 by lia. rewrite bpow_add in He20. nra. }
  pose proof (bpow_le (-1022) (-82) ltac:(lia)) as Hn82.
  pose proof (rounds_error _ _ Rd ltac:(lra)) as Er.
  assert (Hr82 : (bpow (-82) <= r)%R) by (apply (rounds_ge_bpow _ _ _ Rd Hq82); lia).
  pose proof (rounds_error _ _ Rm ltac:(pose proof (bpow_gt_0 (-82)); nra)) as Em.
  pose proof bpow_m53_small as Hu.
  set (u := bpow (-53)) in *.
  set (w := (IZR E / IZR T)%R).
  assert (Hw0 : (0 <= w)%R).
  { unfold w, Rdiv. apply Rmult_le_pos; [lra|]. apply Rlt_le, Rinv_0_lt_compat. lra. }
  assert (Habw : (IZR E / 1000000 = w * (IZR T / 1000000))%R).
  { unfold w. field. lra. }
  set (a := (IZR E / 1000000)%R) in *. set (b := (IZR T / 1000000)%R) in *.
  assert (Hb0 : (0 < b)%R) by lra.
  assert (Hqt : (e / t * t = e)%R) by (field; lra).
  set (q := (e / t)%R) in *.
  assert (Hq0 : (0 <= q)%R) by (pose proof (bpow_gt_0 (-82)); lra).
  assert (Hq1 : (q * (1 - u) <= w * (1 + u))%R).
  { apply Rmult_le_reg_r with b; [assumption|].
    assert (q * (b * (1 - u)) <= q * t)%R by (apply Rmult_le_compat_l; lra).
    nra. }
  assert (Hq2 : (w * (1 - u) <= q * (1 + u))%R).
  { apply Rmult_le_reg_r with b; [assumption|].
    assert (q * t <= q * (b * (1 + u)))%R by (apply Rmult_le_compat_l; lra).
    nra. }
  exact (four_roundings u w q r m Hu Hw0 Hq1 Hq2 Er Em).
Qed.

(** X12. For a development that is IN_PROGRESS the report says 0 percent at
    its start time and 100 percent, with the integer 0 remaining, from its
    end time on; when the planned duration is at most 2^50 microseconds the
    report stays below 100 percent at every instant before the end time. *)
Theorem progress_ends :
  forall db now development_id d,
    find (fun d => Development.id d =? development_id) (developments db) = Some d ->
    Development.status d = IN_PROGRESS ->
    times_in_range d now ->
    exists report,
      run (DevelopmentService.get_development_progress now development_id) db
      = (db, Ok report) /\
      (now = Development.start_time d -> DevelopmentProgress.progress report = 0) /\
      (Development.end_time d <= now ->
         DevelopmentProgress.progress report = 100 /\
         DevelopmentProgress.time_left_seconds report = Py.Int 0) /\
      (now < Development.end_time d ->
         Development.end_time d - Development.start_time d <= 2 ^ 50 ->
         DevelopmentProgress.progress report < 100).
Proof.
  intros db now development_id d Hfind Hst (H1 & H2 & H3 & H4).
  unfold run.
  rewrite (get_development_progress_run now development_id (mkSession db db) d Hfind).
  cbn [committed]. rewrite Hst.
  set (start_time := Development.start_time d) in *.
  set (end_time := Development.end_time d) in *.
  destruct (percent_value (end_time - start_time) (now - start_time))
    as (total & elapsed & z & Ht & He & Hz & Hfl & Hz0 & Nt & Ne & Lt & Rt & Re & Nd & Rd &
        Rm & Fl); [lia | lia |].
  destruct (time_left_value (end_time - now)) as (left & Hl & Hl0 & Hl1); [lia|].
  rewrite Ht, He. cbn [rbind]. rewrite Hz. cbn [rbind]. rewrite Hl. cbn [rbind].
  eexists. split; [reflexivity|].
  cbn [DevelopmentProgress.progress DevelopmentProgress.time_left_seconds].
  pose proof (bpow_gt_0 (-20)) as Hp20.
  assert (Ht0 : (0 < F2R total)%R) by lra.
  assert (HTR : (0 < IZR (end_time - start_time))%R) by (apply IZR_lt; lia).
  split; [|split].
  - intros ->. rewrite Z.sub_diag in *.
    assert (E0 : F2R elapsed = 0%R).
    { apply rounds_0. replace 0%R with (0 / 1000000)%R by (unfold Rdiv; ring). exact Re. }
    assert (E1 : F2R (elapsed / total)%float = 0%R).
    { apply rounds_0. replace 0%R with (F2R elapsed / F2R total)%R
        by (rewrite E0; unfold Rdiv; ring). exact Rd. }
    assert (E2 : F2R (elapsed / total * 100)%float = 0%R).
    { apply rounds_0. replace 0%R with (F2R (elapsed / total)%float * 100)%R
        by (rewrite E1; ring). exact Rm. }
    rewrite E2 in Fl.
    assert (z = 0) by (apply (floor_unique 0%R); [exact Fl | simpl; lra]).
    lia.
  - intros Hend. split; [|apply Hl0; lia].
    assert (L1 : (F2R total <= F2R elapsed)%R).
    { apply (rounds_mono _ _ _ _ Rt Re).
      assert (IZR (end_time - start_time) <= IZR (now - start_time))%R
        by (apply IZR_le; lia).
      unfold Rdiv. split; lra. }
    assert (L2 : (1 <= F2R (elapsed / total)%float)%R).
    { rewrite <- bpow_0. apply (rounds_ge_bpow _ _ _ Rd); [|lia]. rewrite bpow_0.
      apply Rmult_le_reg_r with (F2R total); [assumption|].
      replace (F2R elapsed / F2R total * F2R total)%R with (F2R elapsed) by (field; lra).
      lra. }
    assert (L3 : (100 <= F2R (elapsed / total * 100)%float)%R).
    { apply (rounds_mono 100 (F2R (elapsed / total)%float * 100) _ _); [|exact Rm|lra].
      replace 100%R with (IZR 100 * bpow 0)%R by (rewrite bpow_0; simpl; ring).
      apply rounds_exact; lia. }
    assert (100 < z + 1) by (apply lt_IZR; rewrite plus_IZR; lra).
    lia.
  - intros Hlt H50.
    destruct (Z.eq_dec now start_time) as [->|Hne].
    + rewrite Z.sub_diag in *.
      assert (E0 : F2R elapsed = 0%R).
      { apply rounds_0. replace 0%R with (0 / 1000000)%R by (unfold Rdiv; ring). exact Re. }
      assert (E1 : F2R (elapsed / total)%float = 0%R).
      { apply rounds_0. replace 0%R with (F2R elapsed / F2R total)%R
          by (rewrite E0; unfold Rdiv; ring). exact Rd. }
      assert (E2 : F2R (elapsed / total * 100)%float = 0%R).
      { apply rounds_0. replace 0%R with (F2R (elapsed / total)%float * 100)%R
          by (rewrite E1; ring). exact Rm. }
      rewrite E2 in Fl.
      assert (z = 0) by (apply (floor_unique 0%R); [exact Fl | simpl; lra]).
      lia.
    + pose proof (percent_relative (end_time - start_time) (now - start_time) total elapsed
                    ltac:(lia) ltac:(lia) Ht He) as [_ Hm].
      set (m := F2R (elapsed / total * 100)%float) in *.
      set (T := end_time - start_time) in *. set (E := now - start_time) in *.
      assert (HT50 : (IZR T <= bpow 50)%R).
      { rewrite bpow_IZR by lia. apply IZR_le. exact H50. }
      assert (HE1 : (IZR E <= IZR T - 1)%R).
      { rewrite <- minus_IZR. apply IZR_le. lia. }
      assert (HE0 : (0 <= IZR E)%R) by (apply IZR_le; lia).
      assert (H8 : bpow (-50) = (8 * bpow (-53))%R).
      { replace (-50) with (3 + -53) by lia. rewrite bpow_add.
        rewrite (bpow_IZR 3) by lia. change (2 ^ 3) with 8. ring. }
      assert (H50' : (bpow 50 * bpow (-50) = 1)%R).
      { rewrite <- bpow_add. simpl. apply bpow_0. }
      pose proof (bpow_gt_0 (-53)) as Hu0. pose proof (bpow_gt_0 50) as Hp50.
      pose proof bpow_m53_small as Hu.
      set (u := bpow (-53)) in *.
      assert (Hw : (IZR E / IZR T <= 1 - 8 * u)%R).
      { apply Rmult_le_reg_r with (IZR T); [assumption|].
        replace (IZR E / IZR T * IZR T)%R with (IZR E) by (field; lra).
        assert (IZR T * (8 * u) <= 1)%R by (rewrite <- H8; nra). nra. }
      assert (Hw0 : (0 <= IZR E / IZR T)%R).
      { unfold Rdiv. apply Rmult_le_pos; [lra|]. apply Rlt_le, Rinv_0_lt_compat. lra. }
      assert (Hm100 : (m < 100)%R) by nra.
      assert (z < 100) by (apply lt_IZR; lra).
      lia.
Qed.

Lemma progress_ends_witness :
  exists d report,
    find (fun d => Development.id d =? 1) (developments road_network_db) = Some d /\
    Development.status d = IN_PROGRESS /\
    times_in_range d one_day_one_second /\
    run (DevelopmentService.get_development_progress one_day_one_second 1) road_network_db
    = (road_network_db, Ok report) /\
    DevelopmentProgress.progress report = 100 /\
    DevelopmentProgress.time_left_seconds report = Py.Int 0.
Proof.
  assert (H : exists d,
             find (fun d => Development.id d =? 1) (developments road_network_db) = Some d /\
             Development.status d = IN_PROGRESS /\
             times_in_range d one_day_one_second /\
             Development.end_time d <= one_day_one_second).
  { eexists. split; [vm_compute; reflexivity|]. split; [reflexivity|].
    split; [|vm_compute; discriminate].
    unfold times_in_range. vm_compute. repeat split; discriminate. }
  destruct H as (d & Hf & Hst & Hr & Hend).
  destruct (progress_ends road_network_db one_day_one_second 1 d Hf Hst Hr)
    as (report & Hrun & _ & H100 & _).
  exists d, report. repeat (split; [assumption|]). apply H100. exact Hend.
Defined.


(** ** Sums of primitive floats *)

Lemma shl_align_value mx ex ez :
  ez <= ex ->
  (IZR (Zpos (fst (shl_align mx ex ez))) * bpow ez = IZR (Zpos mx) * bpow ex)%R.
Proof.
  intros Hle. unfold shl_align.
  destruct (ez - ex) as [|d|d] eqn:Hd; cbn [fst].
  - replace ez with ex by lia. reflexivity.
  - lia.
  - rewrite IZR_iter_xO.
    replace (bpow ex) with (bpow (Zpos d) * bpow ez)%R
      by (rewrite <- bpow_add; f_equal; lia).
    ring.
Qed.

Lemma valid_finite_rounds m e :
  valid_binary (S754_finite false m e) = true ->
  rounds (IZR (Zpos m) * bpow e) (IZR (Zpos m) * bpow e).
Proof.
  intros Hv. apply valid_finite_canon in Hv. destruct Hv as [Hc _].
  pose proof (Zdigits2_bounds (Zpos m) ltac:(lia)) as Hb. cbn [Zdigits2] in Hb.
  apply rounds_exact; [|lia].
  split; [lia|]. eapply Z.lt_le_trans; [apply Hb|].
  apply Z.pow_le_mono_r; lia.
Qed.

Theorem add_correct x y :
  nonneg_finite x = true -> nonneg_finite y = true ->
  exists r, rounds (F2R x + F2R y) r /\
    ((r < bpow 1024)%R ->
       nonneg_finite (x + y)%float = true /\ F2R (x + y)%float = r) /\
    ((bpow 1024 <= r)%R -> Prim2SF (x + y)%float = S754_infinity false).
Proof.
  unfold nonneg_finite, F2R. rewrite add_spec.
  pose proof (Prim2SF_valid x) as Vx. pose proof (Prim2SF_valid y) as Vy.
  destruct (Prim2SF x) as [sx|sx| |[|] mx ex]; try discriminate;
    destruct (Prim2SF y) as [sy|sy| |[|] my ey]; try discriminate; intros _ _.
  - exists 0%R. cbn [SF2R]. rewrite Rplus_0_l. split; [apply rounds_0_0|]. split.
    + intros _. unfold SF64add, SFadd. destruct sx, sy; split; reflexivity.
    + intros H. pose proof (bpow_gt_0 1024). lra.
  - exists (SF2R (S754_finite false my ey)). cbn [SF2R]. rewrite Rplus_0_l, Rmult_1_l.
    split; [apply valid_finite_rounds; assumption|]. split.
    + intros _. split; [reflexivity|]. cbn [SF64add SFadd SF2R]. ring.
    + intros H. exfalso.
      apply valid_finite_canon in Vy. destruct Vy as [Cy Ey].
      pose proof (Zdigits2_bounds (Zpos my) ltac:(lia)) as Hb. cbn [Zdigits2] in Hb.
      assert (IZR (Zpos my) < bpow (Zpos (digits2_pos my)))%R.
      { rewrite bpow_IZR by lia. apply IZR_lt. lia. }
      assert (IZR (Zpos my) * bpow ey < bpow 1024)%R.
      { apply Rlt_le_trans with (bpow (Zpos (digits2_pos my)) * bpow ey)%R.
        - pose proof (bpow_gt_0 ey). nra.
        - rewrite <- bpow_add. apply bpow_le. lia. }
      lra.
  - exists (SF2R (S754_finite false mx ex)). cbn [SF2R]. rewrite Rplus_0_r, Rmult_1_l.
    split; [apply valid_finite_rounds; assumption|]. split.
    + intros _. split; [reflexivity|]. cbn [SF64add SFadd SF2R]. ring.
    + intros H. exfalso.
      apply valid_finite_canon in Vx. destruct Vx as [Cx Ex].
      pose proof (Zdigits2_bounds (Zpos mx) ltac:(lia)) as Hb. cbn [Zdigits2] in Hb.
      assert (IZR (Zpos mx) < bpow (Zpos (digits2_pos mx)))%R.
      { rewrite bpow_IZR by lia. apply IZR_lt. lia. }
      assert (IZR (Zpos mx) * bpow ex < bpow 1024)%R.
      { apply Rlt_le_trans with (bpow (Zpos (digits2_pos mx)) * bpow ex)%R.
        - pose proof (bpow_gt_0 ex). nra.
        - rewrite <- bpow_add. apply bpow_le. lia. }
      lra.
  - unfold SF64add, SFadd. cbn [cond_Zopp Z.add binary_normalize SF2R].
    set (ez := Z.min ex ey).
    destruct (binary_round_correct
                (fst (shl_align mx ex ez) + fst (shl_align my ey ez))%positive ez)
      as (r & Hr & Hp).
    rewrite Pos2Z.inj_add, plus_IZR, Rmult_plus_distr_r in Hr.
    rewrite (shl_align_value mx ex ez) in Hr by (unfold ez; lia).
    rewrite (shl_align_value my ey ez) in Hr by (unfold ez; lia).
    rewrite !Rmult_1_l.
    exists r. split; [assumption|]. split.
    + intros Hy. destruct (packed_finite _ _ Hp Hy) as (_ & Hnn & Hval). auto.
    + intros Hy. apply (packed_overflow _ _ Hp Hy).
Qed.


(** ** The sweep lowers no figure *)

(** A finite product has finite factors. *)
Lemma mul_finite_right f x :
  nonneg_finite f = true -> nonneg_sf (Prim2SF x) = true ->
  nonneg_finite (f * x)%float = true -> nonneg_finite x = true.
Proof.
  unfold nonneg_finite. rewrite mul_spec.
  destruct (Prim2SF f) as [sf|sf| |[|] mf ef]; try discriminate;
    destruct (Prim2SF x) as [sx|[|]| |[|] mx ex]; try discriminate;
    intros _ _ H; try reflexivity; try discriminate H.
Qed.

(** [int(n * (1 + b))] for a bonus [b >= 0] is at least [min(n, 2^53)]. *)
Lemma scaled_not_lowered n b k x z :
  0 <= n -> nonneg_finite b = true ->
  Py.int_add_float 1 b = Ok k -> Py.int_mul_float n k = Ok x -> Py.int_of_float x = Ok z ->
  Z.min n (2 ^ 53) <= z.
Proof.
  intros Hn Nb Hk Hx Hz.
  pose proof (int_add_float_shape 1 b k ltac:(lia) Nb Hk) as Sk.
  destruct (int_mul_float_floor n k x z Sk Hn Hx Hz) as (_ & _ & Nx & f & Hf & Nf & ->).
  pose proof (mul_finite_right f k Nf Sk Nx) as Nk.
  unfold Py.int_add_float in Hk.
  destruct (float_of_int_small 1 ltac:(lia)) as (one & H1 & N1 & V1).
  rewrite H1 in Hk. cbn [rbind] in Hk. injection Hk as <-.
  destruct (add_correct one b N1 Nb) as (r & Hr & Hfin & Hinf).
  destruct (Rlt_le_dec r (bpow 1024)) as [Hlt|Hge].
  2:{ specialize (Hinf Hge). unfold nonneg_finite in Nk. rewrite Hinf in Nk. discriminate. }
  destruct (Hfin Hlt) as [_ Vk].
  pose proof (nonneg_finite_F2R b Nb) as Hb0.
  assert (Hk1 : (1 <= F2R (one + b)%float)%R).
  { rewrite Vk. rewrite <- bpow_0. apply (rounds_ge_bpow _ _ _ Hr); [|lia].
    rewrite bpow_0, V1. lra. }
  destruct (float_of_int_correct n Hn) as (y & Hy & Hyfin & Hyinf).
  destruct (Rlt_le_dec y (bpow 1024)) as [Hylt|Hyge].
  2:{ rewrite (Hyinf Hyge) in Hf. discriminate. }
  destruct (Hyfin Hylt) as (f' & Hf' & _ & Vf). rewrite Hf in Hf'. injection Hf' as <-.
  set (n0 := Z.min n (2 ^ 53)).
  assert (Hn0 : 0 <= n0 <= 2 ^ 53) by (unfold n0; lia).
  assert (R0 : rounds (IZR n0) (IZR n0)).
  { replace (IZR n0) with (IZR n0 * bpow 0)%R by (rewrite bpow_0; ring).
    destruct (Z.eq_dec n0 (2 ^ 53)) as [->|Hne].
    - replace (IZR (2 ^ 53) * bpow 0)%R with (IZR 1 * bpow 53)%R
        by (rewrite bpow_0, (bpow_IZR 53) by lia; ring).
      apply rounds_exact; lia.
    - apply rounds_exact; lia. }
  assert (Hn0n : (0 <= IZR n0 <= IZR n)%R).
  { split; apply IZR_le; unfold n0; lia. }
  assert (Hfn : (IZR n0 <= F2R f)%R).
  { rewrite Vf. apply (rounds_mono _ _ _ _ R0 Hy). assumption. }
  destruct (mul_correct f (one + b)%float Nf Nk) as (p & Hp & Hpfin & Hpinf).
  destruct (Rlt_le_dec p (bpow 1024)) as [Hplt|Hpge].
  2:{ specialize (Hpinf Hpge). unfold nonneg_finite in Nx. rewrite Hpinf in Nx.
      discriminate. }
  destruct (Hpfin Hplt) as [_ Vx].
  assert (Hxn : (IZR n0 <= F2R (f * (one + b))%float)%R).
  { rewrite Vx. apply (rounds_mono _ _ _ _ R0 Hp). split; [lra|]. nra. }
  destruct (int_of_float_nonneg _ Nx) as (z' & Hz' & _ & _ & Hfl).
  rewrite Hz in Hz'. injection Hz' as <-.
  assert (n0 < z + 1) by (apply lt_IZR; rewrite plus_IZR; lra).
  lia.
Qed.

Lemma apply_bonuses_not_lowered now d c c' :
  DevelopmentService.apply_bonuses now d c = Ok c' ->
  figures_nonneg c -> bonuses_ok d ->
  not_lowered c c' /\ figures_nonneg c'.
Proof.
  unfold DevelopmentService.apply_bonuses, figures_nonneg, bonuses_ok, bonus_ok.
  intros H (Hg & Hm & Hr) (Bi & Br & Bt).
  apply rbind_ok in H. destruct H as (g & Hg1 & H).
  apply rbind_ok in Hg1. destruct Hg1 as (xg & Hg2 & Hgi).
  apply rbind_ok in Hg2. destruct Hg2 as (kg & Hkg & Hxg).
  apply rbind_ok in H. destruct H as (m & Hm1 & H).
  apply rbind_ok in Hm1. destruct Hm1 as (xm & Hm2 & Hmi).
  apply rbind_ok in Hm2. destruct Hm2 as (km & Hkm & Hxm).
  apply rbind_ok in H. destruct H as (gain & Hr1 & H).
  apply rbind_ok in Hr1. destruct Hr1 as (xr & Hxr & Hri).
  injection H as <-.
  pose proof (scaled_not_lowered _ _ _ _ _ Hg Bi Hkg Hxg Hgi) as Lg.
  pose proof (scaled_not_lowered _ _ _ _ _ Hm Br Hkm Hxm Hmi) as Lm.
  destruct (int_mul_float_floor _ _ _ _ (nonneg_finite_sf_shape _ Bt) Hr Hxr Hri)
    as (_ & Hr0 & _).
  unfold not_lowered. cbn. repeat split; lia.
Qed.

(** The rows of two tables, pair by pair. *)
Lemma Forall2_not_lowered_refl cs : Forall2 not_lowered cs cs.
Proof.
  induction cs as [|c cs IH]; constructor; [|assumption].
  unfold not_lowered. repeat split; lia.
Qed.

Lemma not_lowered_trans a b c : not_lowered a b -> not_lowered b c -> not_lowered a c.
Proof. unfold not_lowered. intros (A1 & A2 & A3 & A4) (B1 & B2 & B3 & B4). repeat split; lia. Qed.

Lemma Forall2_not_lowered_trans l1 : forall l2 l3,
  Forall2 not_lowered l1 l2 -> Forall2 not_lowered l2 l3 -> Forall2 not_lowered l1 l3.
Proof.
  induction l1 as [|a l1 IH]; intros l2 l3 H12 H23; inversion H12; subst;
    inversion H23; subst; constructor; eauto using not_lowered_trans.
Qed.

Lemma NoDup_key_inj {A} (key : A -> Z) (l : list A) a b :
  NoDup (map key l) -> In a l -> In b l -> key a = key b -> a = b.
Proof.
  induction l as [|x l IH]; [contradiction|].
  cbn [map]. intros Hnd Ha Hb He. inversion Hnd as [|? ? Hn Hnd']; subst.
  destruct Ha as [->|Ha], Hb as [->|Hb]; auto.
  - exfalso. apply Hn. rewrite He. apply in_map. assumption.
  - exfalso. apply Hn. rewrite <- He. apply in_map. assumption.
Qed.

Lemma Forall2_map_r {A} (R : A -> A -> Prop) (f : A -> A) l :
  (forall a, In a l -> R a (f a)) -> Forall2 R l (map f l).
Proof.
  induction l as [|a l IH]; intros H; constructor.
  - apply H. left. reflexivity.
  - apply IH. intros b Hb. apply H. right. assumption.
Qed.

Lemma sweep_countries_not_lowered now l : forall cs cs',
  NoDup (map Country.id cs) ->
  (forall c, In c cs -> figures_nonneg c) ->
  (forall d, In d l -> bonuses_ok d) ->
  sweep_countries now l cs = Ok cs' ->
  Forall2 not_lowered cs cs' /\ (forall c, In c cs' -> figures_nonneg c).
Proof.
  induction l as [|d l IH]; intros cs cs' Hnd Hfig Hl Hrun.
  - cbn in Hrun. injection Hrun as <-. split; [apply Forall2_not_lowered_refl | assumption].
  - cbn [sweep_countries] in Hrun.
    assert (Hl' : forall d0, In d0 l -> bonuses_ok d0).
    { intros d0 H. apply Hl. right. assumption. }
    destruct (find _ cs) as [country|] eqn:Hfind; [|apply IH; assumption].
    apply rbind_ok in Hrun. destruct Hrun as (c & Hc & Hrun).
    pose proof Hfind as Hf. apply find_some in Hf. destruct Hf as [Hin _].
    destruct (apply_bonuses_not_lowered now d country c Hc (Hfig _ Hin)
                (Hl d (or_introl eq_refl))) as [Hnl Hfc].
    set (cs1 := map (fun c0 => if Country.id c0 =? Country.id country then c else c0) cs)
      in *.
    assert (Hids : map Country.id cs1 = map Country.id cs).
    { unfold cs1. rewrite map_map. apply map_ext. intros c0.
      destruct (Z.eqb_spec (Country.id c0) (Country.id country)); [|reflexivity].
      destruct Hnl as [E _]. congruence. }
    assert (H1 : Forall2 not_lowered cs cs1).
    { unfold cs1. apply Forall2_map_r. intros c0 H0.
      destruct (Z.eqb_spec (Country.id c0) (Country.id country)) as [E|E].
      - rewrite (NoDup_key_inj Country.id cs c0 country Hnd H0 Hin E). assumption.
      - unfold not_lowered. repeat split; lia. }
    assert (H2 : forall c0, In c0 cs1 -> figures_nonneg c0).
    { intros c0 H0. unfold cs1 in H0. apply in_map_iff in H0.
      destruct H0 as (c1 & <- & H3).
      destruct (Country.id c1 =? Country.id country); [assumption | apply Hfig; assumption]. }
    destruct (IH cs1 cs' ltac:(rewrite Hids; exact Hnd) H2 Hl' Hrun) as [G1 G2].
    split; [|assumption]. apply (Forall2_not_lowered_trans _ _ _ H1 G1).
Qed.

(** X13. When no figure of a nation is negative and the bonuses of the
    records are finite and not negative, a sweep that returns leaves the
    countries table row for row with the same keys, no balance lower than
    before, and no gdp or military power lower than before or, where the
    figure exceeded 2^53, than 2^53. *)
Theorem sweep_lowers_no_figure :
  forall db now db' completed,
    NoDup (map Country.id (countries db)) ->
    (forall c, In c (countries db) -> figures_nonneg c) ->
    (forall d, In d (developments db) -> bonuses_ok d) ->
    run (DevelopmentService.check_completed_developments now) db = (db', Ok completed) ->
    Forall2 not_lowered (countries db) (countries db') /\
    (forall c, In c (countries db') -> figures_nonneg c) /\
    (forall d, In d (developments db') -> bonuses_ok d).
Proof.
  intros db now db' completed Hnd Hfig Hdev Hrun.
  rewrite sweep_run in Hrun. cbv zeta in Hrun.
  destruct (sweep_countries now _ (countries db)) as [cs|e] eqn:Hs; [|discriminate].
  injection Hrun as <- <-. cbn [countries developments].
  assert (Hsel : forall d, In d (filter (DevelopmentService.matured now) (developments db)) ->
                  bonuses_ok d).
  { intros d Hd. apply filter_In in Hd. apply Hdev. tauto. }
  destruct (sweep_countries_not_lowered now _ _ _ Hnd Hfig Hsel Hs) as [G1 G2].
  split; [assumption|]. split; [assumption|].
  intros d Hd. rewrite mark_completed_map in Hd. apply in_map_iff in Hd.
  destruct Hd as (r & <- & Hr). specialize (Hdev r Hr).
  destruct (existsb _ _); exact Hdev.
Qed.

Lemma sweep_lowers_no_figure_witness :
  exists db' completed,
    run (DevelopmentService.check_completed_developments one_day_one_second) road_network_db
    = (db', Ok completed) /\
    Forall2 not_lowered (countries road_network_db) (countries db').
Proof.
  destruct (run (DevelopmentService.check_completed_developments one_day_one_second)
              road_network_db) as [db' [completed|e]] eqn:Hr;
    [|vm_compute in Hr; discriminate].
  exists db', completed. split; [reflexivity|].
  refine (proj1 (sweep_lowers_no_figure road_network_db one_day_one_second db' completed
                   _ _ _ Hr)).
  - vm_compute. repeat constructor. intros [].
  - intros c [<-|[]]. vm_compute. repeat split; discriminate.
  - intros d [<-|[]]. unfold bonuses_ok, bonus_ok. vm_compute. repeat split.
Defined.


(** ** Ranks *)

Lemma get_country_rank_run country_id db :
  run (RankingService.get_country_rank country_id) db =
  (db, Ok match find (fun c => Country.id c =? country_id) (countries db) with
          | None => CountryRank.mk None None None 0
          | Some country =>
              CountryRank.mk (Some (rank_by Country.military_power country db))
                (Some (rank_by Country.gdp country db))
                (Some (rank_by Country.population country db))
                (RankingService.count (countries db))
          end).
Proof.
  unfold run, RankingService.get_country_rank. rewrite run_bind, first_country_run.
  cbn [working]. destruct (find _ (countries db)); reflexivity.
Qed.

Lemma count_filter_le {A} (p q : A -> bool) l :
  (forall x, In x l -> p x = true -> q x = true) ->
  RankingService.count (filter p l) <= RankingService.count (filter q l).
Proof.
  unfold RankingService.count. intros H. apply inj_le.
  induction l as [|a l IH]; [reflexivity|].
  cbn [filter]. assert (IH' := IH (fun x Hx => H x (or_intror Hx))).
  destruct (p a) eqn:Hp.
  - rewrite (H a (or_introl eq_refl) Hp). cbn. lia.
  - destruct (q a); cbn; lia.
Qed.

Lemma count_filter_lt {A} (p q : A -> bool) l a :
  (forall x, In x l -> p x = true -> q x = true) ->
  In a l -> p a = false -> q a = true ->
  RankingService.count (filter p l) < RankingService.count (filter q l).
Proof.
  intros H Ha Hp Hq. induction l as [|b l IH]; [contradiction|].
  pose proof (count_filter_le p q l (fun x Hx => H x (or_intror Hx))) as Hle.
  unfold RankingService.count in *. cbn [filter].
  destruct Ha as [->|Ha].
  - rewrite Hp, Hq. cbn [List.length]. lia.
  - specialize (IH (fun x Hx => H x (or_intror Hx)) Ha).
    destruct (p b) eqn:Hpb.
    + rewrite (H b (or_introl eq_refl) Hpb). cbn [List.length]. lia.
    + destruct (q b); cbn [List.length]; lia.
Qed.

Lemma count_filter_bound {A} (p : A -> bool) l a :
  In a l -> p a = false ->
  0 <= RankingService.count (filter p l) < RankingService.count l.
Proof.
  intros Ha Hp. split; [unfold RankingService.count; lia|].
  pose proof (count_filter_lt p (fun _ => true) l a (fun _ _ _ => eq_refl) Ha Hp eq_refl)
    as H.
  replace (filter (fun _ => true) l) with l in H; [assumption|].
  clear. induction l as [|b l IH]; [reflexivity|]. cbn. congruence.
Qed.

Lemma rank_by_facts key a b db :
  In a (countries db) -> In b (countries db) ->
  1 <= rank_by key a db <= RankingService.count (countries db) /\
  (key a = key b -> rank_by key a db = rank_by key b db) /\
  (key b < key a -> rank_by key a db < rank_by key b db) /\
  ((forall c, In c (countries db) -> key c <= key a) -> rank_by key a db = 1).
Proof.
  intros Ha Hb. unfold rank_by. split; [|split; [|split]].
  - pose proof (count_filter_bound (fun c => key a <? key c) (countries db) a Ha
                  (Z.ltb_irrefl _)). lia.
  - intros ->. reflexivity.
  - intros Hlt.
    pose proof (count_filter_lt (fun c => key a <? key c) (fun c => key b <? key c)
                  (countries db) a) as H.
    assert (RankingService.count (filter (fun c => key a <? key c) (countries db))
            < RankingService.count (filter (fun c => key b <? key c) (countries db))).
    { apply H; [|assumption|apply Z.ltb_irrefl|apply Z.ltb_lt; assumption].
      intros x _ Hx. apply Z.ltb_lt in Hx. apply Z.ltb_lt. lia. }
    lia.
  - intros Hmax.
    assert (E : forall l, (forall c, In c l -> key c <= key a) ->
                filter (fun c => key a <? key c) l = []).
    { induction l as [|c l IH]; intros Hl; [reflexivity|]. cbn [filter].
      destruct (Z.ltb_spec (key a) (key c)) as [H|H].
      - specialize (Hl c (or_introl eq_refl)). lia.
      - apply IH. intros c0 Hc0. apply Hl. right. assumption. }
    rewrite (E _ Hmax). reflexivity.
Qed.

(** X14. The ranks of a nation that exists lie between 1 and the number of
    nations; in each of the three figures a nation with the greatest value
    has rank 1, nations with the same value have the same rank and a nation
    with a greater value has a strictly smaller rank number.  A key that is
    not in the table gives no ranks and a total of 0, whatever the table
    holds. *)
Theorem ranks_are_consistent :
  forall db a b country_a country_b,
    find (fun c => Country.id c =? a) (countries db) = Some country_a ->
    find (fun c => Country.id c =? b) (countries db) = Some country_b ->
    exists ma ea pa mb eb pb total,
      run (RankingService.get_country_rank a) db
      = (db, Ok (CountryRank.mk (Some ma) (Some ea) (Some pa) total)) /\
      run (RankingService.get_country_rank b) db
      = (db, Ok (CountryRank.mk (Some mb) (Some eb) (Some pb) total)) /\
      total = Z.of_nat (List.length (countries db)) /\
      1 <= ma <= total /\ 1 <= ea <= total /\ 1 <= pa <= total /\
      (Country.military_power country_a = Country.military_power country_b -> ma = mb) /\
      (Country.military_power country_b < Country.military_power country_a -> ma < mb) /\
      (Country.gdp country_a = Country.gdp country_b -> ea = eb) /\
      (Country.gdp country_b < Country.gdp country_a -> ea < eb) /\
      (Country.population country_a = Country.population country_b -> pa = pb) /\
      (Country.population country_b < Country.population country_a -> pa < pb) /\
      ((forall c, In c (countries db) ->
          Country.military_power c <= Country.military_power country_a) -> ma = 1) /\
      ((forall c, In c (countries db) -> Country.gdp c <= Country.gdp country_a) -> ea = 1) /\
      ((forall c, In c (countries db) ->
          Country.population c <= Country.population country_a) -> pa = 1) /\
      (forall missing, ~ In missing (map Country.id (countries db)) ->
         run (RankingService.get_country_rank missing) db
         = (db, Ok (CountryRank.mk None None None 0))).
Proof.
  intros db a b ca cb Ha Hb.
  rewrite !get_country_rank_run, Ha, Hb.
  apply find_some in Ha, Hb. destruct Ha as [Ha _], Hb as [Hb _].
  destruct (rank_by_facts Country.military_power ca cb db Ha Hb) as (M1 & M2 & M3 & M4).
  destruct (rank_by_facts Country.gdp ca cb db Ha Hb) as (E1 & E2 & E3 & E4).
  destruct (rank_by_facts Country.population ca cb db Ha Hb) as (P1 & P2 & P3 & P4).
  eexists _, _, _, _, _, _, _. split; [reflexivity|]. split; [reflexivity|].
  split; [reflexivity|].
  repeat (split; [assumption|]).
  intros missing Hm. rewrite get_country_rank_run.
  destruct (find _ (countries db)) as [c|] eqn:Hf; [|reflexivity].
  exfalso. apply Hm. apply find_some in Hf. destruct Hf as [Hin Hid].
  apply Z.eqb_eq in Hid. rewrite <- Hid. apply in_map. assumption.
Qed.

Lemma ranks_are_consistent_witness :
  exists country_a country_b,
    find (fun c => Country.id c =? 1) (countries two_nations_db) = Some country_a /\
    find (fun c => Country.id c =? 2) (countries two_nations_db) = Some country_b /\
    Country.gdp country_a = Country.gdp country_b /\
    exists ma ea pa mb eb pb total,
      run (RankingService.get_country_rank 1) two_nations_db
      = (two_nations_db, Ok (CountryRank.mk (Some ma) (Some ea) (Some pa) total)) /\
      run (RankingService.get_country_rank 2) two_nations_db
      = (two_nations_db, Ok (CountryRank.mk (Some mb) (Some eb) (Some pb) total)) /\
      total = 2 /\ ea = eb.
Proof.
  assert (H : exists country_a country_b,
             find (fun c => Country.id c =? 1) (countries two_nations_db) = Some country_a /\
             find (fun c => Country.id c =? 2) (countries two_nations_db) = Some country_b /\
             Country.gdp country_a = Country.gdp country_b).
  { eexists _, _. split; [vm_compute; reflexivity|]. split; [vm_compute; reflexivity|].
    reflexivity. }
  destruct H as (ca & cb & Ha & Hb & Hg).
  exists ca, cb. repeat (split; [assumption|]).
  destruct (ranks_are_consistent two_nations_db 1 2 ca cb Ha Hb)
    as (ma & ea & pa & mb & eb & pb & total & R1 & R2 & Ht & _ & _ & _ & _ & _ & E & _).
  exists ma, ea, pa, mb, eb, pb, total.
  split; [exact R1|]. split; [exact R2|]. split; [rewrite Ht; reflexivity|].
  apply E. exact Hg.
Defined.


(** ** Users *)

Lemma existsb_find {A} (p : A -> bool) l :
  existsb p l = match find p l with Some _ => true | None => false end.
Proof.
  induction l as [|a l IH]; [reflexivity|]. cbn. destruct (p a); [reflexivity | exact IH].
Qed.

Lemma find_map_same {A} (p : A -> bool) (f : A -> A) l :
  (forall x, In x l -> p (f x) = p x) ->
  find p (map f l) = option_map f (find p l).
Proof.
  induction l as [|a l IH]; intros H; [reflexivity|]. cbn [map find].
  rewrite (H a (or_introl eq_refl)). destruct (p a); [reflexivity|].
  apply IH. intros x Hx. apply H. right. assumption.
Qed.

Lemma find_app_some {A} (p : A -> bool) l l' x :
  find p l = Some x -> find p (l ++ l') = Some x.
Proof.
  induction l as [|a l IH]; [discriminate|]. cbn. destruct (p a); auto.
Qed.

(** What [get_or_create_user] does to a row of the table when the user
    exists. *)
Lemma refresh_user_map now username (old : User.t) us :
  NoDup (map User.id us) -> In old us ->
  let user := User.set_last_active now (User.set_username username old) in
  let f := fun u => if User.id u =? User.id old then user else u in
  map User.id (map f us) = map User.id us /\
  map User.telegram_id (map f us) = map User.telegram_id us /\
  (forall u, In u us -> User.telegram_id (f u) = User.telegram_id u) /\
  f old = user /\
  (forall u, In u us -> u <> old -> f u = u).
Proof.
  intros Hnd Hin user f.
  assert (K : forall u, In u us -> User.id u = User.id old -> u = old).
  { intros u Hu E. apply (NoDup_key_inj User.id us); assumption. }
  assert (T : forall u, In u us -> User.telegram_id (f u) = User.telegram_id u).
  { intros u Hu. unfold f. destruct (Z.eqb_spec (User.id u) (User.id old)) as [E|E];
      [|reflexivity]. rewrite (K u Hu E). reflexivity. }
  assert (I : forall u, User.id (f u) = User.id u).
  { intros u. unfold f. destruct (Z.eqb_spec (User.id u) (User.id old)) as [E|E];
      [|reflexivity]. rewrite E. reflexivity. }
  split; [|split; [|split; [|split]]].
  - rewrite map_map. apply map_ext. exact I.
  - rewrite map_map. apply map_ext_in. exact T.
  - exact T.
  - unfold f. rewrite Z.eqb_refl. reflexivity.
  - intros u Hu Hne. unfold f.
    destruct (Z.eqb_spec (User.id u) (User.id old)) as [E|E]; [|reflexivity].
    elim Hne. apply K; assumption.
Qed.

(** What [get_or_create_user] returns and leaves. *)
Lemma get_or_create_user_spec :
  forall now now' telegram_id username acc,
    accounts_ok acc ->
    exists acc' user,
      UserService.get_or_create_user now now' telegram_id username acc
      = (acc', Returns user) /\
      accounts_ok acc' /\
      UserService.get_user_by_telegram_id telegram_id acc' = Some user /\
      User.telegram_id user = telegram_id /\
      User.username user = username /\
      command_logs acc' = command_logs acc /\
      (forall other, other <> telegram_id ->
         UserService.get_user_by_telegram_id other acc'
         = UserService.get_user_by_telegram_id other acc) /\
      match UserService.get_user_by_telegram_id telegram_id acc with
      | Some old =>
          map User.id (users acc') = map User.id (users acc) /\
          User.id user = User.id old /\
          User.registered_at user = User.registered_at old /\
          User.last_active user = now
      | None =>
          users acc' = users acc ++ [user] /\
          ~ In (User.id user) (map User.id (users acc)) /\
          User.registered_at user = now /\
          User.last_active user = now'
      end.
Proof.
  intros now now' tid username acc (Hid & Htid & Hlogs).
  unfold UserService.get_or_create_user, UserService.get_user_by_telegram_id,
    UserService.create_user.
  rewrite existsb_find.
  destruct (find (fun u => User.telegram_id u =? tid) (users acc)) as [old|] eqn:Hfind.
  - pose proof (find_some _ _ Hfind) as [Hin Ht]. apply Z.eqb_eq in Ht.
    destruct (refresh_user_map now username old (users acc) Hid Hin)
      as (M1 & M2 & M3 & M4 & M5). cbv zeta in M1, M2, M3, M4, M5.
    eexists _, _. split; [reflexivity|]. cbn [users command_logs].
    split; [|split; [|split; [|split; [|split; [|split]]]]].
    + unfold accounts_ok. cbn [users command_logs]. rewrite M1, M2. auto.
    + rewrite find_map_same.
      * rewrite Hfind. cbn [option_map]. rewrite M4. reflexivity.
      * intros x Hx. rewrite (M3 x Hx). reflexivity.
    + exact Ht.
    + reflexivity.
    + reflexivity.
    + intros other Hne. rewrite find_map_same.
      * destruct (find (fun u => User.telegram_id u =? other) (users acc)) as [u|] eqn:Hf;
          [|reflexivity].
        apply find_some in Hf. destruct Hf as [Hu Hto]. apply Z.eqb_eq in Hto.
        cbn [option_map]. rewrite M5; [reflexivity | assumption|].
        intros ->. congruence.
      * intros x Hx. rewrite (M3 x Hx). reflexivity.
    + repeat split. exact M1.
  - eexists _, _. split; [reflexivity|]. cbn [users command_logs].
    assert (Hfresh : ~ In (next_id (map User.id (users acc))) (map User.id (users acc))).
    { intros H. apply next_id_gt in H. lia. }
    assert (Hnone : forall u, In u (users acc) -> (User.telegram_id u =? tid) = false).
    { intros u Hu. apply (find_none _ _ Hfind). assumption. }
    split; [|split; [|split; [|split; [|split; [|split]]]]].
    + unfold accounts_ok. cbn [users command_logs]. rewrite !map_app. cbn [map User.id
        User.telegram_id]. split; [|split].
      * apply NoDup_snoc; assumption.
      * apply NoDup_snoc; [assumption|]. intros H. apply in_map_iff in H.
        destruct H as (u & Hu & Hin). specialize (Hnone u Hin).
        apply Z.eqb_neq in Hnone. contradiction.
      * intros l Hl. apply in_or_app. left. apply Hlogs. assumption.
    + rewrite find_app_none by assumption. cbn. rewrite Z.eqb_refl. reflexivity.
    + reflexivity.
    + reflexivity.
    + reflexivity.
    + intros other Hne.
      destruct (find (fun u => User.telegram_id u =? other) (users acc)) as [u|] eqn:Hf.
      * apply find_app_some. exact Hf.
      * rewrite find_app_none by (intros x Hx; apply (find_none _ _ Hf); assumption).
        cbn. destruct (Z.eqb_spec tid other); [congruence | reflexivity].
    + repeat split. exact Hfresh.
Qed.

(** X15. On tables with unique user keys and Telegram ids,
    [get_or_create_user] always returns a user: the user it returns carries
    the Telegram id and the username of the call and is the one a lookup of
    that Telegram id finds afterwards; lookups of other Telegram ids and the
    command log are as before and the keys stay unique.  A user that
    existed keeps its key and registration time and no row is added; a new
    user is appended with a key that was not in use. *)
Theorem get_or_create_user_outcome :
  forall now now' telegram_id username acc,
    accounts_ok acc ->
    exists acc' user,
      UserService.get_or_create_user now now' telegram_id username acc
      = (acc', Returns user) /\
      accounts_ok acc' /\
      UserService.get_user_by_telegram_id telegram_id acc' = Some user /\
      User.telegram_id user = telegram_id /\
      User.username user = username /\
      command_logs acc' = command_logs acc /\
      (forall other, other <> telegram_id ->
         UserService.get_user_by_telegram_id other acc'
         = UserService.get_user_by_telegram_id other acc) /\
      match UserService.get_user_by_telegram_id telegram_id acc with
      | Some old =>
          map User.id (users acc') = map User.id (users acc) /\
          User.id user = User.id old /\
          User.registered_at user = User.registered_at old /\
          User.last_active user = now
      | None =>
          users acc' = users acc ++ [user] /\
          ~ In (User.id user) (map User.id (users acc)) /\
          User.registered_at user = now /\
          User.last_active user = now'
      end.
Proof. exact get_or_create_user_spec. Qed.

Lemma get_or_create_user_outcome_witness :
  accounts_ok empty_accounts /\
  exists acc' user,
    UserService.get_or_create_user 0 0 42 None empty_accounts = (acc', Returns user) /\
    UserService.get_user_by_telegram_id 42 acc' = Some user.
Proof.
  assert (H : accounts_ok empty_accounts).
  { unfold accounts_ok. cbn. repeat split; try constructor. intros l []. }
  split; [exact H|].
  destruct (get_or_create_user_outcome 0 0 42 None empty_accounts H)
    as (acc' & user & H1 & _ & H2 & _).
  exists acc', user. split; assumption.
Defined.


(** ** Sequences of calls on the users and the command log *)

Lemma accounts_step call acc : accounts_ok acc -> accounts_ok (accounts_after call acc).
Proof.
  intros Hok. destruct call as [now now' tid username|now user_id|now now' user_id command];
    cbn [accounts_after].
  - destruct (get_or_create_user_spec now now' tid username acc Hok)
      as (acc' & user & -> & H & _). exact H.
  - unfold UserService.update_last_active.
    destruct (find _ (users acc)) as [user|]; [|assumption].
    destruct Hok as (Hid & Htid & Hlogs). unfold accounts_ok. cbn [users command_logs].
    assert (E1 : map User.id
                   (map (fun u => if User.id u =? User.id user
                                  then User.set_last_active now u else u) (users acc))
                 = map User.id (users acc)).
    { rewrite map_map. apply map_ext. intros u. destruct (_ =? _); reflexivity. }
    assert (E2 : map User.telegram_id
                   (map (fun u => if User.id u =? User.id user
                                  then User.set_last_active now u else u) (users acc))
                 = map User.telegram_id (users acc)).
    { rewrite map_map. apply map_ext. intros u. destruct (_ =? _); reflexivity. }
    rewrite E1, E2. auto.
  - unfold RateLimiter.check_rate_limit.
    destruct (find _ (users acc)) as [user|] eqn:Hfind; [|assumption].
    destruct (RateLimiter.limit_of command) as [max_calls period_seconds].
    destruct (max_calls <=? _); [assumption|].
    destruct Hok as (Hid & Htid & Hlogs). unfold accounts_ok. cbn [fst users command_logs].
    split; [assumption|]. split; [assumption|].
    intros l Hl. apply in_app_or in Hl. destruct Hl as [Hl|[<-|[]]]; [auto|].
    cbn [CommandLog.user_id]. apply in_map. apply find_some in Hfind. tauto.
Qed.

(** X16. Whatever calls are made on the users and the command log, in
    whatever order and with whatever arguments, user keys and Telegram ids
    stay unique and every log row stays the row of a user in the table. *)
Theorem accounts_stay_ok :
  forall calls acc, accounts_ok acc -> accounts_ok (accounts_after_all calls acc).
Proof.
  unfold accounts_after_all.
  induction calls as [|call calls IH]; intros acc Hok; [assumption|].
  cbn [fold_left]. apply IH. apply accounts_step. assumption.
Qed.

Lemma accounts_stay_ok_witness :
  accounts_ok empty_accounts /\ accounts_ok (accounts_after_all three_requests empty_accounts).
Proof.
  assert (H : accounts_ok empty_accounts).
  { unfold accounts_ok. cbn. repeat split; try constructor. intros l []. }
  split; [exact H|]. apply (accounts_stay_ok three_requests empty_accounts H).
Defined.

(** ** The rate limit *)

Lemma limit_positive command : 1 <= fst (RateLimiter.limit_of command).
Proof.
  assert (D : dict_get "default" RateLimiter.limits = Some (30, 60)) by reflexivity.
  unfold RateLimiter.limit_of. rewrite D. unfold RateLimiter.limits. cbn [dict_get].
  repeat match goal with
         | |- context [String.eqb ?a command] => destruct (String.eqb a command)
         end; cbn [fst]; lia.
Qed.

Lemma count_app {A} (l l' : list A) :
  RankingService.count (l ++ l') = RankingService.count l + RankingService.count l'.
Proof. unfold RankingService.count. rewrite length_app. lia. Qed.

Lemma in_window_app t user_id command l l' :
  in_window t user_id command (l ++ l')
  = (in_window t user_id command l ++ in_window t user_id command l')%list.
Proof. unfold in_window, RateLimiter.recent. rewrite !filter_app. reflexivity. Qed.

Lemma check_rate_limit_windows now now' user_id command acc :
  now <= now' -> windows_bounded acc ->
  windows_bounded (fst (RateLimiter.check_rate_limit now now' user_id command acc)).
Proof.
  intros Hclock Hb. unfold RateLimiter.check_rate_limit.
  destruct (find _ (users acc)) as [user|]; [|assumption].
  destruct (RateLimiter.limit_of command) as [max_calls period_seconds] eqn:Hlim.
  destruct (Z.leb_spec max_calls
              (RankingService.count
                 (RateLimiter.recent (User.id user) command
                    (now - Py.timedelta_of_seconds period_seconds) (command_logs acc))))
    as [Hfull|Hroom]; [assumption|].
  cbn [fst]. intros t uid cmd. cbn [command_logs].
  rewrite in_window_app, count_app.
  specialize (Hb t uid cmd).
  unfold in_window at 2. unfold RateLimiter.recent. cbn [filter CommandLog.user_id
    CommandLog.command CommandLog.timestamp].
  assert (Z0 : RankingService.count (@nil CommandLog.t) = 0) by reflexivity.
  destruct (Z.eqb_spec (User.id user) uid) as [Eu|Eu]; cbn [andb];
    [|cbn [filter]; rewrite Z0; lia].
  destruct (String.eqb_spec command cmd) as [Ec|Ec]; cbn [andb];
    [|cbn [filter]; rewrite Z0; lia].
  subst uid cmd. rewrite Hlim in Hb |- *. cbn [fst snd] in Hb |- *.
  destruct (Z.leb_spec (t - Py.timedelta_of_seconds period_seconds) now') as [H1|H1];
    cbn [filter CommandLog.timestamp]; [|rewrite Z0; lia].
  destruct (Z.leb_spec now' t) as [H2|H2]; [|rewrite Z0; lia].
  unfold RankingService.count at 2. cbn [List.length].
  assert (Hle : RankingService.count (in_window t (User.id user) command (command_logs acc))
                <= RankingService.count
                     (RateLimiter.recent (User.id user) command
                        (now - Py.timedelta_of_seconds period_seconds) (command_logs acc))).
  { unfold in_window, RateLimiter.recent. rewrite Hlim. cbn [snd].
    set (since := now - Py.timedelta_of_seconds period_seconds).
    set (start := t - Py.timedelta_of_seconds period_seconds) in *.
    apply Z.le_trans with
      (RankingService.count
         (filter (fun l => (CommandLog.user_id l =? User.id user)
                           && String.eqb (CommandLog.command l) command
                           && (start <=? CommandLog.timestamp l)) (command_logs acc))).
    - unfold RankingService.count. apply inj_le. apply filter_length_le.
    - apply count_filter_le. intros l _ Hl.
      apply andb_true_iff in Hl. destruct Hl as [Hl Hs]. rewrite Hl. cbn [andb].
      apply Z.leb_le in Hs. apply Z.leb_le. unfold since, start in *. lia. }
  lia.
Qed.

Lemma windows_step call acc :
  clock_forward call -> windows_bounded acc -> windows_bounded (accounts_after call acc).
Proof.
  intros Hc Hb. destruct call as [now now' tid username|now user_id|now now' user_id command];
    cbn [accounts_after].
  - unfold UserService.get_or_create_user, UserService.create_user.
    destruct (UserService.get_user_by_telegram_id tid acc); [exact Hb|].
    destruct (existsb _ _); exact Hb.
  - unfold UserService.update_last_active.
    destruct (find _ (users acc)); exact Hb.
  - apply check_rate_limit_windows; assumption.
Qed.

Lemma windows_bounded_empty : windows_bounded empty_accounts.
Proof.
  intros t uid cmd. pose proof (limit_positive cmd).
  change (in_window t uid cmd (command_logs empty_accounts)) with (@nil CommandLog.t).
  change (RankingService.count (@nil CommandLog.t)) with 0. lia.
Qed.

(** X17. When the two readings of the clock within each call are in order,
    then after any sequence of calls that starts on empty tables, or on
    tables of which the same holds, no period of a command's length holds
    more log rows of one user and that command than the command's limit. *)
Theorem rate_limit_holds_in_every_window :
  forall calls,
    Forall clock_forward calls ->
    windows_bounded (accounts_after_all calls empty_accounts) /\
    (forall acc, windows_bounded acc -> windows_bounded (accounts_after_all calls acc)).
Proof.
  intros calls Hc.
  assert (G : forall acc, windows_bounded acc ->
                windows_bounded (accounts_after_all calls acc)).
  { unfold accounts_after_all.
    induction Hc as [|call calls H1 H2 IH]; intros acc Hb; [assumption|].
    cbn [fold_left]. apply IH. apply windows_step; assumption. }
  split; [apply G, windows_bounded_empty | exact G].
Qed.

Lemma rate_limit_holds_in_every_window_witness :
  Forall clock_forward three_requests /\
  windows_bounded (accounts_after_all three_requests empty_accounts) /\
  List.length (command_logs (accounts_after_all three_requests empty_accounts)) = 1%nat.
Proof.
  assert (H : Forall clock_forward three_requests).
  { unfold three_requests. repeat constructor; cbn; lia. }
  split; [exact H|]. split.
  - exact (proj1 (rate_limit_holds_in_every_window three_requests H)).
  - reflexivity.
Defined.


(** ** Validators and enums *)

Ltac split_on_strings :=
  repeat match goal with
         | |- context [String.eqb ?a ?b] => destruct (String.eqb a b)
         end.

(** X18. Each of the four enum validators accepts a string exactly when the
    string is not empty and its lower-case form is the value of a member of
    the enum the services construct from it, and then returns that
    lower-case form; every other string raises ValidationError.  This holds
    whatever [str.lower] does. *)
Theorem validators_agree_with_enums :
  forall (lower : string -> string) (s : string),
    Validator.validate_government_type lower s
    = (if String.eqb s "" then Raise ValidationError
       else match GovernmentType_of_value (lower s) with
            | Ok _ => Ok (lower s)
            | Raise _ => Raise ValidationError
            end) /\
    Validator.validate_ideology lower s
    = (if String.eqb s "" then Raise ValidationError
       else match Ideology_of_value (lower s) with
            | Ok _ => Ok (lower s)
            | Raise _ => Raise ValidationError
            end) /\
    Validator.validate_unit_type lower s
    = (if String.eqb s "" then Raise ValidationError
       else match UnitType_of_value (lower s) with
            | Ok _ => Ok (lower s)
            | Raise _ => Raise ValidationError
            end) /\
    Validator.validate_development_category lower s
    = (if String.eqb s "" then Raise ValidationError
       else match DevelopmentCategory_of_value (lower s) with
            | Ok _ => Ok (lower s)
            | Raise _ => Raise ValidationError
            end).
Proof.
  intros lower s.
  unfold Validator.validate_government_type, Validator.validate_ideology,
    Validator.validate_unit_type, Validator.validate_development_category,
    GovernmentType_of_value, Ideology_of_value, UnitType_of_value,
    DevelopmentCategory_of_value.
  cbv zeta. cbn [existsb].
  generalize (lower s). intros v.
  destruct (String.eqb s ""); [repeat split|].
  repeat split; split_on_strings; reflexivity.
Qed.


(** ** The units table *)

Lemma casualties_applied_keys country_id T table :
  map unit_key (casualties_applied country_id T table) = map unit_key table.
Proof.
  unfold casualties_applied. destruct (_ =? 0); [reflexivity|].
  rewrite map_map. apply map_ext. intros u.
  destruct (MilitaryUnit.country_id u =? country_id); reflexivity.
Qed.

(** What an operation does to the rows of the units table: it keeps their
    keys, nations and types, or appends rows with new ones. *)
Lemma units_keys_step op db :
  units_ok db ->
  (map MilitaryUnit.id (military_units (store_after op db))
   = map MilitaryUnit.id (military_units db) /\
   map unit_key (military_units (store_after op db)) = map unit_key (military_units db))
  \/ exists new,
       military_units (store_after op db) = military_units db ++ new /\
       NoDup (map MilitaryUnit.id new) /\ NoDup (map unit_key new) /\
       forall u, In u new ->
         ~ In (MilitaryUnit.id u) (map MilitaryUnit.id (military_units db)) /\
         ~ In (unit_key u) (map unit_key (military_units db)) /\
         In (MilitaryUnit.country_id u) (map Country.id (countries (store_after op db))).
Proof.
  intros (Hid & Hkey & Href & Hcid). destruct op; cbn [store_after].
  - left. rewrite update_resources_run. auto.
  - left. rewrite build_army_eq. auto.
  - left. rewrite start_development_run. auto.
  - left. rewrite sweep_run. cbv zeta.
    destruct (sweep_countries now _ (countries db)); cbn [fst military_units]; auto.
  - left. pose proof (attack_full rolls now attacker_id defender_id db Hid) as H.
    cbv zeta in H.
    destruct (run (MilitaryService.attack rolls now attacker_id defender_id) db)
      as [db' [battle|e]]; cbn [fst].
    + destruct H as (? & ? & ? & ? & ? & ? & ? & ? & _ & _ & _ & _ & _ & ->).
      rewrite !casualties_applied_ids, !casualties_applied_keys. auto.
    + destruct H as [->|(? & ? & ? & ? & ? & ? & ? & _ & _ & _ & _ & _ & [->| ->])];
        rewrite ?casualties_applied_ids, ?casualties_applied_keys; auto.
  - rewrite create_country_eq.
    destruct (find _ (countries db)); [left; auto|].
    destruct (filter _ (countries db)); [|left; auto].
    destruct (GovernmentType_of_value government_type) as [g|]; [|left; auto].
    destruct (Ideology_of_value ideology) as [i|]; [|left; auto].
    right. cbv zeta. cbn [fst military_units countries]. eexists. split; [reflexivity|].
    set (k := next_id (map MilitaryUnit.id (military_units db))).
    set (cid := next_id (map Country.id (countries db))).
    cbn [map MilitaryUnit.id unit_key MilitaryUnit.country_id MilitaryUnit.unit_type].
    split; [|split].
    + repeat constructor; cbn [In]; intros H;
        repeat match goal with H : _ \/ _ |- _ => destruct H end; lia.
    + repeat constructor; cbn [In]; intros H;
        repeat match goal with H : _ \/ _ |- _ => destruct H end;
        try discriminate; try contradiction.
    + intros u Hu.
      assert (E : MilitaryUnit.country_id u = cid /\ k <= MilitaryUnit.id u).
      { cbn [In] in Hu.
        repeat match goal with H : _ \/ _ |- _ => destruct H end;
          try contradiction; subst u; cbn; lia. }
      destruct E as [Ec Ek]. split; [|split].
      * intros H. apply next_id_gt in H. fold k in H. lia.
      * intros H. apply in_map_iff in H. destruct H as (r & Hk & Hr).
        specialize (Href r Hr). apply next_id_gt in Href. fold cid in Href.
        unfold unit_key in Hk. injection Hk as K1 _. lia.
      * rewrite Ec, map_app. apply in_or_app. right. left. reflexivity.
Qed.

Lemma units_step op db : units_ok db -> units_ok (store_after op db).
Proof.
  intros Hok. pose proof Hok as (Hid & Hkey & Href & Hcid).
  assert (Hsup : NoDup (map Country.id (countries (store_after op db))) /\
                 forall x, In x (map Country.id (countries db)) ->
                           In x (map Country.id (countries (store_after op db)))).
  { destruct (identities_step op db Hcid) as [(E1 & _)|(c & E & N1 & _)].
    - rewrite E1. auto.
    - rewrite E, map_app. split; [apply NoDup_snoc; assumption|].
      intros x Hx. apply in_or_app. left. assumption. }
  destruct Hsup as [Hcid' Hsup].
  unfold units_ok, units_reference_countries.
  destruct (units_keys_step op db Hok) as [(E1 & E2)|(new & E & N1 & N2 & N3)].
  - rewrite E1, E2. repeat split; try assumption.
    intros u Hu. apply Hsup.
    assert (Hk : In (unit_key u) (map unit_key (military_units db))).
    { rewrite <- E2. apply in_map. assumption. }
    apply in_map_iff in Hk. destruct Hk as (r & Hk & Hr).
    unfold unit_key in Hk. injection Hk as K1 _. rewrite <- K1. apply Href. assumption.
  - rewrite E, !map_app. repeat split; try assumption.
    + apply NoDup_app; try assumption. intros x Hx Hn.
      apply in_map_iff in Hn. destruct Hn as (u & <- & Hu).
      destruct (N3 u Hu) as (H1 & _). contradiction.
    + apply NoDup_app; try assumption. intros x Hx Hn.
      apply in_map_iff in Hn. destruct Hn as (u & <- & Hu).
      destruct (N3 u Hu) as (_ & H2 & _). contradiction.
    + intros u Hu. apply in_app_or in Hu. destruct Hu as [Hu|Hu].
      * apply Hsup, Href. assumption.
      * apply (N3 u Hu).
Qed.

Lemma NoDup_map_filter {A B} (f : A -> B) (p : A -> bool) l :
  NoDup (map f l) -> NoDup (map f (filter p l)).
Proof.
  induction l as [|a l IH]; [auto|]. cbn [map filter]. intros H.
  inversion H as [|? ? Hn Hnd]; subst. destruct (p a); [|auto].
  cbn [map]. constructor; [|auto]. intros Hin. apply Hn.
  apply in_map_iff in Hin. destruct Hin as (x & <- & Hx). apply filter_In in Hx.
  apply in_map. tauto.
Qed.

(** With one row per nation and type a nation has at most four rows. *)
Lemma at_most_four_rows db country_id :
  NoDup (map unit_key (military_units db)) ->
  (List.length (units_of db country_id) <= 4)%nat.
Proof.
  intros Hkey. unfold units_of.
  set (rows := filter (fun u => MilitaryUnit.country_id u =? country_id) (military_units db)).
  assert (Hnd : NoDup (map unit_key rows)) by (apply NoDup_map_filter; assumption).
  assert (E : map unit_key rows = map (pair country_id) (map MilitaryUnit.unit_type rows)).
  { rewrite map_map. apply map_ext_in. intros u Hu. apply filter_In in Hu.
    destruct Hu as [_ Hu]. apply Z.eqb_eq in Hu. unfold unit_key. rewrite Hu. reflexivity. }
  rewrite E in Hnd. apply NoDup_map_inv in Hnd.
  rewrite <- (length_map MilitaryUnit.unit_type).
  apply (NoDup_incl_length (l' := [INFANTRY; TANK; SHIP; AIRCRAFT]) Hnd).
  intros t _. destruct t; cbn; auto.
Qed.

(** X19. Every operation - resource adjustment, army build, development
    start, sweep, battle, creation - whatever it returns, keeps the units
    table with unique row keys, at most one row per nation and unit type,
    and every row the row of a nation in the table, provided the nations'
    keys are unique; so after any sequence of operations, from the empty
    store or from a store of which this holds, a nation has at most four
    unit rows. *)
Theorem units_stay_consistent :
  forall ops db,
    units_ok db ->
    units_ok (fold_left (fun db op => store_after op db) ops db) /\
    units_ok (fold_left (fun db op => store_after op db) ops empty_db) /\
    (forall country_id,
       (List.length (units_of (fold_left (fun db op => store_after op db) ops db)
                       country_id) <= 4)%nat).
Proof.
  assert (H : forall ops db, units_ok db ->
                units_ok (fold_left (fun db op => store_after op db) ops db)).
  { induction ops as [|op ops IH]; intros db Hok; [assumption|].
    cbn [fold_left]. apply IH. apply units_step. assumption. }
  intros ops db Hok. split; [apply H; assumption|]. split.
  - apply H. unfold units_ok, units_reference_countries. cbn.
    repeat split; try constructor. intros u [].
  - intros country_id. apply at_most_four_rows. apply (H ops db Hok).
Qed.

Lemma units_stay_consistent_witness :
  units_ok empty_db /\
  units_ok (fold_left (fun db op => store_after op db)
              [CreateCountry 0 1 "Alpha" "democracy" "liberal";
               BuildArmy 1 1 "infantry" 5; BuildArmy 2 1 "tank" 1] empty_db).
Proof.
  assert (H : units_ok empty_db).
  { unfold units_ok, units_reference_countries. cbn.
    repeat split; try constructor. intros u []. }
  split; [exact H|].
  exact (proj1 (units_stay_consistent
                  [CreateCountry 0 1 "Alpha" "democracy" "liberal";
                   BuildArmy 1 1 "infantry" 5; BuildArmy 2 1 "tank" 1] empty_db H)).
Defined.
